(** * Feedback analytics aggregation engine: shallow embedding and properties

    Embedding of [src/services/analytics/analytics.service.ts]
    (class [AnalyticsService]) of the reflectify backend.

    Modelling choices, fixed once for the whole development:

    - a JavaScript [number] is an IEEE 754 binary64 value, taken from the
      Standard Library's executable specification [SpecFloat] at precision 53
      and maximal exponent 1024; [+], [-], [/] and the comparisons are the
      correctly rounded operations of that specification;
    - a JavaScript string is modelled by a [string] whose characters are its
      code units, for strings whose code units are all below 256;
    - a [Map] is an association list in insertion order, a [Set] a
      duplicate-free list in insertion order;
    - a thrown exception is an explicit [Throw] outcome;
    - a Prisma table is the list of its rows, [findMany] a [filter] over it;
      a database call returns its rows: a failing database, which the
      service reports as an [AppError] with status 500, is not modelled;
    - [semesterNumber] is an integer column, a [Z] here;
    - a plain object used as a dictionary is the list of the properties it
      owns, in the order in which they were made; where its keys are data
      of the tables, the names it inherits and the place an array index
      takes among its keys are modelled as well (module [JSObject]);
    - the text of a number, [String(n)], and the year of an instant in the
      time zone of the server are parameters of the endpoints that use
      them; [String(v)] throws where JavaScript does, on an object that
      hides the [toString] it inherits. *)

From Stdlib Require Import ZArith List String Ascii Bool Lia.
From Stdlib Require Import Floats.SpecFloat.
From Stdlib Require Import Sorting.Sorted Sorting.Permutation.
Import ListNotations.

Set Implicit Arguments.
Open Scope string_scope.
Open Scope list_scope.
Open Scope Z_scope.

(* ================================================================== *)
(** * JavaScript numbers *)
(* ================================================================== *)

Module JSNumber.

Definition number := spec_float.

Definition prec : Z := 53.
Definition emax : Z := 1024.

Definition NaN : number := S754_nan.
Definition Infinity : number := S754_infinity false.
Definition zero : number := S754_zero false.

Definition add : number -> number -> number := SFadd prec emax.
Definition sub : number -> number -> number := SFsub prec emax.
Definition div : number -> number -> number := SFdiv prec emax.
(** [a < b], [a <= b] and [a > b]; all three are [false] on [NaN]. *)
Definition lt : number -> number -> bool := SFltb.
Definition le : number -> number -> bool := SFleb.
Definition gt (a b : number) : bool := SFltb b a.

(** The global [isNaN] applied to a number. *)
Definition isNaN (x : number) : bool :=
  match x with S754_nan => true | _ => false end.

Definition isFinite (x : number) : bool :=
  match x with S754_zero _ | S754_finite _ _ _ => true | _ => false end.

(** The number nearest to an integer (an array length, a literal). *)
Definition ofZ (n : Z) : number := binary_normalize prec emax n 0 false.
Definition ofNat (n : nat) : number := ofZ (Z.of_nat n).

(** The value denoted by [mant * 10^e10] with the sign [neg], rounded to
    the nearest number: the numeric value of a decimal literal. *)
Definition ofDecimal (neg : bool) (mant : Z) (e10 : Z) : number :=
  match mant with
  | Zpos p =>
      if 0 <=? e10
      then binary_normalize prec emax
             (cond_Zopp neg (Zpos p * 10 ^ e10)) 0 false
      else SFdiv prec emax (S754_finite neg p 0)
             (S754_finite false (Z.to_pos (10 ^ (- e10))) 0)
  | _ => S754_zero neg
  end.

(** The number written as the decimal literal [n * 10^-k] in the source,
    e.g. [decimal 367 2] for [3.67]. *)
Definition decimal (n : Z) (k : nat) : number :=
  ofDecimal (n <? 0) (Z.abs n) (- Z.of_nat k).

(** [Number(x.toFixed(2))].  [toFixed] works on the exact value of [x]:
    it returns the digits of the integer [n] nearest to [100 * |x|], the
    larger one on a tie, with the sign of [x] in front; from [1e21] on it
    returns [String(x)], which [Number] reads back as [x].  [Number] then
    rounds the decimal [n / 100] to the nearest number. *)
Definition toFixed2 (x : number) : number :=
  match x with
  | S754_nan => S754_nan
  | S754_infinity _ => x
  | S754_zero _ => zero
  | S754_finite s m e =>
      let n := if 0 <=? e
               then 100 * Zpos m * 2 ^ e
               else (200 * Zpos m + 2 ^ (- e)) / (2 * 2 ^ (- e)) in
      if 10 ^ 23 <=? n then x else ofDecimal s n (-2)
  end.

End JSNumber.
Import JSNumber.

(* ================================================================== *)
(** * JavaScript strings *)
(* ================================================================== *)

Module JSString.

Definition codeUnit (c : ascii) : N := N_of_ascii c.

(** [String.prototype.toLowerCase] on code units below 256: the letters
    A-Z and the Latin-1 capitals other than the multiplication sign. *)
Definition lowerChar (c : ascii) : ascii :=
  let n := codeUnit c in
  if ((65 <=? n) && (n <=? 90))%N then ascii_of_N (n + 32)
  else if ((192 <=? n) && (n <=? 222) && negb (n =? 215))%N
       then ascii_of_N (n + 32)
       else c.

Fixpoint toLowerCase (s : string) : string :=
  match s with
  | EmptyString => EmptyString
  | String c r => String (lowerChar c) (toLowerCase r)
  end.

(** [s.includes(t)] *)
Fixpoint includes (s t : string) : bool :=
  String.prefix t s ||
  match s with
  | EmptyString => false
  | String _ r => includes r t
  end.

(** [s.split(sep)] for a one-character separator. *)
Fixpoint splitAux (sep : ascii) (cur : string) (s : string) : list string :=
  match s with
  | EmptyString => [cur]
  | String c r =>
      if Ascii.eqb c sep then cur :: splitAux sep EmptyString r
      else splitAux sep (cur ++ String c EmptyString) r
  end.
Definition split (sep : ascii) (s : string) : list string :=
  splitAux sep EmptyString s.

Definition isDigit (c : ascii) : bool :=
  ((48 <=? codeUnit c) && (codeUnit c <=? 57))%N.
Definition digitValue (c : ascii) : Z := Z.of_N (codeUnit c) - 48.

(** White space and line terminators among the code units below 256. *)
Definition isWhiteSpace (c : ascii) : bool :=
  let n := codeUnit c in
  ((9 <=? n) && (n <=? 13) || (n =? 32) || (n =? 160))%N.

Fixpoint trimStart (s : string) : string :=
  match s with
  | String c r => if isWhiteSpace c then trimStart r else s
  | EmptyString => EmptyString
  end.

(** The longest run of decimal digits at the front of [s]: its value read
    after the digits [acc], how many digits it has, and what follows. *)
Fixpoint takeDigits (acc : Z) (count : Z) (s : string) : Z * Z * string :=
  match s with
  | String c r =>
      if isDigit c then takeDigits (10 * acc + digitValue c) (count + 1) r
      else (acc, count, s)
  | EmptyString => (acc, count, s)
  end.

(** String(n) for an integer. *)
Fixpoint digitsOfPos (fuel : nat) (n : Z) (acc : string) : string :=
  match fuel with
  | O => acc
  | S f =>
      let acc' := String (ascii_of_N (Z.to_N (48 + n mod 10))) acc in
      if n <? 10 then acc' else digitsOfPos f (n / 10) acc'
  end.
Definition ofInteger (n : Z) : string :=
  if n <? 0
  then String "-" (digitsOfPos (S (Z.to_nat (Z.log2 (- n)))) (- n) EmptyString)
  else digitsOfPos (S (Z.to_nat (Z.log2 n))) n EmptyString.

End JSString.
Import JSString.

(* ================================================================== *)
(** * JavaScript values, exceptions and the built-ins the service calls *)
(* ================================================================== *)

(** The values a response can hold ([responseValue: any], a JSON column). *)
#[warnings="-register-all"]
Inductive JSValue : Type :=
| JUndefined
| JNull
| JBool (b : bool)
| JNumber (n : number)
| JString (s : string)
| JArray (elems : list JSValue)
| JObject (members : list (string * JSValue)).

Inductive JSType := TUndefined | TObject | TBoolean | TNumber | TString.

Definition JSType_eqb (a b : JSType) : bool :=
  match a, b with
  | TUndefined, TUndefined | TObject, TObject | TBoolean, TBoolean
  | TNumber, TNumber | TString, TString => true
  | _, _ => false
  end.

Definition typeof (v : JSValue) : JSType :=
  match v with
  | JUndefined => TUndefined
  | JNull | JArray _ | JObject _ => TObject
  | JBool _ => TBoolean
  | JNumber _ => TNumber
  | JString _ => TString
  end.

(** [utils/appError]: a message and an HTTP status code. *)
Record AppError := { message : string; statusCode : Z }.

Inductive JSError :=
| SyntaxError
| TypeError
| AppErr (e : AppError).

(** The outcome of running a piece of code: a value, or a thrown error. *)
Inductive outcome (A : Type) : Type :=
| Return (a : A)
| Throw (e : JSError).
Arguments Return {A} a.
Arguments Throw {A} e.

Definition bind {A B} (m : outcome A) (k : A -> outcome B) : outcome B :=
  match m with
  | Return a => k a
  | Throw e => Throw e
  end.

(** [try { body } catch (e) { handler e }] *)
Definition try_catch {A} (body : outcome A) (handler : JSError -> outcome A)
  : outcome A :=
  match body with
  | Return a => Return a
  | Throw e => handler e
  end.

Declare Scope js_scope.
Delimit Scope js_scope with js.
Notation "x <- m ;; k" := (bind m (fun x => k))
  (at level 61, m at next level, right associativity) : js_scope.
(** [a && b], where only [b] may throw and is not run when [a] is false. *)
Notation "a &&& b" := (if a then b else Return false)
  (at level 40, left associativity) : js_scope.
Open Scope js_scope.

(** [array.map(f)] for a callback that may throw: the elements are taken
    in order, and the first error ends the call. *)
Section MapThrowing.
Context {A B : Type}.
Variable f : A -> outcome B.

Fixpoint mapThrowing (array : list A) : outcome (list B) :=
  match array with
  | [] => Return []
  | item :: rest =>
      first <- f item ;;
      others <- mapThrowing rest ;;
      Return (first :: others)
  end.
End MapThrowing.

Module Builtins.

(** Own property lookup; on a duplicated key the last binding counts. *)
Fixpoint lookupLast (k : string) (ms : list (string * JSValue))
  : option JSValue :=
  match ms with
  | [] => None
  | (k', v) :: r =>
      match lookupLast k r with
      | Some w => Some w
      | None => if String.eqb k k' then Some v else None
      end
  end.

(** ['k' in v]: a [TypeError] unless [v] is an object.  The service only
    asks for the key ['score'], which no prototype or array defines. *)
Definition js_in (k : string) (v : JSValue) : outcome bool :=
  match v with
  | JObject ms =>
      Return (match lookupLast k ms with Some _ => true | None => false end)
  | JArray _ => Return false
  | _ => Throw TypeError
  end.

(** [v.k]: a [TypeError] on [null] and [undefined]. *)
Definition getProperty (v : JSValue) (k : string) : outcome JSValue :=
  match v with
  | JObject ms =>
      Return (match lookupLast k ms with Some w => w | None => JUndefined end)
  | JNull | JUndefined => Throw TypeError
  | _ => Return JUndefined
  end.

(** ** [parseFloat]

    The argument is trimmed at the front, the longest prefix that is a
    [StrDecimalLiteral] is read and rounded to the nearest number; [NaN]
    when there is no such prefix. *)
Definition exponentPart (s : string) : Z :=
  match s with
  | String c r =>
      if (Ascii.eqb c "e" || Ascii.eqb c "E")%bool then
        match r with
        | String "-" r' =>
            let '(v, n, _) := takeDigits 0 0 r' in
            if 0 <? n then - v else 0
        | String "+" r' =>
            let '(v, n, _) := takeDigits 0 0 r' in
            if 0 <? n then v else 0
        | _ =>
            let '(v, n, _) := takeDigits 0 0 r in
            if 0 <? n then v else 0
        end
      else 0
  | EmptyString => 0
  end.

Definition parseFloat (s : string) : number :=
  let t := trimStart s in
  let '(neg, u) :=
    match t with
    | String "-" r => (true, r)
    | String "+" r => (false, r)
    | _ => (false, t)
    end in
  if String.prefix "Infinity" u then S754_infinity neg
  else
    let '(ip, ni, r1) := takeDigits 0 0 u in
    let '(m, nf, r2) :=
      match r1 with
      | String "." r => takeDigits ip 0 r
      | _ => (ip, 0, r1)
      end in
    if (ni + nf =? 0) then NaN
    else ofDecimal neg m (exponentPart r2 - nf).

(** ** [JSON.parse]

    A lexer over the code units followed by a shift-reduce parser over
    the tokens; both read their input once.  A [\u] escape naming a code
    unit of 256 or more, which the string model cannot hold, is read as
    the code unit 255: it still makes the key or string it occurs in
    differ from every ASCII text. *)
Inductive token :=
| TokLBrace | TokRBrace | TokLBracket | TokRBracket | TokColon | TokComma
| TokString (s : string)
| TokNumber (n : number)
| TokTrue | TokFalse | TokNull.

Definition quote : ascii := "034".
Definition backslash : ascii := "092".

Definition snoc (s : string) (c : ascii) : string :=
  s ++ String c EmptyString.

(** A JSON number: an optional minus sign; an integer part without a
    superfluous leading zero; optionally a point and at least one digit;
    optionally an exponent with at least one digit. *)
Definition jsonNumber (w : string) : option number :=
  let '(neg, u) :=
    match w with
    | String "-" r => (true, r)
    | _ => (false, w)
    end in
  let '(ip, ni, r1) := takeDigits 0 0 u in
  let leadingZero :=
    match u with String "0" _ => true | _ => false end in
  if ((ni =? 0) || (leadingZero && (1 <? ni)))%bool then None
  else
    let fracOk_m_nf_r2 :=
      match r1 with
      | String "." r =>
          let '(m, nf, r2) := takeDigits ip 0 r in (0 <? nf, m, nf, r2)
      | _ => (true, ip, 0, r1)
      end in
    let '(fracOk, m, nf, r2) := fracOk_m_nf_r2 in
    if negb fracOk then None
    else
      match r2 with
      | EmptyString => Some (ofDecimal neg m (- nf))
      | String c r =>
          if (Ascii.eqb c "e" || Ascii.eqb c "E")%bool then
            let digits :=
              match r with
              | String "-" r' => r'
              | String "+" r' => r'
              | _ => r
              end in
            match takeDigits 0 0 digits with
            | (_, n, EmptyString) =>
                if 0 <? n then Some (ofDecimal neg m (exponentPart r2 - nf))
                else None
            | _ => None
            end
          else None
      end.

Definition wordToken (w : string) : option token :=
  if String.eqb w "true" then Some TokTrue
  else if String.eqb w "false" then Some TokFalse
  else if String.eqb w "null" then Some TokNull
  else option_map TokNumber (jsonNumber w).

Definition hexValue (c : ascii) : option N :=
  let n := codeUnit c in
  if ((48 <=? n) && (n <=? 57))%N then Some (n - 48)%N
  else if ((65 <=? n) && (n <=? 70))%N then Some (n - 55)%N
  else if ((97 <=? n) && (n <=? 102))%N then Some (n - 87)%N
  else None.

Inductive lexState :=
| LDefault
| LWord (w : string)
| LInString (acc : string)
| LEscape (acc : string)
| LUnicode (acc : string) (count : nat) (value : N).

(** One code unit read outside of any word or string. *)
Definition lexDefault (c : ascii) (toks : list token)
  : option (lexState * list token) :=
  let n := codeUnit c in
  if ((n =? 32) || (n =? 9) || (n =? 10) || (n =? 13))%N
  then Some (LDefault, toks)
  else if Ascii.eqb c quote then Some (LInString EmptyString, toks)
  else if Ascii.eqb c "{" then Some (LDefault, TokLBrace :: toks)
  else if Ascii.eqb c "}" then Some (LDefault, TokRBrace :: toks)
  else if Ascii.eqb c "[" then Some (LDefault, TokLBracket :: toks)
  else if Ascii.eqb c "]" then Some (LDefault, TokRBracket :: toks)
  else if Ascii.eqb c ":" then Some (LDefault, TokColon :: toks)
  else if Ascii.eqb c "," then Some (LDefault, TokComma :: toks)
  else Some (LWord (String c EmptyString), toks).

Definition endsWord (c : ascii) : bool :=
  let n := codeUnit c in
  ((n =? 32) || (n =? 9) || (n =? 10) || (n =? 13))%N
  || Ascii.eqb c quote || Ascii.eqb c "{" || Ascii.eqb c "}"
  || Ascii.eqb c "[" || Ascii.eqb c "]" || Ascii.eqb c ":"
  || Ascii.eqb c ",".

Definition escaped (c : ascii) : option ascii :=
  if Ascii.eqb c quote then Some quote
  else if Ascii.eqb c backslash then Some backslash
  else if Ascii.eqb c "/" then Some "/"%char
  else if Ascii.eqb c "b" then Some "008"%char
  else if Ascii.eqb c "f" then Some "012"%char
  else if Ascii.eqb c "n" then Some "010"%char
  else if Ascii.eqb c "r" then Some "013"%char
  else if Ascii.eqb c "t" then Some "009"%char
  else None.

(** The tokens are collected in reverse. *)
Fixpoint lex (st : lexState) (toks : list token) (s : string)
  : option (list token) :=
  match s with
  | EmptyString =>
      match st with
      | LDefault => Some (rev toks)
      | LWord w => option_map (fun t => rev (t :: toks)) (wordToken w)
      | _ => None
      end
  | String c r =>
      match st with
      | LDefault =>
          match lexDefault c toks with
          | Some (st', toks') => lex st' toks' r
          | None => None
          end
      | LWord w =>
          if endsWord c then
            match wordToken w with
            | Some t =>
                match lexDefault c (t :: toks) with
                | Some (st', toks') => lex st' toks' r
                | None => None
                end
            | None => None
            end
          else lex (LWord (snoc w c)) toks r
      | LInString acc =>
          if Ascii.eqb c quote then lex LDefault (TokString acc :: toks) r
          else if Ascii.eqb c backslash then lex (LEscape acc) toks r
          else if (codeUnit c <? 32)%N then None
          else lex (LInString (snoc acc c)) toks r
      | LEscape acc =>
          if Ascii.eqb c "u" then lex (LUnicode acc 0 0%N) toks r
          else
            match escaped c with
            | Some e => lex (LInString (snoc acc e)) toks r
            | None => None
            end
      | LUnicode acc count value =>
          match hexValue c with
          | Some h =>
              let v := (16 * value + h)%N in
              match count with
              | 3%nat =>
                  lex (LInString (snoc acc (ascii_of_N (N.min v 255))))
                      toks r
              | _ => lex (LUnicode acc (S count) v) toks r
              end
          | None => None
          end
      end
  end.

Inductive frame :=
| FArray (elems : list JSValue)
| FObject (members : list (string * JSValue)) (key : option string).

Inductive expect :=
| EValue | EValueOrEnd | EKeyOrEnd | EKey | EColon | ECommaOrEnd
| EDone (v : JSValue).

(** A finished value goes into the innermost open array or object. *)
Definition pushValue (v : JSValue) (stack : list frame)
  : option (list frame * expect) :=
  match stack with
  | [] => Some ([], EDone v)
  | FArray es :: st => Some (FArray (v :: es) :: st, ECommaOrEnd)
  | FObject ms (Some k) :: st =>
      Some (FObject ((k, v) :: ms) None :: st, ECommaOrEnd)
  | FObject _ None :: _ => None
  end.

Definition closeArray (stack : list frame) :=
  match stack with
  | FArray es :: st => pushValue (JArray (rev es)) st
  | _ => None
  end.

Definition closeObject (stack : list frame) :=
  match stack with
  | FObject ms None :: st => pushValue (JObject (rev ms)) st
  | _ => None
  end.

Definition startValue (t : token) (stack : list frame)
  : option (list frame * expect) :=
  match t with
  | TokString s => pushValue (JString s) stack
  | TokNumber n => pushValue (JNumber n) stack
  | TokTrue => pushValue (JBool true) stack
  | TokFalse => pushValue (JBool false) stack
  | TokNull => pushValue JNull stack
  | TokLBracket => Some (FArray [] :: stack, EValueOrEnd)
  | TokLBrace => Some (FObject [] None :: stack, EKeyOrEnd)
  | _ => None
  end.

Definition startKey (t : token) (stack : list frame)
  : option (list frame * expect) :=
  match t, stack with
  | TokString k, FObject ms None :: st =>
      Some (FObject ms (Some k) :: st, EColon)
  | _, _ => None
  end.

Definition step (st : list frame * expect) (t : token)
  : option (list frame * expect) :=
  let '(stack, e) := st in
  match e with
  | EValue => startValue t stack
  | EValueOrEnd =>
      match t with
      | TokRBracket => closeArray stack
      | _ => startValue t stack
      end
  | EKeyOrEnd =>
      match t with
      | TokRBrace => closeObject stack
      | _ => startKey t stack
      end
  | EKey => startKey t stack
  | EColon =>
      match t with
      | TokColon => Some (stack, EValue)
      | _ => None
      end
  | ECommaOrEnd =>
      match t, stack with
      | TokComma, FArray _ :: _ => Some (stack, EValue)
      | TokComma, FObject _ _ :: _ => Some (stack, EKey)
      | TokRBracket, _ => closeArray stack
      | TokRBrace, _ => closeObject stack
      | _, _ => None
      end
  | EDone _ => None
  end.

Fixpoint run (st : list frame * expect) (toks : list token)
  : option (list frame * expect) :=
  match toks with
  | [] => Some st
  | t :: r =>
      match step st t with
      | Some st' => run st' r
      | None => None
      end
  end.

Definition JSON_parse (text : string) : outcome JSValue :=
  match lex LDefault [] text with
  | Some toks =>
      match run ([], EValue) toks with
      | Some (_, EDone v) => Return v
      | _ => Throw SyntaxError
      end
  | None => Throw SyntaxError
  end.

End Builtins.
Import Builtins.

(* ================================================================== *)
(** * The score parser *)
(* ================================================================== *)

(** [score: number | null], the local variable of the parser. *)
Definition Score := option number.

(** [AnalyticsService.parseResponseValueToScore] *)
Definition parseResponseValueToScore (rawResponseValue : JSValue)
  : outcome Score :=
  score <-
    match rawResponseValue with
    | JString text =>
        let parsedFloat := parseFloat text in
        if negb (isNaN parsedFloat) then Return (Some parsedFloat)
        else
          try_catch
            (parsedJson <- JSON_parse text ;;
             hasScore <-
               (JSType_eqb (typeof parsedJson) TObject
                &&& (match parsedJson with JNull => false | _ => true end
                &&& (present <- js_in "score" parsedJson ;;
                     present
                     &&& (field <- getProperty parsedJson "score" ;;
                          Return (JSType_eqb (typeof field) TNumber))))) ;;
             if hasScore then
               field <- getProperty parsedJson "score" ;;
               Return (match field with JNumber n => Some n | _ => None end)
             else
               match parsedJson with
               | JNumber n => Return (Some n)
               | _ => Return None
               end)
            (fun _ => Return None)
    | _ =>
        isScored <-
          (JSType_eqb (typeof rawResponseValue) TObject
           &&& (match rawResponseValue with JNull => false | _ => true end
           &&& (present <- js_in "score" rawResponseValue ;;
                present
                &&& (field <- getProperty rawResponseValue "score" ;;
                     Return (JSType_eqb (typeof field) TNumber))))) ;;
        if isScored then
          field <- getProperty rawResponseValue "score" ;;
          Return (match field with JNumber n => Some n | _ => None end)
        else
          match rawResponseValue with
          | JNumber n => Return (Some n)
          | _ => Return None
          end
    end ;;
  Return (match score with
          | Some n => if negb (isNaN n) then Some n else None
          | None => None
          end).

(** The parser never throws (theorem [parseResponseValueToScore_total]
    below), so the builders, which call it as an ordinary function, see
    its value. *)
Definition scoreOf (rawResponseValue : JSValue) : Score :=
  match parseResponseValueToScore rawResponseValue with
  | Return score => score
  | Throw _ => None
  end.

(** [score === null || score <= 0], the guard of every [forEach] body. *)
Definition rejected (score : Score) : bool :=
  match score with
  | None => true
  | Some n => le n zero
  end.

(** [score !== null && score > 0], the predicate of the [filter] calls. *)
Definition accepted (score : Score) : bool :=
  match score with
  | None => false
  | Some n => gt n zero
  end.

(* ================================================================== *)
(** * Arrays, maps and sets *)
(* ================================================================== *)

Module JSArray.

(** [scores.reduce((a, b) => a + b, 0)] *)
Definition sum (scores : list number) : number :=
  fold_left add scores zero.

(** [scores.reduce((a, b) => a + b, 0) / scores.length] *)
Definition average (scores : list number) : number :=
  div (sum scores) (ofNat (List.length scores)).

(** [Number(average.toFixed(2))] *)
Definition rounded (scores : list number) : number :=
  toFixed2 (average scores).

Section Sort.
Variable A : Type.
(** [after a b] holds when the comparator is positive on [(a, b)], that
    is when it asks for [a] to be placed after [b]. *)
Variable after : A -> A -> bool.

Fixpoint insert (x : A) (l : list A) : list A :=
  match l with
  | [] => [x]
  | h :: t => if after x h then h :: insert x t else x :: h :: t
  end.

(** [Array.prototype.sort(comparator)].  The sort is stable; for a
    consistent comparator every stable sort returns what this insertion
    sort returns. *)
Definition sort (l : list A) : list A := fold_right insert [] l.
End Sort.

(** [array.findIndex(p) + 1] *)
Fixpoint findIndexPlus1 {A} (p : A -> bool) (l : list A) : nat :=
  match l with
  | [] => 0%nat
  | h :: t =>
      if p h then 1%nat
      else match findIndexPlus1 p t with
           | O => 0%nat
           | S i => S (S i)
           end
  end.

End JSArray.
Import JSArray.

Module JSMap.
Section Map.
Variables K V : Type.
Variable eqb : K -> K -> bool.

(** Entries in insertion order, at most one per key. *)
Definition Map := list (K * V).

Definition has (k : K) (m : Map) : bool :=
  existsb (fun e => eqb k (fst e)) m.

Fixpoint get (k : K) (m : Map) : option V :=
  match m with
  | [] => None
  | (k', v) :: r => if eqb k k' then Some v else get k r
  end.

(** [map.set(k, v)]: an existing key keeps its place. *)
Fixpoint set (k : K) (v : V) (m : Map) : Map :=
  match m with
  | [] => [(k, v)]
  | (k', v') :: r =>
      if eqb k k' then (k', v) :: r else (k', v') :: set k v r
  end.

(** The object stored under [k] is changed in place:
    [const x = map.get(k)!; ... x is mutated ...]. *)
Fixpoint modify (k : K) (f : V -> V) (m : Map) : Map :=
  match m with
  | [] => []
  | (k', v) :: r =>
      if eqb k k' then (k', f v) :: r else (k', v) :: modify k f r
  end.

(** [if (!map.has(k)) map.set(k, init); mutate(map.get(k)!)], the
    body every grouping loop of the service ends with. *)
Definition ensureThen (k : K) (init : V) (f : V -> V) (m : Map) : Map :=
  modify k f (if negb (has k m) then set k init m else m).

(** [Array.from(map.values())] and [Array.from(map.entries())] *)
Definition values (m : Map) : list V := map snd m.
Definition entries (m : Map) : list (K * V) := m.
End Map.
End JSMap.

Module JSSet.
(** A [Set<string>]: its elements in insertion order. *)
Definition StringSet := list string.

Definition mem (x : string) (s : StringSet) : bool :=
  existsb (String.eqb x) s.
Definition add (x : string) (s : StringSet) : StringSet :=
  if mem x s then s else s ++ [x].
Definition size (s : StringSet) : nat := List.length s.
(** [new Set(array)] *)
Definition ofList (l : list string) : StringSet :=
  fold_left (fun s x => add x s) l [].
End JSSet.

(** [groupBy]: the groups live in a plain object.  Every key the callers
    build contains a [|], so it is neither an array index nor the name of
    a member of [Object.prototype]: [!groups[groupKey]] tests that the group
    is missing, and [Object.entries] lists the groups in insertion order. *)
Definition groupBy {T} (array : list T) (key : T -> string)
  : list (string * list T) :=
  fold_left
    (fun groups item =>
       let groupKey := key item in
       let groups :=
         if negb (JSMap.has String.eqb groupKey groups)
         then JSMap.set String.eqb groupKey [] groups
         else groups in
       JSMap.modify String.eqb groupKey (fun g => g ++ [item]) groups)
    array [].

(** A plain object used as a dictionary: what it owns, in the order in
    which the properties were made. *)
Module JSObject.

Definition t (V : Type) := list (string * V).

(** The names of the members of [Object.prototype]: under them a plain
    object has a value it does not own. *)
Definition objectPrototypeNames : list string :=
  [ "constructor"; "__defineGetter__"; "__defineSetter__"; "hasOwnProperty";
    "__lookupGetter__"; "__lookupSetter__"; "isPrototypeOf";
    "propertyIsEnumerable"; "toString"; "valueOf"; "__proto__";
    "toLocaleString" ].

Definition inherited (k : string) : bool :=
  existsb (String.eqb k) objectPrototypeNames.

(** The integer a text of digits denotes. *)
Definition indexValue (k : string) : Z := fst (fst (takeDigits 0 0 k)).

(** An array index: the canonical text of an integer below [2^32 - 1]. *)
Definition isArrayIndex (k : string) : bool :=
  match k with
  | EmptyString => false
  | String c r =>
      forallb isDigit (list_ascii_of_string k)
      && (negb (Ascii.eqb c "0") || String.eqb r EmptyString)
      && (indexValue k <? 2 ^ 32 - 1)
  end.

(** [Object.entries(o)], and the order of [for ... in]: the array
    indices in ascending order, then the other names in the order in
    which they were made. *)
Definition entries {V} (o : t V) : list (string * V) :=
  sort (fun a b => indexValue (fst b) <? indexValue (fst a))
    (filter (fun e => isArrayIndex (fst e)) o)
  ++ filter (fun e => negb (isArrayIndex (fst e))) o.

(** [if (!o[k]) o[k] = []; o[k].push(item)].  Under a name that
    [Object.prototype] defines the test finds the inherited member, which
    has no [push]. *)
Definition push {T} (k : string) (item : T) (o : t (list T))
  : outcome (t (list T)) :=
  if inherited k then Throw TypeError
  else
    Return
      (JSMap.modify String.eqb k (fun group => group ++ [item])
         (if negb (JSMap.has String.eqb k o)
          then JSMap.set String.eqb k [] o
          else o)).

End JSObject.

(** A property name that a plain object keeps in insertion order and does
    not inherit: it has a character that is no digit, which an array index
    has not, and it is not the name of a member of [Object.prototype]. *)
Definition isPlainKey (k : string) : bool :=
  negb (forallb isDigit (list_ascii_of_string k))
  && negb (JSObject.inherited k).

(* ================================================================== *)
(** * Data model *)
(* ================================================================== *)

(** A feedback record: the columns the service reads, whether the row
    comes from the [FeedbackSnapshot] table or from the joined query of
    [getOptimizedAnalyticsData] (which alone carries [lectureType] and
    [facultyDesignation]).  A nullable column, or one a row does not
    carry, is an [option]. *)
Module Snapshot.
Record t := {
  academicYearId : string;
  academicYearString : string;
  departmentId : string;
  departmentName : string;
  semesterId : string;
  semesterNumber : Z;
  divisionId : string;
  divisionName : string;
  subjectId : string;
  subjectName : string;
  subjectAbbreviation : string;
  subjectCode : string;
  facultyId : string;
  facultyName : string;
  facultyAbbreviation : string;
  facultyDesignation : option string;
  studentId : option string;
  questionCategoryId : option string;
  questionCategoryName : option string;
  questionBatch : option string;
  batch : option string;
  responseValue : JSValue;
  lectureType : option string;
  isDeleted : bool;
  formDeleted : bool;
  formIsDeleted : bool;
  questionIsDeleted : bool;
  semesterIsDeleted : bool;
  divisionIsDeleted : bool;
  subjectIsDeleted : bool;
  departmentIsDeleted : bool;
  academicYearIsDeleted : bool
}.
End Snapshot.
Import Snapshot.
Abbreviation Snapshot := Snapshot.t.

(** [LectureType], written into keys and rows as its name. *)
Inductive LectureType := LECTURE | LAB.

Definition LectureType_name (t : LectureType) : string :=
  match t with LECTURE => "LECTURE" | LAB => "LAB" end.

Definition LectureType_eqb (a b : LectureType) : bool :=
  match a, b with
  | LECTURE, LECTURE | LAB, LAB => true
  | _, _ => false
  end.

(** Truthiness of an optional string: present and not empty. *)
Definition truthy (o : option string) : bool :=
  match o with
  | Some s => negb (String.eqb s EmptyString)
  | None => false
  end.

(** [o || fallback] *)
Definition orElse (o : option string) (fallback : string) : string :=
  if truthy o then match o with Some s => s | None => fallback end
  else fallback.

(** [array.map(parse).filter(score => score !== null && score > 0)] *)
Definition acceptedScores (snapshots : list Snapshot) : list number :=
  flat_map
    (fun score => match score with Some n => [n] | None => [] end)
    (filter accepted (map (fun s => scoreOf (responseValue s)) snapshots)).

(** A [forEach] whose body starts with
    [if (score === null || score <= 0) return;]. *)
Definition forEachScored {M} (body : Snapshot -> number -> M -> M)
  (snapshots : list Snapshot) (start : M) : M :=
  fold_left
    (fun acc snapshot =>
       match scoreOf (responseValue snapshot) with
       | Some score => if le score zero then acc else body snapshot score acc
       | None => acc
       end)
    snapshots start.

(** [rows.forEach((row, index) => row.rank = index + 1)] *)
Fixpoint forEachIndexed {A} (f : nat -> A -> A) (index : nat) (l : list A)
  : list A :=
  match l with
  | [] => []
  | h :: t => f index h :: forEachIndexed f (S index) t
  end.

(* ================================================================== *)
(** * Output rows of the rollup builders ([analytics.interfaces.ts]) *)
(* ================================================================== *)

Module OverallStats.
Record t := {
  totalResponses : nat;
  averageRating : number;
  uniqueSubjects : nat;
  uniqueFaculties : nat;
  uniqueStudents : nat;
  uniqueDivisions : nat
}.
End OverallStats.

Module SubjectRatingAggregated.
Record t := {
  subjectId : string;
  subjectName : string;
  subjectAbbreviation : string;
  subjectCode : string;
  lectureRating : option number;
  labRating : option number;
  overallRating : number;
  lectureResponses : nat;
  labResponses : nat;
  totalResponses : nat;
  facultyCount : nat;
  divisionCount : nat
}.
End SubjectRatingAggregated.

Module FacultyPerformanceAggregated.
Record t := {
  facultyId : string;
  facultyName : string;
  facultyAbbreviation : string;
  designation : string;
  averageRating : number;
  totalResponses : nat;
  subjectCount : nat;
  divisionCount : nat;
  rank : nat
}.
Definition setRank (r : nat) (f : t) : t :=
  {| facultyId := facultyId f;
     facultyName := facultyName f;
     facultyAbbreviation := facultyAbbreviation f;
     designation := designation f;
     averageRating := averageRating f;
     totalResponses := totalResponses f;
     subjectCount := subjectCount f;
     divisionCount := divisionCount f;
     rank := r |}.
End FacultyPerformanceAggregated.

Module DivisionPerformanceAggregated.
Record t := {
  divisionId : string;
  divisionName : string;
  departmentName : string;
  semesterNumber : Z;
  averageRating : number;
  totalResponses : nat;
  facultyCount : nat;
  subjectCount : nat
}.
End DivisionPerformanceAggregated.

Module AcademicYearTrendAggregated.
Record t := {
  academicYearId : string;
  academicYearString : string;
  averageRating : number;
  totalResponses : nat;
  departmentCount : nat;
  divisionCount : nat
}.
End AcademicYearTrendAggregated.

Module SemesterTrendAggregated.
Record yearRow := {
  academicYearId : string;
  academicYearString : string;
  averageRating : number;
  responseCount : nat
}.
Record t := {
  semesterNumber : Z;
  academicYearData : list yearRow
}.
End SemesterTrendAggregated.

Module DepartmentTrendAggregated.
Record departmentRow := {
  departmentId : string;
  departmentName : string;
  averageRating : number;
  responseCount : nat
}.
Record t := {
  academicYearString : string;
  departmentData : list departmentRow
}.
End DepartmentTrendAggregated.

(** [(scores.length > 0) ? Number(mean.toFixed(2)) : 0] *)
Definition ratingOrZero (scores : list number) : number :=
  if (0 <? List.length scores)%nat then rounded scores else zero.

(** [(scores.length > 0) ? Number(mean.toFixed(2)) : null] *)
Definition ratingOrNull (scores : list number) : option number :=
  if (0 <? List.length scores)%nat then Some (rounded scores) else None.

(* ================================================================== *)
(** * Rollup builders *)
(* ================================================================== *)

(** The accumulators the grouping loops keep in their maps. *)
Module SubjectAcc.
Record t := {
  subjectId : string;
  subjectName : string;
  subjectAbbreviation : string;
  subjectCode : string;
  lectureScores : list number;
  labScores : list number;
  faculties : JSSet.StringSet;
  divisions : JSSet.StringSet
}.
End SubjectAcc.

Module FacultyAcc.
Record t := {
  facultyId : string;
  facultyName : string;
  facultyAbbreviation : string;
  designation : string;
  scores : list number;
  subjects : JSSet.StringSet;
  divisions : JSSet.StringSet
}.
End FacultyAcc.

Module DivisionAcc.
Record t := {
  divisionId : string;
  divisionName : string;
  departmentName : string;
  semesterNumber : Z;
  scores : list number;
  faculties : JSSet.StringSet;
  subjects : JSSet.StringSet
}.
End DivisionAcc.

Module YearAcc.
Record t := {
  academicYearId : string;
  academicYearString : string;
  scores : list number;
  departments : JSSet.StringSet;
  divisions : JSSet.StringSet
}.
End YearAcc.

Module YearScores.
Record t := {
  academicYearId : string;
  academicYearString : string;
  scores : list number
}.
End YearScores.

Module DepartmentScores.
Record t := {
  departmentId : string;
  departmentName : string;
  scores : list number
}.
End DepartmentScores.

(** [calculateOverallStats] *)
Definition calculateOverallStats (snapshots : list Snapshot)
  : OverallStats.t :=
  let scores := acceptedScores snapshots in
  let uniqueSubjects := JSSet.ofList (map subjectId snapshots) in
  let uniqueFaculties := JSSet.ofList (map facultyId snapshots) in
  let uniqueStudents :=
    JSSet.ofList
      (flat_map
         (fun s => if truthy (studentId s)
                   then match studentId s with Some i => [i] | None => [] end
                   else [])
         snapshots) in
  let uniqueDivisions := JSSet.ofList (map divisionId snapshots) in
  {| OverallStats.totalResponses := List.length scores;
     OverallStats.averageRating :=
       if (0 <? List.length scores)%nat then rounded scores else zero;
     OverallStats.uniqueSubjects := JSSet.size uniqueSubjects;
     OverallStats.uniqueFaculties := JSSet.size uniqueFaculties;
     OverallStats.uniqueStudents := JSSet.size uniqueStudents;
     OverallStats.uniqueDivisions := JSSet.size uniqueDivisions |}.

(** The entry [subjectMap.set] creates for a subject. *)
Definition newSubject (snapshot : Snapshot) : SubjectAcc.t :=
  {| SubjectAcc.subjectId := subjectId snapshot;
     SubjectAcc.subjectName := subjectName snapshot;
     SubjectAcc.subjectAbbreviation := subjectAbbreviation snapshot;
     SubjectAcc.subjectCode := subjectCode snapshot;
     SubjectAcc.lectureScores := [];
     SubjectAcc.labScores := [];
     SubjectAcc.faculties := [];
     SubjectAcc.divisions := [] |}.

(** What the loop does to [subjectMap.get(snapshot.subjectId)]. *)
Definition addToSubject (snapshot : Snapshot) (score : number)
  (subject : SubjectAcc.t) : SubjectAcc.t :=
  let isLecture :=
    match lectureType snapshot with
    | Some t => String.eqb t "LECTURE"
    | None => false
    end in
  {| SubjectAcc.subjectId := SubjectAcc.subjectId subject;
     SubjectAcc.subjectName := SubjectAcc.subjectName subject;
     SubjectAcc.subjectAbbreviation := SubjectAcc.subjectAbbreviation subject;
     SubjectAcc.subjectCode := SubjectAcc.subjectCode subject;
     SubjectAcc.lectureScores :=
       if isLecture
       then SubjectAcc.lectureScores subject ++ [score]
       else SubjectAcc.lectureScores subject;
     SubjectAcc.labScores :=
       if isLecture
       then SubjectAcc.labScores subject
       else SubjectAcc.labScores subject ++ [score];
     SubjectAcc.faculties :=
       JSSet.add (facultyId snapshot) (SubjectAcc.faculties subject);
     SubjectAcc.divisions :=
       JSSet.add (divisionId snapshot) (SubjectAcc.divisions subject) |}.

(** [aggregateSubjectRatings], the loop filling [subjectMap] *)
Definition subjectMapOf (snapshots : list Snapshot)
  : JSMap.Map string SubjectAcc.t :=
  forEachScored
    (fun snapshot score subjectMap =>
       JSMap.ensureThen String.eqb (subjectId snapshot)
         (newSubject snapshot) (addToSubject snapshot score) subjectMap)
    snapshots [].

Definition subjectRow (subject : SubjectAcc.t) : SubjectRatingAggregated.t :=
  let allScores :=
    SubjectAcc.lectureScores subject ++ SubjectAcc.labScores subject in
  {| SubjectRatingAggregated.subjectId := SubjectAcc.subjectId subject;
     SubjectRatingAggregated.subjectName := SubjectAcc.subjectName subject;
     SubjectRatingAggregated.subjectAbbreviation :=
       SubjectAcc.subjectAbbreviation subject;
     SubjectRatingAggregated.subjectCode := SubjectAcc.subjectCode subject;
     SubjectRatingAggregated.lectureRating :=
       ratingOrNull (SubjectAcc.lectureScores subject);
     SubjectRatingAggregated.labRating :=
       ratingOrNull (SubjectAcc.labScores subject);
     SubjectRatingAggregated.overallRating := ratingOrZero allScores;
     SubjectRatingAggregated.lectureResponses :=
       List.length (SubjectAcc.lectureScores subject);
     SubjectRatingAggregated.labResponses :=
       List.length (SubjectAcc.labScores subject);
     SubjectRatingAggregated.totalResponses := List.length allScores;
     SubjectRatingAggregated.facultyCount :=
       JSSet.size (SubjectAcc.faculties subject);
     SubjectRatingAggregated.divisionCount :=
       JSSet.size (SubjectAcc.divisions subject) |}.

(** The comparator [(a, b) => b.rating - a.rating] is positive when the
    difference is. *)
Definition descending {A} (rating : A -> number) (a b : A) : bool :=
  gt (sub (rating b) (rating a)) zero.

(** [aggregateSubjectRatings] *)
Definition aggregateSubjectRatings (snapshots : list Snapshot)
  : list SubjectRatingAggregated.t :=
  sort (descending SubjectRatingAggregated.overallRating)
    (map subjectRow (JSMap.values (subjectMapOf snapshots))).

(** [aggregateFacultyPerformance], the loop filling [facultyMap] *)
Definition facultyMapOf (snapshots : list Snapshot)
  : JSMap.Map string FacultyAcc.t :=
  forEachScored
    (fun snapshot score facultyMap =>
       JSMap.ensureThen String.eqb (facultyId snapshot)
         {| FacultyAcc.facultyId := facultyId snapshot;
            FacultyAcc.facultyName := facultyName snapshot;
            FacultyAcc.facultyAbbreviation := facultyAbbreviation snapshot;
            FacultyAcc.designation :=
              orElse (facultyDesignation snapshot) "N/A";
            FacultyAcc.scores := [];
            FacultyAcc.subjects := [];
            FacultyAcc.divisions := [] |}
         (fun faculty =>
            {| FacultyAcc.facultyId := FacultyAcc.facultyId faculty;
               FacultyAcc.facultyName := FacultyAcc.facultyName faculty;
               FacultyAcc.facultyAbbreviation :=
                 FacultyAcc.facultyAbbreviation faculty;
               FacultyAcc.designation := FacultyAcc.designation faculty;
               FacultyAcc.scores := FacultyAcc.scores faculty ++ [score];
               FacultyAcc.subjects :=
                 JSSet.add (subjectId snapshot) (FacultyAcc.subjects faculty);
               FacultyAcc.divisions :=
                 JSSet.add (divisionId snapshot)
                   (FacultyAcc.divisions faculty) |})
         facultyMap)
    snapshots [].

Definition facultyRow (faculty : FacultyAcc.t)
  : FacultyPerformanceAggregated.t :=
  {| FacultyPerformanceAggregated.facultyId := FacultyAcc.facultyId faculty;
     FacultyPerformanceAggregated.facultyName :=
       FacultyAcc.facultyName faculty;
     FacultyPerformanceAggregated.facultyAbbreviation :=
       FacultyAcc.facultyAbbreviation faculty;
     FacultyPerformanceAggregated.designation :=
       FacultyAcc.designation faculty;
     FacultyPerformanceAggregated.averageRating :=
       ratingOrZero (FacultyAcc.scores faculty);
     FacultyPerformanceAggregated.totalResponses :=
       List.length (FacultyAcc.scores faculty);
     FacultyPerformanceAggregated.subjectCount :=
       JSSet.size (FacultyAcc.subjects faculty);
     FacultyPerformanceAggregated.divisionCount :=
       JSSet.size (FacultyAcc.divisions faculty);
     FacultyPerformanceAggregated.rank := 0 |}.

(** [aggregateFacultyPerformance] *)
Definition aggregateFacultyPerformance (snapshots : list Snapshot)
  : list FacultyPerformanceAggregated.t :=
  let facultyList :=
    sort (descending FacultyPerformanceAggregated.averageRating)
      (map facultyRow (JSMap.values (facultyMapOf snapshots))) in
  forEachIndexed
    (fun index faculty =>
       FacultyPerformanceAggregated.setRank (index + 1) faculty)
    0%nat facultyList.

(** [aggregateDivisionPerformance], the loop filling [divisionMap] *)
Definition divisionMapOf (snapshots : list Snapshot)
  : JSMap.Map string DivisionAcc.t :=
  forEachScored
    (fun snapshot score divisionMap =>
       JSMap.ensureThen String.eqb (divisionId snapshot)
         {| DivisionAcc.divisionId := divisionId snapshot;
            DivisionAcc.divisionName := divisionName snapshot;
            DivisionAcc.departmentName := departmentName snapshot;
            DivisionAcc.semesterNumber := semesterNumber snapshot;
            DivisionAcc.scores := [];
            DivisionAcc.faculties := [];
            DivisionAcc.subjects := [] |}
         (fun division =>
            {| DivisionAcc.divisionId := DivisionAcc.divisionId division;
               DivisionAcc.divisionName := DivisionAcc.divisionName division;
               DivisionAcc.departmentName :=
                 DivisionAcc.departmentName division;
               DivisionAcc.semesterNumber :=
                 DivisionAcc.semesterNumber division;
               DivisionAcc.scores := DivisionAcc.scores division ++ [score];
               DivisionAcc.faculties :=
                 JSSet.add (facultyId snapshot)
                   (DivisionAcc.faculties division);
               DivisionAcc.subjects :=
                 JSSet.add (subjectId snapshot)
                   (DivisionAcc.subjects division) |})
         divisionMap)
    snapshots [].

Definition divisionRow (division : DivisionAcc.t)
  : DivisionPerformanceAggregated.t :=
  {| DivisionPerformanceAggregated.divisionId :=
       DivisionAcc.divisionId division;
     DivisionPerformanceAggregated.divisionName :=
       DivisionAcc.divisionName division;
     DivisionPerformanceAggregated.departmentName :=
       DivisionAcc.departmentName division;
     DivisionPerformanceAggregated.semesterNumber :=
       DivisionAcc.semesterNumber division;
     DivisionPerformanceAggregated.averageRating :=
       ratingOrZero (DivisionAcc.scores division);
     DivisionPerformanceAggregated.totalResponses :=
       List.length (DivisionAcc.scores division);
     DivisionPerformanceAggregated.facultyCount :=
       JSSet.size (DivisionAcc.faculties division);
     DivisionPerformanceAggregated.subjectCount :=
       JSSet.size (DivisionAcc.subjects division) |}.

(** [aggregateAcademicYearTrends], the loop filling [yearMap] *)
Definition yearMapOf (snapshots : list Snapshot)
  : JSMap.Map string YearAcc.t :=
  forEachScored
    (fun snapshot score yearMap =>
       JSMap.ensureThen String.eqb (academicYearId snapshot)
         {| YearAcc.academicYearId := academicYearId snapshot;
            YearAcc.academicYearString := academicYearString snapshot;
            YearAcc.scores := [];
            YearAcc.departments := [];
            YearAcc.divisions := [] |}
         (fun year =>
            {| YearAcc.academicYearId := YearAcc.academicYearId year;
               YearAcc.academicYearString := YearAcc.academicYearString year;
               YearAcc.scores := YearAcc.scores year ++ [score];
               YearAcc.departments :=
                 JSSet.add (departmentId snapshot) (YearAcc.departments year);
               YearAcc.divisions :=
                 JSSet.add (divisionId snapshot) (YearAcc.divisions year) |})
         yearMap)
    snapshots [].

Definition yearRow (year : YearAcc.t) : AcademicYearTrendAggregated.t :=
  {| AcademicYearTrendAggregated.academicYearId :=
       YearAcc.academicYearId year;
     AcademicYearTrendAggregated.academicYearString :=
       YearAcc.academicYearString year;
     AcademicYearTrendAggregated.averageRating :=
       ratingOrZero (YearAcc.scores year);
     AcademicYearTrendAggregated.totalResponses :=
       List.length (YearAcc.scores year);
     AcademicYearTrendAggregated.departmentCount :=
       JSSet.size (YearAcc.departments year);
     AcademicYearTrendAggregated.divisionCount :=
       JSSet.size (YearAcc.divisions year) |}.

(* ---------------------------------------------------------------- *)
(** ** The database *)
(* ---------------------------------------------------------------- *)

(** The columns the service selects from the entity tables. *)
Record SemesterRow := {
  semester_id : string;
  semester_semesterNumber : Z;
  semester_academicYearId : string;
  semester_isDeleted : bool
}.

Record EntityRow := {
  entity_id : string;
  entity_name : string;
  entity_isDeleted : bool;
  entity_designation : option string
}.

(** The tables behind [prisma]; [entity_name] is [name] for a subject or
    a faculty and [divisionName] for a division, [entity_designation] is
    only read for a faculty. *)
Module Prisma.
Record t := {
  semester : list SemesterRow;
  subject : list EntityRow;
  faculty : list EntityRow;
  division : list EntityRow;
  feedbackSnapshot : list Snapshot
}.
End Prisma.
Abbreviation Database := Prisma.t.

(** [prisma.table.findUnique({ where: { id } })] *)
Definition findUnique (table : list EntityRow) (id : string)
  : option EntityRow :=
  find (fun row => String.eqb (entity_id row) id) table.

(** A [where] entry spread in only when the filter is given:
    [...(filter && { column: filter })]. *)
Definition whenGiven (filter : option string) (column : string) : bool :=
  if truthy filter
  then match filter with Some f => String.eqb column f | None => true end
  else true.

(* ---------------------------------------------------------------- *)
(** ** The older per-semester endpoints *)
(* ---------------------------------------------------------------- *)

Record SubjectWiseRatingOutput := {
  swr_subject : string;
  swr_lectureType : string;
  swr_averageRating : number;
  swr_responseCount : nat
}.

Record SemesterTrendAnalysisOutput := {
  sta_semester : number;
  sta_subject : string;
  sta_averageRating : number;
  sta_responseCount : nat
}.

(** [category?.toLowerCase().includes('laboratory') ||
     category?.toLowerCase().includes('lab')] *)
Definition namesLab (category : option string) : bool :=
  match category with
  | Some name =>
      includes (toLowerCase name) "laboratory"
      || includes (toLowerCase name) "lab"
  | None => false
  end.

(** [value && value.toLowerCase() !== 'none'] *)
Definition isBatch (value : option string) : bool :=
  truthy value
  && match value with
     | Some b => negb (String.eqb (toLowerCase b) "none")
     | None => false
     end.

(** [snapshots.map(parse).filter(score => score !== null)] *)
Definition numericResponses (snapshots : list Snapshot) : list number :=
  flat_map
    (fun s => match scoreOf (responseValue s) with
              | Some n => [n]
              | None => []
              end)
    snapshots.

(** [Number(avgRating.toFixed(2))] with
    [avgRating = length > 0 ? sum / length : 0] *)
Definition averageRatingOf (numeric : list number) : number :=
  toFixed2 (if (0 <? List.length numeric)%nat then average numeric else zero).

(** The longest run of hexadecimal digits at the front of [s]: its value
    read after the digits [acc], and how many digits it has. *)
Fixpoint takeHexDigits (acc : Z) (count : Z) (s : string) : Z * Z :=
  match s with
  | String c r =>
      match hexValue c with
      | Some d => takeHexDigits (16 * acc + Z.of_N d) (count + 1) r
      | None => (acc, count)
      end
  | EmptyString => (acc, count)
  end.

(** [parseInt(text)] on the text of a group key: white space, a sign, then
    the digits, hexadecimal after [0x] and decimal otherwise; [NaN] when
    there is no digit. *)
Definition parseInt (text : string) : number :=
  let t := trimStart text in
  let '(neg, u) :=
    match t with
    | String "-" r => (true, r)
    | String "+" r => (false, r)
    | _ => (false, t)
    end in
  let hexadecimal :=
    match u with
    | String "0" (String x r) =>
        if (Ascii.eqb x "x" || Ascii.eqb x "X")%bool then Some r else None
    | _ => None
    end in
  match hexadecimal with
  | Some digits =>
      let '(v, n) := takeHexDigits 0 0 digits in
      if n =? 0 then NaN else ofDecimal neg v 0
  | None =>
      let '(v, n, _) := takeDigits 0 0 u in
      if n =? 0 then NaN else ofDecimal neg v 0
  end.

(* ---------------------------------------------------------------- *)
(** ** [getCompleteAnalyticsData]: from the fetched snapshots to
       [subjectRatings] *)
(* ---------------------------------------------------------------- *)

Module CompleteAnalytics.

Record SubjectRating := {
  subjectId : string;
  subjectName : string;
  subjectAbbreviation : string;
  lectureType : string;
  averageRating : number;
  responseCount : nat;
  semesterNumber : number;
  academicYearId : string;
  facultyId : string;
  facultyName : string
}.

(** The [snapshotLectureType] of the [lectureType] filter. *)
Definition snapshotLectureType (snapshot : Snapshot) : LectureType :=
  if namesLab (questionCategoryName snapshot) then LAB
  else if isBatch (questionBatch snapshot) then LAB
  else LECTURE.

(** The [lectureType] of the grouping callback. *)
Definition groupLectureType (snapshot : Snapshot) : LectureType :=
  if namesLab (questionCategoryName snapshot) then LAB
  else LECTURE.

(** [if (lectureType) feedbackSnapshots = feedbackSnapshots.filter(...)] *)
Definition filterByLectureType (lectureType : option LectureType)
  (feedbackSnapshots : list Snapshot) : list Snapshot :=
  match lectureType with
  | Some wanted =>
      filter
        (fun snapshot =>
           LectureType_eqb (snapshotLectureType snapshot) wanted)
        feedbackSnapshots
  | None => feedbackSnapshots
  end.

(** The [subjectRatings] of the response, from the rows the query
    returned. *)
Definition subjectRatings (lectureType : option LectureType)
  (fetched : list Snapshot) : list SubjectRating :=
  let feedbackSnapshots := filterByLectureType lectureType fetched in
  let groupedSnapshots :=
    groupBy feedbackSnapshots
      (fun snapshot =>
         (Snapshot.subjectName snapshot
          ++ "|" ++ LectureType_name (groupLectureType snapshot)
          ++ "|" ++ ofInteger (Snapshot.semesterNumber snapshot))%string) in
  flat_map
    (fun entry =>
       let parts := split "|" (fst entry) in
       match snd entry with
       | firstSnapshot :: _ =>
           [ {| subjectId := Snapshot.subjectId firstSnapshot;
                subjectName := nth 0 parts EmptyString;
                subjectAbbreviation :=
                  Snapshot.subjectAbbreviation firstSnapshot;
                lectureType := nth 1 parts EmptyString;
                averageRating :=
                  averageRatingOf (numericResponses (snd entry));
                responseCount := List.length (snd entry);
                semesterNumber := parseInt (nth 2 parts EmptyString);
                academicYearId := Snapshot.academicYearId firstSnapshot;
                facultyId := Snapshot.facultyId firstSnapshot;
                facultyName := Snapshot.facultyName firstSnapshot |} ]
       | [] => []
       end)
    groupedSnapshots.

End CompleteAnalytics.

(* ---------------------------------------------------------------- *)
(** ** [getCompleteAnalyticsData]: from the fetched snapshots to
       [semesterTrends] *)
(* ---------------------------------------------------------------- *)

Module CompleteTrends.

Record SemesterTrend := {
  subject : string;
  semester : number;
  averageRating : number;
  responseCount : nat;
  academicYearId : string;
  academicYear : string
}.

(** The [semesterTrends] of the response, from the rows the query
    returned. *)
Definition semesterTrends (lectureType : option LectureType)
  (fetched : list Snapshot) : list SemesterTrend :=
  let feedbackSnapshots :=
    CompleteAnalytics.filterByLectureType lectureType fetched in
  let semesterTrendsGrouped :=
    groupBy feedbackSnapshots
      (fun snapshot =>
         (Snapshot.subjectName snapshot
          ++ "|" ++ ofInteger (Snapshot.semesterNumber snapshot))%string) in
  flat_map
    (fun entry =>
       let parts := split "|" (fst entry) in
       match snd entry with
       | firstSnapshot :: _ =>
           [ {| subject := nth 0 parts EmptyString;
                semester := parseInt (nth 1 parts EmptyString);
                averageRating :=
                  averageRatingOf (numericResponses (snd entry));
                responseCount := List.length (snd entry);
                academicYearId := Snapshot.academicYearId firstSnapshot;
                academicYear :=
                  Snapshot.academicYearString firstSnapshot |} ]
       | [] => []
       end)
    semesterTrendsGrouped.

End CompleteTrends.

(* ================================================================== *)
(** * Detail builders: results, accumulators, classification *)
(* ================================================================== *)

Definition doubleQuote : string := String Builtins.quote EmptyString.

(** The error thrown when the detail query returns no snapshot.  The three
    builders carry the same block, with [Subject], [Faculty] or [Division]
    as the [kind] and the entity's own table. *)
Definition notFound (kind : string) (table : list EntityRow) (id : string)
  : AppError :=
  match findUnique table id with
  | None =>
      {| message := (kind ++ " with ID " ++ id ++ " does not exist.")%string;
         statusCode := 404 |}
  | Some entity =>
      if entity_isDeleted entity then
        {| message :=
             (kind ++ " " ++ doubleQuote ++ entity_name entity ++ doubleQuote
              ++ " has been deleted.")%string;
           statusCode := 404 |}
      else
        {| message :=
             (kind ++ " " ++ doubleQuote ++ entity_name entity ++ doubleQuote
              ++ " has no feedback data matching the selected filters.")%string;
           statusCode := 404 |}
  end.

(** The flags every detail query asks to be [false]. *)
Definition notDeleted (s : Snapshot) : bool :=
  negb (isDeleted s) && negb (formIsDeleted s) && negb (questionIsDeleted s)
  && negb (semesterIsDeleted s) && negb (divisionIsDeleted s)
  && negb (subjectIsDeleted s) && negb (academicYearIsDeleted s).

Module SubjectDetail.

Record SubjectInfo := {
  id : string; name : string; abbreviation : string; code : string
}.

Record FacultyBreakdown := {
  facultyId : string;
  facultyName : string;
  facultyAbbreviation : string;
  lectureType : LectureType;
  rating : number;
  responses : nat;
  divisions : list string
}.

Record DivisionBreakdown := {
  divisionId : string;
  divisionName : string;
  division_lectureRating : option number;
  division_labRating : option number;
  totalRating : number;
  division_responses : nat
}.

Record QuestionBreakdown := {
  categoryId : string;
  categoryName : option string;
  avgRating : number;
  questionCount : nat
}.

Record t := {
  subject : SubjectInfo;
  overallRating : number;
  lectureRating : option number;
  labRating : option number;
  totalResponses : nat;
  lectureResponses : nat;
  labResponses : nat;
  facultyBreakdown : list FacultyBreakdown;
  divisionBreakdown : list DivisionBreakdown;
  questionBreakdown : list QuestionBreakdown
}.

Record FacultyEntry := {
  f_facultyId : string;
  f_facultyName : string;
  f_facultyAbbreviation : string;
  f_lectureType : LectureType;
  f_scores : list number;
  f_divisions : JSSet.StringSet
}.

Record DivisionEntry := {
  d_divisionId : string;
  d_divisionName : string;
  d_lectureScores : list number;
  d_labScores : list number
}.

Record CategoryEntry := {
  c_categoryId : string;
  c_categoryName : option string;
  c_scores : list number
}.

(** [deriveLectureType] of [getSubjectDetailedAnalytics] *)
Definition deriveLectureType (snapshot : Snapshot) : LectureType :=
  if namesLab (questionCategoryName snapshot) then LAB
  else if isBatch (questionBatch snapshot) then LAB
  else LECTURE.

(** The first loop: lecture and lab scores of the whole subject. *)
Definition splitScores (snapshots : list Snapshot)
  : list number * list number :=
  fold_left
    (fun acc s =>
       let score := scoreOf (responseValue s) in
       let lectureType := deriveLectureType s in
       match score with
       | Some n =>
           if gt n zero then
             match lectureType with
             | LECTURE => (fst acc ++ [n], snd acc)
             | LAB => (fst acc, snd acc ++ [n])
             end
           else acc
       | None => acc
       end)
    snapshots ([], []).

Definition facultyMapOf (snapshots : list Snapshot)
  : JSMap.Map string FacultyEntry :=
  forEachScored
    (fun s score facultyMap =>
       let lectureType := deriveLectureType s in
       let key :=
         (Snapshot.facultyId s ++ "-" ++ LectureType_name lectureType)%string
       in
       JSMap.ensureThen String.eqb key
         {| f_facultyId := Snapshot.facultyId s;
            f_facultyName := Snapshot.facultyName s;
            f_facultyAbbreviation := Snapshot.facultyAbbreviation s;
            f_lectureType := lectureType;
            f_scores := [];
            f_divisions := [] |}
         (fun faculty =>
            {| f_facultyId := f_facultyId faculty;
               f_facultyName := f_facultyName faculty;
               f_facultyAbbreviation := f_facultyAbbreviation faculty;
               f_lectureType := f_lectureType faculty;
               f_scores := f_scores faculty ++ [score];
               f_divisions :=
                 JSSet.add (Snapshot.divisionName s) (f_divisions faculty) |})
         facultyMap)
    snapshots [].

Definition divisionMapOf (snapshots : list Snapshot)
  : JSMap.Map string DivisionEntry :=
  forEachScored
    (fun s score divisionMap =>
       let lectureType := deriveLectureType s in
       JSMap.ensureThen String.eqb (Snapshot.divisionId s)
         {| d_divisionId := Snapshot.divisionId s;
            d_divisionName := Snapshot.divisionName s;
            d_lectureScores := [];
            d_labScores := [] |}
         (fun division =>
            {| d_divisionId := d_divisionId division;
               d_divisionName := d_divisionName division;
               d_lectureScores :=
                 match lectureType with
                 | LECTURE => d_lectureScores division ++ [score]
                 | LAB => d_lectureScores division
                 end;
               d_labScores :=
                 match lectureType with
                 | LECTURE => d_labScores division
                 | LAB => d_labScores division ++ [score]
                 end |})
         divisionMap)
    snapshots [].

(** The category loop also skips a snapshot without a category id. *)
Definition categoryMapOf (snapshots : list Snapshot)
  : JSMap.Map string CategoryEntry :=
  forEachScored
    (fun s score categoryMap =>
       if negb (truthy (questionCategoryId s)) then categoryMap
       else
         let categoryId :=
           match questionCategoryId s with
           | Some c => c
           | None => EmptyString
           end in
         JSMap.ensureThen String.eqb categoryId
           {| c_categoryId := categoryId;
              c_categoryName := questionCategoryName s;
              c_scores := [] |}
           (fun category =>
              {| c_categoryId := c_categoryId category;
                 c_categoryName := c_categoryName category;
                 c_scores := c_scores category ++ [score] |})
           categoryMap)
    snapshots [].

(** The [whereClause] of [getSubjectDetailedAnalytics] *)
Definition whereClause (subjectId : string)
  (academicYearId semesterId departmentId : option string) (s : Snapshot)
  : bool :=
  String.eqb (Snapshot.subjectId s) subjectId
  && notDeleted s && negb (departmentIsDeleted s)
  && whenGiven academicYearId (Snapshot.academicYearId s)
  && whenGiven semesterId (Snapshot.semesterId s)
  && whenGiven departmentId (Snapshot.departmentId s).

(** [getSubjectDetailedAnalytics] *)
Definition getSubjectDetailedAnalytics (prisma : Database)
  (subjectId : string) (academicYearId semesterId departmentId : option string)
  : outcome t :=
  let snapshots :=
    filter (whereClause subjectId academicYearId semesterId departmentId)
      (Prisma.feedbackSnapshot prisma) in
  match snapshots with
  | [] => Throw (AppErr (notFound "Subject" (Prisma.subject prisma) subjectId))
  | firstSnapshot :: _ =>
      let '(lectureScores, labScores) := splitScores snapshots in
      let allScores := lectureScores ++ labScores in
      let facultyBreakdown :=
        map
          (fun f =>
             {| facultyId := f_facultyId f;
                facultyName := f_facultyName f;
                facultyAbbreviation := f_facultyAbbreviation f;
                lectureType := f_lectureType f;
                rating := rounded (f_scores f);
                responses := List.length (f_scores f);
                divisions := f_divisions f |})
          (JSMap.values (facultyMapOf snapshots)) in
      let divisionBreakdown :=
        map
          (fun d =>
             let allDivScores := d_lectureScores d ++ d_labScores d in
             {| divisionId := d_divisionId d;
                divisionName := d_divisionName d;
                division_lectureRating := ratingOrNull (d_lectureScores d);
                division_labRating := ratingOrNull (d_labScores d);
                totalRating := ratingOrZero allDivScores;
                division_responses := List.length allDivScores |})
          (JSMap.values (divisionMapOf snapshots)) in
      let questionBreakdown :=
        map
          (fun c =>
             {| categoryId := c_categoryId c;
                categoryName := c_categoryName c;
                avgRating := rounded (c_scores c);
                questionCount := List.length (c_scores c) |})
          (JSMap.values (categoryMapOf snapshots)) in
      Return
        {| subject :=
             {| id := Snapshot.subjectId firstSnapshot;
                name := Snapshot.subjectName firstSnapshot;
                abbreviation := Snapshot.subjectAbbreviation firstSnapshot;
                code := Snapshot.subjectCode firstSnapshot |};
           overallRating := ratingOrZero allScores;
           lectureRating := ratingOrNull lectureScores;
           labRating := ratingOrNull labScores;
           totalResponses := List.length allScores;
           lectureResponses := List.length lectureScores;
           labResponses := List.length labScores;
           facultyBreakdown := facultyBreakdown;
           divisionBreakdown := divisionBreakdown;
           questionBreakdown := questionBreakdown |}
  end.

End SubjectDetail.

Module FacultyDetail.

Record FacultyInfo := {
  id : string; name : string; abbreviation : string; designation : string
}.

Record SubjectBreakdown := {
  subjectId : string;
  subjectName : string;
  subjectAbbreviation : string;
  lectureType : LectureType;
  rating : number;
  responses : nat;
  semester : Z;
  academicYear : string
}.

Record DivisionBreakdown := {
  divisionId : string;
  divisionName : string;
  division_subjectName : string;
  division_lectureType : LectureType;
  division_rating : number;
  division_responses : nat
}.

Record CategoryBreakdown := {
  category : string;
  avgRating : number;
  questionCount : nat
}.

Record Trend := {
  academicYearId : string;
  trend_academicYear : string;
  trend_semester : Z;
  trend_rating : number;
  trend_responses : nat
}.

Record t := {
  faculty : FacultyInfo;
  overallRating : number;
  totalResponses : nat;
  rank : nat;
  totalFaculty : nat;
  subjectBreakdown : list SubjectBreakdown;
  divisionBreakdown : list DivisionBreakdown;
  questionCategoryBreakdown : list CategoryBreakdown;
  trendData : list Trend
}.

Record ScoreEntry := { entry_name : string; entry_scores : list number }.

Record RankedFaculty := {
  ranked_facultyId : string;
  ranked_avgRating : number
}.

Record SubjectEntry := {
  s_subjectId : string;
  s_subjectName : string;
  s_subjectAbbreviation : string;
  s_lectureType : LectureType;
  s_scores : list number;
  s_semester : Z;
  s_academicYear : string
}.

Record DivisionEntry := {
  d_divisionId : string;
  d_divisionName : string;
  d_subjectName : string;
  d_lectureType : LectureType;
  d_scores : list number
}.

Record CategoryEntry := { c_category : string; c_scores : list number }.

Record TrendEntry := {
  t_academicYearId : string;
  t_academicYear : string;
  t_semester : Z;
  t_scores : list number
}.

(** [deriveLectureType] of [getFacultyDetailedAnalytics] *)
Definition deriveLectureType (snapshot : Snapshot) : LectureType :=
  if namesLab (questionCategoryName snapshot) then LAB
  else if isBatch (questionBatch snapshot) then LAB
  else LECTURE.

(** The [whereClause] of [getFacultyDetailedAnalytics] *)
Definition whereClause (facultyId : string) (academicYearId : option string)
  (s : Snapshot) : bool :=
  String.eqb (Snapshot.facultyId s) facultyId
  && notDeleted s
  && whenGiven academicYearId (Snapshot.academicYearId s).

(** The [where] of the second query, the one behind [allFacultySnapshots]. *)
Definition rankingWhere (academicYearId : option string) (s : Snapshot)
  : bool :=
  negb (isDeleted s) && negb (formIsDeleted s)
  && negb (academicYearIsDeleted s)
  && whenGiven academicYearId (Snapshot.academicYearId s).

(** The entry [facultyScoreMap.set] creates, and the push onto its
    scores. *)
Definition newScores (s : Snapshot) : ScoreEntry :=
  {| entry_name := Snapshot.facultyName s; entry_scores := [] |}.

Definition addScore (s : Snapshot) (score : number) (data : ScoreEntry)
  : ScoreEntry :=
  {| entry_name := entry_name data;
     entry_scores := entry_scores data ++ [score] |}.

(** The loop filling [facultyScoreMap] from [allFacultySnapshots]. *)
Definition facultyScoreMapOf (allFacultySnapshots : list Snapshot)
  : JSMap.Map string ScoreEntry :=
  forEachScored
    (fun s score facultyScoreMap =>
       JSMap.ensureThen String.eqb (Snapshot.facultyId s)
         (newScores s) (addScore s score) facultyScoreMap)
    allFacultySnapshots [].

(** [rankedFaculty]: the mean is not rounded here. *)
Definition rankedFacultyOf (allFacultySnapshots : list Snapshot)
  : list RankedFaculty :=
  sort (fun a b => gt (sub (ranked_avgRating b) (ranked_avgRating a)) zero)
    (map
       (fun entry =>
          {| ranked_facultyId := fst entry;
             ranked_avgRating := average (entry_scores (snd entry)) |})
       (JSMap.entries (facultyScoreMapOf allFacultySnapshots))).

Definition subjectMapOf (snapshots : list Snapshot)
  : JSMap.Map string SubjectEntry :=
  forEachScored
    (fun s score subjectMap =>
       let lectureType := deriveLectureType s in
       let key :=
         (Snapshot.subjectId s ++ "-" ++ LectureType_name lectureType)%string
       in
       JSMap.ensureThen String.eqb key
         {| s_subjectId := Snapshot.subjectId s;
            s_subjectName := Snapshot.subjectName s;
            s_subjectAbbreviation := Snapshot.subjectAbbreviation s;
            s_lectureType := lectureType;
            s_scores := [];
            s_semester := Snapshot.semesterNumber s;
            s_academicYear := Snapshot.academicYearString s |}
         (fun e =>
            {| s_subjectId := s_subjectId e;
               s_subjectName := s_subjectName e;
               s_subjectAbbreviation := s_subjectAbbreviation e;
               s_lectureType := s_lectureType e;
               s_scores := s_scores e ++ [score];
               s_semester := s_semester e;
               s_academicYear := s_academicYear e |})
         subjectMap)
    snapshots [].

Definition divisionMapOf (snapshots : list Snapshot)
  : JSMap.Map string DivisionEntry :=
  forEachScored
    (fun s score divisionMap =>
       let lectureType := deriveLectureType s in
       let key :=
         (Snapshot.divisionId s ++ "-" ++ Snapshot.subjectId s
          ++ "-" ++ LectureType_name lectureType)%string in
       JSMap.ensureThen String.eqb key
         {| d_divisionId := Snapshot.divisionId s;
            d_divisionName := Snapshot.divisionName s;
            d_subjectName := Snapshot.subjectName s;
            d_lectureType := lectureType;
            d_scores := [] |}
         (fun e =>
            {| d_divisionId := d_divisionId e;
               d_divisionName := d_divisionName e;
               d_subjectName := d_subjectName e;
               d_lectureType := d_lectureType e;
               d_scores := d_scores e ++ [score] |})
         divisionMap)
    snapshots [].

(** The category loop also skips a snapshot without a category name. *)
Definition categoryMapOf (snapshots : list Snapshot)
  : JSMap.Map string CategoryEntry :=
  forEachScored
    (fun s score categoryMap =>
       if negb (truthy (questionCategoryName s)) then categoryMap
       else
         let categoryName :=
           match questionCategoryName s with
           | Some c => c
           | None => EmptyString
           end in
         JSMap.ensureThen String.eqb categoryName
           {| c_category := categoryName; c_scores := [] |}
           (fun e =>
              {| c_category := c_category e;
                 c_scores := c_scores e ++ [score] |})
           categoryMap)
    snapshots [].

Definition trendMapOf (snapshots : list Snapshot)
  : JSMap.Map string TrendEntry :=
  forEachScored
    (fun s score trendMap =>
       let key :=
         (Snapshot.academicYearId s ++ "-"
          ++ ofInteger (Snapshot.semesterNumber s))%string in
       JSMap.ensureThen String.eqb key
         {| t_academicYearId := Snapshot.academicYearId s;
            t_academicYear := Snapshot.academicYearString s;
            t_semester := Snapshot.semesterNumber s;
            t_scores := [] |}
         (fun e =>
            {| t_academicYearId := t_academicYearId e;
               t_academicYear := t_academicYear e;
               t_semester := t_semester e;
               t_scores := t_scores e ++ [score] |})
         trendMap)
    snapshots [].

End FacultyDetail.

Module DivisionDetail.

Record DivisionInfo := {
  id : string; name : string; departmentName : string; semesterNumber : Z
}.

Record FacultyBreakdown := {
  facultyId : string;
  facultyName : string;
  facultyAbbreviation : string;
  faculty_subjectName : string;
  lectureType : LectureType;
  rating : number;
  responses : nat
}.

Record SubjectBreakdown := {
  subjectId : string;
  subjectName : string;
  subjectAbbreviation : string;
  lectureRating : option number;
  labRating : option number;
  totalRating : number;
  subject_responses : nat
}.

Record YearComparison := {
  academicYearId : string;
  academicYearString : string;
  year_rating : number;
  year_responses : nat
}.

Record t := {
  division : DivisionInfo;
  overallRating : number;
  totalResponses : nat;
  facultyBreakdown : list FacultyBreakdown;
  subjectBreakdown : list SubjectBreakdown;
  academicYearComparison : list YearComparison
}.

Record FacultyEntry := {
  f_facultyId : string;
  f_facultyName : string;
  f_facultyAbbreviation : string;
  f_subjectName : string;
  f_lectureType : LectureType;
  f_scores : list number
}.

Record SubjectEntry := {
  s_subjectId : string;
  s_subjectName : string;
  s_subjectAbbreviation : string;
  s_lectureScores : list number;
  s_labScores : list number
}.

Record YearEntry := {
  y_academicYearId : string;
  y_academicYearString : string;
  y_scores : list number
}.

(** [deriveLectureType] of [getDivisionDetailedAnalytics] *)
Definition deriveLectureType (snapshot : Snapshot) : LectureType :=
  if namesLab (questionCategoryName snapshot) then LAB
  else if isBatch (questionBatch snapshot) then LAB
  else LECTURE.

(** The [whereClause] of [getDivisionDetailedAnalytics] *)
Definition whereClause (divisionId : string) (academicYearId : option string)
  (s : Snapshot) : bool :=
  String.eqb (Snapshot.divisionId s) divisionId
  && notDeleted s && negb (departmentIsDeleted s)
  && whenGiven academicYearId (Snapshot.academicYearId s).

Definition facultyMapOf (snapshots : list Snapshot)
  : JSMap.Map string FacultyEntry :=
  forEachScored
    (fun s score facultyMap =>
       let lectureType := deriveLectureType s in
       let key :=
         (Snapshot.facultyId s ++ "-" ++ Snapshot.subjectId s
          ++ "-" ++ LectureType_name lectureType)%string in
       JSMap.ensureThen String.eqb key
         {| f_facultyId := Snapshot.facultyId s;
            f_facultyName := Snapshot.facultyName s;
            f_facultyAbbreviation := Snapshot.facultyAbbreviation s;
            f_subjectName := Snapshot.subjectName s;
            f_lectureType := lectureType;
            f_scores := [] |}
         (fun e =>
            {| f_facultyId := f_facultyId e;
               f_facultyName := f_facultyName e;
               f_facultyAbbreviation := f_facultyAbbreviation e;
               f_subjectName := f_subjectName e;
               f_lectureType := f_lectureType e;
               f_scores := f_scores e ++ [score] |})
         facultyMap)
    snapshots [].

(** The entry [subjectMap.set] creates for a subject. *)
Definition newSubject (s : Snapshot) : SubjectEntry :=
  {| s_subjectId := Snapshot.subjectId s;
     s_subjectName := Snapshot.subjectName s;
     s_subjectAbbreviation := Snapshot.subjectAbbreviation s;
     s_lectureScores := [];
     s_labScores := [] |}.

(** What the loop does to [subjectMap.get(s.subjectId)]. *)
Definition addToSubject (s : Snapshot) (score : number) (e : SubjectEntry)
  : SubjectEntry :=
  let lectureType := deriveLectureType s in
  {| s_subjectId := s_subjectId e;
     s_subjectName := s_subjectName e;
     s_subjectAbbreviation := s_subjectAbbreviation e;
     s_lectureScores :=
       match lectureType with
       | LECTURE => s_lectureScores e ++ [score]
       | LAB => s_lectureScores e
       end;
     s_labScores :=
       match lectureType with
       | LECTURE => s_labScores e
       | LAB => s_labScores e ++ [score]
       end |}.

Definition subjectMapOf (snapshots : list Snapshot)
  : JSMap.Map string SubjectEntry :=
  forEachScored
    (fun s score subjectMap =>
       JSMap.ensureThen String.eqb (Snapshot.subjectId s)
         (newSubject s) (addToSubject s score) subjectMap)
    snapshots [].

Definition subjectBreakdownRow (e : SubjectEntry) : SubjectBreakdown :=
  let allSubjectScores := s_lectureScores e ++ s_labScores e in
  {| subjectId := s_subjectId e;
     subjectName := s_subjectName e;
     subjectAbbreviation := s_subjectAbbreviation e;
     lectureRating := ratingOrNull (s_lectureScores e);
     labRating := ratingOrNull (s_labScores e);
     totalRating := ratingOrZero allSubjectScores;
     subject_responses := List.length allSubjectScores |}.

Definition yearMapOf (snapshots : list Snapshot)
  : JSMap.Map string YearEntry :=
  forEachScored
    (fun s score yearMap =>
       JSMap.ensureThen String.eqb (Snapshot.academicYearId s)
         {| y_academicYearId := Snapshot.academicYearId s;
            y_academicYearString := Snapshot.academicYearString s;
            y_scores := [] |}
         (fun e =>
            {| y_academicYearId := y_academicYearId e;
               y_academicYearString := y_academicYearString e;
               y_scores := y_scores e ++ [score] |})
         yearMap)
    snapshots [].

End DivisionDetail.

(* ================================================================== *)
(** * Builders that sort by a collation *)
(* ================================================================== *)

Section Service.

(** [a.localeCompare(b)]: negative, zero or positive.  The collation is
    the host's; the service is modelled for any. *)
Variable localeCompare : string -> string -> Z.

(** The order in which the database compares the strings it sorts by. *)
Variable databaseCompare : string -> string -> Z.

(** The comparator [(a, b) => a.name.localeCompare(b.name)]. *)
Definition byLocale {A} (name : A -> string) (a b : A) : bool :=
  0 <? localeCompare (name a) (name b).

(** [aggregateDivisionPerformance] *)
Definition aggregateDivisionPerformance (snapshots : list Snapshot)
  : list DivisionPerformanceAggregated.t :=
  sort (byLocale DivisionPerformanceAggregated.divisionName)
    (map divisionRow (JSMap.values (divisionMapOf snapshots))).

(** [aggregateAcademicYearTrends] *)
Definition aggregateAcademicYearTrends (snapshots : list Snapshot)
  : list AcademicYearTrendAggregated.t :=
  sort (byLocale AcademicYearTrendAggregated.academicYearString)
    (map yearRow (JSMap.values (yearMapOf snapshots))).

(** [aggregateSemesterTrends] *)
Definition aggregateSemesterTrends (snapshots : list Snapshot)
  : list SemesterTrendAggregated.t :=
  let semesterMap : JSMap.Map Z (JSMap.Map string YearScores.t) :=
    forEachScored
      (fun snapshot score semesterMap =>
         JSMap.ensureThen Z.eqb (semesterNumber snapshot) []
           (fun yearMap =>
              JSMap.ensureThen String.eqb (academicYearId snapshot)
                {| YearScores.academicYearId := academicYearId snapshot;
                   YearScores.academicYearString :=
                     academicYearString snapshot;
                   YearScores.scores := [] |}
                (fun year =>
                   {| YearScores.academicYearId :=
                        YearScores.academicYearId year;
                      YearScores.academicYearString :=
                        YearScores.academicYearString year;
                      YearScores.scores :=
                        YearScores.scores year ++ [score] |})
                yearMap)
           semesterMap)
      snapshots [] in
  sort
    (fun a b =>
       0 <? SemesterTrendAggregated.semesterNumber a
            - SemesterTrendAggregated.semesterNumber b)
    (map
       (fun entry =>
          {| SemesterTrendAggregated.semesterNumber := fst entry;
             SemesterTrendAggregated.academicYearData :=
               sort (byLocale SemesterTrendAggregated.academicYearString)
                 (map
                    (fun year =>
                       {| SemesterTrendAggregated.academicYearId :=
                            YearScores.academicYearId year;
                          SemesterTrendAggregated.academicYearString :=
                            YearScores.academicYearString year;
                          SemesterTrendAggregated.averageRating :=
                            ratingOrZero (YearScores.scores year);
                          SemesterTrendAggregated.responseCount :=
                            List.length (YearScores.scores year) |})
                    (JSMap.values (snd entry))) |})
       (JSMap.entries semesterMap)).

(** [aggregateDepartmentTrends] *)
Definition aggregateDepartmentTrends (snapshots : list Snapshot)
  : list DepartmentTrendAggregated.t :=
  let yearDeptMap : JSMap.Map string (JSMap.Map string DepartmentScores.t) :=
    forEachScored
      (fun snapshot score yearDeptMap =>
         JSMap.ensureThen String.eqb (academicYearString snapshot) []
           (fun deptMap =>
              JSMap.ensureThen String.eqb (departmentId snapshot)
                {| DepartmentScores.departmentId := departmentId snapshot;
                   DepartmentScores.departmentName :=
                     departmentName snapshot;
                   DepartmentScores.scores := [] |}
                (fun dept =>
                   {| DepartmentScores.departmentId :=
                        DepartmentScores.departmentId dept;
                      DepartmentScores.departmentName :=
                        DepartmentScores.departmentName dept;
                      DepartmentScores.scores :=
                        DepartmentScores.scores dept ++ [score] |})
                deptMap)
           yearDeptMap)
      snapshots [] in
  sort (byLocale DepartmentTrendAggregated.academicYearString)
    (map
       (fun entry =>
          {| DepartmentTrendAggregated.academicYearString := fst entry;
             DepartmentTrendAggregated.departmentData :=
               sort (byLocale DepartmentTrendAggregated.departmentName)
                 (map
                    (fun dept =>
                       {| DepartmentTrendAggregated.departmentId :=
                            DepartmentScores.departmentId dept;
                          DepartmentTrendAggregated.departmentName :=
                            DepartmentScores.departmentName dept;
                          DepartmentTrendAggregated.averageRating :=
                            ratingOrZero (DepartmentScores.scores dept);
                          DepartmentTrendAggregated.responseCount :=
                            List.length (DepartmentScores.scores dept) |})
                    (JSMap.values (snd entry))) |})
       (JSMap.entries yearDeptMap)).

(** [getSubjectWiseLectureLabRating] *)
Definition getSubjectWiseLectureLabRating (prisma : Database)
  (semesterId : string) (academicYearId : option string)
  : outcome (list SubjectWiseRatingOutput) :=
  match find (fun row => String.eqb (semester_id row) semesterId
                         && negb (semester_isDeleted row))
             (Prisma.semester prisma) with
  | None =>
      Throw (AppErr {| message := "Semester not found."; statusCode := 404 |})
  | Some semester =>
      let snapshots :=
        filter
          (fun s =>
             negb (isDeleted s) && negb (formDeleted s)
             && (Snapshot.semesterNumber s
                   =? semester_semesterNumber semester)
             && (if truthy academicYearId
                 then whenGiven academicYearId (Snapshot.academicYearId s)
                 else String.eqb (Snapshot.academicYearId s)
                        (semester_academicYearId semester)))
          (Prisma.feedbackSnapshot prisma) in
      if (List.length snapshots =? 0)%nat then
        Throw (AppErr
                 {| message :=
                      "No feedback data found for the given semester.";
                    statusCode := 404 |})
      else
        let groupedData :=
          groupBy snapshots
            (fun snapshot =>
               let lectureType :=
                 if namesLab (questionCategoryName snapshot) then LAB
                 else if isBatch (batch snapshot) then LAB
                 else LECTURE in
               (subjectName snapshot ++ "|" ++ LectureType_name lectureType)%string) in
        let subjectRatings :=
          map
            (fun entry =>
               let parts := split "|" (fst entry) in
               {| swr_subject := nth 0 parts EmptyString;
                  swr_lectureType := nth 1 parts EmptyString;
                  swr_averageRating :=
                    averageRatingOf (numericResponses (snd entry));
                  swr_responseCount := List.length (snd entry) |})
            groupedData in
        Return (sort (byLocale swr_subject) subjectRatings)
  end.

(** [orderBy: [{ academicYearString: 'asc' }, { semesterNumber: 'asc' },
    { subjectName: 'asc' }]]; rows the three columns do not tell apart
    stay in table order. *)
Definition trendOrder (a b : Snapshot) : bool :=
  let byYear :=
    databaseCompare (Snapshot.academicYearString a)
      (Snapshot.academicYearString b) in
  if negb (byYear =? 0) then 0 <? byYear
  else if negb (Snapshot.semesterNumber a =? Snapshot.semesterNumber b)
       then Snapshot.semesterNumber b <? Snapshot.semesterNumber a
       else 0 <? databaseCompare (subjectName a) (subjectName b).

(** [getSemesterTrendAnalysis] *)
Definition getSemesterTrendAnalysis (prisma : Database)
  (subjectId academicYearId : option string)
  : outcome (list SemesterTrendAnalysisOutput) :=
  let snapshots :=
    sort trendOrder
      (filter
         (fun s =>
            negb (isDeleted s) && negb (formDeleted s)
            && whenGiven subjectId (Snapshot.subjectId s)
            && whenGiven academicYearId (Snapshot.academicYearId s))
         (Prisma.feedbackSnapshot prisma)) in
  if (List.length snapshots =? 0)%nat then
    Throw (AppErr
             {| message := "No trend data available for the given criteria.";
                statusCode := 404 |})
  else
    let groupedData :=
      groupBy snapshots
        (fun snapshot =>
           (ofInteger (Snapshot.semesterNumber snapshot)
            ++ "|" ++ subjectName snapshot)%string) in
    let trends :=
      map
        (fun entry =>
           let parts := split "|" (fst entry) in
           {| sta_semester := parseInt (nth 0 parts EmptyString);
              sta_subject := nth 1 parts EmptyString;
              sta_averageRating :=
                averageRatingOf (numericResponses (snd entry));
              sta_responseCount := List.length (snd entry) |})
        groupedData in
    Return
      (sort
         (fun a b =>
            if negb (SFeqb (sta_semester a) (sta_semester b))
            then gt (sub (sta_semester a) (sta_semester b)) zero
            else 0 <? localeCompare (sta_subject a) (sta_subject b))
         trends).

(** [getFacultyDetailedAnalytics] *)
Definition getFacultyDetailedAnalytics (prisma : Database)
  (facultyId : string) (academicYearId : option string)
  : outcome FacultyDetail.t :=
  let snapshots :=
    filter (FacultyDetail.whereClause facultyId academicYearId)
      (Prisma.feedbackSnapshot prisma) in
  match snapshots with
  | [] => Throw (AppErr (notFound "Faculty" (Prisma.faculty prisma) facultyId))
  | firstSnapshot :: _ =>
      let faculty := findUnique (Prisma.faculty prisma) facultyId in
      let allScores := acceptedScores snapshots in
      let allFacultySnapshots :=
        filter (FacultyDetail.rankingWhere academicYearId)
          (Prisma.feedbackSnapshot prisma) in
      let rankedFaculty := FacultyDetail.rankedFacultyOf allFacultySnapshots in
      let rank :=
        findIndexPlus1
          (fun f => String.eqb (FacultyDetail.ranked_facultyId f) facultyId)
          rankedFaculty in
      let totalFaculty := List.length rankedFaculty in
      let subjectBreakdown :=
        map
          (fun e =>
             {| FacultyDetail.subjectId := FacultyDetail.s_subjectId e;
                FacultyDetail.subjectName := FacultyDetail.s_subjectName e;
                FacultyDetail.subjectAbbreviation :=
                  FacultyDetail.s_subjectAbbreviation e;
                FacultyDetail.lectureType := FacultyDetail.s_lectureType e;
                FacultyDetail.rating := rounded (FacultyDetail.s_scores e);
                FacultyDetail.responses :=
                  List.length (FacultyDetail.s_scores e);
                FacultyDetail.semester := FacultyDetail.s_semester e;
                FacultyDetail.academicYear :=
                  FacultyDetail.s_academicYear e |})
          (JSMap.values (FacultyDetail.subjectMapOf snapshots)) in
      let divisionBreakdown :=
        map
          (fun e =>
             {| FacultyDetail.divisionId := FacultyDetail.d_divisionId e;
                FacultyDetail.divisionName := FacultyDetail.d_divisionName e;
                FacultyDetail.division_subjectName :=
                  FacultyDetail.d_subjectName e;
                FacultyDetail.division_lectureType :=
                  FacultyDetail.d_lectureType e;
                FacultyDetail.division_rating :=
                  rounded (FacultyDetail.d_scores e);
                FacultyDetail.division_responses :=
                  List.length (FacultyDetail.d_scores e) |})
          (JSMap.values (FacultyDetail.divisionMapOf snapshots)) in
      let questionCategoryBreakdown :=
        map
          (fun e =>
             {| FacultyDetail.category := FacultyDetail.c_category e;
                FacultyDetail.avgRating := rounded (FacultyDetail.c_scores e);
                FacultyDetail.questionCount :=
                  List.length (FacultyDetail.c_scores e) |})
          (JSMap.values (FacultyDetail.categoryMapOf snapshots)) in
      let trendData :=
        sort
          (fun a b =>
             let byYear :=
               localeCompare (FacultyDetail.trend_academicYear a)
                 (FacultyDetail.trend_academicYear b) in
             0 <? (if negb (byYear =? 0) then byYear
                   else FacultyDetail.trend_semester a
                        - FacultyDetail.trend_semester b))
          (map
             (fun e =>
                {| FacultyDetail.academicYearId :=
                     FacultyDetail.t_academicYearId e;
                   FacultyDetail.trend_academicYear :=
                     FacultyDetail.t_academicYear e;
                   FacultyDetail.trend_semester := FacultyDetail.t_semester e;
                   FacultyDetail.trend_rating :=
                     rounded (FacultyDetail.t_scores e);
                   FacultyDetail.trend_responses :=
                     List.length (FacultyDetail.t_scores e) |})
             (JSMap.values (FacultyDetail.trendMapOf snapshots))) in
      Return
        {| FacultyDetail.faculty :=
             {| FacultyDetail.id := Snapshot.facultyId firstSnapshot;
                FacultyDetail.name := Snapshot.facultyName firstSnapshot;
                FacultyDetail.abbreviation :=
                  Snapshot.facultyAbbreviation firstSnapshot;
                FacultyDetail.designation :=
                  match faculty with
                  | Some row => orElse (entity_designation row) EmptyString
                  | None => EmptyString
                  end |};
           FacultyDetail.overallRating := ratingOrZero allScores;
           FacultyDetail.totalResponses := List.length allScores;
           FacultyDetail.rank := rank;
           FacultyDetail.totalFaculty := totalFaculty;
           FacultyDetail.subjectBreakdown := subjectBreakdown;
           FacultyDetail.divisionBreakdown := divisionBreakdown;
           FacultyDetail.questionCategoryBreakdown :=
             questionCategoryBreakdown;
           FacultyDetail.trendData := trendData |}
  end.

(** [getDivisionDetailedAnalytics] *)
Definition getDivisionDetailedAnalytics (prisma : Database)
  (divisionId : string) (academicYearId : option string)
  : outcome DivisionDetail.t :=
  let snapshots :=
    filter (DivisionDetail.whereClause divisionId academicYearId)
      (Prisma.feedbackSnapshot prisma) in
  match snapshots with
  | [] =>
      Throw (AppErr (notFound "Division" (Prisma.division prisma) divisionId))
  | firstSnapshot :: _ =>
      let allScores := acceptedScores snapshots in
      let facultyBreakdown :=
        map
          (fun e =>
             {| DivisionDetail.facultyId := DivisionDetail.f_facultyId e;
                DivisionDetail.facultyName := DivisionDetail.f_facultyName e;
                DivisionDetail.facultyAbbreviation :=
                  DivisionDetail.f_facultyAbbreviation e;
                DivisionDetail.faculty_subjectName :=
                  DivisionDetail.f_subjectName e;
                DivisionDetail.lectureType := DivisionDetail.f_lectureType e;
                DivisionDetail.rating := rounded (DivisionDetail.f_scores e);
                DivisionDetail.responses :=
                  List.length (DivisionDetail.f_scores e) |})
          (JSMap.values (DivisionDetail.facultyMapOf snapshots)) in
      let subjectBreakdown :=
        map DivisionDetail.subjectBreakdownRow
          (JSMap.values (DivisionDetail.subjectMapOf snapshots)) in
      let academicYearComparison :=
        sort (byLocale DivisionDetail.academicYearString)
          (map
             (fun e =>
                {| DivisionDetail.academicYearId :=
                     DivisionDetail.y_academicYearId e;
                   DivisionDetail.academicYearString :=
                     DivisionDetail.y_academicYearString e;
                   DivisionDetail.year_rating :=
                     rounded (DivisionDetail.y_scores e);
                   DivisionDetail.year_responses :=
                     List.length (DivisionDetail.y_scores e) |})
             (JSMap.values (DivisionDetail.yearMapOf snapshots))) in
      Return
        {| DivisionDetail.division :=
             {| DivisionDetail.id := Snapshot.divisionId firstSnapshot;
                DivisionDetail.name := Snapshot.divisionName firstSnapshot;
                DivisionDetail.departmentName :=
                  Snapshot.departmentName firstSnapshot;
                DivisionDetail.semesterNumber :=
                  Snapshot.semesterNumber firstSnapshot |};
           DivisionDetail.overallRating := ratingOrZero allScores;
           DivisionDetail.totalResponses := List.length allScores;
           DivisionDetail.facultyBreakdown := facultyBreakdown;
           DivisionDetail.subjectBreakdown := subjectBreakdown;
           DivisionDetail.academicYearComparison := academicYearComparison |}
  end.

End Service.

(* ================================================================== *)
(** * The faculty performance endpoints *)
(* ================================================================== *)

(** A row of the [AcademicYear] table. *)
Record AcademicYearRow := {
  academicYear_id : string;
  academicYear_yearString : string;
  academicYear_isDeleted : bool
}.

(** A feedback snapshot together with its [questionType] column, which
    only these endpoints read. *)
Record TypedSnapshot := {
  typed_snapshot : Snapshot;
  typed_questionType : string
}.

(** The tables behind the two endpoints. *)
Module PerformanceTables.
Record t := {
  faculty : list EntityRow;
  academicYear : list AcademicYearRow;
  feedbackSnapshot : list TypedSnapshot
}.
End PerformanceTables.

(** [{ sum: number; count: number }] *)
Module SemesterScore.
Record t := { sum : number; count : nat }.
End SemesterScore.

(** [FacultyPerformanceYearDataOutput]; [semesters] holds the members
    ['semester 1'] to ['semester 8'], in the order in which they are set. *)
Module FacultyPerformanceYearDataOutput.
Record t := {
  Faculty_name : string;
  academic_year : string;
  total_average : option number;
  semesters : list (string * option number)
}.
End FacultyPerformanceYearDataOutput.

(** The loop variables of [getFacultyPerformanceYearData]. *)
Module YearTotals.
Record t := {
  semesterScores : JSMap.Map Z SemesterScore.t;
  totalSum : number;
  totalCount : nat
}.
End YearTotals.

(** [FacultyAggregatedData] *)
Module FacultyAggregatedData.
Record t := {
  facultyId : string;
  Faculty_name : string;
  academic_year : string;
  semesters : JSMap.Map Z SemesterScore.t;
  totalSum : number;
  totalCount : nat
}.
End FacultyAggregatedData.

(** A row of [faculties] in [AllFacultyPerformanceDataOutput]. *)
Module FacultyPerformanceRow.
Record t := {
  facultyId : string;
  Faculty_name : string;
  academic_year : string;
  total_average : option number;
  total_responses : nat;
  semesters : list (string * option number)
}.
End FacultyPerformanceRow.

Module AllFacultyPerformanceDataOutput.
Record t := {
  academic_year : string;
  faculties : list FacultyPerformanceRow.t
}.
End AllFacultyPerformanceDataOutput.

(** [if (!semesters[semester]) semesters[semester] = { sum: 0, count: 0 };
    semesters[semester].sum += score; semesters[semester].count += 1].
    The object is only ever read under a semester number, which no member
    of [Object.prototype] is named by. *)
Definition addScore (semester : Z) (score : number)
  (semesters : JSMap.Map Z SemesterScore.t) : JSMap.Map Z SemesterScore.t :=
  let semesters :=
    if negb (JSMap.has Z.eqb semester semesters)
    then JSMap.set Z.eqb semester
           {| SemesterScore.sum := zero; SemesterScore.count := 0 |} semesters
    else semesters in
  JSMap.modify Z.eqb semester
    (fun scores =>
       {| SemesterScore.sum := add (SemesterScore.sum scores) score;
          SemesterScore.count := SemesterScore.count scores + 1 |})
    semesters.

(** [parseFloat((sum / count).toFixed(2))]: [parseFloat] reads the text
    that [toFixed] returns as [Number] does. *)
Definition fixedMean (sum : number) (count : nat) : number :=
  toFixed2 (div sum (ofNat count)).

(** [for (let i = 1; i <= maxSemesterNumber; i++)] with
    [maxSemesterNumber = 8] *)
Definition semesterIndices : list Z := [1; 2; 3; 4; 5; 6; 7; 8].

(** The name [`semester ${i}`] *)
Definition semesterMember (i : Z) : string := "semester " ++ ofInteger i.

(** The members ['semester 1'] to ['semester 8'] of a result with scores. *)
Definition semesterMembers (semesters : JSMap.Map Z SemesterScore.t)
  : list (string * option number) :=
  map
    (fun i =>
       (semesterMember i,
        match JSMap.get Z.eqb i semesters with
        | Some scores =>
            if (0 <? SemesterScore.count scores)%nat
            then Some (fixedMean (SemesterScore.sum scores)
                         (SemesterScore.count scores))
            else None
        | None => None
        end))
    semesterIndices.

(** [totalCount > 0 ? parseFloat((totalSum / totalCount).toFixed(2)) : null] *)
Definition totalAverage (totalSum : number) (totalCount : nat)
  : option number :=
  if (0 <? totalCount)%nat then Some (fixedMean totalSum totalCount) else None.

(** [academicYear?.yearString || 'Unknown Academic Year'], after
    [findUnique({ where: { id, isDeleted: false } })]. *)
Definition defaultAcademicYear (table : list AcademicYearRow) (id : string)
  : string :=
  orElse
    (option_map academicYear_yearString
       (find (fun row => String.eqb (academicYear_id row) id
                         && negb (academicYear_isDeleted row))
          table))
    "Unknown Academic Year".

(** The [findMany] of [getFacultyPerformanceYearData].
    [orderBy: { semesterNumber: 'asc' }]: rows of one semester stay in
    table order. *)
Definition facultyYearSnapshots (prisma : PerformanceTables.t)
  (academicYearId facultyId : string) : list Snapshot :=
  sort (fun a b => Snapshot.semesterNumber b <? Snapshot.semesterNumber a)
    (map typed_snapshot
       (filter
          (fun row =>
             String.eqb (Snapshot.facultyId (typed_snapshot row)) facultyId
             && String.eqb (Snapshot.academicYearId (typed_snapshot row))
                  academicYearId
             && String.eqb (typed_questionType row) "rating"
             && negb (formDeleted (typed_snapshot row))
             && negb (isDeleted (typed_snapshot row)))
          (PerformanceTables.feedbackSnapshot prisma))).

(** [getFacultyPerformanceYearData] *)
Definition getFacultyPerformanceYearData (prisma : PerformanceTables.t)
  (academicYearId facultyId : string) : FacultyPerformanceYearDataOutput.t :=
  let feedbackSnapshots :=
    facultyYearSnapshots prisma academicYearId facultyId in
  match feedbackSnapshots with
  | [] =>
      let faculty :=
        find (fun row => String.eqb (entity_id row) facultyId
                         && negb (entity_isDeleted row))
          (PerformanceTables.faculty prisma) in
      {| FacultyPerformanceYearDataOutput.Faculty_name :=
           orElse (option_map entity_name faculty) "Unknown Faculty";
         FacultyPerformanceYearDataOutput.academic_year :=
           defaultAcademicYear (PerformanceTables.academicYear prisma)
             academicYearId;
         FacultyPerformanceYearDataOutput.total_average := None;
         FacultyPerformanceYearDataOutput.semesters :=
           map (fun i => (semesterMember i, None)) semesterIndices |}
  | firstSnapshot :: _ =>
      let totals :=
        fold_left
          (fun totals snapshot =>
             let semester := Snapshot.semesterNumber snapshot in
             match scoreOf (responseValue snapshot) with
             | Some score =>
                 if negb (isNaN score) then
                   {| YearTotals.semesterScores :=
                        addScore semester score
                          (YearTotals.semesterScores totals);
                      YearTotals.totalSum :=
                        add (YearTotals.totalSum totals) score;
                      YearTotals.totalCount :=
                        YearTotals.totalCount totals + 1 |}
                 else totals
             | None => totals
             end)
          feedbackSnapshots
          {| YearTotals.semesterScores := [];
             YearTotals.totalSum := zero;
             YearTotals.totalCount := 0 |} in
      {| FacultyPerformanceYearDataOutput.Faculty_name :=
           Snapshot.facultyName firstSnapshot;
         FacultyPerformanceYearDataOutput.academic_year :=
           Snapshot.academicYearString firstSnapshot;
         FacultyPerformanceYearDataOutput.total_average :=
           totalAverage (YearTotals.totalSum totals)
             (YearTotals.totalCount totals);
         FacultyPerformanceYearDataOutput.semesters :=
           semesterMembers (YearTotals.semesterScores totals) |}
  end.

Section AllFaculties.

(** The order in which the database compares the strings it sorts by. *)
Variable databaseCompare : string -> string -> Z.

(** [orderBy: [{ facultyId: 'asc' }, { semesterNumber: 'asc' }]]; rows the
    two columns do not tell apart stay in table order. *)
Definition facultyOrder (a b : Snapshot) : bool :=
  let byFaculty :=
    databaseCompare (Snapshot.facultyId a) (Snapshot.facultyId b) in
  if negb (byFaculty =? 0) then 0 <? byFaculty
  else Snapshot.semesterNumber b <? Snapshot.semesterNumber a.

(** The [findMany] of [getAllFacultyPerformanceData]. *)
Definition academicYearSnapshots (prisma : PerformanceTables.t)
  (academicYearId : string) : list Snapshot :=
  sort facultyOrder
    (map typed_snapshot
       (filter
          (fun row =>
             String.eqb (Snapshot.academicYearId (typed_snapshot row))
               academicYearId
             && String.eqb (typed_questionType row) "rating"
             && negb (formDeleted (typed_snapshot row))
             && negb (isDeleted (typed_snapshot row)))
          (PerformanceTables.feedbackSnapshot prisma))).

(** [getAllFacultyPerformanceData].  [aggregatedData] is a plain object
    keyed by [facultyId]: for identifiers that are neither an array index
    nor the name of a member of [Object.prototype] (see [isPlainKey]),
    [!aggregatedData[facultyId]] tests that the entry is missing and
    [for ... in] visits the entries in insertion order. *)
Definition getAllFacultyPerformanceData (prisma : PerformanceTables.t)
  (academicYearId : string) : AllFacultyPerformanceDataOutput.t :=
  let feedbackSnapshots := academicYearSnapshots prisma academicYearId in
  match feedbackSnapshots with
  | [] =>
      {| AllFacultyPerformanceDataOutput.academic_year :=
           defaultAcademicYear (PerformanceTables.academicYear prisma)
             academicYearId;
         AllFacultyPerformanceDataOutput.faculties := [] |}
  | firstSnapshot :: _ =>
      let aggregatedData : JSMap.Map string FacultyAggregatedData.t :=
        fold_left
          (fun aggregatedData snapshot =>
             let facultyId := Snapshot.facultyId snapshot in
             let semester := Snapshot.semesterNumber snapshot in
             let aggregatedData :=
               if negb (JSMap.has String.eqb facultyId aggregatedData)
               then
                 JSMap.set String.eqb facultyId
                   {| FacultyAggregatedData.facultyId := facultyId;
                      FacultyAggregatedData.Faculty_name :=
                        Snapshot.facultyName snapshot;
                      FacultyAggregatedData.academic_year :=
                        Snapshot.academicYearString snapshot;
                      FacultyAggregatedData.semesters := [];
                      FacultyAggregatedData.totalSum := zero;
                      FacultyAggregatedData.totalCount := 0 |}
                   aggregatedData
               else aggregatedData in
             match scoreOf (responseValue snapshot) with
             | Some score =>
                 if negb (isNaN score) then
                   JSMap.modify String.eqb facultyId
                     (fun data =>
                        {| FacultyAggregatedData.facultyId :=
                             FacultyAggregatedData.facultyId data;
                           FacultyAggregatedData.Faculty_name :=
                             FacultyAggregatedData.Faculty_name data;
                           FacultyAggregatedData.academic_year :=
                             FacultyAggregatedData.academic_year data;
                           FacultyAggregatedData.semesters :=
                             addScore semester score
                               (FacultyAggregatedData.semesters data);
                           FacultyAggregatedData.totalSum :=
                             add (FacultyAggregatedData.totalSum data) score;
                           FacultyAggregatedData.totalCount :=
                             FacultyAggregatedData.totalCount data + 1 |})
                     aggregatedData
                 else aggregatedData
             | None => aggregatedData
             end)
          feedbackSnapshots [] in
      {| AllFacultyPerformanceDataOutput.academic_year :=
           Snapshot.academicYearString firstSnapshot;
         AllFacultyPerformanceDataOutput.faculties :=
           map
             (fun entry =>
                let facultyData := snd entry in
                {| FacultyPerformanceRow.facultyId :=
                     FacultyAggregatedData.facultyId facultyData;
                   FacultyPerformanceRow.Faculty_name :=
                     FacultyAggregatedData.Faculty_name facultyData;
                   FacultyPerformanceRow.academic_year :=
                     FacultyAggregatedData.academic_year facultyData;
                   FacultyPerformanceRow.total_average :=
                     totalAverage (FacultyAggregatedData.totalSum facultyData)
                       (FacultyAggregatedData.totalCount facultyData);
                   FacultyPerformanceRow.total_responses :=
                     FacultyAggregatedData.totalCount facultyData;
                   FacultyPerformanceRow.semesters :=
                     semesterMembers
                       (FacultyAggregatedData.semesters facultyData) |})
             (JSMap.entries aggregatedData) |}
  end.

End AllFaculties.

(* ================================================================== *)
(** * [getAnnualPerformanceTrend] *)
(* ================================================================== *)

(** A group of the [feedbackAnalytics.groupBy] query: the instant it
    stands for, in milliseconds since the epoch, and the two averages the
    database computed, [null] when the group has no such value. *)
Record AnnualTrendGroup := {
  calculatedAt : Z;
  avg_averageRating : option number;
  avg_completionRate : option number
}.

Record AnnualPerformanceTrendOutput := {
  apt_year : Z;
  apt_averageRating : number;
  apt_completionRate : number
}.

(** [Number(average?.toFixed(2) ?? 0)] *)
Definition fixedOrZero (average : option number) : number :=
  match average with
  | Some x => toFixed2 x
  | None => zero
  end.

Section AnnualTrend.

(** [new Date(instant).getFullYear()]: the year of the instant in the time
    zone of the server. *)
Variable getFullYear : Z -> Z.

(** [getAnnualPerformanceTrend], from the groups the query returned.  No
    error of the model is a [PrismaClientKnownRequestError], so the handler
    goes on to its last line. *)
Definition getAnnualPerformanceTrend (annualTrends : list AnnualTrendGroup)
  : outcome (list AnnualPerformanceTrendOutput) :=
  try_catch
    (if (List.length annualTrends =? 0)%nat then
       Throw (AppErr {| message := "No annual performance data available.";
                        statusCode := 404 |})
     else
       Return
         (map
            (fun trend =>
               {| apt_year := getFullYear (calculatedAt trend);
                  apt_averageRating := fixedOrZero (avg_averageRating trend);
                  apt_completionRate :=
                    fixedOrZero (avg_completionRate trend) |})
            annualTrends))
    (fun error =>
       Throw (AppErr {| message := "Error analyzing annual performance trends.";
                        statusCode := 500 |})).

End AnnualTrend.

(* ================================================================== *)
(** * The endpoints over the response tables *)
(* ================================================================== *)

(** The tables these endpoints read, with the columns they read; the
    student of a response and the names a question refers to are joined
    in. *)
Record StudentRow := {
  student_isDeleted : bool;
  student_batch : option string
}.

Record StudentResponseRow := {
  response_feedbackFormId : string;
  response_questionId : string;
  response_isDeleted : bool;
  response_responseValue : JSValue;
  response_student : option StudentRow
}.

Record FeedbackFormRow := {
  form_id : string;
  form_isDeleted : bool;
  form_divisionId : string;
  form_subjectAllocationId : string
}.

Record SubjectAllocationRow := {
  allocation_id : string;
  allocation_isDeleted : bool;
  allocation_semesterId : string;
  allocation_lectureType : LectureType
}.

Record FeedbackQuestionRow := {
  question_id : string;
  question_text : string;
  question_isDeleted : bool;
  question_formId : string;
  question_categoryName : option string;
  question_facultyName : option string;
  question_subjectName : option string
}.

Module ResponseTables.
Record t := {
  studentResponse : list StudentResponseRow;
  feedbackForm : list FeedbackFormRow;
  subjectAllocation : list SubjectAllocationRow;
  semester : list SemesterRow;
  division : list EntityRow;
  feedbackQuestion : list FeedbackQuestionRow
}.
End ResponseTables.

Record HighImpactFeedbackAreaOutput := {
  hia_question : string;
  hia_category : string;
  hia_faculty : string;
  hia_subject : string;
  hia_lowRatingCount : nat;
  hia_averageRating : number
}.

Record DivisionBatchComparisonOutput := {
  dbc_division : string;
  dbc_batch : string;
  dbc_averageRating : number;
  dbc_responseCount : nat
}.

Record LabLectureComparisonOutput := {
  llc_lectureType : string;
  llc_averageRating : number;
  llc_responseCount : nat;
  llc_formCount : nat
}.

(** [{ responses: any[]; forms: any[] }] *)
Record LectureTypeData := {
  ltd_responses : list StudentResponseRow;
  ltd_forms : list FeedbackFormRow
}.

Section ResponseEndpoints.

(** [String(n)] for a number [n]; the endpoints are modelled for any. *)
Variable numberToString : number -> string.

(** [String(v)] for the value of a JSON column.  An object is asked for
    its [toString] and then for its [valueOf], and the first that can be
    called and gives a primitive is taken.  A plain object answers
    ["[object Object]"] by the [toString] it inherits; one that owns a
    member named [toString] hides it by a value that cannot be called, the
    [valueOf] it inherits returns the object itself, and the conversion
    throws a [TypeError].  An array is the texts of its elements joined by
    commas, [null] and [undefined] among them giving the empty text. *)
Fixpoint toText (v : JSValue) : outcome string :=
  match v with
  | JUndefined => Return "undefined"
  | JNull => Return "null"
  | JBool true => Return "true"
  | JBool false => Return "false"
  | JNumber n => Return (numberToString n)
  | JString s => Return s
  | JArray elems =>
      texts <-
        mapThrowing
          (fun e =>
             match e with
             | JUndefined | JNull => Return EmptyString
             | _ => toText e
             end)
          elems ;;
      Return (String.concat "," texts)
  | JObject members =>
      match lookupLast "toString" members with
      | Some _ => Throw TypeError
      | None => Return "[object Object]"
      end
  end.

(** [responses.map((r) => parseFloat(String(r.responseValue)))
     .filter((value) => !isNaN(value))] *)
Definition numericValues (responses : list StudentResponseRow)
  : outcome (list number) :=
  values <-
    mapThrowing
      (fun r =>
         text <- toText (response_responseValue r) ;;
         Return (parseFloat text))
      responses ;;
  Return (filter (fun value => negb (isNaN value)) values).

Variable prisma : ResponseTables.t.

(** The row a relation leads to. *)
Definition formOf (id : string) : option FeedbackFormRow :=
  find (fun row => String.eqb (form_id row) id)
    (ResponseTables.feedbackForm prisma).
Definition allocationOf (id : string) : option SubjectAllocationRow :=
  find (fun row => String.eqb (allocation_id row) id)
    (ResponseTables.subjectAllocation prisma).
Definition semesterOf (id : string) : option SemesterRow :=
  find (fun row => String.eqb (semester_id row) id)
    (ResponseTables.semester prisma).
Definition divisionOf (id : string) : option EntityRow :=
  find (fun row => String.eqb (entity_id row) id)
    (ResponseTables.division prisma).

(** [subjectAllocation: { isDeleted: false, semesterId,
      semester: { isDeleted: false } }] on a form *)
Definition allocatedTo (semesterId : string) (form : FeedbackFormRow)
  : bool :=
  match allocationOf (form_subjectAllocationId form) with
  | Some allocation =>
      negb (allocation_isDeleted allocation)
      && String.eqb (allocation_semesterId allocation) semesterId
      && match semesterOf (allocation_semesterId allocation) with
         | Some semester => negb (semester_isDeleted semester)
         | None => false
         end
  | None => false
  end.

(** The questions [getHighImpactFeedbackAreas] fetches, and the responses
    included with a question. *)
Definition questionsOf (semesterId : string) : list FeedbackQuestionRow :=
  filter
    (fun question =>
       negb (question_isDeleted question)
       && match formOf (question_formId question) with
          | Some form =>
              negb (form_isDeleted form) && allocatedTo semesterId form
          | None => false
          end)
    (ResponseTables.feedbackQuestion prisma).

Definition responsesTo (question : FeedbackQuestionRow)
  : list StudentResponseRow :=
  filter
    (fun r =>
       String.eqb (response_questionId r) (question_id question)
       && negb (response_isDeleted r))
    (ResponseTables.studentResponse prisma).

(** [numericResponses.filter((val) => val < LOW_RATING_THRESHOLD)] with
    [LOW_RATING_THRESHOLD = 3] *)
Definition lowRated (numericResponses : list number) : list number :=
  filter (fun val => lt val (ofZ 3)) numericResponses.

(** [getHighImpactFeedbackAreas], with [SIGNIFICANT_COUNT = 5] *)
Definition getHighImpactFeedbackAreas (semesterId : string)
  : outcome (list HighImpactFeedbackAreaOutput) :=
  let questionsWithResponses := questionsOf semesterId in
  significantLowRatedQuestions <-
    fold_left
      (fun pushed question =>
         significantLowRatedQuestions <- pushed ;;
         numericResponses <- numericValues (responsesTo question) ;;
         let lowRatedResponses := lowRated numericResponses in
         if (5 <=? List.length lowRatedResponses)%nat then
           Return
             (significantLowRatedQuestions
              ++ [ {| hia_question := question_text question;
                      hia_category :=
                        orElse (question_categoryName question) "N/A";
                      hia_faculty :=
                        orElse (question_facultyName question) "N/A";
                      hia_subject :=
                        orElse (question_subjectName question) "N/A";
                      hia_lowRatingCount := List.length lowRatedResponses;
                      hia_averageRating :=
                        averageRatingOf numericResponses |} ])
         else Return significantLowRatedQuestions)
      questionsWithResponses (Return []) ;;
  if (List.length significantLowRatedQuestions =? 0)%nat then
    Throw (AppErr {| message := "No significant low-rated areas found.";
                     statusCode := 404 |})
  else Return significantLowRatedQuestions.

(** The forms of a semester, as [getDivisionBatchComparisons] and
    [getLabLectureComparison] fetch them. *)
Definition formsOfDivisions (semesterId : string) : list FeedbackFormRow :=
  filter
    (fun form =>
       negb (form_isDeleted form)
       && allocatedTo semesterId form
       && match divisionOf (form_divisionId form) with
          | Some division => negb (entity_isDeleted division)
          | None => false
          end)
    (ResponseTables.feedbackForm prisma).

Definition formsOf (semesterId : string) : list FeedbackFormRow :=
  filter
    (fun form => negb (form_isDeleted form) && allocatedTo semesterId form)
    (ResponseTables.feedbackForm prisma).

(** [studentResponse.findMany({ where: { feedbackFormId: form.id,
      isDeleted: false } })] *)
Definition responsesOn (form : FeedbackFormRow) : list StudentResponseRow :=
  filter
    (fun r =>
       String.eqb (response_feedbackFormId r) (form_id form)
       && negb (response_isDeleted r))
    (ResponseTables.studentResponse prisma).

(** [responses.filter((r) => r.student && !r.student.isDeleted)] *)
Definition activeResponsesOn (form : FeedbackFormRow)
  : list StudentResponseRow :=
  filter
    (fun r =>
       match response_student r with
       | Some student => negb (student_isDeleted student)
       | None => false
       end)
    (responsesOn form).

(** [response.student?.batch || 'Unknown'] *)
Definition batchOf (response : StudentResponseRow) : string :=
  orElse
    match response_student response with
    | Some student => student_batch student
    | None => None
    end
    "Unknown".

(** [batchGroups], made from the active responses of one form. *)
Definition batchGroupsOf (activeResponses : list StudentResponseRow)
  : outcome (JSObject.t (list StudentResponseRow)) :=
  fold_left
    (fun groups response =>
       batchGroups <- groups ;;
       JSObject.push (batchOf response) response batchGroups)
    activeResponses (Return []).

(** [getDivisionBatchComparisons] *)
Definition getDivisionBatchComparisons (semesterId : string)
  : outcome (list DivisionBatchComparisonOutput) :=
  let forms := formsOfDivisions semesterId in
  if (List.length forms =? 0)%nat then
    Throw (AppErr
             {| message :=
                  "No comparison data available for the given semester.";
                statusCode := 404 |})
  else
    fold_left
      (fun data form =>
         comparisonData <- data ;;
         match divisionOf (form_divisionId form) with
         | None => Return comparisonData
         | Some division =>
             batchGroups <- batchGroupsOf (activeResponsesOn form) ;;
             pushed <-
               mapThrowing
                 (fun entry =>
                    numericBatchResponses <- numericValues (snd entry) ;;
                    Return
                      {| dbc_division := entity_name division;
                         dbc_batch := fst entry;
                         dbc_averageRating :=
                           averageRatingOf numericBatchResponses;
                         dbc_responseCount := List.length (snd entry) |})
                 (JSObject.entries batchGroups) ;;
             Return (comparisonData ++ pushed)
         end)
      forms (Return []).

(** [getLabLectureComparison].  [lectureTypeData] is a plain object whose
    keys are names of lecture types: it keeps them in insertion order and
    inherits none of them. *)
Definition getLabLectureComparison (semesterId : string)
  : outcome (list LabLectureComparisonOutput) :=
  let forms := formsOf semesterId in
  if (List.length forms =? 0)%nat then
    Throw (AppErr
             {| message :=
                  "No comparison data available for the given semester.";
                statusCode := 404 |})
  else
    let lectureTypeData : JSMap.Map string LectureTypeData :=
      fold_left
        (fun lectureTypeData form =>
           let lectureType :=
             match allocationOf (form_subjectAllocationId form) with
             | Some allocation =>
                 LectureType_name (allocation_lectureType allocation)
             | None => "LECTURE"
             end in
           let lectureTypeData :=
             if negb (JSMap.has String.eqb lectureType lectureTypeData)
             then JSMap.set String.eqb lectureType
                    {| ltd_responses := []; ltd_forms := [] |}
                    lectureTypeData
             else lectureTypeData in
           let lectureTypeData :=
             JSMap.modify String.eqb lectureType
               (fun data =>
                  {| ltd_responses := ltd_responses data;
                     ltd_forms := ltd_forms data ++ [form] |})
               lectureTypeData in
           JSMap.modify String.eqb lectureType
             (fun data =>
                {| ltd_responses := ltd_responses data ++ responsesOn form;
                   ltd_forms := ltd_forms data |})
             lectureTypeData)
        forms [] in
    mapThrowing
      (fun entry =>
         numericResponses <- numericValues (ltd_responses (snd entry)) ;;
         Return
           {| llc_lectureType := fst entry;
              llc_averageRating := averageRatingOf numericResponses;
              llc_responseCount := List.length (ltd_responses (snd entry));
              llc_formCount := List.length (ltd_forms (snd entry)) |})
      (JSMap.entries lectureTypeData).

End ResponseEndpoints.

(* ================================================================== *)
(** * Notions used in the statements *)
(* ================================================================== *)

(** A number above zero: [+Infinity] or a finite number with a plus sign. *)
Definition isPositive (x : number) : bool :=
  match x with
  | S754_infinity false | S754_finite false _ _ => true
  | _ => false
  end.

(** A record counts when its response parses to a score above zero. *)
Definition scored (s : Snapshot) : bool :=
  accepted (scoreOf (responseValue s)).

(** The score of a record that counts. *)
Definition scoreValue (s : Snapshot) : number :=
  match scoreOf (responseValue s) with
  | Some n => n
  | None => zero
  end.

(** [snapshot.lectureType === 'LECTURE'], the test by which
    [aggregateSubjectRatings] sorts a score into its lecture or lab list. *)
Definition storedAsLecture (s : Snapshot) : bool :=
  match lectureType s with
  | Some t => String.eqb t "LECTURE"
  | None => false
  end.

(** How many different strings a list holds. *)
Definition distinctCount (l : list string) : nat :=
  List.length (nodup string_dec l).

(** The mean of a list of scores as the service reports it:
    [sum / count], rounded to two decimals. *)
Definition reportedMean (scores : list number) : number :=
  toFixed2 (div (fold_left add scores zero) (ofNat (List.length scores))).

(** The mean of a group by the convention of the service: the reported
    mean when there is a score, otherwise [null] for a rating broken out by
    lecture type, and [0] for a combined rating. *)
Definition meanOrNull (scores : list number) : option number :=
  match scores with
  | [] => None
  | _ => Some (reportedMean scores)
  end.

Definition meanOrZero (scores : list number) : number :=
  match scores with
  | [] => zero
  | _ => reportedMean scores
  end.

(** The text of an optional column that is present. *)
Definition textOf (o : option string) : string :=
  match o with
  | Some text => text
  | None => EmptyString
  end.

(** Every row of [rows] reports as its [rating] the mean, by the
    convention [mean], of the scores above zero of the records of
    [snapshots] that have the key of the row. *)
Definition reportsMeans {Row K} (mean : list number -> number)
  (eqb : K -> K -> bool) (key : Snapshot -> K) (keyOf : Row -> K)
  (rating : Row -> number) (snapshots : list Snapshot) (rows : list Row)
  : Prop :=
  forall row,
    In row rows ->
    rating row
    = mean (acceptedScores
              (filter (fun s => eqb (key s) (keyOf row)) snapshots)).

(** The same for rows that do not show their whole key: every row stands
    for the group of a record that counts, shows what [shown] says of that
    record, and reports the mean of the group. *)
Definition reportsGroupMeans {Row} (key : Snapshot -> string)
  (shown : Row -> Snapshot -> Prop) (rating : Row -> number)
  (snapshots : list Snapshot) (rows : list Row) : Prop :=
  forall row,
    In row rows ->
    exists first,
      In first snapshots /\ scored first = true /\ shown row first
      /\ rating row
         = reportedMean
             (acceptedScores
                (filter (fun s => String.eqb (key s) (key first)) snapshots)).
(** A grouping loop of the service, in general: every record that counts
    goes to the entry of its [key], created from the first such record by
    [init] and changed by [update] once per record. *)
Section Grouping.
Variables K V : Type.
Variable eqb : K -> K -> bool.
Variable key : Snapshot -> K.
Variable init : Snapshot -> V.
Variable update : Snapshot -> number -> V -> V.

Definition groupingLoop (snapshots : list Snapshot) : JSMap.Map K V :=
  forEachScored
    (fun s score m => JSMap.ensureThen eqb (key s) (init s) (update s score) m)
    snapshots [].

(** The records that count and have the key [k], in input order. *)
Definition groupOf (k : K) (snapshots : list Snapshot) : list Snapshot :=
  filter (fun s => scored s && eqb (key s) k) snapshots.

(** The entry a group ends with. *)
Definition entryOf (group : list Snapshot) : option V :=
  match group with
  | [] => None
  | first :: _ =>
      Some (fold_left (fun v s => update s (scoreValue s) v) group (init first))
  end.
End Grouping.

(** A collation for the examples: the order of the code units. *)
Definition codeUnitCompare (a b : string) : Z :=
  match String.compare a b with
  | Lt => -1
  | Eq => 0
  | Gt => 1
  end.

(** What [localeCompare] gives in an English locale on words, texts made
    of ASCII letters, digits and spaces (the root collation of Unicode,
    which those locales use, at its default strength): the texts are
    compared without regard to case first, a space before a digit before
    a letter, a text before its extensions; texts that differ in case
    only are told apart at the first letter where they differ, the small
    letter first. *)
Definition isCapital (c : ascii) : bool :=
  ((65 <=? codeUnit c) && (codeUnit c <=? 90))%N.

Fixpoint caseOf (s : string) : string :=
  match s with
  | EmptyString => EmptyString
  | String c r => String (if isCapital c then "1" else "0")%char (caseOf r)
  end.

Definition wordCompare (a b : string) : Z :=
  match String.compare (toLowerCase a) (toLowerCase b) with
  | Lt => -1
  | Gt => 1
  | Eq => codeUnitCompare (caseOf a) (caseOf b)
  end.

(** The rows stand for the groups, one row each: the keys the rows show
    are distinct, and a key is shown exactly when a record that counts has
    it. *)
Definition oneRowPerGroup {Row K} (key : Snapshot -> K) (keyOf : Row -> K)
  (snapshots : list Snapshot) (rows : list Row) : Prop :=
  NoDup (map keyOf rows)
  /\ forall k : K,
       In k (map keyOf rows)
       <-> exists s, In s snapshots /\ scored s = true /\ key s = k.


(** The rows stand for the groups, one row each, and every row reports as
    its [rating] the mean of its group. *)
Definition meansOfGroups {Row} (mean : list number -> number)
  (key : Snapshot -> string) (keyOf : Row -> string) (rating : Row -> number)
  (snapshots : list Snapshot) (rows : list Row) : Prop :=
  oneRowPerGroup key keyOf snapshots rows
  /\ reportsMeans mean String.eqb key keyOf rating snapshots rows.

(** The same for rows that split the scores of their group in two: one
    row per group; the lecture rating of a row is the mean of the scores
    of the records of its group that pass [isLecture], [null] exactly
    when there is none; its lab rating is that of the records that pass
    [isLab]; its combined rating is the mean of both lists together. *)
Definition splitMeansOfGroups {Row} (key : Snapshot -> string)
  (keyOf : Row -> string) (isLecture isLab : Snapshot -> bool)
  (lectureRating labRating : Row -> option number)
  (combinedRating : Row -> number) (snapshots : list Snapshot)
  (rows : list Row) : Prop :=
  oneRowPerGroup key keyOf snapshots rows
  /\ forall row,
       In row rows ->
       let ofGroup :=
         filter (fun s => String.eqb (key s) (keyOf row)) snapshots in
       let lecture := acceptedScores (filter isLecture ofGroup) in
       let lab := acceptedScores (filter isLab ofGroup) in
       lectureRating row = meanOrNull lecture
       /\ labRating row = meanOrNull lab
       /\ combinedRating row = meanOrZero (lecture ++ lab)
       /\ (lectureRating row = None <-> lecture = [])
       /\ (labRating row = None <-> lab = []).

(** The same for rows that do not show their whole key: there are as many
    rows as groups, and every record that counts has a row that shows what
    [shown] says of the first record of its group and reports the mean of
    the group. *)
Definition meansOfHiddenGroups {Row} (key : Snapshot -> string)
  (shown : Row -> Snapshot -> Prop) (rating : Row -> number)
  (snapshots : list Snapshot) (rows : list Row) : Prop :=
  reportsGroupMeans key shown rating snapshots rows
  /\ List.length rows = distinctCount (map key (filter scored snapshots))
  /\ forall s,
       In s snapshots -> scored s = true ->
       exists row first,
         In row rows /\ In first snapshots /\ key first = key s
         /\ shown row first
         /\ rating row
            = reportedMean
                (acceptedScores
                   (filter (fun x => String.eqb (key x) (key s)) snapshots)).

(** [!text.includes('|')] *)
Definition hasNoBar (text : string) : bool := negb (includes text "|").

(** The text made of the decimal digits [ds], followed by [rest], and the
    number the digits denote after the digits read so far. *)
Fixpoint digitsText (ds : list Z) (rest : string) : string :=
  match ds with
  | [] => rest
  | d :: r => String (ascii_of_N (Z.to_N (48 + d))) (digitsText r rest)
  end.

Fixpoint digitsValue (acc : Z) (ds : list Z) : Z :=
  match ds with
  | [] => acc
  | d :: r => digitsValue (10 * acc + d) r
  end.

(** The record has a score, of either sign. *)
Definition parsed (s : Snapshot) : bool :=
  match scoreOf (responseValue s) with
  | Some _ => true
  | None => false
  end.

(** A value [String] throws on: an object that owns a member named
    [toString], or an array that holds such a value, at any depth. *)
Fixpoint hasNoText (v : JSValue) : bool :=
  match v with
  | JObject members =>
      match lookupLast "toString" members with
      | Some _ => true
      | None => false
      end
  | JArray elems => existsb hasNoText elems
  | _ => false
  end.

(** The text of a value that has one. *)
Definition textOfValue (numberToString : number -> string) (v : JSValue)
  : string :=
  match toText numberToString v with
  | Return text => text
  | Throw _ => EmptyString
  end.

(** The numbers among responses that all have a text: what [parseFloat]
    reads in the text of each, those that are [NaN] left out. *)
Definition numbersOf (numberToString : number -> string)
  (responses : list StudentResponseRow) : list number :=
  filter (fun value => negb (isNaN value))
    (map
       (fun r =>
          parseFloat (textOfValue numberToString (response_responseValue r)))
       responses).

(** One of the responses has a value without a text. *)
Definition someWithoutText (responses : list StudentResponseRow) : bool :=
  existsb (fun r => hasNoText (response_responseValue r)) responses.

(** A state of the JSON parser that cannot end in a number: an array or an
    object is open, or the value read is not a number. *)
Definition pastNumber (st : list frame * expect) : Prop :=
  match snd st with
  | EDone (JNumber _) => False
  | EDone _ => True
  | _ => fst st <> []
  end.

(* ================================================================== *)
(** * Sample data *)
(* ================================================================== *)

Module Samples.

(** A record of the academic year 2024-25, semester 3; names double as
    identifiers. *)
Definition record (subject faculty division : string)
  (category questionBatch lectureType : option string) (value : JSValue)
  : Snapshot :=
  {| academicYearId := "ay-2024";
     academicYearString := "2024-25";
     departmentId := "dept-ce";
     departmentName := "Computer Engineering";
     semesterId := "sem-3";
     semesterNumber := 3;
     divisionId := division;
     divisionName := division;
     subjectId := subject;
     subjectName := subject;
     subjectAbbreviation := subject;
     subjectCode := subject;
     facultyId := faculty;
     facultyName := faculty;
     facultyAbbreviation := faculty;
     facultyDesignation := None;
     studentId := Some "student-1";
     questionCategoryId := Some "category-1";
     questionCategoryName := category;
     questionBatch := questionBatch;
     batch := None;
     responseValue := value;
     lectureType := lectureType;
     isDeleted := false;
     formDeleted := false;
     formIsDeleted := false;
     questionIsDeleted := false;
     semesterIsDeleted := false;
     divisionIsDeleted := false;
     subjectIsDeleted := false;
     departmentIsDeleted := false;
     academicYearIsDeleted := false |}.

Definition database (snapshots : list Snapshot) : Database :=
  {| Prisma.semester :=
       [ {| semester_id := "sem-3";
            semester_semesterNumber := 3;
            semester_academicYearId := "ay-2024";
            semester_isDeleted := false |} ];
     Prisma.subject :=
       [ {| entity_id := "Maths"; entity_name := "Maths";
            entity_isDeleted := false; entity_designation := None |};
         {| entity_id := "Physics"; entity_name := "Physics";
            entity_isDeleted := false; entity_designation := None |};
         {| entity_id := "Alchemy"; entity_name := "Alchemy";
            entity_isDeleted := true; entity_designation := None |} ];
     Prisma.faculty :=
       [ {| entity_id := "Asha"; entity_name := "Asha";
            entity_isDeleted := false;
            entity_designation := Some "Professor" |};
         {| entity_id := "Bina"; entity_name := "Bina";
            entity_isDeleted := false;
            entity_designation := Some "Lecturer" |};
         {| entity_id := "Chetan"; entity_name := "Chetan";
            entity_isDeleted := false; entity_designation := None |};
         {| entity_id := "Dev"; entity_name := "Dev";
            entity_isDeleted := true; entity_designation := None |};
         {| entity_id := "Esha"; entity_name := "Esha";
            entity_isDeleted := false; entity_designation := None |} ];
     Prisma.division :=
       [ {| entity_id := "A"; entity_name := "A";
            entity_isDeleted := false; entity_designation := None |};
         {| entity_id := "B"; entity_name := "B";
            entity_isDeleted := false; entity_designation := None |};
         {| entity_id := "C"; entity_name := "C";
            entity_isDeleted := true; entity_designation := None |};
         {| entity_id := "D"; entity_name := "D";
            entity_isDeleted := false; entity_designation := None |} ];
     Prisma.feedbackSnapshot := snapshots |}.

(** A theory question answered in a lab batch of a lecture allocation. *)
Definition theoryInBatch : Snapshot :=
  record "Maths" "Asha" "A" (Some "Theory") (Some "A1") (Some "LECTURE")
    (JString "4").

(** A rating of 4 and a raw score ["0"], same subject and question category,
    other faculty and division. *)
Definition rated4 : Snapshot :=
  record "Maths" "Asha" "A" (Some "Theory") None (Some "LECTURE") (JString "4").
Definition rated0 : Snapshot :=
  record "Maths" "Bina" "B" (Some "Theory") None (Some "LECTURE") (JString "0").

(** The three records of the end-to-end scenario, as the FeedbackSnapshot
    table holds them: no [lectureType] column. *)
Definition scenario : list Snapshot :=
  [ record "S" "Asha" "A" (Some "Lab Performance") None None (JNumber (ofZ 4));
    record "S" "Asha" "A" (Some "Lab Performance") None None (JNumber (ofZ 4));
    record "S" "Asha" "A" (Some "Theory") None None (JNumber (ofZ 3)) ].

(** The same three records as the joined query returns them when the
    allocation's type agrees with the question category. *)
Definition labOf4 : Snapshot :=
  record "S" "Asha" "A" (Some "Lab Performance") None (Some "LAB")
    (JNumber (ofZ 4)).
Definition theoryOf3 : Snapshot :=
  record "S" "Asha" "A" (Some "Theory") None (Some "LECTURE")
    (JNumber (ofZ 3)).

Definition scenarioAsJoined : list Snapshot := [labOf4; labOf4; theoryOf3].

(** The same three answers given on the form of a lecture allocation: the
    joined query gives every row the type of the allocation. *)
Definition labQuestionOfLecture : Snapshot :=
  record "S" "Asha" "A" (Some "Lab Performance") None (Some "LECTURE")
    (JNumber (ofZ 4)).
Definition scenarioOfLectureAllocation : list Snapshot :=
  [labQuestionOfLecture; labQuestionOfLecture; theoryOf3].

(** Three faculties with the means 4.8, 4.8 and 4.2. *)
Definition rate (faculty : string) (tenths : Z) : Snapshot :=
  record "Maths" faculty "A" (Some "Theory") None (Some "LECTURE")
    (JNumber (decimal tenths 1)).
Definition threeFaculties : list Snapshot :=
  [ rate "Asha" 48; rate "Bina" 48; rate "Chetan" 42 ].
Definition threeFacultiesSwapped : list Snapshot :=
  [ rate "Bina" 48; rate "Asha" 48; rate "Chetan" 42 ].

(** Asha and Bina have ratings; Chetan's only response is a ["0"]. *)
Definition rankingData : Database :=
  database
    [ rate "Asha" 42; rate "Bina" 48; rate "Asha" 40;
      record "Maths" "Chetan" "A" (Some "Theory") None None (JString "0") ].

(** Divisions out of order. *)
Definition twoDivisions : list Snapshot :=
  [ record "Maths" "Asha" "B" (Some "Theory") None None (JString "4");
    record "Maths" "Asha" "A" (Some "Theory") None None (JString "5") ].

(** A subject whose name has a bar. *)
Definition barred : Snapshot :=
  record "Maths|II" "Asha" "A" (Some "Theory") None None (JString "4").

(** Two lab ratings of 4 for the subject S and no lecture rating, as the
    joined query returns them and as the FeedbackSnapshot table holds
    them. *)
Definition labsAsJoined : list Snapshot := [labOf4; labOf4].
Definition labs : list Snapshot :=
  [ record "S" "Asha" "A" (Some "Lab Performance") None None
      (JNumber (ofZ 4));
    record "S" "Asha" "A" (Some "Lab Performance") None None
      (JNumber (ofZ 4)) ].

(** The record [s] in another academic year; the label doubles as the
    identifier. *)
Definition inYear (year : string) (s : Snapshot) : Snapshot :=
  {| academicYearId := year;
     academicYearString := year;
     departmentId := departmentId s;
     departmentName := departmentName s;
     semesterId := semesterId s;
     semesterNumber := semesterNumber s;
     divisionId := divisionId s;
     divisionName := divisionName s;
     subjectId := subjectId s;
     subjectName := subjectName s;
     subjectAbbreviation := subjectAbbreviation s;
     subjectCode := subjectCode s;
     facultyId := facultyId s;
     facultyName := facultyName s;
     facultyAbbreviation := facultyAbbreviation s;
     facultyDesignation := facultyDesignation s;
     studentId := studentId s;
     questionCategoryId := questionCategoryId s;
     questionCategoryName := questionCategoryName s;
     questionBatch := questionBatch s;
     batch := batch s;
     responseValue := responseValue s;
     lectureType := lectureType s;
     isDeleted := isDeleted s;
     formDeleted := formDeleted s;
     formIsDeleted := formIsDeleted s;
     questionIsDeleted := questionIsDeleted s;
     semesterIsDeleted := semesterIsDeleted s;
     divisionIsDeleted := divisionIsDeleted s;
     subjectIsDeleted := subjectIsDeleted s;
     departmentIsDeleted := departmentIsDeleted s;
     academicYearIsDeleted := academicYearIsDeleted s |}.

(** The divisions B and a, in the years Spring 2024 and fall 2024. *)
Definition mixedCase : list Snapshot :=
  [ inYear "Spring 2024"
      (record "Maths" "Asha" "B" (Some "Theory") None None
         (JString "4"));
    inYear "fall 2024"
      (record "Maths" "Asha" "a" (Some "Theory") None None
         (JString "5")) ].

End Samples.

Module PerformanceSamples.

(** An answer to a question of the given type in a semester of 2024-25;
    the name of the faculty doubles as the identifier. *)
Definition answer (faculty : string) (semester : Z) (questionType : string)
  (value : JSValue) : TypedSnapshot :=
  {| typed_snapshot :=
       {| academicYearId := "ay-2024";
          academicYearString := "2024-25";
          departmentId := "dept-ce";
          departmentName := "Computer Engineering";
          semesterId := "sem";
          semesterNumber := semester;
          divisionId := "A";
          divisionName := "A";
          subjectId := "Maths";
          subjectName := "Maths";
          subjectAbbreviation := "Maths";
          subjectCode := "Maths";
          facultyId := faculty;
          facultyName := faculty;
          facultyAbbreviation := faculty;
          facultyDesignation := None;
          studentId := Some "student-1";
          questionCategoryId := Some "category-1";
          questionCategoryName := Some "Theory";
          questionBatch := None;
          batch := None;
          responseValue := value;
          lectureType := None;
          isDeleted := false;
          formDeleted := false;
          formIsDeleted := false;
          questionIsDeleted := false;
          semesterIsDeleted := false;
          divisionIsDeleted := false;
          subjectIsDeleted := false;
          departmentIsDeleted := false;
          academicYearIsDeleted := false |};
     typed_questionType := questionType |}.

(** Asha is rated 4 and 0 in semester 3 and 5 in semester 9; her answer in
    semester 1 is to a text question.  Bina's only rating is a word. *)
Definition tables : PerformanceTables.t :=
  {| PerformanceTables.faculty :=
       [ {| entity_id := "Asha"; entity_name := "Asha";
            entity_isDeleted := false; entity_designation := None |};
         {| entity_id := "Bina"; entity_name := "Bina";
            entity_isDeleted := false; entity_designation := None |} ];
     PerformanceTables.academicYear :=
       [ {| academicYear_id := "ay-2024";
            academicYear_yearString := "2024-25";
            academicYear_isDeleted := false |} ];
     PerformanceTables.feedbackSnapshot :=
       [ answer "Asha" 9 "rating" (JString "5");
         answer "Asha" 3 "rating" (JString "4");
         answer "Bina" 2 "rating" (JString "good");
         answer "Asha" 3 "rating" (JString "0");
         answer "Asha" 1 "text" (JString "3") ] |}.

End PerformanceSamples.

(* ================================================================== *)
(** * Properties of the score parser *)
(* ================================================================== *)

(** The parser has reached its last line with a value that is [null] or
    a number: the result is [null] or that number, provided it is no [NaN]. *)
Ltac parser_returns :=
  eexists; split;
  [ reflexivity
  | first
      [ exact I
      | match goal with
        | |- context [isNaN ?n] =>
            destruct (isNaN n) eqn:?; simpl;
            first [exact I | reflexivity | assumption]
        end ] ].

Lemma parser_always_returns (raw : JSValue) :
  exists score : Score,
    parseResponseValueToScore raw = Return score
    /\ match score with
       | Some n => isNaN n = false
       | None => True
       end.
Proof.
  unfold parseResponseValueToScore.
  destruct raw as [ | | b | n | text | elems | members ]; simpl;
    try parser_returns.
  - (* a string: a number, or JSON text *)
    destruct (isNaN (parseFloat text)) eqn:notNumeric; simpl.
    + destruct (JSON_parse text) as [parsed | e]; simpl.
      * destruct parsed as [ | | b | n | s | elems | members ]; simpl;
          try parser_returns.
        destruct (lookupLast "score" members) as [field|]; simpl;
          [destruct field; simpl |]; parser_returns.
      * parser_returns.
    + parser_returns.
  - (* an object *)
    destruct (lookupLast "score" members) as [field|]; simpl;
      [destruct field; simpl |]; parser_returns.
Qed.

(** What the builders read is what the parser returns. *)
Lemma scoreOf_returned (raw : JSValue) :
  parseResponseValueToScore raw = Return (scoreOf raw).
Proof.
  unfold scoreOf.
  destruct (parser_always_returns raw) as [score [-> _]]. reflexivity.
Qed.

Lemma scoreOf_not_NaN (raw : JSValue) (n : number) :
  scoreOf raw = Some n -> isNaN n = false.
Proof.
  unfold scoreOf.
  destruct (parser_always_returns raw) as [score [-> notNaN]].
  intros ->. exact notNaN.
Qed.

(** On a number that is not [NaN], [n <= 0] is the negation of [n > 0]. *)
Lemma le_zero_gt_zero (n : number) :
  isNaN n = false -> le n zero = negb (gt n zero).
Proof.
  destruct n as [s | s | | s m e]; try destruct s; simpl;
    intro H; try reflexivity; discriminate.
Qed.

(** The two guards of the service agree on every parsed score. *)
Lemma rejected_not_accepted (raw : JSValue) :
  rejected (scoreOf raw) = negb (accepted (scoreOf raw)).
Proof.
  destruct (scoreOf raw) as [n|] eqn:E; simpl; [|reflexivity].
  apply le_zero_gt_zero. exact (scoreOf_not_NaN _ E).
Qed.

(** C4, as amended.  [parseResponseValueToScore] never throws: whatever
    value it is given it returns, and what it returns is [null] or a number
    that is not [NaN] (it may be infinite, see
    [parseResponseValueToScore_Infinity]).  By shape of the input: a number
    is returned as it is; a string that [parseFloat] reads gives the number
    read; an object whose [score] member is a number gives that member;
    [null], [undefined], a boolean and an array give [null]. *)
Theorem parseResponseValueToScore_total :
  (forall rawResponseValue : JSValue,
      exists score : Score,
        parseResponseValueToScore rawResponseValue = Return score
        /\ match score with
           | Some n => isNaN n = false
           | None => True
           end)
  /\ (forall n : number,
         isNaN n = false ->
         parseResponseValueToScore (JNumber n) = Return (Some n))
  /\ (forall text : string,
         isNaN (parseFloat text) = false ->
         parseResponseValueToScore (JString text)
         = Return (Some (parseFloat text)))
  /\ (forall (members : list (string * JSValue)) (n : number),
         lookupLast "score" members = Some (JNumber n) ->
         isNaN n = false ->
         parseResponseValueToScore (JObject members) = Return (Some n))
  /\ (forall rawResponseValue : JSValue,
         match rawResponseValue with
         | JNull | JUndefined | JBool _ | JArray _ =>
             parseResponseValueToScore rawResponseValue = Return None
         | _ => True
         end).
Proof.
  split; [exact parser_always_returns|].
  unfold parseResponseValueToScore.
  split; [|split; [|split]].
  - intros n notNaN. simpl. rewrite notNaN. reflexivity.
  - intros text numeric. rewrite numeric. simpl. rewrite numeric. reflexivity.
  - intros members n isScore notNaN. simpl.
    rewrite isScore. simpl. rewrite notNaN. reflexivity.
  - intros [ | | b | n | text | elems | members ]; simpl;
      first [reflexivity | exact I].
Qed.

(** C4, the counterexample.  On the string ["Infinity"] the parser returns
    the number [Infinity], which is not finite. *)
Lemma parseResponseValueToScore_Infinity :
  parseResponseValueToScore (JString "Infinity") = Return (Some Infinity)
  /\ isFinite Infinity = false.
Proof. split; reflexivity. Qed.

(* ================================================================== *)
(** * Properties of the comparator [b - a] on numbers *)
(* ================================================================== *)

Lemma gt_zero_isPositive (x : number) : gt x zero = isPositive x.
Proof. destruct x as [s | s | | s m e]; try destruct s; reflexivity. Qed.

(** Rounding keeps the sign: a rounded negative mantissa is not positive. *)
Lemma binary_round_aux_negative (m e : Z) (l : location) :
  isPositive (binary_round_aux prec emax true m e l) = false.
Proof.
  unfold binary_round_aux.
  destruct (shr_fexp prec emax m e l) as [mrs' e'].
  destruct (shr_fexp prec emax _ e' loc_Exact) as [mrs'' e''].
  destruct (shr_m mrs''); try reflexivity.
  destruct (e'' <=? emax - prec); reflexivity.
Qed.

Lemma binary_normalize_positive (m e : Z) :
  isPositive (binary_normalize prec emax m e false) = true -> 0 < m.
Proof.
  destruct m as [ | p | p ]; simpl; intro H.
  - discriminate.
  - lia.
  - unfold binary_round in H.
    destruct (shl_align p e _) as [mz ez].
    rewrite binary_round_aux_negative in H. discriminate.
Qed.

(** If [x - y] is positive then [y - x] is not. *)
Lemma sub_positive_asym (x y : number) :
  isPositive (sub x y) = true -> isPositive (sub y x) = false.
Proof.
  unfold sub.
  destruct x as [sx | sx | | sx mx ex], y as [sy | sy | | sy my ey];
    simpl; try (destruct sx; destruct sy; simpl; congruence);
    try (destruct sx; simpl; congruence);
    try (destruct sy; simpl; congruence);
    try congruence.
  intro H. apply binary_normalize_positive in H.
  destruct (isPositive (binary_normalize prec emax _ (Z.min ey ex) false))
    eqn:E; [|reflexivity].
  apply binary_normalize_positive in E.
  rewrite (Z.min_comm ey ex) in E. lia.
Qed.

(** The comparator [(a, b) => b.rating - a.rating] never asks for both
    orders of a pair. *)
Lemma descending_asym {A} (rating : A -> number) (a b : A) :
  descending rating a b = true -> descending rating b a = false.
Proof.
  unfold descending. rewrite !gt_zero_isPositive. apply sub_positive_asym.
Qed.

(* ================================================================== *)
(** * Properties of [sort] *)
(* ================================================================== *)

Section SortFacts.
Variable A : Type.
Variable after : A -> A -> bool.

Lemma insert_perm (x : A) (l : list A) :
  Permutation (insert after x l) (x :: l).
Proof.
  induction l as [|h t IH]; simpl; [reflexivity|].
  destruct (after x h); [|reflexivity].
  rewrite IH. apply perm_swap.
Qed.

Lemma sort_perm (l : list A) : Permutation (sort after l) l.
Proof.
  induction l as [|h t IH]; simpl; [reflexivity|].
  rewrite insert_perm. apply perm_skip. exact IH.
Qed.

Lemma sort_length (l : list A) : List.length (sort after l) = List.length l.
Proof. apply Permutation_length, sort_perm. Qed.

Lemma sort_In (x : A) (l : list A) : In x (sort after l) <-> In x l.
Proof.
  split; apply Permutation_in; [|symmetry]; apply sort_perm.
Qed.

(** The comparator never asks for both orders of a pair. *)
Hypothesis after_asym : forall a b, after a b = true -> after b a = false.

Lemma insert_sorted (x : A) (l : list A) :
  Sorted (fun a b => after a b = false) l ->
  Sorted (fun a b => after a b = false) (insert after x l).
Proof.
  induction l as [|h t IH]; simpl; intro sorted.
  - repeat constructor.
  - destruct (after x h) eqn:E.
    + inversion sorted as [|? ? sortedTail headRel]; subst.
      constructor; [apply IH; exact sortedTail|].
      destruct t as [|h' t']; simpl.
      * constructor. apply after_asym, E.
      * destruct (after x h'); constructor.
        -- inversion headRel; assumption.
        -- apply after_asym, E.
    + constructor; [exact sorted | constructor; exact E].
Qed.

Lemma sort_sorted (l : list A) :
  Sorted (fun a b => after a b = false) (sort after l).
Proof.
  induction l as [|h t IH]; simpl; [constructor|].
  apply insert_sorted, IH.
Qed.

(** Not being asked to go after is transitive. *)
Hypothesis after_trans :
  forall a b c, after a b = false -> after b c = false -> after a c = false.

Lemma sort_strongly_sorted (l : list A) :
  StronglySorted (fun a b => after a b = false) (sort after l).
Proof.
  apply Sorted_StronglySorted; [|apply sort_sorted].
  intros a b c. apply after_trans.
Qed.
End SortFacts.

Lemma Sorted_map {A B} (f : A -> B) (R : B -> B -> Prop) (l : list A) :
  Sorted (fun a b => R (f a) (f b)) l -> Sorted R (map f l).
Proof.
  induction 1 as [|a l sorted IH headRel]; simpl; constructor.
  - exact IH.
  - destruct headRel; simpl; constructor; assumption.
Qed.

Lemma StronglySorted_map {A B} (f : A -> B) (R : B -> B -> Prop) (l : list A) :
  StronglySorted (fun a b => R (f a) (f b)) l -> StronglySorted R (map f l).
Proof.
  induction 1 as [|a l sorted IH all]; simpl; constructor.
  - exact IH.
  - rewrite Forall_forall in *. intros b inMap.
    apply in_map_iff in inMap. destruct inMap as [x [<- inL]].
    apply all, inL.
Qed.

(* ================================================================== *)
(** * Properties of maps and sets *)
(* ================================================================== *)

Section MapFacts.
Variables K V : Type.
Variable eqb : K -> K -> bool.
Hypothesis eqb_eq : forall a b : K, eqb a b = true <-> a = b.
Implicit Types (m : JSMap.Map K V) (k : K).

Lemma eqb_same k : eqb k k = true.
Proof. apply eqb_eq. reflexivity. Qed.

Lemma eqb_swap k k' : eqb k k' = eqb k' k.
Proof.
  destruct (eqb k k') eqn:E, (eqb k' k) eqn:E'; try reflexivity.
  - apply eqb_eq in E. subst k'. rewrite eqb_same in E'. discriminate.
  - apply eqb_eq in E'. subst k'. rewrite eqb_same in E. discriminate.
Qed.

Lemma has_In k m : JSMap.has eqb k m = true <-> In k (map fst m).
Proof.
  unfold JSMap.has. rewrite existsb_exists, in_map_iff. split.
  - intros [[k0 v0] [inM same]]. apply eqb_eq in same. simpl in same.
    subst k0. exists (k, v0). auto.
  - intros [[k0 v0] [same inM]]. simpl in same. subst k0.
    exists (k, v0). split; [exact inM | apply eqb_same].
Qed.

Lemma keys_modify k (f : V -> V) m :
  map fst (JSMap.modify eqb k f m) = map fst m.
Proof.
  induction m as [|[k0 v0] r IH]; simpl; [reflexivity|].
  destruct (eqb k k0); simpl; [reflexivity|].
  rewrite IH. reflexivity.
Qed.

Lemma keys_set_new k (v : V) m :
  JSMap.has eqb k m = false ->
  map fst (JSMap.set eqb k v m) = map fst m ++ [k].
Proof.
  unfold JSMap.has.
  induction m as [|[k0 v0] r IH]; simpl; [reflexivity|].
  intro H. apply orb_false_iff in H. destruct H as [H1 H2].
  rewrite H1. simpl. rewrite IH by exact H2. reflexivity.
Qed.

(** [ensureThen] adds its key at the end when the key is new, and leaves
    the keys alone otherwise. *)
Lemma keys_ensureThen_cases k (i : V) (f : V -> V) m :
  map fst (JSMap.ensureThen eqb k i f m)
  = if JSMap.has eqb k m then map fst m else map fst m ++ [k].
Proof.
  unfold JSMap.ensureThen. rewrite keys_modify.
  destruct (JSMap.has eqb k m) eqn:E; [reflexivity|].
  apply keys_set_new, E.
Qed.

Lemma ensureThen_NoDup k (i : V) (f : V -> V) m :
  NoDup (map fst m) -> NoDup (map fst (JSMap.ensureThen eqb k i f m)).
Proof.
  intro nodup. rewrite keys_ensureThen_cases.
  destruct (JSMap.has eqb k m) eqn:E; [exact nodup|].
  assert (notIn : ~ In k (map fst m)).
  { intro inKeys. apply has_In in inKeys. congruence. }
  apply NoDup_rev in nodup.
  rewrite <- (rev_involutive (map fst m ++ [k])). apply NoDup_rev.
  rewrite rev_app_distr. simpl. constructor; [|exact nodup].
  rewrite <- in_rev. exact notIn.
Qed.

Lemma get_modify k k' (f : V -> V) m :
  JSMap.get eqb k' (JSMap.modify eqb k f m)
  = if eqb k' k
    then option_map f (JSMap.get eqb k' m)
    else JSMap.get eqb k' m.
Proof.
  induction m as [|[k0 v0] r IH]; simpl.
  - destruct (eqb k' k); reflexivity.
  - destruct (eqb k k0) eqn:E; simpl.
    + apply eqb_eq in E. subst k0.
      destruct (eqb k' k); reflexivity.
    + rewrite IH.
      destruct (eqb k' k) eqn:E'.
      * apply eqb_eq in E'. subst k'. rewrite E. reflexivity.
      * destruct (eqb k' k0); reflexivity.
Qed.

Lemma get_set k k' (v : V) m :
  JSMap.get eqb k' (JSMap.set eqb k v m)
  = if eqb k' k then Some v else JSMap.get eqb k' m.
Proof.
  induction m as [|[k0 v0] r IH]; simpl.
  - reflexivity.
  - destruct (eqb k k0) eqn:E; simpl.
    + apply eqb_eq in E. subst k0.
      destruct (eqb k' k); reflexivity.
    + rewrite IH.
      destruct (eqb k' k) eqn:E'.
      * apply eqb_eq in E'. subst k'. rewrite E. reflexivity.
      * reflexivity.
Qed.

Lemma has_get k m :
  JSMap.has eqb k m
  = match JSMap.get eqb k m with Some _ => true | None => false end.
Proof.
  unfold JSMap.has.
  induction m as [|[k0 v0] r IH]; simpl; [reflexivity|].
  destruct (eqb k k0); simpl; [reflexivity | exact IH].
Qed.

Lemma get_ensureThen k k' (i : V) (f : V -> V) m :
  JSMap.get eqb k' (JSMap.ensureThen eqb k i f m)
  = if eqb k' k
    then Some (f (match JSMap.get eqb k m with
                  | Some v => v
                  | None => i
                  end))
    else JSMap.get eqb k' m.
Proof.
  unfold JSMap.ensureThen. rewrite get_modify, has_get.
  destruct (eqb k' k) eqn:E.
  - apply eqb_eq in E. subst k'.
    destruct (JSMap.get eqb k m) eqn:G; simpl.
    + rewrite G. reflexivity.
    + rewrite get_set, eqb_same. reflexivity.
  - destruct (JSMap.get eqb k m) eqn:G; simpl; [reflexivity|].
    rewrite get_set, E. reflexivity.
Qed.

Lemma get_of_In k (v : V) m :
  NoDup (map fst m) -> In (k, v) m -> JSMap.get eqb k m = Some v.
Proof.
  induction m as [|[k0 v0] r IH]; simpl; intros nodup inM; [contradiction|].
  inversion nodup as [|? ? notIn nodupTail]; subst.
  destruct inM as [same | inTail].
  - inversion same; subst. rewrite eqb_same. reflexivity.
  - destruct (eqb k k0) eqn:E.
    + apply eqb_eq in E. subst k0.
      exfalso. apply notIn. apply in_map_iff. exists (k, v). split; auto.
    + apply IH; assumption.
Qed.
End MapFacts.

Section StringKeys.
Variable V : Type.
Implicit Types (m : JSMap.Map string V) (k : string).

Lemma has_keys k m :
  JSMap.has String.eqb k m = JSSet.mem k (map fst m).
Proof.
  unfold JSMap.has, JSSet.mem.
  induction m as [|[k0 v0] r IH]; simpl; [reflexivity|].
  rewrite IH. reflexivity.
Qed.

Lemma keys_ensureThen k (i : V) (f : V -> V) m :
  map fst (JSMap.ensureThen String.eqb k i f m) = JSSet.add k (map fst m).
Proof.
  rewrite keys_ensureThen_cases. unfold JSSet.add. rewrite <- has_keys.
  destruct (JSMap.has String.eqb k m); reflexivity.
Qed.
End StringKeys.

Lemma mem_In (x : string) (s : JSSet.StringSet) :
  JSSet.mem x s = true <-> In x s.
Proof.
  unfold JSSet.mem. rewrite existsb_exists. split.
  - intros [y [inS same]]. apply String.eqb_eq in same. subst. exact inS.
  - intro inS. exists x. split; [exact inS | apply String.eqb_refl].
Qed.

Lemma add_In (x y : string) (s : JSSet.StringSet) :
  In y (JSSet.add x s) <-> y = x \/ In y s.
Proof.
  unfold JSSet.add. destruct (JSSet.mem x s) eqn:E.
  - apply mem_In in E. split; [auto|]. intros [-> | H]; assumption.
  - rewrite in_app_iff. simpl. intuition congruence.
Qed.

Lemma add_NoDup (x : string) (s : JSSet.StringSet) :
  NoDup s -> NoDup (JSSet.add x s).
Proof.
  intro nodup. unfold JSSet.add. destruct (JSSet.mem x s) eqn:E; [exact nodup|].
  assert (notIn : ~ In x s).
  { intro inS. apply mem_In in inS. congruence. }
  apply NoDup_rev in nodup.
  rewrite <- (rev_involutive (s ++ [x])). apply NoDup_rev.
  rewrite rev_app_distr. simpl. constructor; [|exact nodup].
  rewrite <- in_rev. exact notIn.
Qed.

Lemma addAll_spec (l : list string) (s : JSSet.StringSet) :
  NoDup s ->
  NoDup (fold_left (fun acc x => JSSet.add x acc) l s)
  /\ forall y, In y (fold_left (fun acc x => JSSet.add x acc) l s)
               <-> In y s \/ In y l.
Proof.
  revert s. induction l as [|x l IH]; simpl; intros s nodup.
  - split; [exact nodup | intuition].
  - destruct (IH (JSSet.add x s) (add_NoDup x nodup)) as [nd same].
    split; [exact nd|].
    intro y. rewrite same, add_In. intuition.
Qed.

(** A set built from an array holds each of its strings once. *)
Lemma size_ofList (l : list string) :
  JSSet.size (JSSet.ofList l) = distinctCount l.
Proof.
  unfold JSSet.size, JSSet.ofList, distinctCount.
  destruct (@addAll_spec l [] (NoDup_nil _)) as [nd same].
  apply Permutation_length, NoDup_Permutation.
  - exact nd.
  - apply NoDup_nodup.
  - intro y. rewrite same, nodup_In. simpl. intuition.
Qed.

(* ================================================================== *)
(** * Properties of the grouping loops *)
(* ================================================================== *)

(** The loop body runs on the records that count, and on them only. *)
Lemma forEachScored_cons {M} (body : Snapshot -> number -> M -> M)
  (s : Snapshot) (l : list Snapshot) (start : M) :
  forEachScored body (s :: l) start
  = forEachScored body l
      (if scored s then body s (scoreValue s) start else start).
Proof.
  unfold forEachScored at 1. simpl. fold (forEachScored body l).
  f_equal. unfold scored, scoreValue.
  pose proof (rejected_not_accepted (responseValue s)) as guards.
  destruct (scoreOf (responseValue s)) as [n|]; simpl in *; [|reflexivity].
  rewrite guards. destruct (gt n zero); reflexivity.
Qed.

Lemma forEachScored_nil {M} (body : Snapshot -> number -> M -> M) (start : M) :
  forEachScored body [] start = start.
Proof. reflexivity. Qed.

Lemma forEachScored_app {M} (body : Snapshot -> number -> M -> M)
  (l1 l2 : list Snapshot) (start : M) :
  forEachScored body (l1 ++ l2) start
  = forEachScored body l2 (forEachScored body l1 start).
Proof. unfold forEachScored. apply fold_left_app. Qed.

Lemma forEachScored_filter {M} (body : Snapshot -> number -> M -> M)
  (l : list Snapshot) (start : M) :
  forEachScored body (filter scored l) start = forEachScored body l start.
Proof.
  revert start. induction l as [|s l IH]; intro start; [reflexivity|].
  rewrite forEachScored_cons. simpl.
  destruct (scored s) eqn:E; [|apply IH].
  rewrite forEachScored_cons, E. apply IH.
Qed.

(** [map(parse).filter(score > 0)] keeps the scores of the records that
    count, in order. *)
Lemma acceptedScores_scored (l : list Snapshot) :
  acceptedScores l = map scoreValue (filter scored l).
Proof.
  unfold acceptedScores.
  induction l as [|s l IH]; simpl; [reflexivity|].
  unfold scored at 1, scoreValue at 1.
  destruct (accepted (scoreOf (responseValue s))) eqn:E; simpl.
  - rewrite IH. destruct (scoreOf (responseValue s)); [reflexivity|].
    discriminate.
  - exact IH.
Qed.

Lemma acceptedScores_cons (s : Snapshot) (l : list Snapshot) :
  acceptedScores (s :: l)
  = (if scored s then [scoreValue s] else []) ++ acceptedScores l.
Proof.
  rewrite !acceptedScores_scored. simpl. destruct (scored s); reflexivity.
Qed.

Lemma acceptedScores_filter (l : list Snapshot) :
  acceptedScores (filter scored l) = acceptedScores l.
Proof.
  rewrite !acceptedScores_scored. f_equal.
  induction l as [|s l IH]; simpl; [reflexivity|].
  destruct (scored s) eqn:E; simpl; rewrite ?E, IH; reflexivity.
Qed.

Section GroupingFacts.
Variables K V : Type.
Variable eqb : K -> K -> bool.
Hypothesis eqb_eq : forall a b : K, eqb a b = true <-> a = b.
Variable key : Snapshot -> K.
Variable init : Snapshot -> V.
Variable update : Snapshot -> number -> V -> V.

(** The loop started on a map that already has entries. *)
Let loopFrom (m0 : JSMap.Map K V) (l : list Snapshot) :=
  forEachScored
    (fun s score m => JSMap.ensureThen eqb (key s) (init s) (update s score) m)
    l m0.

Lemma loopFrom_NoDup (l : list Snapshot) (m0 : JSMap.Map K V) :
  NoDup (map fst m0) -> NoDup (map fst (loopFrom m0 l)).
Proof.
  unfold loopFrom. revert m0.
  induction l as [|s l IH]; intros m0 nodup; [exact nodup|].
  rewrite forEachScored_cons.
  destruct (scored s); apply IH; [|exact nodup].
  apply ensureThen_NoDup; assumption.
Qed.

Lemma get_loopFrom (k : K) (l : list Snapshot) (m0 : JSMap.Map K V) :
  JSMap.get eqb k (loopFrom m0 l)
  = match JSMap.get eqb k m0 with
    | Some v =>
        Some (fold_left (fun v s => update s (scoreValue s) v)
                (groupOf eqb key k l) v)
    | None => entryOf init update (groupOf eqb key k l)
    end.
Proof.
  unfold loopFrom. revert m0.
  induction l as [|s l IH]; intro m0.
  - simpl. destruct (JSMap.get eqb k m0); reflexivity.
  - rewrite forEachScored_cons. unfold groupOf. simpl.
    destruct (scored s) eqn:counts; simpl; [|apply IH].
    rewrite IH, (get_ensureThen _ eqb_eq). fold (groupOf eqb key k l).
    rewrite (eqb_swap _ eqb_eq (key s) k).
    destruct (eqb k (key s)) eqn:E; [|reflexivity].
    apply eqb_eq in E. subst k. simpl.
    destruct (JSMap.get eqb (key s) m0); reflexivity.
Qed.

Lemma groupingLoop_NoDup (l : list Snapshot) :
  NoDup (map fst (groupingLoop eqb key init update l)).
Proof. apply (loopFrom_NoDup l []). constructor. Qed.

(** The entry under a key is built from the records of that key. *)
Lemma get_groupingLoop (k : K) (l : list Snapshot) :
  JSMap.get eqb k (groupingLoop eqb key init update l)
  = entryOf init update (groupOf eqb key k l).
Proof. apply (get_loopFrom k l []). Qed.

Lemma In_groupingLoop (k : K) (v : V) (l : list Snapshot) :
  In (k, v) (groupingLoop eqb key init update l) ->
  exists first rest,
    groupOf eqb key k l = first :: rest
    /\ v = fold_left (fun v s => update s (scoreValue s) v)
             (first :: rest) (init first).
Proof.
  intro inMap.
  apply (get_of_In _ eqb_eq) in inMap; [|apply groupingLoop_NoDup].
  rewrite get_groupingLoop in inMap. unfold entryOf in inMap.
  destruct (groupOf eqb key k l) as [|first rest]; [discriminate|].
  exists first, rest. split; [reflexivity|]. congruence.
Qed.
End GroupingFacts.

Section StringGroupingFacts.
Variable V : Type.
Variable key : Snapshot -> string.
Variable init : Snapshot -> V.
Variable update : Snapshot -> number -> V -> V.

Lemma keys_loopFrom (l : list Snapshot) (m0 : JSMap.Map string V) :
  map fst
    (forEachScored
       (fun s score m =>
          JSMap.ensureThen String.eqb (key s) (init s) (update s score) m)
       l m0)
  = fold_left (fun acc x => JSSet.add x acc) (map key (filter scored l))
      (map fst m0).
Proof.
  revert m0.
  induction l as [|s l IH]; intro m0; [reflexivity|].
  rewrite forEachScored_cons. simpl.
  destruct (scored s); simpl; rewrite IH; [|reflexivity].
  rewrite keys_ensureThen. reflexivity.
Qed.

(** The keys of the map are the keys of the records that count, each once,
    in the order of their first record. *)
Lemma keys_groupingLoop (l : list Snapshot) :
  map fst (groupingLoop String.eqb key init update l)
  = JSSet.ofList (map key (filter scored l)).
Proof. apply (keys_loopFrom l []). Qed.

Lemma groupingLoop_length (l : list Snapshot) :
  List.length (groupingLoop String.eqb key init update l)
  = distinctCount (map key (filter scored l)).
Proof.
  rewrite <- size_ofList, <- keys_groupingLoop.
  unfold JSSet.size. symmetry. apply length_map.
Qed.

Lemma In_keys_groupingLoop (k : string) (l : list Snapshot) :
  In k (map fst (groupingLoop String.eqb key init update l))
  <-> exists s, In s l /\ scored s = true /\ key s = k.
Proof.
  rewrite keys_groupingLoop. unfold JSSet.ofList.
  destruct (@addAll_spec (map key (filter scored l)) [] (NoDup_nil _))
    as [_ same].
  rewrite same, in_map_iff. simpl. split.
  - intros [[] | [s [sameKey inL]]].
    apply filter_In in inL. exists s. intuition.
  - intros [s [inL [counts sameKey]]]. right. exists s.
    split; [exact sameKey|]. apply filter_In. auto.
Qed.
End StringGroupingFacts.

(* ================================================================== *)
(** * Rows numbered by position *)
(* ================================================================== *)

Lemma forEachIndexed_length {A} (f : nat -> A -> A) (n : nat) (l : list A) :
  List.length (forEachIndexed f n l) = List.length l.
Proof.
  revert n. induction l as [|h t IH]; intro n; simpl; [reflexivity|].
  rewrite IH. reflexivity.
Qed.

Lemma forEachIndexed_nth {A} (f : nat -> A -> A) (n i : nat) (l : list A) :
  nth_error (forEachIndexed f n l) i = option_map (f (n + i)%nat) (nth_error l i).
Proof.
  revert n i. induction l as [|h t IH]; intros n i; simpl.
  - destruct i; reflexivity.
  - destruct i as [|i]; simpl.
    + rewrite Nat.add_0_r. reflexivity.
    + rewrite IH. rewrite Nat.add_succ_comm. reflexivity.
Qed.

Lemma forEachIndexed_map {A B} (f : nat -> A -> A) (g : A -> B) (n : nat)
  (l : list A) :
  (forall i a, g (f i a) = g a) ->
  map g (forEachIndexed f n l) = map g l.
Proof.
  intro kept. revert n.
  induction l as [|h t IH]; intro n; simpl; [reflexivity|].
  rewrite kept, IH. reflexivity.
Qed.

Lemma ranks_assigned (n : nat) (l : list FacultyPerformanceAggregated.t) :
  map FacultyPerformanceAggregated.rank
    (forEachIndexed
       (fun index faculty =>
          FacultyPerformanceAggregated.setRank (index + 1) faculty) n l)
  = seq (n + 1) (List.length l).
Proof.
  revert n. induction l as [|h t IH]; intro n; simpl; [reflexivity|].
  rewrite IH. rewrite <- Nat.add_succ_l. reflexivity.
Qed.

(* ================================================================== *)
(** * Rows sorted by name *)
(* ================================================================== *)

Section Collation.
Variable localeCompare : string -> string -> Z.

(** [localeCompare] is a consistent comparator: swapping the arguments
    flips the sign, and "not after" is transitive. *)
Hypothesis localeCompare_antisym :
  forall a b, Z.sgn (localeCompare b a) = - Z.sgn (localeCompare a b).
Hypothesis localeCompare_trans :
  forall a b c,
    localeCompare a b <= 0 -> localeCompare b c <= 0 ->
    localeCompare a c <= 0.

Lemma byLocale_sorted {A} (name : A -> string) (l : list A) :
  StronglySorted (fun a b => localeCompare a b <= 0)
    (map name (sort (byLocale localeCompare name) l)).
Proof.
  apply StronglySorted_map.
  assert (ordered :
            StronglySorted
              (fun a b => byLocale localeCompare name a b = false)
              (sort (byLocale localeCompare name) l)).
  { apply sort_strongly_sorted; unfold byLocale.
    - intros a b H. apply Z.ltb_lt in H. apply Z.ltb_ge.
      pose proof (localeCompare_antisym (name a) (name b)). lia.
    - intros a b c H1 H2. apply Z.ltb_ge in H1, H2. apply Z.ltb_ge.
      eapply localeCompare_trans; eassumption. }
  revert ordered. generalize (sort (byLocale localeCompare name) l).
  induction 1 as [|a rest sorted IH all]; constructor.
  - exact IH.
  - rewrite Forall_forall in *. intros b inRest.
    apply Z.ltb_ge. apply all, inRest.
Qed.
End Collation.

Lemma ascii_compare_lt_trans (a b c : ascii) :
  Ascii.compare a b = Lt -> Ascii.compare b c = Lt -> Ascii.compare a c = Lt.
Proof.
  unfold Ascii.compare. rewrite !N.compare_lt_iff. lia.
Qed.

Lemma string_compare_trans (a b c : string) :
  String.compare a b <> Gt -> String.compare b c <> Gt ->
  String.compare a c <> Gt.
Proof.
  revert b c. induction a as [|x a IH]; intros [|y b] [|z c]; simpl;
    try congruence.
  destruct (Ascii.compare x y) eqn:xy; try congruence.
  - apply Ascii.compare_eq_iff in xy. subst y.
    destruct (Ascii.compare x z); try congruence. apply IH.
  - destruct (Ascii.compare y z) eqn:yz; try congruence.
    + apply Ascii.compare_eq_iff in yz. subst z. rewrite xy. congruence.
    + rewrite (ascii_compare_lt_trans _ _ _ xy yz). congruence.
Qed.

(** The code-unit order is a consistent comparator. *)
Lemma codeUnitCompare_antisym (a b : string) :
  Z.sgn (codeUnitCompare b a) = - Z.sgn (codeUnitCompare a b).
Proof.
  unfold codeUnitCompare. rewrite (String.compare_antisym a b).
  destruct (String.compare b a); reflexivity.
Qed.

Lemma codeUnitCompare_trans (a b c : string) :
  codeUnitCompare a b <= 0 -> codeUnitCompare b c <= 0 ->
  codeUnitCompare a c <= 0.
Proof.
  unfold codeUnitCompare. intros ab bc.
  assert (String.compare a c <> Gt).
  { apply (string_compare_trans a b c).
    - destruct (String.compare a b); [congruence | congruence | lia].
    - destruct (String.compare b c); [congruence | congruence | lia]. }
  destruct (String.compare a c); [lia | lia | congruence].
Qed.


(** The collation of words is a consistent comparator. *)
Lemma string_compare_same (a : string) : String.compare a a = Eq.
Proof.
  induction a as [|c r IH]; cbn [String.compare]; [reflexivity|].
  unfold Ascii.compare. rewrite N.compare_refl. exact IH.
Qed.

Lemma string_compare_lt_trans (a b c : string) :
  String.compare a b = Lt -> String.compare b c = Lt ->
  String.compare a c = Lt.
Proof.
  intros ab bc.
  destruct (String.compare a c) eqn:ac; [| reflexivity |].
  - apply String.compare_eq_iff in ac. subst c.
    rewrite String.compare_antisym, ab in bc. discriminate.
  - exfalso. apply (string_compare_trans a b c); congruence.
Qed.

Lemma wordCompare_antisym (a b : string) :
  Z.sgn (wordCompare b a) = - Z.sgn (wordCompare a b).
Proof.
  unfold wordCompare.
  rewrite (String.compare_antisym (toLowerCase a) (toLowerCase b)).
  destruct (String.compare (toLowerCase b) (toLowerCase a));
    cbn [CompOpp]; try reflexivity.
  apply codeUnitCompare_antisym.
Qed.

Lemma wordCompare_trans (a b c : string) :
  wordCompare a b <= 0 -> wordCompare b c <= 0 -> wordCompare a c <= 0.
Proof.
  unfold wordCompare.
  destruct (String.compare (toLowerCase a) (toLowerCase b)) eqn:ab;
    [| |lia];
    (destruct (String.compare (toLowerCase b) (toLowerCase c)) eqn:bc;
     [| |lia]).
  - apply String.compare_eq_iff in ab, bc. rewrite ab, bc.
    rewrite string_compare_same. apply codeUnitCompare_trans.
  - apply String.compare_eq_iff in ab. rewrite ab, bc. lia.
  - apply String.compare_eq_iff in bc. rewrite <- bc, ab. lia.
  - rewrite (string_compare_lt_trans _ _ _ ab bc). lia.
Qed.

(* ================================================================== *)
(** * Records without a positive score *)
(* ================================================================== *)

Lemma rejected_not_scored (r : Snapshot) :
  rejected (scoreOf (responseValue r)) = true -> scored r = false.
Proof.
  unfold scored. rewrite rejected_not_accepted.
  destruct (accepted _); [discriminate | reflexivity].
Qed.

Lemma forEachScored_skip {M} (body : Snapshot -> number -> M -> M)
  (before after : list Snapshot) (r : Snapshot) (start : M) :
  scored r = false ->
  forEachScored body (before ++ r :: after) start
  = forEachScored body (before ++ after) start.
Proof.
  intro skipped.
  rewrite !forEachScored_app, forEachScored_cons, skipped. reflexivity.
Qed.

Lemma acceptedScores_skip (before after : list Snapshot) (r : Snapshot) :
  scored r = false ->
  acceptedScores (before ++ r :: after) = acceptedScores (before ++ after).
Proof.
  intro skipped. rewrite !acceptedScores_scored, !filter_app. simpl.
  rewrite skipped. reflexivity.
Qed.

(** C2, as amended.  A record whose score is absent or not above zero
    changes nothing in the rollups of the optimized endpoint: with or
    without it, [aggregateSubjectRatings], [aggregateFacultyPerformance],
    [aggregateDivisionPerformance], [aggregateAcademicYearTrends],
    [aggregateSemesterTrends] and [aggregateDepartmentTrends] return the
    same rows, and [calculateOverallStats] the same [totalResponses] and
    [averageRating]. *)
Theorem unscored_record_leaves_rollups_unchanged :
  forall (before after : list Snapshot) (r : Snapshot),
    rejected (scoreOf (responseValue r)) = true ->
    aggregateSubjectRatings (before ++ r :: after)
    = aggregateSubjectRatings (before ++ after)
    /\ aggregateFacultyPerformance (before ++ r :: after)
       = aggregateFacultyPerformance (before ++ after)
    /\ (forall localeCompare,
           aggregateDivisionPerformance localeCompare (before ++ r :: after)
           = aggregateDivisionPerformance localeCompare (before ++ after)
           /\ aggregateAcademicYearTrends localeCompare (before ++ r :: after)
              = aggregateAcademicYearTrends localeCompare (before ++ after)
           /\ aggregateSemesterTrends localeCompare (before ++ r :: after)
              = aggregateSemesterTrends localeCompare (before ++ after)
           /\ aggregateDepartmentTrends localeCompare (before ++ r :: after)
              = aggregateDepartmentTrends localeCompare (before ++ after))
    /\ OverallStats.totalResponses
         (calculateOverallStats (before ++ r :: after))
       = OverallStats.totalResponses (calculateOverallStats (before ++ after))
    /\ OverallStats.averageRating
         (calculateOverallStats (before ++ r :: after))
       = OverallStats.averageRating (calculateOverallStats (before ++ after)).
Proof.
  intros before after r unscored.
  apply rejected_not_scored in unscored.
  unfold aggregateSubjectRatings, subjectMapOf, aggregateFacultyPerformance,
    facultyMapOf, aggregateDivisionPerformance, divisionMapOf,
    aggregateAcademicYearTrends, yearMapOf, aggregateSemesterTrends,
    aggregateDepartmentTrends, calculateOverallStats.
  cbn [OverallStats.totalResponses OverallStats.averageRating].
  rewrite (acceptedScores_skip before after r unscored).
  repeat split; try intro localeCompare; repeat split;
    rewrite (forEachScored_skip _ before after r _ unscored); reflexivity.
Qed.

(** C2 at work: a raw score ["0"] after a rating of 4. *)
Lemma unscored_record_leaves_rollups_unchanged_witness :
  rejected (scoreOf (responseValue Samples.rated0)) = true
  /\ aggregateSubjectRatings ([Samples.rated4] ++ Samples.rated0 :: [])
     = aggregateSubjectRatings ([Samples.rated4] ++ [])
  /\ OverallStats.totalResponses
       (calculateOverallStats ([Samples.rated4] ++ Samples.rated0 :: []))
     = 1%nat.
Proof.
  split; [reflexivity|].
  pose proof (unscored_record_leaves_rollups_unchanged
                [Samples.rated4] [] Samples.rated0 eq_refl) as H.
  split; [exact (proj1 H)|].
  rewrite (proj1 (proj2 (proj2 (proj2 H)))). reflexivity.
Defined.

(** C2, the counterexample.  The record [rated0] has the raw score ["0"].
    Put after a rating of 4 for the same subject,
    - in [getSubjectWiseLectureLabRating] it raises [responseCount] from 1
      to 2 and halves [averageRating] from 4 to 2;
    - in [getSemesterTrendAnalysis] it does the same;
    - in [calculateOverallStats] it raises [uniqueFaculties] and
      [uniqueDivisions] from 1 to 2. *)
Lemma unscored_record_is_counted :
  scoreOf (responseValue Samples.rated0) = Some zero
  /\ getSubjectWiseLectureLabRating codeUnitCompare
       (Samples.database [Samples.rated4; Samples.rated0]) "sem-3" None
     = Return [ {| swr_subject := "Maths";
                   swr_lectureType := "LECTURE";
                   swr_averageRating := ofZ 2;
                   swr_responseCount := 2 |} ]
  /\ getSubjectWiseLectureLabRating codeUnitCompare
       (Samples.database [Samples.rated4]) "sem-3" None
     = Return [ {| swr_subject := "Maths";
                   swr_lectureType := "LECTURE";
                   swr_averageRating := ofZ 4;
                   swr_responseCount := 1 |} ]
  /\ getSemesterTrendAnalysis codeUnitCompare codeUnitCompare
       (Samples.database [Samples.rated4; Samples.rated0]) None None
     = Return [ {| sta_semester := ofZ 3;
                   sta_subject := "Maths";
                   sta_averageRating := ofZ 2;
                   sta_responseCount := 2 |} ]
  /\ getSemesterTrendAnalysis codeUnitCompare codeUnitCompare
       (Samples.database [Samples.rated4]) None None
     = Return [ {| sta_semester := ofZ 3;
                   sta_subject := "Maths";
                   sta_averageRating := ofZ 4;
                   sta_responseCount := 1 |} ]
  /\ calculateOverallStats [Samples.rated4; Samples.rated0]
     = {| OverallStats.totalResponses := 1;
          OverallStats.averageRating := ofZ 4;
          OverallStats.uniqueSubjects := 1;
          OverallStats.uniqueFaculties := 2;
          OverallStats.uniqueStudents := 1;
          OverallStats.uniqueDivisions := 2 |}
  /\ calculateOverallStats [Samples.rated4]
     = {| OverallStats.totalResponses := 1;
          OverallStats.averageRating := ofZ 4;
          OverallStats.uniqueSubjects := 1;
          OverallStats.uniqueFaculties := 1;
          OverallStats.uniqueStudents := 1;
          OverallStats.uniqueDivisions := 1 |}.
Proof. repeat split; vm_compute; reflexivity. Qed.

(* ================================================================== *)
(** * What the rows of a builder hold *)
(* ================================================================== *)

Lemma filter_twice {A} (f g : A -> bool) (l : list A) :
  filter f (filter g l) = filter (fun x => g x && f x) l.
Proof.
  induction l as [|x l IH]; simpl; [reflexivity|].
  destruct (g x); simpl; [|exact IH].
  destruct (f x); rewrite IH; reflexivity.
Qed.

Lemma filter_same {A} (f g : A -> bool) (l : list A) :
  (forall x, f x = g x) -> filter f l = filter g l.
Proof. intro same. apply filter_ext. exact same. Qed.

(** The scores of the records of a group that pass a test are the scores
    above zero among the records of that key passing the test. *)
Lemma group_scores {K} (eqb : K -> K -> bool) (key : Snapshot -> K)
  (test : Snapshot -> bool) (k : K) (l : list Snapshot) :
  map scoreValue (filter test (groupOf eqb key k l))
  = acceptedScores (filter test (filter (fun s => eqb (key s) k) l)).
Proof.
  rewrite acceptedScores_scored. f_equal.
  unfold groupOf. rewrite !filter_twice. apply filter_same.
  intro s. destruct (scored s), (eqb (key s) k), (test s); reflexivity.
Qed.

Lemma group_all_scores {K} (eqb : K -> K -> bool) (key : Snapshot -> K)
  (k : K) (l : list Snapshot) :
  map scoreValue (groupOf eqb key k l)
  = acceptedScores (filter (fun s => eqb (key s) k) l).
Proof.
  rewrite acceptedScores_scored. f_equal.
  unfold groupOf. rewrite filter_twice. apply filter_same.
  intro s. destruct (scored s), (eqb (key s) k); reflexivity.
Qed.

Lemma group_first {K} (eqb : K -> K -> bool) (key : Snapshot -> K) (k : K)
  (l : list Snapshot) (first : Snapshot) (rest : list Snapshot) :
  groupOf eqb key k l = first :: rest ->
  In first l /\ scored first = true /\ eqb (key first) k = true.
Proof.
  intro isGroup.
  assert (inGroup : In first (groupOf eqb key k l))
    by (rewrite isGroup; left; reflexivity).
  apply filter_In in inGroup. destruct inGroup as [inL passes].
  apply andb_true_iff in passes. tauto.
Qed.

Lemma group_key (key : Snapshot -> string) (k : string) (l : list Snapshot)
  (first : Snapshot) (rest : list Snapshot) :
  groupOf String.eqb key k l = first :: rest -> key first = k.
Proof.
  intro isGroup. apply String.eqb_eq.
  apply (group_first _ _ _ _ isGroup).
Qed.

Lemma ratingOrNull_spec (scores : list number) :
  ratingOrNull scores = meanOrNull scores.
Proof. destruct scores; reflexivity. Qed.

Lemma ratingOrZero_spec (scores : list number) :
  ratingOrZero scores = meanOrZero scores.
Proof. destruct scores; reflexivity. Qed.

(** ** [aggregateSubjectRatings] *)

Lemma subject_entry_scores (group : list Snapshot) (start : SubjectAcc.t) :
  let final :=
    fold_left (fun subject s => addToSubject s (scoreValue s) subject)
      group start in
  SubjectAcc.subjectId final = SubjectAcc.subjectId start
  /\ SubjectAcc.lectureScores final
     = SubjectAcc.lectureScores start
       ++ map scoreValue (filter storedAsLecture group)
  /\ SubjectAcc.labScores final
     = SubjectAcc.labScores start
       ++ map scoreValue (filter (fun s => negb (storedAsLecture s)) group).
Proof.
  revert start. induction group as [|s group IH]; intro start; simpl.
  - rewrite !app_nil_r. auto.
  - destruct (IH (addToSubject s (scoreValue s) start))
      as [sameId [lectures labs]].
    rewrite sameId, lectures, labs.
    unfold addToSubject, storedAsLecture. simpl.
    destruct (match lectureType s with
              | Some t => String.eqb t "LECTURE"
              | None => false
              end); simpl; rewrite <- ?app_assoc; auto.
Qed.

(** Every row of [aggregateSubjectRatings] reports the lecture scores and
    the lab scores of its subject: the scores above zero of the records of
    that subject whose stored [lectureType] is, or is not, ['LECTURE']. *)
Lemma subject_row_scores (snapshots : list Snapshot)
  (row : SubjectRatingAggregated.t) :
  In row (aggregateSubjectRatings snapshots) ->
  exists subject : SubjectAcc.t,
    row = subjectRow subject
    /\ SubjectAcc.subjectId subject = SubjectRatingAggregated.subjectId row
    /\ SubjectAcc.lectureScores subject
       = acceptedScores
           (filter storedAsLecture
              (filter
                 (fun s => String.eqb (subjectId s)
                             (SubjectRatingAggregated.subjectId row))
                 snapshots))
    /\ SubjectAcc.labScores subject
       = acceptedScores
           (filter (fun s => negb (storedAsLecture s))
              (filter
                 (fun s => String.eqb (subjectId s)
                             (SubjectRatingAggregated.subjectId row))
                 snapshots)).
Proof.
  unfold aggregateSubjectRatings. intro inRows.
  apply sort_In in inRows. apply in_map_iff in inRows.
  destruct inRows as [subject [<- inValues]].
  unfold JSMap.values in inValues. apply in_map_iff in inValues.
  destruct inValues as [[k v] [same inMap]]. simpl in same. subst v.
  apply (In_groupingLoop _ String.eqb_eq subjectId) in inMap.
  destruct inMap as [first [rest [isGroup built]]].
  pose proof (group_key _ _ _ isGroup) as keyOfFirst.
  exists subject. split; [reflexivity|].
  rewrite <- isGroup in built.
  destruct (subject_entry_scores (groupOf String.eqb subjectId k snapshots)
              (newSubject first))
    as [sameId [lectures labs]].
  cbn zeta in sameId, lectures, labs.
  rewrite <- built in sameId, lectures, labs.
  simpl in sameId, lectures, labs.
  assert (idOfRow : SubjectRatingAggregated.subjectId (subjectRow subject) = k).
  { simpl. congruence. }
  rewrite idOfRow.
  repeat split.
  - simpl. congruence.
  - rewrite lectures. apply group_scores.
  - rewrite labs. apply group_scores.
Qed.

(** ** The subject breakdown of [getDivisionDetailedAnalytics] *)

Lemma LectureType_eqb_eq (a b : LectureType) :
  LectureType_eqb a b = true <-> a = b.
Proof. destruct a, b; simpl; split; congruence. Qed.

Lemma division_subject_entry_scores (group : list Snapshot)
  (start : DivisionDetail.SubjectEntry) :
  let final :=
    fold_left
      (fun e s => DivisionDetail.addToSubject s (scoreValue s) e)
      group start in
  DivisionDetail.s_subjectId final = DivisionDetail.s_subjectId start
  /\ DivisionDetail.s_lectureScores final
     = DivisionDetail.s_lectureScores start
       ++ map scoreValue
            (filter
               (fun s =>
                  LectureType_eqb (DivisionDetail.deriveLectureType s) LECTURE)
               group)
  /\ DivisionDetail.s_labScores final
     = DivisionDetail.s_labScores start
       ++ map scoreValue
            (filter
               (fun s =>
                  LectureType_eqb (DivisionDetail.deriveLectureType s) LAB)
               group).
Proof.
  revert start. induction group as [|s group IH]; intro start; simpl.
  - rewrite !app_nil_r. auto.
  - destruct (IH (DivisionDetail.addToSubject s (scoreValue s) start))
      as [sameId [lectures labs]].
    rewrite sameId, lectures, labs.
    unfold DivisionDetail.addToSubject. simpl.
    destruct (DivisionDetail.deriveLectureType s); simpl;
      rewrite <- ?app_assoc; auto.
Qed.

Lemma division_subject_row_scores (snapshots : list Snapshot)
  (row : DivisionDetail.SubjectBreakdown) :
  In row (map DivisionDetail.subjectBreakdownRow
            (JSMap.values (DivisionDetail.subjectMapOf snapshots))) ->
  exists e : DivisionDetail.SubjectEntry,
    row = DivisionDetail.subjectBreakdownRow e
    /\ DivisionDetail.s_lectureScores e
       = acceptedScores
           (filter
              (fun s =>
                 LectureType_eqb (DivisionDetail.deriveLectureType s) LECTURE)
              (filter
                 (fun s => String.eqb (subjectId s)
                             (DivisionDetail.subjectId row))
                 snapshots))
    /\ DivisionDetail.s_labScores e
       = acceptedScores
           (filter
              (fun s =>
                 LectureType_eqb (DivisionDetail.deriveLectureType s) LAB)
              (filter
                 (fun s => String.eqb (subjectId s)
                             (DivisionDetail.subjectId row))
                 snapshots)).
Proof.
  intro inRows. apply in_map_iff in inRows.
  destruct inRows as [e [<- inValues]].
  unfold JSMap.values in inValues. apply in_map_iff in inValues.
  destruct inValues as [[k v] [same inMap]]. simpl in same. subst v.
  apply (In_groupingLoop _ String.eqb_eq subjectId) in inMap.
  destruct inMap as [first [rest [isGroup built]]].
  pose proof (group_key _ _ _ isGroup) as keyOfFirst.
  exists e. split; [reflexivity|].
  rewrite <- isGroup in built.
  destruct (division_subject_entry_scores (groupOf String.eqb subjectId k snapshots)
              (DivisionDetail.newSubject first))
    as [sameId [lectures labs]].
  rewrite <- built in sameId, lectures, labs.
  simpl in sameId, lectures, labs.
  assert (idOfRow :
            DivisionDetail.subjectId (DivisionDetail.subjectBreakdownRow e) = k).
  { simpl. congruence. }
  rewrite idOfRow. split.
  - rewrite lectures. apply group_scores.
  - rewrite labs. apply group_scores.
Qed.

(** ** The first loop of [getSubjectDetailedAnalytics] *)

Lemma splitScores_from (l : list Snapshot) (start : list number * list number) :
  fold_left
    (fun acc s =>
       match scoreOf (responseValue s) with
       | Some n =>
           if gt n zero then
             match SubjectDetail.deriveLectureType s with
             | LECTURE => (fst acc ++ [n], snd acc)
             | LAB => (fst acc, snd acc ++ [n])
             end
           else acc
       | None => acc
       end)
    l start
  = (fst start
     ++ acceptedScores
          (filter
             (fun s =>
                LectureType_eqb (SubjectDetail.deriveLectureType s) LECTURE)
             l),
     snd start
     ++ acceptedScores
          (filter
             (fun s => LectureType_eqb (SubjectDetail.deriveLectureType s) LAB)
             l)).
Proof.
  revert start. induction l as [|s l IH]; intros [lectures labs].
  - simpl. rewrite !app_nil_r. reflexivity.
  - cbn [fold_left]. rewrite IH. cbn [filter].
    destruct (SubjectDetail.deriveLectureType s); cbn [LectureType_eqb];
      rewrite acceptedScores_cons; unfold scored, scoreValue;
      destruct (scoreOf (responseValue s)) as [n|]; simpl;
      try destruct (gt n zero); simpl; rewrite <- ?app_assoc; reflexivity.
Qed.

Lemma splitScores_spec (l : list Snapshot) :
  SubjectDetail.splitScores l
  = (acceptedScores
       (filter
          (fun s =>
             LectureType_eqb (SubjectDetail.deriveLectureType s) LECTURE)
          l),
     acceptedScores
       (filter
          (fun s => LectureType_eqb (SubjectDetail.deriveLectureType s) LAB)
          l)).
Proof. unfold SubjectDetail.splitScores. apply splitScores_from. Qed.

(** ** Entries that collect the scores of their group *)

Lemma In_values {K V} (v : V) (m : JSMap.Map K V) :
  In v (JSMap.values m) -> exists k, In (k, v) m.
Proof.
  unfold JSMap.values. intro inValues. apply in_map_iff in inValues.
  destruct inValues as [[k v'] [same inMap]]. simpl in same. subst v'.
  exists k. exact inMap.
Qed.

Lemma filter_all {A} (l : list A) : filter (fun _ => true) l = l.
Proof. induction l as [|x l IH]; simpl; [|rewrite IH]; reflexivity. Qed.

Section EntryOfGroup.
Variables K V : Type.
Variable eqb : K -> K -> bool.
Hypothesis eqb_eq : forall a b : K, eqb a b = true <-> a = b.
Variable key : Snapshot -> K.
Variable init : Snapshot -> V.
Variable update : Snapshot -> number -> V -> V.

(** A field that [update] copies keeps the value [init] gave it. *)
Lemma fold_copied {P} (p : V -> P) (group : list Snapshot) (start : V) :
  (forall s n v, p (update s n v) = p v) ->
  p (fold_left (fun v s => update s (scoreValue s) v) group start) = p start.
Proof.
  intro copied. revert start.
  induction group as [|s group IH]; intro start; simpl; [reflexivity|].
  rewrite IH. apply copied.
Qed.

(** A list onto which [update] pushes the score of the records that pass
    [test] ends with the scores of those records. *)
Lemma fold_collected (test : Snapshot -> bool) (scores : V -> list number)
  (group : list Snapshot) (start : V) :
  (forall s n v,
      scores (update s n v) = if test s then scores v ++ [n] else scores v) ->
  scores (fold_left (fun v s => update s (scoreValue s) v) group start)
  = scores start ++ map scoreValue (filter test group).
Proof.
  intro collected. revert start.
  induction group as [|s group IH]; intro start; simpl.
  - rewrite app_nil_r. reflexivity.
  - rewrite IH, collected.
    destruct (test s); simpl; rewrite <- ?app_assoc; reflexivity.
Qed.

(** An entry of the map comes from a record that counts, the first of its
    key; it keeps what [init] made of that record in the fields [update]
    copies, and its score lists hold the scores of the group. *)
Lemma entry_of_group (k : K) (v : V) (l : list Snapshot) :
  In (k, v) (groupingLoop eqb key init update l) ->
  exists first,
    In first l /\ scored first = true /\ key first = k
    /\ (forall P (p : V -> P),
           (forall s n v, p (update s n v) = p v) -> p v = p (init first))
    /\ (forall scores : V -> list number,
           (forall s, scores (init s) = []) ->
           (forall s n v, scores (update s n v) = scores v ++ [n]) ->
           scores v = acceptedScores (filter (fun s => eqb (key s) k) l))
    /\ (forall (test : Snapshot -> bool) (scores : V -> list number),
           (forall s, scores (init s) = []) ->
           (forall s n v,
               scores (update s n v)
               = if test s then scores v ++ [n] else scores v) ->
           scores v
           = acceptedScores
               (filter test (filter (fun s => eqb (key s) k) l))).
Proof.
  intro inMap. apply (In_groupingLoop _ eqb_eq) in inMap.
  destruct inMap as [first [rest [isGroup built]]].
  destruct (group_first _ _ _ _ isGroup) as [inL [counts sameKey]].
  apply eqb_eq in sameKey.
  rewrite <- isGroup in built.
  assert (collecting :
            forall (test : Snapshot -> bool) (scores : V -> list number),
              (forall s, scores (init s) = []) ->
              (forall s n v,
                  scores (update s n v)
                  = if test s then scores v ++ [n] else scores v) ->
              scores v
              = acceptedScores
                  (filter test (filter (fun s => eqb (key s) k) l))).
  { intros test scores empty collected.
    rewrite built, (fold_collected test scores _ _ collected), empty.
    simpl. apply group_scores. }
  exists first. repeat split; try assumption.
  - intros P p copied. rewrite built. apply fold_copied, copied.
  - intros scores empty collected.
    rewrite (collecting (fun _ => true) scores empty).
    + rewrite filter_all. reflexivity.
    + exact collected.
Qed.

(** Rows made from the entries report the means of the groups. *)
Lemma rows_report_means {Row} (scores : V -> list number) (keyOfEntry : V -> K)
  (rowOf : V -> Row) (mean : list number -> number) (keyOf : Row -> K)
  (rating : Row -> number) (snapshots : list Snapshot) :
  (forall s, scores (init s) = []) ->
  (forall s n v, scores (update s n v) = scores v ++ [n]) ->
  (forall s, keyOfEntry (init s) = key s) ->
  (forall s n v, keyOfEntry (update s n v) = keyOfEntry v) ->
  (forall v, keyOf (rowOf v) = keyOfEntry v) ->
  (forall v, rating (rowOf v) = mean (scores v)) ->
  reportsMeans mean eqb key keyOf rating snapshots
    (map rowOf (JSMap.values (groupingLoop eqb key init update snapshots))).
Proof.
  intros empty collected keyed copied shown rated row inRows.
  apply in_map_iff in inRows. destruct inRows as [v [<- inValues]].
  apply In_values in inValues. destruct inValues as [k inMap].
  apply entry_of_group in inMap.
  destruct inMap as [first [_ [_ [keyIs [static [collects _]]]]]].
  rewrite rated, shown, (static _ keyOfEntry copied), keyed, keyIs.
  rewrite (collects scores empty collected). reflexivity.
Qed.
End EntryOfGroup.

Lemma rows_report_group_means {Row V} (key : Snapshot -> string)
  (init : Snapshot -> V) (update : Snapshot -> number -> V -> V)
  (scores : V -> list number) (rowOf : V -> Row)
  (shown : Row -> Snapshot -> Prop) (rating : Row -> number)
  (snapshots : list Snapshot) :
  (forall s, scores (init s) = []) ->
  (forall s n v, scores (update s n v) = scores v ++ [n]) ->
  (forall v first,
      (forall P (p : V -> P),
          (forall s n v, p (update s n v) = p v) -> p v = p (init first)) ->
      shown (rowOf v) first) ->
  (forall v, rating (rowOf v) = reportedMean (scores v)) ->
  reportsGroupMeans key shown rating snapshots
    (map rowOf
       (JSMap.values (groupingLoop String.eqb key init update snapshots))).
Proof.
  intros empty collected shows rated row inRows.
  apply in_map_iff in inRows. destruct inRows as [v [<- inValues]].
  apply In_values in inValues. destruct inValues as [k inMap].
  apply (entry_of_group _ String.eqb_eq) in inMap.
  destruct inMap as [first [inL [counts [keyIs [static [collects _]]]]]].
  exists first. repeat split; try assumption.
  - apply shows, static.
  - rewrite rated, (collects scores empty collected), keyIs. reflexivity.
Qed.

Lemma reportsMeans_sort {Row K} (after : Row -> Row -> bool)
  (mean : list number -> number) (eqb : K -> K -> bool)
  (key : Snapshot -> K) (keyOf : Row -> K) (rating : Row -> number)
  (snapshots : list Snapshot) (rows : list Row) :
  reportsMeans mean eqb key keyOf rating snapshots rows ->
  reportsMeans mean eqb key keyOf rating snapshots (sort after rows).
Proof. intros reported row inRows. apply reported, (sort_In after), inRows. Qed.

(** A loop that skips some records is the loop over the others. *)
Lemma forEachScored_skipping {M} (skip : Snapshot -> bool)
  (body : Snapshot -> number -> M -> M) (l : list Snapshot) (start : M) :
  forEachScored (fun s score m => if skip s then m else body s score m) l start
  = forEachScored body (filter (fun s => negb (skip s)) l) start.
Proof.
  revert start. induction l as [|s l IH]; intro start; [reflexivity|].
  rewrite forEachScored_cons. cbn [filter].
  destruct (skip s); cbn [negb].
  - rewrite <- IH. destruct (scored s); reflexivity.
  - rewrite forEachScored_cons. apply IH.
Qed.

(** On records that all count, the loop is a plain fold. *)
Lemma forEachScored_group {M} (body : Snapshot -> number -> M -> M)
  (test : Snapshot -> bool) (l : list Snapshot) (start : M) :
  forEachScored body (filter test l) start
  = fold_left (fun m s => body s (scoreValue s) m)
      (filter (fun s => scored s && test s) l) start.
Proof.
  revert start. induction l as [|s l IH]; intro start; [reflexivity|].
  cbn [filter]. destruct (test s).
  - rewrite forEachScored_cons.
    destruct (scored s); cbn [andb fold_left]; apply IH.
  - rewrite andb_false_r. apply IH.
Qed.

(** The inner map of a two-level loop is the loop over the records of the
    outer key. *)
Lemma inner_loop {K1 K2 V} (eqb1 : K1 -> K1 -> bool) (eqb2 : K2 -> K2 -> bool)
  (eqb1_eq : forall a b : K1, eqb1 a b = true <-> a = b)
  (key1 : Snapshot -> K1) (key2 : Snapshot -> K2) (init : Snapshot -> V)
  (update : Snapshot -> number -> V -> V) (k1 : K1)
  (inner : JSMap.Map K2 V) (l : list Snapshot) :
  In (k1, inner)
    (groupingLoop eqb1 key1 (fun _ => [])
       (fun s score m =>
          JSMap.ensureThen eqb2 (key2 s) (init s) (update s score) m)
       l) ->
  inner
  = groupingLoop eqb2 key2 init update
      (filter (fun s => eqb1 (key1 s) k1) l).
Proof.
  intro inMap. apply (In_groupingLoop _ eqb1_eq) in inMap.
  destruct inMap as [first [rest [isGroup built]]].
  rewrite <- isGroup in built. rewrite built.
  unfold groupingLoop at 1. rewrite forEachScored_group. reflexivity.
Qed.

Lemma forEachIndexed_In {A} (f : nat -> A -> A) (n : nat) (l : list A)
  (x : A) :
  In x (forEachIndexed f n l) -> exists i a, x = f i a /\ In a l.
Proof.
  revert n. induction l as [|h t IH]; intro n; simpl; [contradiction|].
  intros [<- | inTail].
  - exists n, h. auto.
  - destruct (IH _ inTail) as [i [a [same inT]]]. exists i, a. auto.
Qed.

(** The laws a loop has to satisfy hold by computation. *)
Ltac group_laws :=
  first
    [ exact String.eqb_eq
    | exact Z.eqb_eq
    | intro; apply ratingOrZero_spec
    | intros; reflexivity ].

(** ** One row per group *)

Section RowsOfGroups.
Variables K V : Type.
Variable eqb : K -> K -> bool.
Hypothesis eqb_eq : forall a b : K, eqb a b = true <-> a = b.
Variable key : Snapshot -> K.
Variable init : Snapshot -> V.
Variable update : Snapshot -> number -> V -> V.

Lemma In_keys_of_groupingLoop (k : K) (l : list Snapshot) :
  In k (map fst (groupingLoop eqb key init update l))
  <-> exists s, In s l /\ scored s = true /\ key s = k.
Proof.
  rewrite <- (has_In _ eqb_eq), (has_get eqb), get_groupingLoop
    by exact eqb_eq.
  unfold entryOf, groupOf. split.
  - destruct (filter _ l) as [|first rest] eqn:group; [discriminate|].
    intros _.
    assert (inGroup : In first (first :: rest)) by (left; reflexivity).
    rewrite <- group in inGroup. apply filter_In in inGroup.
    destruct inGroup as [inL passes]. apply andb_true_iff in passes.
    exists first. rewrite <- eqb_eq. tauto.
  - intros [s [inL [counts sameKey]]].
    assert (inGroup :
              In s (filter (fun s => scored s && eqb (key s) k) l)).
    { apply filter_In. split; [exact inL|].
      apply andb_true_iff. rewrite eqb_eq. auto. }
    destruct (filter _ l); [contradiction | reflexivity].
Qed.

Variable keyOfEntry : V -> K.
Hypothesis keyOfEntry_init : forall s, keyOfEntry (init s) = key s.
Hypothesis keyOfEntry_update :
  forall s n v, keyOfEntry (update s n v) = keyOfEntry v.

Lemma keys_of_entries (l : list Snapshot) :
  map keyOfEntry (JSMap.values (groupingLoop eqb key init update l))
  = map fst (groupingLoop eqb key init update l).
Proof.
  unfold JSMap.values. rewrite map_map. apply map_ext_in.
  intros [k v] inMap. simpl.
  apply (entry_of_group _ eqb_eq) in inMap.
  destruct inMap as [first [_ [_ [keyIs [static _]]]]].
  rewrite (static _ keyOfEntry keyOfEntry_update), keyOfEntry_init.
  exact keyIs.
Qed.

(** Rows made from the entries stand for the groups. *)
Lemma rows_are_groups {Row} (rowOf : V -> Row) (keyOf : Row -> K)
  (l : list Snapshot) :
  (forall v, keyOf (rowOf v) = keyOfEntry v) ->
  oneRowPerGroup key keyOf l
    (map rowOf (JSMap.values (groupingLoop eqb key init update l))).
Proof.
  intro shown.
  assert (keys :
            map keyOf
              (map rowOf (JSMap.values (groupingLoop eqb key init update l)))
            = map fst (groupingLoop eqb key init update l)).
  { rewrite map_map, <- keys_of_entries. apply map_ext, shown. }
  unfold oneRowPerGroup. rewrite keys. split.
  - apply groupingLoop_NoDup, eqb_eq.
  - intro k. apply In_keys_of_groupingLoop.
Qed.
End RowsOfGroups.

Lemma oneRowPerGroup_perm {Row K} (key : Snapshot -> K) (keyOf : Row -> K)
  (l : list Snapshot) (rows rows' : list Row) :
  Permutation rows' rows ->
  oneRowPerGroup key keyOf l rows -> oneRowPerGroup key keyOf l rows'.
Proof.
  intros perm [distinct shown].
  pose proof (Permutation_map keyOf perm) as keys.
  split.
  - apply (Permutation_NoDup (Permutation_sym keys)), distinct.
  - intro k. rewrite <- shown.
    split; apply Permutation_in; [|symmetry]; exact keys.
Qed.

Lemma oneRowPerGroup_keys {Row Row' K} (key : Snapshot -> K)
  (keyOf : Row -> K) (keyOf' : Row' -> K) (l : list Snapshot)
  (rows : list Row) (rows' : list Row') :
  map keyOf' rows' = map keyOf rows ->
  oneRowPerGroup key keyOf l rows -> oneRowPerGroup key keyOf' l rows'.
Proof. unfold oneRowPerGroup. intros ->. auto. Qed.

(** Rows made from the entries of a map, key and value, stand for the
    groups when they show the key. *)
Lemma entries_are_groups {K V Row} (eqb : K -> K -> bool)
  (eqb_eq : forall a b : K, eqb a b = true <-> a = b)
  (key : Snapshot -> K) (init : Snapshot -> V)
  (update : Snapshot -> number -> V -> V) (rowOf : K * V -> Row)
  (keyOf : Row -> K) (l : list Snapshot) :
  (forall e, keyOf (rowOf e) = fst e) ->
  oneRowPerGroup key keyOf l
    (map rowOf (JSMap.entries (groupingLoop eqb key init update l))).
Proof.
  intro shown. unfold oneRowPerGroup, JSMap.entries.
  rewrite map_map, (map_ext _ fst shown). split.
  - apply groupingLoop_NoDup, eqb_eq.
  - intro k. apply In_keys_of_groupingLoop, eqb_eq.
Qed.

Lemma oneRowPerGroup_sort {Row K} (after : Row -> Row -> bool)
  (key : Snapshot -> K) (keyOf : Row -> K) (l : list Snapshot)
  (rows : list Row) :
  oneRowPerGroup key keyOf l rows ->
  oneRowPerGroup key keyOf l (sort after rows).
Proof. apply oneRowPerGroup_perm, sort_perm. Qed.

Ltac key_laws :=
  first
    [ exact String.eqb_eq
    | exact Z.eqb_eq
    | reflexivity
    | intros; reflexivity ].

Lemma semester_rows_are_groups (localeCompare : string -> string -> Z)
  (snapshots : list Snapshot) :
  oneRowPerGroup semesterNumber SemesterTrendAggregated.semesterNumber
    snapshots (aggregateSemesterTrends localeCompare snapshots).
Proof.
  apply oneRowPerGroup_sort.
  apply (entries_are_groups Z.eqb Z.eqb_eq). reflexivity.
Qed.

Lemma meanOrNull_None (scores : list number) :
  meanOrNull scores = None <-> scores = [].
Proof. destruct scores; cbn; split; congruence. Qed.

(** Rows made from the entries stand for the groups that are hidden in
    them. *)
Lemma rows_cover_hidden_groups {Row V} (key : Snapshot -> string)
  (init : Snapshot -> V) (update : Snapshot -> number -> V -> V)
  (scores : V -> list number) (rowOf : V -> Row)
  (shown : Row -> Snapshot -> Prop) (rating : Row -> number)
  (snapshots : list Snapshot) :
  (forall s, scores (init s) = []) ->
  (forall s n v, scores (update s n v) = scores v ++ [n]) ->
  (forall v first,
      (forall P (p : V -> P),
          (forall s n v, p (update s n v) = p v) -> p v = p (init first)) ->
      shown (rowOf v) first) ->
  (forall v, rating (rowOf v) = reportedMean (scores v)) ->
  meansOfHiddenGroups key shown rating snapshots
    (map rowOf
       (JSMap.values (groupingLoop String.eqb key init update snapshots))).
Proof.
  intros empty collected shows rated. split; [|split].
  - apply rows_report_group_means with (scores := scores); assumption.
  - unfold JSMap.values. rewrite !length_map. apply groupingLoop_length.
  - intros s inL counts.
    assert (present :
              In (key s)
                (map fst (groupingLoop String.eqb key init update snapshots))).
    { apply In_keys_groupingLoop. exists s. auto. }
    apply in_map_iff in present. destruct present as [[k v] [keyIs inMap]].
    cbn [fst] in keyIs. subst k.
    pose proof inMap as built.
    apply (entry_of_group _ String.eqb_eq) in built.
    destruct built as [first [inFirst [_ [sameKey [static [collects _]]]]]].
    exists (rowOf v), first. repeat split; try assumption.
    + apply in_map_iff. exists v. split; [reflexivity|].
      unfold JSMap.values. apply in_map_iff. exists (key s, v). auto.
    + apply shows, static.
    + rewrite rated, (collects scores empty collected). reflexivity.
Qed.

Lemma meansOfHiddenGroups_sort {Row} (after : Row -> Row -> bool)
  (key : Snapshot -> string) (shown : Row -> Snapshot -> Prop)
  (rating : Row -> number) (snapshots : list Snapshot) (rows : list Row) :
  meansOfHiddenGroups key shown rating snapshots rows ->
  meansOfHiddenGroups key shown rating snapshots (sort after rows).
Proof.
  intros [reported [counted covered]]. split; [|split].
  - intros row inRows. apply reported, (sort_In after), inRows.
  - rewrite sort_length. exact counted.
  - intros s inL counts.
    destruct (covered s inL counts) as [row [first [inRows facts]]].
    exists row, first. split; [|exact facts].
    apply (Permutation_in _ (Permutation_sym (sort_perm after rows))).
    exact inRows.
Qed.

Lemma splitMeans_of_means {Row} (key : Snapshot -> string)
  (keyOf : Row -> string) (isLecture isLab : Snapshot -> bool)
  (lectureRating labRating : Row -> option number)
  (combinedRating : Row -> number) (snapshots : list Snapshot)
  (rows : list Row) :
  oneRowPerGroup key keyOf snapshots rows ->
  (forall row,
      In row rows ->
      let ofGroup :=
        filter (fun s => String.eqb (key s) (keyOf row)) snapshots in
      let lecture := acceptedScores (filter isLecture ofGroup) in
      let lab := acceptedScores (filter isLab ofGroup) in
      lectureRating row = meanOrNull lecture
      /\ labRating row = meanOrNull lab
      /\ combinedRating row = meanOrZero (lecture ++ lab)) ->
  splitMeansOfGroups key keyOf isLecture isLab lectureRating labRating
    combinedRating snapshots rows.
Proof.
  intros groups means. split; [exact groups|].
  intros row inRows. cbn zeta.
  destruct (means row inRows) as [lectures [labs combined]].
  cbn zeta in lectures, labs, combined.
  rewrite lectures, labs, combined.
  repeat split; try apply meanOrNull_None.
Qed.

Lemma meansOfGroups_sort {Row} (after : Row -> Row -> bool)
  (mean : list number -> number) (key : Snapshot -> string)
  (keyOf : Row -> string) (rating : Row -> number)
  (snapshots : list Snapshot) (rows : list Row) :
  meansOfGroups mean key keyOf rating snapshots rows ->
  meansOfGroups mean key keyOf rating snapshots (sort after rows).
Proof.
  intros [groups means].
  split; [apply oneRowPerGroup_sort | apply reportsMeans_sort]; assumption.
Qed.

(** Rows made from the entries stand for the groups and report their
    means. *)
Lemma rows_are_groups_with_means {V Row} (key : Snapshot -> string)
  (init : Snapshot -> V) (update : Snapshot -> number -> V -> V)
  (scores : V -> list number) (keyOfEntry : V -> string) (rowOf : V -> Row)
  (mean : list number -> number) (keyOf : Row -> string)
  (rating : Row -> number) (snapshots : list Snapshot) :
  (forall s, scores (init s) = []) ->
  (forall s n v, scores (update s n v) = scores v ++ [n]) ->
  (forall s, keyOfEntry (init s) = key s) ->
  (forall s n v, keyOfEntry (update s n v) = keyOfEntry v) ->
  (forall v, keyOf (rowOf v) = keyOfEntry v) ->
  (forall v, rating (rowOf v) = mean (scores v)) ->
  meansOfGroups mean key keyOf rating snapshots
    (map rowOf
       (JSMap.values (groupingLoop String.eqb key init update snapshots))).
Proof.
  intros empty collected keyed copied shown rated. split.
  - apply rows_are_groups with (keyOfEntry := keyOfEntry);
      first [exact String.eqb_eq | assumption].
  - apply rows_report_means
      with (scores := scores) (keyOfEntry := keyOfEntry);
      first [exact String.eqb_eq | assumption].
Qed.

(** ** The rollups *)

Lemma overall_rating_mean (snapshots : list Snapshot) :
  OverallStats.averageRating (calculateOverallStats snapshots)
  = meanOrZero (acceptedScores snapshots).
Proof. apply ratingOrZero_spec. Qed.

Lemma faculty_rows_means (snapshots : list Snapshot) :
  reportsMeans meanOrZero String.eqb facultyId
    FacultyPerformanceAggregated.facultyId
    FacultyPerformanceAggregated.averageRating snapshots
    (aggregateFacultyPerformance snapshots).
Proof.
  unfold aggregateFacultyPerformance. intros row inRows.
  apply forEachIndexed_In in inRows.
  destruct inRows as [i [unranked [-> inSorted]]].
  apply sort_In in inSorted.
  revert unranked inSorted.
  change (reportsMeans meanOrZero String.eqb facultyId
            FacultyPerformanceAggregated.facultyId
            FacultyPerformanceAggregated.averageRating snapshots
            (map facultyRow (JSMap.values (facultyMapOf snapshots)))).
  apply rows_report_means
    with (scores := FacultyAcc.scores) (keyOfEntry := FacultyAcc.facultyId);
    group_laws.
Qed.

Lemma subject_rows_split (snapshots : list Snapshot) :
  splitMeansOfGroups subjectId SubjectRatingAggregated.subjectId
    storedAsLecture (fun s => negb (storedAsLecture s))
    SubjectRatingAggregated.lectureRating SubjectRatingAggregated.labRating
    SubjectRatingAggregated.overallRating snapshots
    (aggregateSubjectRatings snapshots).
Proof.
  apply splitMeans_of_means.
  - apply oneRowPerGroup_sort.
    apply rows_are_groups with (keyOfEntry := SubjectAcc.subjectId);
      key_laws.
  - intros row inRows.
    destruct (subject_row_scores snapshots row inRows)
      as [subject [-> [_ [lectures labs]]]].
    cbn zeta. rewrite <- lectures, <- labs. simpl.
    rewrite !ratingOrNull_spec, ratingOrZero_spec. auto.
Qed.

Lemma faculty_rows_groups (snapshots : list Snapshot) :
  meansOfGroups meanOrZero facultyId FacultyPerformanceAggregated.facultyId
    FacultyPerformanceAggregated.averageRating snapshots
    (aggregateFacultyPerformance snapshots).
Proof.
  split; [|apply faculty_rows_means].
  unfold aggregateFacultyPerformance.
  apply oneRowPerGroup_keys
    with (keyOf := FacultyPerformanceAggregated.facultyId)
         (rows :=
            sort (descending FacultyPerformanceAggregated.averageRating)
              (map facultyRow (JSMap.values (facultyMapOf snapshots)))).
  - apply forEachIndexed_map. reflexivity.
  - apply oneRowPerGroup_sort.
    apply rows_are_groups with (keyOfEntry := FacultyAcc.facultyId);
      key_laws.
Qed.

Lemma division_rows_groups (localeCompare : string -> string -> Z)
  (snapshots : list Snapshot) :
  meansOfGroups meanOrZero divisionId DivisionPerformanceAggregated.divisionId
    DivisionPerformanceAggregated.averageRating snapshots
    (aggregateDivisionPerformance localeCompare snapshots).
Proof.
  apply meansOfGroups_sort.
  apply rows_are_groups_with_means
    with (scores := DivisionAcc.scores)
         (keyOfEntry := DivisionAcc.divisionId);
    group_laws.
Qed.

Lemma year_rows_groups (localeCompare : string -> string -> Z)
  (snapshots : list Snapshot) :
  meansOfGroups meanOrZero academicYearId
    AcademicYearTrendAggregated.academicYearId
    AcademicYearTrendAggregated.averageRating snapshots
    (aggregateAcademicYearTrends localeCompare snapshots).
Proof.
  apply meansOfGroups_sort.
  apply rows_are_groups_with_means
    with (scores := YearAcc.scores) (keyOfEntry := YearAcc.academicYearId);
    group_laws.
Qed.

Lemma semester_rows_groups (localeCompare : string -> string -> Z)
  (snapshots : list Snapshot) (row : SemesterTrendAggregated.t) :
  In row (aggregateSemesterTrends localeCompare snapshots) ->
  meansOfGroups meanOrZero academicYearId
    SemesterTrendAggregated.academicYearId
    SemesterTrendAggregated.averageRating
    (filter
       (fun s => Z.eqb (semesterNumber s)
                   (SemesterTrendAggregated.semesterNumber row))
       snapshots)
    (SemesterTrendAggregated.academicYearData row).
Proof.
  unfold aggregateSemesterTrends. intro inRows.
  apply sort_In in inRows. apply in_map_iff in inRows.
  destruct inRows as [[semester yearMap] [<- inMap]].
  unfold JSMap.entries in inMap.
  apply (inner_loop Z.eqb String.eqb Z.eqb_eq) in inMap.
  cbn [fst snd SemesterTrendAggregated.semesterNumber
         SemesterTrendAggregated.academicYearData].
  rewrite inMap.
  apply meansOfGroups_sort.
  apply rows_are_groups_with_means
    with (scores := YearScores.scores)
         (keyOfEntry := YearScores.academicYearId);
    group_laws.
Qed.

Lemma department_rows_groups (localeCompare : string -> string -> Z)
  (snapshots : list Snapshot) (row : DepartmentTrendAggregated.t) :
  In row (aggregateDepartmentTrends localeCompare snapshots) ->
  meansOfGroups meanOrZero departmentId
    DepartmentTrendAggregated.departmentId
    DepartmentTrendAggregated.averageRating
    (filter
       (fun s =>
          String.eqb (academicYearString s)
            (DepartmentTrendAggregated.academicYearString row))
       snapshots)
    (DepartmentTrendAggregated.departmentData row).
Proof.
  unfold aggregateDepartmentTrends. intro inRows.
  apply sort_In in inRows. apply in_map_iff in inRows.
  destruct inRows as [[year deptMap] [<- inMap]].
  unfold JSMap.entries in inMap.
  apply (inner_loop String.eqb String.eqb String.eqb_eq) in inMap.
  cbn [fst snd DepartmentTrendAggregated.academicYearString
         DepartmentTrendAggregated.departmentData].
  rewrite inMap.
  apply meansOfGroups_sort.
  apply rows_are_groups_with_means
    with (scores := DepartmentScores.scores)
         (keyOfEntry := DepartmentScores.departmentId);
    group_laws.
Qed.

Lemma department_rows_are_groups (localeCompare : string -> string -> Z)
  (snapshots : list Snapshot) :
  oneRowPerGroup academicYearString
    DepartmentTrendAggregated.academicYearString snapshots
    (aggregateDepartmentTrends localeCompare snapshots).
Proof.
  apply oneRowPerGroup_sort.
  apply (entries_are_groups String.eqb String.eqb_eq). reflexivity.
Qed.

(** ** The breakdowns of the detail builders *)

Lemma Return_injective {A} (a b : A) : Return a = Return b -> a = b.
Proof. intro same. inversion same. reflexivity. Qed.

Lemma filter_truthy (column : Snapshot -> option string) (l : list Snapshot) :
  filter (fun s => negb (negb (truthy (column s)))) l
  = filter (fun s => truthy (column s)) l.
Proof. apply filter_same. intro s. apply negb_involutive. Qed.

Lemma subject_detail_breakdowns (prisma : Database) (subjectId : string)
  (academicYearId semesterId departmentId : option string)
  (result : SubjectDetail.t) :
  SubjectDetail.getSubjectDetailedAnalytics prisma subjectId academicYearId
    semesterId departmentId = Return result ->
  let snapshots :=
    filter
      (SubjectDetail.whereClause subjectId academicYearId semesterId
         departmentId)
      (Prisma.feedbackSnapshot prisma) in
  let isLecture s :=
    LectureType_eqb (SubjectDetail.deriveLectureType s) LECTURE in
  let isLab s := LectureType_eqb (SubjectDetail.deriveLectureType s) LAB in
  let lecture := acceptedScores (filter isLecture snapshots) in
  let lab := acceptedScores (filter isLab snapshots) in
  SubjectDetail.lectureRating result = meanOrNull lecture
  /\ SubjectDetail.labRating result = meanOrNull lab
  /\ SubjectDetail.overallRating result = meanOrZero (lecture ++ lab)
  /\ meansOfGroups reportedMean
       (fun s =>
          Snapshot.facultyId s ++ "-"
          ++ LectureType_name (SubjectDetail.deriveLectureType s))%string
       (fun row =>
          SubjectDetail.facultyId row ++ "-"
          ++ LectureType_name (SubjectDetail.lectureType row))%string
       SubjectDetail.rating snapshots (SubjectDetail.facultyBreakdown result)
  /\ splitMeansOfGroups Snapshot.divisionId SubjectDetail.divisionId
       isLecture isLab SubjectDetail.division_lectureRating
       SubjectDetail.division_labRating SubjectDetail.totalRating snapshots
       (SubjectDetail.divisionBreakdown result)
  /\ meansOfGroups reportedMean
       (fun s => textOf (questionCategoryId s)) SubjectDetail.categoryId
       SubjectDetail.avgRating
       (filter (fun s => truthy (questionCategoryId s)) snapshots)
       (SubjectDetail.questionBreakdown result).
Proof.
  unfold SubjectDetail.getSubjectDetailedAnalytics.
  destruct (filter _ (Prisma.feedbackSnapshot prisma))
    as [|firstSnapshot others] eqn:found; [discriminate|].
  rewrite splitScores_spec. intro returned.
  apply Return_injective in returned. subst result.
  generalize (firstSnapshot :: others). clear. intro snapshots.
  cbn zeta.
  cbn [SubjectDetail.lectureRating SubjectDetail.labRating
         SubjectDetail.overallRating SubjectDetail.facultyBreakdown
         SubjectDetail.divisionBreakdown SubjectDetail.questionBreakdown].
  rewrite !ratingOrNull_spec, ratingOrZero_spec.
  repeat (split; [reflexivity|]).
  split; [|split].
  - apply rows_are_groups_with_means
      with (scores := SubjectDetail.f_scores)
           (keyOfEntry :=
              fun v =>
                (SubjectDetail.f_facultyId v ++ "-"
                 ++ LectureType_name (SubjectDetail.f_lectureType v))%string);
      group_laws.
  - apply splitMeans_of_means.
    { apply rows_are_groups with (keyOfEntry := SubjectDetail.d_divisionId);
        key_laws. }
    intros row inRows.
    apply in_map_iff in inRows. destruct inRows as [v [<- inValues]].
    apply In_values in inValues. destruct inValues as [k inMap].
    apply (entry_of_group _ String.eqb_eq) in inMap.
    destruct inMap as [first [_ [_ [keyIs [static [_ collects]]]]]].
    cbn [SubjectDetail.divisionId SubjectDetail.division_lectureRating
           SubjectDetail.division_labRating SubjectDetail.totalRating].
    rewrite (static _ SubjectDetail.d_divisionId) by reflexivity.
    cbn [SubjectDetail.d_divisionId]. rewrite keyIs.
    rewrite !ratingOrNull_spec, ratingOrZero_spec.
    rewrite (collects
               (fun s =>
                  LectureType_eqb (SubjectDetail.deriveLectureType s) LECTURE)
               SubjectDetail.d_lectureScores);
      [|reflexivity
       |intros s n e; simpl; destruct (SubjectDetail.deriveLectureType s);
        reflexivity].
    rewrite (collects
               (fun s =>
                  LectureType_eqb (SubjectDetail.deriveLectureType s) LAB)
               SubjectDetail.d_labScores);
      [|reflexivity
       |intros s n e; simpl; destruct (SubjectDetail.deriveLectureType s);
        reflexivity].
    auto.
  - unfold SubjectDetail.categoryMapOf.
    rewrite (forEachScored_skipping
               (fun s => negb (truthy (questionCategoryId s)))).
    rewrite filter_truthy.
    apply rows_are_groups_with_means
      with (scores := SubjectDetail.c_scores)
           (keyOfEntry := SubjectDetail.c_categoryId);
      group_laws.
Qed.

Lemma faculty_detail_breakdowns (localeCompare : string -> string -> Z)
  (prisma : Database) (facultyId : string) (academicYearId : option string)
  (result : FacultyDetail.t) :
  getFacultyDetailedAnalytics localeCompare prisma facultyId academicYearId
  = Return result ->
  let snapshots :=
    filter (FacultyDetail.whereClause facultyId academicYearId)
      (Prisma.feedbackSnapshot prisma) in
  FacultyDetail.overallRating result = meanOrZero (acceptedScores snapshots)
  /\ meansOfGroups reportedMean
       (fun s =>
          Snapshot.subjectId s ++ "-"
          ++ LectureType_name (FacultyDetail.deriveLectureType s))%string
       (fun row =>
          FacultyDetail.subjectId row ++ "-"
          ++ LectureType_name (FacultyDetail.lectureType row))%string
       FacultyDetail.rating snapshots (FacultyDetail.subjectBreakdown result)
  /\ meansOfHiddenGroups
       (fun s =>
          Snapshot.divisionId s ++ "-" ++ Snapshot.subjectId s ++ "-"
          ++ LectureType_name (FacultyDetail.deriveLectureType s))%string
       (fun row first =>
          FacultyDetail.divisionId row = Snapshot.divisionId first
          /\ FacultyDetail.division_subjectName row
             = Snapshot.subjectName first
          /\ FacultyDetail.division_lectureType row
             = FacultyDetail.deriveLectureType first)
       FacultyDetail.division_rating snapshots
       (FacultyDetail.divisionBreakdown result)
  /\ meansOfGroups reportedMean
       (fun s => textOf (questionCategoryName s)) FacultyDetail.category
       FacultyDetail.avgRating
       (filter (fun s => truthy (questionCategoryName s)) snapshots)
       (FacultyDetail.questionCategoryBreakdown result)
  /\ meansOfGroups reportedMean
       (fun s =>
          Snapshot.academicYearId s ++ "-"
          ++ ofInteger (Snapshot.semesterNumber s))%string
       (fun row =>
          FacultyDetail.academicYearId row ++ "-"
          ++ ofInteger (FacultyDetail.trend_semester row))%string
       FacultyDetail.trend_rating snapshots (FacultyDetail.trendData result).
Proof.
  unfold getFacultyDetailedAnalytics.
  destruct (filter (FacultyDetail.whereClause facultyId academicYearId)
              (Prisma.feedbackSnapshot prisma))
    as [|firstSnapshot others] eqn:found; [discriminate|].
  intro returned. apply Return_injective in returned. subst result.
  generalize (firstSnapshot :: others). clear. intro snapshots.
  cbn zeta.
  cbn [FacultyDetail.overallRating FacultyDetail.subjectBreakdown
         FacultyDetail.divisionBreakdown
         FacultyDetail.questionCategoryBreakdown FacultyDetail.trendData].
  split; [apply ratingOrZero_spec|].
  split; [|split; [|split]].
  - apply rows_are_groups_with_means
      with (scores := FacultyDetail.s_scores)
           (keyOfEntry :=
              fun v =>
                (FacultyDetail.s_subjectId v ++ "-"
                 ++ LectureType_name (FacultyDetail.s_lectureType v))%string);
      group_laws.
  - apply rows_cover_hidden_groups with (scores := FacultyDetail.d_scores);
      try (intros; reflexivity).
    intros v first static. repeat split.
    + apply (static _ FacultyDetail.d_divisionId). reflexivity.
    + apply (static _ FacultyDetail.d_subjectName). reflexivity.
    + apply (static _ FacultyDetail.d_lectureType). reflexivity.
  - unfold FacultyDetail.categoryMapOf.
    rewrite (forEachScored_skipping
               (fun s => negb (truthy (questionCategoryName s)))).
    rewrite filter_truthy.
    apply rows_are_groups_with_means
      with (scores := FacultyDetail.c_scores)
           (keyOfEntry := FacultyDetail.c_category);
      group_laws.
  - apply meansOfGroups_sort.
    apply rows_are_groups_with_means
      with (scores := FacultyDetail.t_scores)
           (keyOfEntry :=
              fun v =>
                (FacultyDetail.t_academicYearId v ++ "-"
                 ++ ofInteger (FacultyDetail.t_semester v))%string);
      group_laws.
Qed.

Lemma division_detail_breakdowns (localeCompare : string -> string -> Z)
  (prisma : Database) (divisionId : string) (academicYearId : option string)
  (result : DivisionDetail.t) :
  getDivisionDetailedAnalytics localeCompare prisma divisionId academicYearId
  = Return result ->
  let snapshots :=
    filter (DivisionDetail.whereClause divisionId academicYearId)
      (Prisma.feedbackSnapshot prisma) in
  let isLecture s :=
    LectureType_eqb (DivisionDetail.deriveLectureType s) LECTURE in
  let isLab s := LectureType_eqb (DivisionDetail.deriveLectureType s) LAB in
  DivisionDetail.overallRating result = meanOrZero (acceptedScores snapshots)
  /\ splitMeansOfGroups Snapshot.subjectId DivisionDetail.subjectId
       isLecture isLab DivisionDetail.lectureRating DivisionDetail.labRating
       DivisionDetail.totalRating snapshots
       (DivisionDetail.subjectBreakdown result)
  /\ meansOfHiddenGroups
       (fun s =>
          Snapshot.facultyId s ++ "-" ++ Snapshot.subjectId s ++ "-"
          ++ LectureType_name (DivisionDetail.deriveLectureType s))%string
       (fun row first =>
          DivisionDetail.facultyId row = Snapshot.facultyId first
          /\ DivisionDetail.faculty_subjectName row = Snapshot.subjectName first
          /\ DivisionDetail.lectureType row
             = DivisionDetail.deriveLectureType first)
       DivisionDetail.rating snapshots (DivisionDetail.facultyBreakdown result)
  /\ meansOfGroups reportedMean Snapshot.academicYearId
       DivisionDetail.academicYearId DivisionDetail.year_rating snapshots
       (DivisionDetail.academicYearComparison result).
Proof.
  unfold getDivisionDetailedAnalytics.
  destruct (filter _ (Prisma.feedbackSnapshot prisma))
    as [|firstSnapshot others] eqn:found; [discriminate|].
  intro returned. apply Return_injective in returned. subst result.
  generalize (firstSnapshot :: others). clear. intro snapshots.
  cbn zeta.
  cbn [DivisionDetail.overallRating DivisionDetail.subjectBreakdown
         DivisionDetail.facultyBreakdown DivisionDetail.academicYearComparison].
  split; [apply ratingOrZero_spec|].
  split; [|split].
  - apply splitMeans_of_means.
    { apply rows_are_groups with (keyOfEntry := DivisionDetail.s_subjectId);
        key_laws. }
    intros row inRows.
    destruct (division_subject_row_scores _ row inRows)
      as [e [-> [lectures labs]]].
    cbn zeta. rewrite <- lectures, <- labs. simpl.
    rewrite !ratingOrNull_spec, ratingOrZero_spec. auto.
  - apply rows_cover_hidden_groups with (scores := DivisionDetail.f_scores);
      try (intros; reflexivity).
    intros v first static. repeat split.
    + apply (static _ DivisionDetail.f_facultyId). reflexivity.
    + apply (static _ DivisionDetail.f_subjectName). reflexivity.
    + apply (static _ DivisionDetail.f_lectureType). reflexivity.
  - apply meansOfGroups_sort.
    apply rows_are_groups_with_means
      with (scores := DivisionDetail.y_scores)
           (keyOfEntry := DivisionDetail.y_academicYearId);
      group_laws.
Qed.

(* ================================================================== *)
(** * The division and year rollups, sorted by name *)
(* ================================================================== *)

(** The name a row shows is that of a record of its group. *)
Lemma division_rows_names (localeCompare : string -> string -> Z)
  (snapshots : list Snapshot) (row : DivisionPerformanceAggregated.t) :
  In row (aggregateDivisionPerformance localeCompare snapshots) ->
  exists first,
    In first snapshots /\ scored first = true
    /\ divisionId first = DivisionPerformanceAggregated.divisionId row
    /\ divisionName first = DivisionPerformanceAggregated.divisionName row.
Proof.
  unfold aggregateDivisionPerformance. intro inRows.
  apply sort_In in inRows. apply in_map_iff in inRows.
  destruct inRows as [v [<- inValues]].
  apply In_values in inValues. destruct inValues as [k inMap].
  apply (entry_of_group _ String.eqb_eq) in inMap.
  destruct inMap as [first [inL [counts [_ [static _]]]]].
  exists first. split; [exact inL|]. split; [exact counts|].
  cbn [divisionRow DivisionPerformanceAggregated.divisionId
         DivisionPerformanceAggregated.divisionName].
  rewrite (static _ DivisionAcc.divisionId) by reflexivity.
  rewrite (static _ DivisionAcc.divisionName) by reflexivity.
  split; reflexivity.
Qed.

Lemma year_rows_names (localeCompare : string -> string -> Z)
  (snapshots : list Snapshot) (row : AcademicYearTrendAggregated.t) :
  In row (aggregateAcademicYearTrends localeCompare snapshots) ->
  exists first,
    In first snapshots /\ scored first = true
    /\ academicYearId first = AcademicYearTrendAggregated.academicYearId row
    /\ academicYearString first
       = AcademicYearTrendAggregated.academicYearString row.
Proof.
  unfold aggregateAcademicYearTrends. intro inRows.
  apply sort_In in inRows. apply in_map_iff in inRows.
  destruct inRows as [v [<- inValues]].
  apply In_values in inValues. destruct inValues as [k inMap].
  apply (entry_of_group _ String.eqb_eq) in inMap.
  destruct inMap as [first [inL [counts [_ [static _]]]]].
  exists first. split; [exact inL|]. split; [exact counts|].
  cbn [yearRow AcademicYearTrendAggregated.academicYearId
         AcademicYearTrendAggregated.academicYearString].
  rewrite (static _ YearAcc.academicYearId) by reflexivity.
  rewrite (static _ YearAcc.academicYearString) by reflexivity.
  split; reflexivity.
Qed.

(** C9.  For every input, [aggregateDivisionPerformance] has one row for
    each division that has a score, under the name that a record of the
    division carries, and the rows are in ascending order of that name;
    [aggregateAcademicYearTrends] has one row for each academic year that
    has a score, in ascending order of the label of the year.  No row
    comes after one whose name [localeCompare] puts later: the order is
    the collation of the host's locale, here any consistent comparator,
    and not the lexicographic order of the code units, which puts every
    capital before every small letter. *)
Theorem division_and_year_rows_ascending :
  forall localeCompare : string -> string -> Z,
    (forall a b, Z.sgn (localeCompare b a) = - Z.sgn (localeCompare a b)) ->
    (forall a b c,
        localeCompare a b <= 0 -> localeCompare b c <= 0 ->
        localeCompare a c <= 0) ->
    forall snapshots : list Snapshot,
      let divisions := aggregateDivisionPerformance localeCompare snapshots in
      let years := aggregateAcademicYearTrends localeCompare snapshots in
      StronglySorted (fun a b => localeCompare a b <= 0)
        (map DivisionPerformanceAggregated.divisionName divisions)
      /\ oneRowPerGroup divisionId DivisionPerformanceAggregated.divisionId
           snapshots divisions
      /\ (forall row,
             In row divisions ->
             exists first,
               In first snapshots /\ scored first = true
               /\ divisionId first
                  = DivisionPerformanceAggregated.divisionId row
               /\ divisionName first
                  = DivisionPerformanceAggregated.divisionName row)
      /\ StronglySorted (fun a b => localeCompare a b <= 0)
           (map AcademicYearTrendAggregated.academicYearString years)
      /\ oneRowPerGroup academicYearId
           AcademicYearTrendAggregated.academicYearId snapshots years
      /\ (forall row,
             In row years ->
             exists first,
               In first snapshots /\ scored first = true
               /\ academicYearId first
                  = AcademicYearTrendAggregated.academicYearId row
               /\ academicYearString first
                  = AcademicYearTrendAggregated.academicYearString row).
Proof.
  intros localeCompare antisym trans snapshots divisions years.
  split; [apply byLocale_sorted; assumption|].
  split; [apply division_rows_groups|].
  split; [apply division_rows_names|].
  split; [apply byLocale_sorted; assumption|].
  split; [apply year_rows_groups | apply year_rows_names].
Qed.

(** C9 at work, in the collation of words: the divisions B and a, met in
    that order, come out as a, B, and the years Spring 2024 and fall 2024
    as fall 2024, Spring 2024. *)
Lemma division_and_year_rows_ascending_witness :
  (forall a b, Z.sgn (wordCompare b a) = - Z.sgn (wordCompare a b))
  /\ (forall a b c,
         wordCompare a b <= 0 -> wordCompare b c <= 0 ->
         wordCompare a c <= 0)
  /\ map DivisionPerformanceAggregated.divisionName
       (aggregateDivisionPerformance wordCompare Samples.mixedCase)
     = ["a"; "B"]
  /\ map AcademicYearTrendAggregated.academicYearString
       (aggregateAcademicYearTrends wordCompare Samples.mixedCase)
     = ["fall 2024"; "Spring 2024"]
  /\ StronglySorted (fun a b => wordCompare a b <= 0)
       (map DivisionPerformanceAggregated.divisionName
          (aggregateDivisionPerformance wordCompare Samples.mixedCase))
  /\ StronglySorted (fun a b => wordCompare a b <= 0)
       (map AcademicYearTrendAggregated.academicYearString
          (aggregateAcademicYearTrends wordCompare Samples.mixedCase)).
Proof.
  split; [exact wordCompare_antisym|].
  split; [exact wordCompare_trans|].
  split; [reflexivity|]. split; [reflexivity|].
  destruct (division_and_year_rows_ascending wordCompare
              wordCompare_antisym wordCompare_trans Samples.mixedCase)
    as [divisions [_ [_ [years _]]]].
  split; [exact divisions | exact years].
Defined.

(** C9, the counterexample.  The rows are not in lexicographic order: in
    the collation of words the division a comes before the division B,
    and the year fall 2024 before the year Spring 2024, while code unit by
    code unit ["a"] is after ["B"] and ["fall 2024"] after
    ["Spring 2024"]. *)
Lemma division_rows_not_lexicographic :
  map DivisionPerformanceAggregated.divisionName
    (aggregateDivisionPerformance wordCompare Samples.mixedCase)
  = ["a"; "B"]
  /\ String.compare "a" "B" = Gt
  /\ wordCompare "a" "B" = -1
  /\ map AcademicYearTrendAggregated.academicYearString
       (aggregateAcademicYearTrends wordCompare Samples.mixedCase)
     = ["fall 2024"; "Spring 2024"]
  /\ String.compare "fall 2024" "Spring 2024" = Gt
  /\ wordCompare "fall 2024" "Spring 2024" = -1.
Proof. repeat split; reflexivity. Qed.

(* ================================================================== *)
(** * Faculty performance: order and ranks *)
(* ================================================================== *)

(** C5.  Whatever the input, [aggregateFacultyPerformance] returns its
    rows in descending order of mean rating (the comparator
    [b.averageRating - a.averageRating] is not positive on a row and the one
    after it); the rank of a row is its position counted from 1; the ranks
    of [n] rows are exactly 1..n, and [n] is the number of faculties that
    have a rating; the rating of a row is the mean of the scores above zero
    of its faculty.  Ties keep the order in which the faculties first
    appear in the input: means 4.8, 4.8, 4.2 give the ranks 1, 2, 3, the
    first faculty met getting rank 1. *)
Theorem aggregateFacultyPerformance_ranks :
  forall snapshots : list Snapshot,
    let rows := aggregateFacultyPerformance snapshots in
    Sorted (fun higher lower => gt (sub lower higher) zero = false)
      (map FacultyPerformanceAggregated.averageRating rows)
    /\ (forall i row,
          nth_error rows i = Some row ->
          FacultyPerformanceAggregated.rank row = (i + 1)%nat)
    /\ map FacultyPerformanceAggregated.rank rows
       = seq 1 (List.length rows)
    /\ List.length rows
       = distinctCount (map facultyId (filter scored snapshots))
    /\ reportsMeans meanOrZero String.eqb facultyId
         FacultyPerformanceAggregated.facultyId
         FacultyPerformanceAggregated.averageRating snapshots rows
    /\ map (fun row =>
              (FacultyPerformanceAggregated.facultyId row,
               FacultyPerformanceAggregated.averageRating row,
               FacultyPerformanceAggregated.rank row))
         (aggregateFacultyPerformance Samples.threeFaculties)
       = [ ("Asha", decimal 48 1, 1%nat);
           ("Bina", decimal 48 1, 2%nat);
           ("Chetan", decimal 42 1, 3%nat) ]
    /\ map (fun row =>
              (FacultyPerformanceAggregated.facultyId row,
               FacultyPerformanceAggregated.rank row))
         (aggregateFacultyPerformance Samples.threeFacultiesSwapped)
       = [ ("Bina", 1%nat); ("Asha", 2%nat); ("Chetan", 3%nat) ].
Proof.
  intros snapshots rows.
  split; [|split; [|split; [|split; [|split; [|split]]]]];
    [ | | | | apply faculty_rows_means | reflexivity | reflexivity ];
    subst rows; unfold aggregateFacultyPerformance.
  - rewrite forEachIndexed_map by reflexivity.
    apply Sorted_map.
    apply (sort_sorted
             (descending FacultyPerformanceAggregated.averageRating)).
    intros a b. apply descending_asym.
  - intros i row at_i.
    rewrite forEachIndexed_nth in at_i.
    destruct (nth_error _ i) as [unranked|]; [|discriminate].
    simpl in at_i. inversion at_i. reflexivity.
  - rewrite ranks_assigned, forEachIndexed_length. reflexivity.
  - rewrite forEachIndexed_length, sort_length, length_map.
    unfold JSMap.values. rewrite length_map.
    apply (groupingLoop_length facultyId).
Qed.

(* ================================================================== *)
(** * Means and their defaults *)
(* ================================================================== *)

(** C8.  A reported rating is the mean of the scores of its group,
    [sum / count] rounded to two decimals when the value is put into the
    row; a group without scores gets [null] for a rating broken out by
    lecture type ([lectureRating], [labRating]) and [0] for a combined one
    ([averageRating], [overallRating], [totalRating]).  The scores of a
    group are the scores above zero of its records, in input order, and
    every group that has a score has its row, one row.
    - Rollups: the overall rating is over all records; a row of
      [aggregateSubjectRatings] splits the records of its subject by their
      stored [lectureType], and its [lectureRating] is [null] exactly when
      the subject has no lecture score, its [labRating] when it has no lab
      score; the rows of [aggregateFacultyPerformance],
      [aggregateDivisionPerformance] and [aggregateAcademicYearTrends] take
      the records of their faculty, division and year; the rows inside a
      row of [aggregateSemesterTrends] or [aggregateDepartmentTrends] take
      the records of the semester and year, or of the year and department.
    - [getSubjectDetailedAnalytics]: the three ratings of the subject are
      over the matching records that [deriveLectureType] calls lecture, and
      lab; the faculty breakdown groups by faculty and derived type, the
      division breakdown splits the records of a division by derived type,
      the question breakdown groups the records that have a category id.
    - [getFacultyDetailedAnalytics]: the overall rating is over all
      matching records; the breakdowns group by subject and derived type,
      by division, subject and derived type, by category name, and by
      academic year and semester.
    - [getDivisionDetailedAnalytics]: the overall rating is over all
      matching records; the subject breakdown splits the records of a
      subject by derived type; the faculty breakdown groups by faculty,
      subject and derived type, the year comparison by academic year.
    A breakdown row exists exactly for a group that has a score; a row
    that does not split its scores carries the plain rounded mean. *)
Theorem ratings_are_rounded_means :
  (forall (localeCompare : string -> string -> Z) (snapshots : list Snapshot),
      OverallStats.averageRating (calculateOverallStats snapshots)
      = meanOrZero (acceptedScores snapshots)
      /\ splitMeansOfGroups subjectId SubjectRatingAggregated.subjectId
           storedAsLecture (fun s => negb (storedAsLecture s))
           SubjectRatingAggregated.lectureRating
           SubjectRatingAggregated.labRating
           SubjectRatingAggregated.overallRating snapshots
           (aggregateSubjectRatings snapshots)
      /\ meansOfGroups meanOrZero facultyId
           FacultyPerformanceAggregated.facultyId
           FacultyPerformanceAggregated.averageRating snapshots
           (aggregateFacultyPerformance snapshots)
      /\ meansOfGroups meanOrZero divisionId
           DivisionPerformanceAggregated.divisionId
           DivisionPerformanceAggregated.averageRating snapshots
           (aggregateDivisionPerformance localeCompare snapshots)
      /\ meansOfGroups meanOrZero academicYearId
           AcademicYearTrendAggregated.academicYearId
           AcademicYearTrendAggregated.averageRating snapshots
           (aggregateAcademicYearTrends localeCompare snapshots)
      /\ oneRowPerGroup semesterNumber SemesterTrendAggregated.semesterNumber
           snapshots (aggregateSemesterTrends localeCompare snapshots)
      /\ (forall row : SemesterTrendAggregated.t,
             In row (aggregateSemesterTrends localeCompare snapshots) ->
             meansOfGroups meanOrZero academicYearId
               SemesterTrendAggregated.academicYearId
               SemesterTrendAggregated.averageRating
               (filter
                  (fun s => Z.eqb (semesterNumber s)
                              (SemesterTrendAggregated.semesterNumber row))
                  snapshots)
               (SemesterTrendAggregated.academicYearData row))
      /\ oneRowPerGroup academicYearString
           DepartmentTrendAggregated.academicYearString snapshots
           (aggregateDepartmentTrends localeCompare snapshots)
      /\ (forall row : DepartmentTrendAggregated.t,
             In row (aggregateDepartmentTrends localeCompare snapshots) ->
             meansOfGroups meanOrZero departmentId
               DepartmentTrendAggregated.departmentId
               DepartmentTrendAggregated.averageRating
               (filter
                  (fun s =>
                     String.eqb (academicYearString s)
                       (DepartmentTrendAggregated.academicYearString row))
                  snapshots)
               (DepartmentTrendAggregated.departmentData row)))
  /\ (forall (prisma : Database) (subjectId : string)
        (academicYearId semesterId departmentId : option string)
        (result : SubjectDetail.t),
         SubjectDetail.getSubjectDetailedAnalytics prisma subjectId
           academicYearId semesterId departmentId = Return result ->
         let snapshots :=
           filter
             (SubjectDetail.whereClause subjectId academicYearId semesterId
                departmentId)
             (Prisma.feedbackSnapshot prisma) in
         let isLecture s :=
           LectureType_eqb (SubjectDetail.deriveLectureType s) LECTURE in
         let isLab s :=
           LectureType_eqb (SubjectDetail.deriveLectureType s) LAB in
         let lecture := acceptedScores (filter isLecture snapshots) in
         let lab := acceptedScores (filter isLab snapshots) in
         SubjectDetail.lectureRating result = meanOrNull lecture
         /\ SubjectDetail.labRating result = meanOrNull lab
         /\ SubjectDetail.overallRating result = meanOrZero (lecture ++ lab)
         /\ meansOfGroups reportedMean
              (fun s =>
                 Snapshot.facultyId s ++ "-"
                 ++ LectureType_name (SubjectDetail.deriveLectureType s))%string
              (fun row =>
                 SubjectDetail.facultyId row ++ "-"
                 ++ LectureType_name (SubjectDetail.lectureType row))%string
              SubjectDetail.rating snapshots
              (SubjectDetail.facultyBreakdown result)
         /\ splitMeansOfGroups Snapshot.divisionId SubjectDetail.divisionId
              isLecture isLab SubjectDetail.division_lectureRating
              SubjectDetail.division_labRating SubjectDetail.totalRating
              snapshots (SubjectDetail.divisionBreakdown result)
         /\ meansOfGroups reportedMean
              (fun s => textOf (questionCategoryId s))
              SubjectDetail.categoryId SubjectDetail.avgRating
              (filter (fun s => truthy (questionCategoryId s)) snapshots)
              (SubjectDetail.questionBreakdown result))
  /\ (forall (localeCompare : string -> string -> Z) (prisma : Database)
        (facultyId : string) (academicYearId : option string)
        (result : FacultyDetail.t),
         getFacultyDetailedAnalytics localeCompare prisma facultyId
           academicYearId = Return result ->
         let snapshots :=
           filter (FacultyDetail.whereClause facultyId academicYearId)
             (Prisma.feedbackSnapshot prisma) in
         FacultyDetail.overallRating result
         = meanOrZero (acceptedScores snapshots)
         /\ meansOfGroups reportedMean
              (fun s =>
                 Snapshot.subjectId s ++ "-"
                 ++ LectureType_name (FacultyDetail.deriveLectureType s))%string
              (fun row =>
                 FacultyDetail.subjectId row ++ "-"
                 ++ LectureType_name (FacultyDetail.lectureType row))%string
              FacultyDetail.rating snapshots
              (FacultyDetail.subjectBreakdown result)
         /\ meansOfHiddenGroups
              (fun s =>
                 Snapshot.divisionId s ++ "-" ++ Snapshot.subjectId s ++ "-"
                 ++ LectureType_name (FacultyDetail.deriveLectureType s))%string
              (fun row first =>
                 FacultyDetail.divisionId row = Snapshot.divisionId first
                 /\ FacultyDetail.division_subjectName row
                    = Snapshot.subjectName first
                 /\ FacultyDetail.division_lectureType row
                    = FacultyDetail.deriveLectureType first)
              FacultyDetail.division_rating snapshots
              (FacultyDetail.divisionBreakdown result)
         /\ meansOfGroups reportedMean
              (fun s => textOf (questionCategoryName s))
              FacultyDetail.category FacultyDetail.avgRating
              (filter (fun s => truthy (questionCategoryName s)) snapshots)
              (FacultyDetail.questionCategoryBreakdown result)
         /\ meansOfGroups reportedMean
              (fun s =>
                 Snapshot.academicYearId s ++ "-"
                 ++ ofInteger (Snapshot.semesterNumber s))%string
              (fun row =>
                 FacultyDetail.academicYearId row ++ "-"
                 ++ ofInteger (FacultyDetail.trend_semester row))%string
              FacultyDetail.trend_rating snapshots
              (FacultyDetail.trendData result))
  /\ (forall (localeCompare : string -> string -> Z) (prisma : Database)
        (divisionId : string) (academicYearId : option string)
        (result : DivisionDetail.t),
         getDivisionDetailedAnalytics localeCompare prisma divisionId
           academicYearId = Return result ->
         let snapshots :=
           filter (DivisionDetail.whereClause divisionId academicYearId)
             (Prisma.feedbackSnapshot prisma) in
         let isLecture s :=
           LectureType_eqb (DivisionDetail.deriveLectureType s) LECTURE in
         let isLab s :=
           LectureType_eqb (DivisionDetail.deriveLectureType s) LAB in
         DivisionDetail.overallRating result
         = meanOrZero (acceptedScores snapshots)
         /\ splitMeansOfGroups Snapshot.subjectId DivisionDetail.subjectId
              isLecture isLab DivisionDetail.lectureRating
              DivisionDetail.labRating DivisionDetail.totalRating snapshots
              (DivisionDetail.subjectBreakdown result)
         /\ meansOfHiddenGroups
              (fun s =>
                 Snapshot.facultyId s ++ "-" ++ Snapshot.subjectId s ++ "-"
                 ++ LectureType_name (DivisionDetail.deriveLectureType s))%string
              (fun row first =>
                 DivisionDetail.facultyId row = Snapshot.facultyId first
                 /\ DivisionDetail.faculty_subjectName row
                    = Snapshot.subjectName first
                 /\ DivisionDetail.lectureType row
                    = DivisionDetail.deriveLectureType first)
              DivisionDetail.rating snapshots
              (DivisionDetail.facultyBreakdown result)
         /\ meansOfGroups reportedMean Snapshot.academicYearId
              DivisionDetail.academicYearId DivisionDetail.year_rating
              snapshots (DivisionDetail.academicYearComparison result)).
Proof.
  split; [|split; [|split]].
  - intros localeCompare snapshots.
    split; [apply overall_rating_mean|].
    split; [apply subject_rows_split|].
    split; [apply faculty_rows_groups|].
    split; [apply division_rows_groups|].
    split; [apply year_rows_groups|].
    split; [apply semester_rows_are_groups|].
    split; [apply semester_rows_groups|].
    split; [apply department_rows_are_groups | apply department_rows_groups].
  - intros prisma subjectId academicYearId semesterId departmentId result
      returned.
    exact (subject_detail_breakdowns _ _ _ _ _ returned).
  - intros localeCompare prisma facultyId academicYearId result returned.
    exact (faculty_detail_breakdowns _ _ _ _ returned).
  - intros localeCompare prisma divisionId academicYearId result returned.
    exact (division_detail_breakdowns _ _ _ _ returned).
Qed.

(** C8 at work.  On two lab ratings of 4 and one lecture rating of 3 for
    one subject, one faculty and one division, the lecture rating is 3,
    the lab rating 4 and the combined rating 3.67.  On the two lab ratings
    alone, the one row of [aggregateSubjectRatings] and the one row of the
    subject breakdown of [getDivisionDetailedAnalytics] have [null] for
    their lecture rating, and [getSubjectDetailedAnalytics] has [null] for
    that of the subject.  Where the only record has no score,
    [getSubjectDetailedAnalytics] reports [0] overall, [null] for
    lectures and for labs, and no row. *)
Lemma ratings_are_rounded_means_witness :
  match aggregateSubjectRatings Samples.scenarioAsJoined with
  | [row] =>
      SubjectRatingAggregated.lectureRating row = Some (ofZ 3)
      /\ SubjectRatingAggregated.labRating row = Some (ofZ 4)
      /\ SubjectRatingAggregated.overallRating row = decimal 367 2
  | _ => False
  end
  /\ match aggregateSubjectRatings Samples.labsAsJoined with
     | [row] =>
         SubjectRatingAggregated.lectureRating row = None
         /\ SubjectRatingAggregated.labRating row = Some (ofZ 4)
         /\ SubjectRatingAggregated.overallRating row = ofZ 4
     | _ => False
     end
  /\ match SubjectDetail.getSubjectDetailedAnalytics
             (Samples.database Samples.scenario) "S" None None None with
     | Return result =>
         SubjectDetail.lectureRating result = Some (ofZ 3)
         /\ SubjectDetail.labRating result = Some (ofZ 4)
         /\ SubjectDetail.overallRating result = decimal 367 2
     | Throw _ => False
     end
  /\ match SubjectDetail.getSubjectDetailedAnalytics
             (Samples.database Samples.labs) "S" None None None with
     | Return result =>
         SubjectDetail.lectureRating result = None
         /\ SubjectDetail.labRating result = Some (ofZ 4)
         /\ SubjectDetail.overallRating result = ofZ 4
         /\ match SubjectDetail.divisionBreakdown result with
            | [row] =>
                SubjectDetail.division_lectureRating row = None
                /\ SubjectDetail.division_labRating row = Some (ofZ 4)
                /\ SubjectDetail.totalRating row = ofZ 4
            | _ => False
            end
     | Throw _ => False
     end
  /\ match SubjectDetail.getSubjectDetailedAnalytics
             (Samples.database [Samples.rated0]) "Maths" None None None with
     | Return result =>
         SubjectDetail.lectureRating result = None
         /\ SubjectDetail.labRating result = None
         /\ SubjectDetail.overallRating result = zero
         /\ SubjectDetail.facultyBreakdown result = []
         /\ SubjectDetail.divisionBreakdown result = []
     | Throw _ => False
     end
  /\ match getFacultyDetailedAnalytics codeUnitCompare
             (Samples.database Samples.scenario) "Asha" None with
     | Return result =>
         FacultyDetail.overallRating result = decimal 367 2
     | Throw _ => False
     end
  /\ match getDivisionDetailedAnalytics codeUnitCompare
             (Samples.database Samples.scenario) "A" None with
     | Return result =>
         DivisionDetail.overallRating result = decimal 367 2
         /\ match DivisionDetail.subjectBreakdown result with
            | [row] =>
                DivisionDetail.subjectId row = "S"
                /\ DivisionDetail.lectureRating row = Some (ofZ 3)
                /\ DivisionDetail.labRating row = Some (ofZ 4)
                /\ DivisionDetail.totalRating row = decimal 367 2
            | _ => False
            end
     | Throw _ => False
     end
  /\ match getDivisionDetailedAnalytics codeUnitCompare
             (Samples.database Samples.labs) "A" None with
     | Return result =>
         DivisionDetail.overallRating result = ofZ 4
         /\ match DivisionDetail.subjectBreakdown result with
            | [row] =>
                DivisionDetail.subjectId row = "S"
                /\ DivisionDetail.lectureRating row = None
                /\ DivisionDetail.labRating row = Some (ofZ 4)
                /\ DivisionDetail.totalRating row = ofZ 4
            | _ => False
            end
     | Throw _ => False
     end.
Proof.
  destruct ratings_are_rounded_means
    as [ofRollups [ofSubjectDetail [ofFacultyDetail ofDivisionDetail]]].
  assert (ofSubjects :
            forall snapshots row,
              aggregateSubjectRatings snapshots = [row] ->
              let ofSubject :=
                filter
                  (fun s => String.eqb (subjectId s)
                              (SubjectRatingAggregated.subjectId row))
                  snapshots in
              let lecture :=
                acceptedScores (filter storedAsLecture ofSubject) in
              let lab :=
                acceptedScores
                  (filter (fun s => negb (storedAsLecture s)) ofSubject) in
              SubjectRatingAggregated.lectureRating row = meanOrNull lecture
              /\ SubjectRatingAggregated.labRating row = meanOrNull lab
              /\ SubjectRatingAggregated.overallRating row
                 = meanOrZero (lecture ++ lab)).
  { intros snapshots row rows.
    destruct (ofRollups codeUnitCompare snapshots) as [_ [[_ means] _]].
    assert (inRows : In row (aggregateSubjectRatings snapshots))
      by (rewrite rows; left; reflexivity).
    destruct (means row inRows) as [lectures [labs [combined _]]].
    auto. }
  split; [|split; [|split; [|split; [|split; [|split; [|split]]]]]].
  - destruct (aggregateSubjectRatings Samples.scenarioAsJoined)
      as [|row [|second others]] eqn:rows;
      try (vm_compute in rows; discriminate).
    pose proof (ofSubjects _ row rows) as means.
    vm_compute in rows. inversion rows; subst row. exact means.
  - destruct (aggregateSubjectRatings Samples.labsAsJoined)
      as [|row [|second others]] eqn:rows;
      try (vm_compute in rows; discriminate).
    pose proof (ofSubjects _ row rows) as means.
    vm_compute in rows. inversion rows; subst row. exact means.
  - destruct (SubjectDetail.getSubjectDetailedAnalytics _ _ _ _ _)
      as [result|e] eqn:returned.
    + pose proof (ofSubjectDetail _ _ _ _ _ result returned)
        as [lectures [labs [overall _]]].
      repeat split; assumption.
    + vm_compute in returned. discriminate.
  - destruct (SubjectDetail.getSubjectDetailedAnalytics _ _ _ _ _)
      as [result|e] eqn:returned.
    + pose proof (ofSubjectDetail _ _ _ _ _ result returned)
        as [lectures [labs [overall [_ [[_ rows] _]]]]].
      split; [exact lectures|]. split; [exact labs|].
      split; [exact overall|].
      destruct (SubjectDetail.divisionBreakdown result)
        as [|row [|second others]] eqn:breakdown;
        try (vm_compute in returned; inversion returned; subst result;
             discriminate breakdown).
      destruct (rows row (or_introl eq_refl))
        as [rowLectures [rowLabs [rowTotal _]]].
      vm_compute in returned. inversion returned; subst result.
      inversion breakdown; subst row.
      split; [exact rowLectures|]. split; [exact rowLabs | exact rowTotal].
    + vm_compute in returned. discriminate.
  - destruct (SubjectDetail.getSubjectDetailedAnalytics _ _ _ _ _)
      as [result|e] eqn:returned.
    + pose proof (ofSubjectDetail _ _ _ _ _ result returned)
        as [lectures [labs [overall _]]].
      split; [exact lectures|]. split; [exact labs|].
      split; [exact overall|].
      vm_compute in returned. inversion returned; subst result.
      split; reflexivity.
    + vm_compute in returned. discriminate.
  - destruct (getFacultyDetailedAnalytics _ _ _ _)
      as [result|e] eqn:returned.
    + pose proof (ofFacultyDetail _ _ _ _ result returned) as [overall _].
      exact overall.
    + vm_compute in returned. discriminate.
  - destruct (getDivisionDetailedAnalytics _ _ _ _)
      as [result|e] eqn:returned.
    + pose proof (ofDivisionDetail _ _ _ _ result returned)
        as [overall [[_ rows] _]].
      split; [exact overall|].
      destruct (DivisionDetail.subjectBreakdown result)
        as [|row [|second others]] eqn:breakdown;
        try (vm_compute in returned; inversion returned; subst result;
             discriminate breakdown).
      destruct (rows row (or_introl eq_refl))
        as [rowLectures [rowLabs [rowTotal _]]].
      vm_compute in returned. inversion returned; subst result.
      inversion breakdown; subst row.
      split; [reflexivity|]. split; [exact rowLectures|].
      split; [exact rowLabs | exact rowTotal].
    + vm_compute in returned. discriminate.
  - destruct (getDivisionDetailedAnalytics _ _ _ _)
      as [result|e] eqn:returned.
    + pose proof (ofDivisionDetail _ _ _ _ result returned)
        as [overall [[_ rows] _]].
      split; [exact overall|].
      destruct (DivisionDetail.subjectBreakdown result)
        as [|row [|second others]] eqn:breakdown;
        try (vm_compute in returned; inversion returned; subst result;
             discriminate breakdown).
      destruct (rows row (or_introl eq_refl))
        as [rowLectures [rowLabs [rowTotal _]]].
      vm_compute in returned. inversion returned; subst result.
      inversion breakdown; subst row.
      split; [reflexivity|]. split; [exact rowLectures|].
      split; [exact rowLabs | exact rowTotal].
    + vm_compute in returned. discriminate.
Defined.

(* ================================================================== *)
(** * The end-to-end scenario *)
(* ================================================================== *)

Lemma scored_of_score (s : Snapshot) (n : number) :
  scoreOf (responseValue s) = Some n -> gt n zero = true ->
  scored s = true /\ scoreValue s = n.
Proof.
  intros parsed positive. unfold scored, scoreValue. rewrite parsed.
  split; [exact positive | reflexivity].
Qed.

Lemma ensureThen_empty {V} (k : string) (i : V) (f : V -> V) :
  JSMap.ensureThen String.eqb k i f [] = [(k, f i)].
Proof.
  unfold JSMap.ensureThen. simpl. rewrite String.eqb_refl. reflexivity.
Qed.

Lemma ensureThen_first {V} (k : string) (i v : V) (f : V -> V)
  (rest : JSMap.Map string V) :
  JSMap.ensureThen String.eqb k i f ((k, v) :: rest) = (k, f v) :: rest.
Proof.
  unfold JSMap.ensureThen, JSMap.has. simpl.
  rewrite String.eqb_refl. simpl. rewrite String.eqb_refl. reflexivity.
Qed.

(** The loop of [aggregateSubjectRatings] on three counted records of one
    subject leaves one entry, updated three times. *)
Lemma subjectMapOf_three (a b c : Snapshot) (S : string) :
  subjectId a = S -> subjectId b = S -> subjectId c = S ->
  scored a = true -> scored b = true -> scored c = true ->
  subjectMapOf [a; b; c]
  = [ (S,
       addToSubject c (scoreValue c)
         (addToSubject b (scoreValue b)
            (addToSubject a (scoreValue a) (newSubject a)))) ].
Proof.
  intros idA idB idC countsA countsB countsC.
  unfold subjectMapOf.
  rewrite !forEachScored_cons, countsA, countsB, countsC, forEachScored_nil.
  rewrite idA, idB, idC.
  rewrite ensureThen_empty, !ensureThen_first. reflexivity.
Qed.

(** C3, as amended.  Three records of one subject S, two with score 4
    whose stored [lectureType] is not ['LECTURE'] and one with score 3
    whose stored [lectureType] is ['LECTURE'], in any order and whatever
    their question categories: [aggregateSubjectRatings] returns one row,
    for S, with [labRating = 4], [lectureRating = 3],
    [overallRating = 3.67], [labResponses = 2], [lectureResponses = 1]
    and [totalResponses = 3]. *)
Theorem scenario_subject_rating :
  forall (lab1 lab2 theory : Snapshot) (S : string)
         (records : list Snapshot),
    subjectId lab1 = S -> subjectId lab2 = S -> subjectId theory = S ->
    scoreOf (responseValue lab1) = Some (ofZ 4) ->
    scoreOf (responseValue lab2) = Some (ofZ 4) ->
    scoreOf (responseValue theory) = Some (ofZ 3) ->
    storedAsLecture lab1 = false ->
    storedAsLecture lab2 = false ->
    storedAsLecture theory = true ->
    In records
      [ [lab1; lab2; theory]; [lab1; theory; lab2]; [theory; lab1; lab2] ] ->
    exists row : SubjectRatingAggregated.t,
      aggregateSubjectRatings records = [row]
      /\ SubjectRatingAggregated.subjectId row = S
      /\ SubjectRatingAggregated.labRating row = Some (ofZ 4)
      /\ SubjectRatingAggregated.lectureRating row = Some (ofZ 3)
      /\ SubjectRatingAggregated.overallRating row = decimal 367 2
      /\ SubjectRatingAggregated.labResponses row = 2%nat
      /\ SubjectRatingAggregated.lectureResponses row = 1%nat
      /\ SubjectRatingAggregated.totalResponses row = 3%nat.
Proof.
  intros lab1 lab2 theory S records id1 id2 id3 score1 score2 score3
    isLab1 isLab2 isLecture order.
  destruct (scored_of_score _ score1 eq_refl) as [counts1 value1].
  destruct (scored_of_score _ score2 eq_refl) as [counts2 value2].
  destruct (scored_of_score _ score3 eq_refl) as [counts3 value3].
  unfold storedAsLecture in isLab1, isLab2, isLecture.
  simpl in order.
  destruct order as [<- | [<- | [<- | []]]];
    unfold aggregateSubjectRatings;
    erewrite subjectMapOf_three by eassumption;
    (eexists; split; [reflexivity|]);
    unfold addToSubject, newSubject; simpl;
    rewrite ?id1, ?id2, ?id3, ?isLab1, ?isLab2, ?isLecture,
      ?value1, ?value2, ?value3; simpl;
    repeat split; reflexivity.
Qed.

(** C3 at work: the scenario with the allocation types LAB, LAB, LECTURE. *)
Lemma scenario_subject_rating_witness :
  map subjectId Samples.scenarioAsJoined = ["S"; "S"; "S"]
  /\ map (fun s => scoreOf (responseValue s)) Samples.scenarioAsJoined
     = [Some (ofZ 4); Some (ofZ 4); Some (ofZ 3)]
  /\ map storedAsLecture Samples.scenarioAsJoined = [false; false; true]
  /\ exists row : SubjectRatingAggregated.t,
       aggregateSubjectRatings Samples.scenarioAsJoined = [row]
       /\ SubjectRatingAggregated.subjectId row = "S"
       /\ SubjectRatingAggregated.labRating row = Some (ofZ 4)
       /\ SubjectRatingAggregated.lectureRating row = Some (ofZ 3)
       /\ SubjectRatingAggregated.overallRating row = decimal 367 2
       /\ SubjectRatingAggregated.labResponses row = 2%nat
       /\ SubjectRatingAggregated.lectureResponses row = 1%nat
       /\ SubjectRatingAggregated.totalResponses row = 3%nat.
Proof.
  repeat (split; [reflexivity|]).
  apply (@scenario_subject_rating
           Samples.labOf4 Samples.labOf4 Samples.theoryOf3 "S"
           Samples.scenarioAsJoined);
    try reflexivity.
  left. reflexivity.
Defined.

(** C3, the counterexample.  The three records of the scenario, two of
    category ['Lab Performance'] with score 4 and one of category ['Theory']
    with score 3, answered on the form of a lecture allocation:
    [aggregateSubjectRatings] does not look at the category, finds the
    stored [lectureType] ['LECTURE'] on all three and counts them as
    lecture responses: a lecture rating of 3.67 over 3 responses and no lab
    rating.  Without a stored [lectureType] all three count as lab. *)
Lemma scenario_by_category_alone :
  map questionCategoryName Samples.scenarioOfLectureAllocation
  = [Some "Lab Performance"; Some "Lab Performance"; Some "Theory"]
  /\ map (fun s => scoreOf (responseValue s))
       Samples.scenarioOfLectureAllocation
     = [Some (ofZ 4); Some (ofZ 4); Some (ofZ 3)]
  /\ map subjectId Samples.scenarioOfLectureAllocation = ["S"; "S"; "S"]
  /\ map (fun row =>
            (SubjectRatingAggregated.lectureRating row,
             SubjectRatingAggregated.labRating row,
             SubjectRatingAggregated.overallRating row,
             SubjectRatingAggregated.lectureResponses row,
             SubjectRatingAggregated.labResponses row,
             SubjectRatingAggregated.totalResponses row))
       (aggregateSubjectRatings Samples.scenarioOfLectureAllocation)
     = [ (Some (decimal 367 2), None, decimal 367 2, 3%nat, 0%nat, 3%nat) ]
  /\ map questionCategoryName Samples.scenario
     = [Some "Lab Performance"; Some "Lab Performance"; Some "Theory"]
  /\ map (fun s => scoreOf (responseValue s)) Samples.scenario
     = [Some (ofZ 4); Some (ofZ 4); Some (ofZ 3)]
  /\ map (fun row =>
            (SubjectRatingAggregated.lectureRating row,
             SubjectRatingAggregated.labRating row,
             SubjectRatingAggregated.overallRating row,
             SubjectRatingAggregated.lectureResponses row,
             SubjectRatingAggregated.labResponses row,
             SubjectRatingAggregated.totalResponses row))
       (aggregateSubjectRatings Samples.scenario)
     = [ (None, Some (decimal 367 2), decimal 367 2, 0%nat, 3%nat, 3%nat) ].
Proof. repeat split; vm_compute; reflexivity. Qed.

(* ================================================================== *)
(** * Lecture or lab, site by site *)
(* ================================================================== *)

(** C1, as amended.  The three detail builders and the [lectureType]
    filter of [getCompleteAnalyticsData] derive the same value for every
    record: LAB when the question category name contains ["laboratory"] or
    ["lab"] whatever the case of its letters, else LAB when the question
    batch is present, not empty and not ["none"] in any case, else LECTURE.
    [aggregateSubjectRatings] derives nothing: a row counts as lecture
    responses the scores above zero of the records of its subject whose
    stored [lectureType] is ['LECTURE'], and as lab responses those of
    the others, whatever their category and batch. *)
Theorem lecture_type_by_site :
  (forall s : Snapshot,
      SubjectDetail.deriveLectureType s = FacultyDetail.deriveLectureType s
      /\ FacultyDetail.deriveLectureType s = DivisionDetail.deriveLectureType s
      /\ DivisionDetail.deriveLectureType s
         = CompleteAnalytics.snapshotLectureType s
      /\ (SubjectDetail.deriveLectureType s = LAB
          <-> (exists name,
                  questionCategoryName s = Some name
                  /\ (includes (toLowerCase name) "laboratory" = true
                      \/ includes (toLowerCase name) "lab" = true))
              \/ (exists b,
                     questionBatch s = Some b
                     /\ b <> EmptyString
                     /\ toLowerCase b <> "none")))
  /\ (forall (snapshots : list Snapshot) (row : SubjectRatingAggregated.t),
         In row (aggregateSubjectRatings snapshots) ->
         let ofSubject :=
           filter
             (fun s => String.eqb (subjectId s)
                         (SubjectRatingAggregated.subjectId row))
             snapshots in
         SubjectRatingAggregated.lectureResponses row
         = List.length (acceptedScores (filter storedAsLecture ofSubject))
         /\ SubjectRatingAggregated.labResponses row
            = List.length
                (acceptedScores
                   (filter (fun s => negb (storedAsLecture s)) ofSubject))).
Proof.
  split.
  - intro s. repeat split; try reflexivity.
    + unfold SubjectDetail.deriveLectureType, namesLab, isBatch, truthy.
      intro isLab.
      destruct (questionCategoryName s) as [name|].
      * destruct (includes (toLowerCase name) "laboratory") eqn:long;
          [left; exists name; auto|].
        destruct (includes (toLowerCase name) "lab") eqn:short;
          [left; exists name; auto|].
        simpl in isLab.
        destruct (questionBatch s) as [b|]; [|discriminate].
        right. exists b.
        destruct (String.eqb b EmptyString) eqn:empty; [discriminate|].
        destruct (String.eqb (toLowerCase b) "none") eqn:none;
          [discriminate|].
        apply String.eqb_neq in empty, none. auto.
      * destruct (questionBatch s) as [b|]; [|discriminate].
        right. exists b.
        destruct (String.eqb b EmptyString) eqn:empty; [discriminate|].
        destruct (String.eqb (toLowerCase b) "none") eqn:none;
          [discriminate|].
        apply String.eqb_neq in empty, none. auto.
    + unfold SubjectDetail.deriveLectureType, namesLab, isBatch, truthy.
      intros [[name [-> contains]] | [b [-> [notEmpty notNone]]]].
      * destruct contains as [-> | ->]; rewrite ?orb_true_r; reflexivity.
      * apply String.eqb_neq in notEmpty, notNone.
        rewrite notEmpty, notNone. simpl.
        destruct (match questionCategoryName s with
                  | Some name => _
                  | None => false
                  end); reflexivity.
  - intros snapshots row inRows.
    destruct (subject_row_scores snapshots row inRows)
      as [subject [-> [_ [lectures labs]]]].
    cbn zeta. rewrite <- lectures, <- labs. split; reflexivity.
Qed.

(** C1 at work: one theory answer given in a lab batch, stored under a
    lecture allocation. *)
Lemma lecture_type_by_site_witness :
  match aggregateSubjectRatings [Samples.theoryInBatch] with
  | [row] =>
      SubjectRatingAggregated.lectureResponses row = 1%nat
      /\ SubjectRatingAggregated.labResponses row = 0%nat
  | _ => False
  end.
Proof.
  destruct (aggregateSubjectRatings [Samples.theoryInBatch])
    as [|row [|second others]] eqn:rows;
    try (vm_compute in rows; discriminate).
  assert (inRows : In row (aggregateSubjectRatings [Samples.theoryInBatch]))
    by (rewrite rows; left; reflexivity).
  pose proof (proj2 lecture_type_by_site _ row inRows) as counts.
  vm_compute in rows. inversion rows; subst row. exact counts.
Defined.

(** C1, the counterexample.  A theory question answered in lab batch A1
    under a lecture allocation: [deriveLectureType] and the filter of
    [getCompleteAnalyticsData] say LAB, the grouping of
    [getCompleteAnalyticsData] and [aggregateSubjectRatings] say LECTURE.
    The rollup counts the answer as a lecture response and the subject
    drill-down as a lab response; [getCompleteAnalyticsData], asked for
    LAB, lets it through and reports it in a LECTURE row. *)
Lemma lecture_type_differs_between_sites :
  SubjectDetail.deriveLectureType Samples.theoryInBatch = LAB
  /\ CompleteAnalytics.snapshotLectureType Samples.theoryInBatch = LAB
  /\ CompleteAnalytics.groupLectureType Samples.theoryInBatch = LECTURE
  /\ storedAsLecture Samples.theoryInBatch = true
  /\ map (fun row =>
            (SubjectRatingAggregated.lectureResponses row,
             SubjectRatingAggregated.labResponses row))
       (aggregateSubjectRatings [Samples.theoryInBatch])
     = [ (1%nat, 0%nat) ]
  /\ match SubjectDetail.getSubjectDetailedAnalytics
             (Samples.database [Samples.theoryInBatch])
             "Maths" None None None with
     | Return result =>
         SubjectDetail.lectureResponses result = 0%nat
         /\ SubjectDetail.labResponses result = 1%nat
     | Throw _ => False
     end
  /\ map CompleteAnalytics.lectureType
       (CompleteAnalytics.subjectRatings (Some LAB) [Samples.theoryInBatch])
     = ["LECTURE"].
Proof. repeat split; vm_compute; reflexivity. Qed.

(* ================================================================== *)
(** * Not found, in three ways *)
(* ================================================================== *)

Lemma list_of_append (a b : string) :
  list_ascii_of_string (a ++ b)
  = list_ascii_of_string a ++ list_ascii_of_string b.
Proof.
  induction a as [|c a IH]; simpl; [reflexivity|].
  rewrite IH. reflexivity.
Qed.

(** Whatever precedes them, the two endings make different texts: read
    from the end, they part at the second character. *)
Lemma endings_differ (a b : string) :
  (a ++ doubleQuote ++ " has been deleted.")%string
  <> (b ++ doubleQuote
        ++ " has no feedback data matching the selected filters.")%string.
Proof.
  intro same.
  apply (f_equal list_ascii_of_string) in same.
  rewrite !list_of_append in same.
  apply (f_equal (@rev ascii)) in same.
  rewrite !rev_app_distr in same.
  simpl in same. discriminate.
Qed.

(** C7.  When its query finds no snapshot, each detail builder throws an
    [AppError] of status 404 whose message tells which of three cases
    holds: the entity is not in its table (the message carries the id), it
    is there and marked deleted (the message names it), or it is there and
    active (the message names it and says that no feedback data matches the
    filters).  For each kind of entity the three messages are pairwise
    different, whatever the id and the names. *)
Theorem not_found_three_ways :
  (forall (prisma : Database) (subjectId : string)
          (academicYearId semesterId departmentId : option string),
      filter
        (SubjectDetail.whereClause subjectId academicYearId semesterId
           departmentId)
        (Prisma.feedbackSnapshot prisma) = [] ->
      SubjectDetail.getSubjectDetailedAnalytics prisma subjectId
        academicYearId semesterId departmentId
      = Throw
          (AppErr
             {| message :=
                  match findUnique (Prisma.subject prisma) subjectId with
                  | None =>
                      ("Subject with ID " ++ subjectId
                       ++ " does not exist.")%string
                  | Some entity =>
                      if entity_isDeleted entity
                      then ("Subject " ++ doubleQuote ++ entity_name entity
                            ++ doubleQuote ++ " has been deleted.")%string
                      else ("Subject " ++ doubleQuote ++ entity_name entity
                            ++ doubleQuote
                            ++ " has no feedback data matching the selected filters.")%string
                  end;
                statusCode := 404 |}))
  /\ (forall (localeCompare : string -> string -> Z) (prisma : Database)
             (facultyId : string) (academicYearId : option string),
         filter (FacultyDetail.whereClause facultyId academicYearId)
           (Prisma.feedbackSnapshot prisma) = [] ->
         getFacultyDetailedAnalytics localeCompare prisma facultyId
           academicYearId
         = Throw
             (AppErr
                {| message :=
                     match findUnique (Prisma.faculty prisma) facultyId with
                     | None =>
                         ("Faculty with ID " ++ facultyId
                          ++ " does not exist.")%string
                     | Some entity =>
                         if entity_isDeleted entity
                         then ("Faculty " ++ doubleQuote ++ entity_name entity
                               ++ doubleQuote ++ " has been deleted.")%string
                         else ("Faculty " ++ doubleQuote ++ entity_name entity
                               ++ doubleQuote
                               ++ " has no feedback data matching the selected filters.")%string
                     end;
                   statusCode := 404 |}))
  /\ (forall (localeCompare : string -> string -> Z) (prisma : Database)
             (divisionId : string) (academicYearId : option string),
         filter (DivisionDetail.whereClause divisionId academicYearId)
           (Prisma.feedbackSnapshot prisma) = [] ->
         getDivisionDetailedAnalytics localeCompare prisma divisionId
           academicYearId
         = Throw
             (AppErr
                {| message :=
                     match findUnique (Prisma.division prisma) divisionId with
                     | None =>
                         ("Division with ID " ++ divisionId
                          ++ " does not exist.")%string
                     | Some entity =>
                         if entity_isDeleted entity
                         then ("Division " ++ doubleQuote ++ entity_name entity
                               ++ doubleQuote ++ " has been deleted.")%string
                         else ("Division " ++ doubleQuote ++ entity_name entity
                               ++ doubleQuote
                               ++ " has no feedback data matching the selected filters.")%string
                     end;
                   statusCode := 404 |}))
  /\ (forall kind id deletedName activeName : string,
         In kind ["Subject"; "Faculty"; "Division"] ->
         let missing := (kind ++ " with ID " ++ id ++ " does not exist.")%string in
         let deleted :=
           (kind ++ " " ++ doubleQuote ++ deletedName ++ doubleQuote
            ++ " has been deleted.")%string in
         let noData :=
           (kind ++ " " ++ doubleQuote ++ activeName ++ doubleQuote
            ++ " has no feedback data matching the selected filters.")%string in
         missing <> deleted /\ missing <> noData /\ deleted <> noData).
Proof.
  split; [|split; [|split]].
  - intros prisma subjectId academicYearId semesterId departmentId none.
    unfold SubjectDetail.getSubjectDetailedAnalytics. rewrite none.
    unfold notFound.
    destruct (findUnique (Prisma.subject prisma) subjectId) as [entity|];
      [destruct (entity_isDeleted entity)|]; reflexivity.
  - intros localeCompare prisma facultyId academicYearId none.
    unfold getFacultyDetailedAnalytics. rewrite none. unfold notFound.
    destruct (findUnique (Prisma.faculty prisma) facultyId) as [entity|];
      [destruct (entity_isDeleted entity)|]; reflexivity.
  - intros localeCompare prisma divisionId academicYearId none.
    unfold getDivisionDetailedAnalytics. rewrite none. unfold notFound.
    destruct (findUnique (Prisma.division prisma) divisionId) as [entity|];
      [destruct (entity_isDeleted entity)|]; reflexivity.
  - intros kind id deletedName activeName isKind. simpl in isKind.
    destruct isKind as [<- | [<- | [<- | []]]]; cbn zeta;
      (split; [|split]); intro same; simpl in same;
      try discriminate same;
      injection same as same; apply (endings_differ _ _ same).
Qed.

(** C7 at work on one table: Astrology is unknown, Alchemy is deleted,
    Physics is taught and has no feedback. *)
Lemma not_found_three_ways_witness :
  SubjectDetail.getSubjectDetailedAnalytics
    (Samples.database [Samples.rated4]) "Astrology" None None None
  = Throw (AppErr {| message := "Subject with ID Astrology does not exist.";
                     statusCode := 404 |})
  /\ SubjectDetail.getSubjectDetailedAnalytics
       (Samples.database [Samples.rated4]) "Alchemy" None None None
     = Throw (AppErr
                {| message :=
                     ("Subject " ++ doubleQuote ++ "Alchemy" ++ doubleQuote
                      ++ " has been deleted.")%string;
                   statusCode := 404 |})
  /\ SubjectDetail.getSubjectDetailedAnalytics
       (Samples.database [Samples.rated4]) "Physics" None None None
     = Throw (AppErr
                {| message :=
                     ("Subject " ++ doubleQuote ++ "Physics" ++ doubleQuote
                      ++ " has no feedback data matching the selected filters.")%string;
                   statusCode := 404 |})
  /\ getFacultyDetailedAnalytics codeUnitCompare
       (Samples.database [Samples.rated4]) "Dev" None
     = Throw (AppErr
                {| message :=
                     ("Faculty " ++ doubleQuote ++ "Dev" ++ doubleQuote
                      ++ " has been deleted.")%string;
                   statusCode := 404 |})
  /\ getDivisionDetailedAnalytics codeUnitCompare
       (Samples.database [Samples.rated4]) "D" None
     = Throw (AppErr
                {| message :=
                     ("Division " ++ doubleQuote ++ "D" ++ doubleQuote
                      ++ " has no feedback data matching the selected filters.")%string;
                   statusCode := 404 |})
  /\ ("Subject with ID Alchemy does not exist."
      <> ("Subject " ++ doubleQuote ++ "Alchemy" ++ doubleQuote
          ++ " has been deleted.")%string).
Proof.
  destruct not_found_three_ways
    as [ofSubject [ofFaculty [ofDivision different]]].
  split;
    [exact (ofSubject (Samples.database [Samples.rated4])
              "Astrology" None None None eq_refl)|].
  split;
    [exact (ofSubject (Samples.database [Samples.rated4])
              "Alchemy" None None None eq_refl)|].
  split;
    [exact (ofSubject (Samples.database [Samples.rated4])
              "Physics" None None None eq_refl)|].
  split;
    [exact (ofFaculty codeUnitCompare (Samples.database [Samples.rated4])
              "Dev" None eq_refl)|].
  split;
    [exact (ofDivision codeUnitCompare (Samples.database [Samples.rated4])
              "D" None eq_refl)|].
  exact (proj1 (different "Subject" "Alchemy" "Alchemy" "Alchemy"
                  (or_introl eq_refl))).
Defined.

(* ================================================================== *)
(** * The rank of a faculty *)
(* ================================================================== *)

Lemma findIndexPlus1_bound {A} (p : A -> bool) (l : list A) :
  (findIndexPlus1 p l <= List.length l)%nat.
Proof.
  induction l as [|h t IH]; simpl; [lia|].
  destruct (p h); [lia|].
  destruct (findIndexPlus1 p t); lia.
Qed.

Lemma findIndexPlus1_zero {A} (p : A -> bool) (l : list A) :
  findIndexPlus1 p l = 0%nat <-> forall x, In x l -> p x = false.
Proof.
  induction l as [|h t IH]; simpl.
  - split; [intros _ x [] | reflexivity].
  - destruct (p h) eqn:E.
    + split; [discriminate|]. intro none.
      rewrite (none h (or_introl eq_refl)) in E. discriminate.
    + destruct (findIndexPlus1 p t) eqn:F.
      * split; [|reflexivity]. intros _ x [<- | inT]; [exact E|].
        apply IH; [reflexivity | exact inT].
      * split; [discriminate|]. intro none.
        assert (0%nat = S n) as impossible; [|discriminate impossible].
        symmetry. apply IH. intros x inT. apply none. right. exact inT.
Qed.

(** A positive index points at the first element that passes the test. *)
Lemma findIndexPlus1_found {A} (p : A -> bool) (l : list A) (i : nat) :
  findIndexPlus1 p l = S i ->
  exists x, nth_error l i = Some x /\ p x = true
            /\ forall j y, (j < i)%nat -> nth_error l j = Some y -> p y = false.
Proof.
  revert i. induction l as [|h t IH]; simpl; intros i found; [discriminate|].
  destruct (p h) eqn:E.
  - inversion found; subst i. exists h. repeat split; [exact E|].
    intros j y before. lia.
  - destruct (findIndexPlus1 p t) as [|k] eqn:F; [discriminate|].
    inversion found; subst i.
    destruct (IH k eq_refl) as [x [at_k [passes earlier]]].
    exists x. repeat split; [exact at_k | exact passes|].
    intros [|j] y before at_j; simpl in at_j.
    + inversion at_j; subst y. exact E.
    + apply (earlier j y); [lia | exact at_j].
Qed.

Lemma score_entry_scores (group : list Snapshot)
  (start : FacultyDetail.ScoreEntry) :
  FacultyDetail.entry_scores
    (fold_left (fun data s => FacultyDetail.addScore s (scoreValue s) data)
       group start)
  = FacultyDetail.entry_scores start ++ map scoreValue group.
Proof.
  revert start. induction group as [|s group IH]; intro start; simpl.
  - rewrite app_nil_r. reflexivity.
  - rewrite IH. simpl. rewrite <- app_assoc. reflexivity.
Qed.

Lemma facultyScoreMapOf_loop (l : list Snapshot) :
  FacultyDetail.facultyScoreMapOf l
  = groupingLoop String.eqb facultyId FacultyDetail.newScores
      FacultyDetail.addScore l.
Proof. reflexivity. Qed.

(** The faculties of the ranking are those with a score above zero among
    the records read, each once. *)
Lemma ranked_ids (l : list Snapshot) :
  Permutation
    (map FacultyDetail.ranked_facultyId (FacultyDetail.rankedFacultyOf l))
    (JSSet.ofList (map facultyId (filter scored l))).
Proof.
  unfold FacultyDetail.rankedFacultyOf.
  rewrite sort_perm, map_map.
  change (Permutation
            (map fst
               (groupingLoop String.eqb facultyId FacultyDetail.newScores
                  FacultyDetail.addScore l))
            (JSSet.ofList (map facultyId (filter scored l)))).
  rewrite keys_groupingLoop. reflexivity.
Qed.

Lemma ranked_length (l : list Snapshot) :
  List.length (FacultyDetail.rankedFacultyOf l)
  = distinctCount (map facultyId (filter scored l)).
Proof.
  rewrite <- size_ofList. unfold JSSet.size.
  rewrite <- (Permutation_length (ranked_ids l)).
  symmetry. apply length_map.
Qed.

Lemma ranked_In (l : list Snapshot) (id : string) :
  In id (map FacultyDetail.ranked_facultyId (FacultyDetail.rankedFacultyOf l))
  <-> exists s, In s l /\ scored s = true /\ facultyId s = id.
Proof.
  rewrite <- (In_keys_groupingLoop facultyId FacultyDetail.newScores
                FacultyDetail.addScore).
  rewrite keys_groupingLoop.
  split; apply Permutation_in; [|symmetry]; apply ranked_ids.
Qed.

(** The mean in the ranking is the mean, not rounded, of the scores above
    zero of the faculty among the records read. *)
Lemma ranked_mean (l : list Snapshot) (f : FacultyDetail.RankedFaculty) :
  In f (FacultyDetail.rankedFacultyOf l) ->
  FacultyDetail.ranked_avgRating f
  = average
      (acceptedScores
         (filter
            (fun s => String.eqb (facultyId s)
                        (FacultyDetail.ranked_facultyId f))
            l)).
Proof.
  unfold FacultyDetail.rankedFacultyOf. intro inRanking.
  apply sort_In in inRanking. apply in_map_iff in inRanking.
  destruct inRanking as [[k data] [<- inMap]]. simpl.
  unfold JSMap.entries in inMap. rewrite facultyScoreMapOf_loop in inMap.
  apply (In_groupingLoop _ String.eqb_eq) in inMap.
  destruct inMap as [first [rest [isGroup built]]].
  rewrite <- isGroup in built. subst data.
  rewrite score_entry_scores. simpl.
  rewrite group_all_scores. reflexivity.
Qed.

(** The second query of [getFacultyDetailedAnalytics], written out: three
    deletion flags and, when a year is given, the year. *)
Lemma rankingWhere_spec (academicYearId : option string) (s : Snapshot) :
  FacultyDetail.rankingWhere academicYearId s
  = (negb (isDeleted s) && negb (formIsDeleted s)
     && negb (academicYearIsDeleted s)
     && match academicYearId with
        | Some year =>
            if String.eqb year EmptyString then true
            else String.eqb (Snapshot.academicYearId s) year
        | None => true
        end).
Proof.
  unfold FacultyDetail.rankingWhere, whenGiven, truthy.
  destruct academicYearId as [year|]; [|reflexivity].
  destruct (String.eqb year EmptyString); reflexivity.
Qed.

Lemma ranking_set (academicYearId : option string) (table : list Snapshot) :
  filter (FacultyDetail.rankingWhere academicYearId) table
  = filter
      (fun s =>
         negb (isDeleted s) && negb (formIsDeleted s)
         && negb (academicYearIsDeleted s)
         && match academicYearId with
            | Some year =>
                if String.eqb year EmptyString then true
                else String.eqb (Snapshot.academicYearId s) year
            | None => true
            end)
      table.
Proof. apply filter_ext. intro s. apply rankingWhere_spec. Qed.

(** What [getFacultyDetailedAnalytics] returns when its first query finds
    a snapshot. *)
Lemma faculty_detail_returned (localeCompare : string -> string -> Z)
  (prisma : Database) (facultyId : string) (academicYearId : option string)
  (result : FacultyDetail.t) :
  getFacultyDetailedAnalytics localeCompare prisma facultyId academicYearId
  = Return result ->
  let snapshots :=
    filter (FacultyDetail.whereClause facultyId academicYearId)
      (Prisma.feedbackSnapshot prisma) in
  let ranking :=
    FacultyDetail.rankedFacultyOf
      (filter (FacultyDetail.rankingWhere academicYearId)
         (Prisma.feedbackSnapshot prisma)) in
  snapshots <> []
  /\ FacultyDetail.overallRating result
     = ratingOrZero (acceptedScores snapshots)
  /\ FacultyDetail.totalResponses result
     = List.length (acceptedScores snapshots)
  /\ FacultyDetail.rank result
     = findIndexPlus1
         (fun f => String.eqb (FacultyDetail.ranked_facultyId f) facultyId)
         ranking
  /\ FacultyDetail.totalFaculty result = List.length ranking.
Proof.
  unfold getFacultyDetailedAnalytics.
  destruct (filter (FacultyDetail.whereClause facultyId academicYearId)
              (Prisma.feedbackSnapshot prisma))
    as [|firstSnapshot others] eqn:found; [discriminate|].
  intro returned. inversion returned; subst result; clear returned.
  cbn zeta. simpl. repeat split. discriminate.
Qed.

(** C6.  The rank and the faculty total that
    [getFacultyDetailedAnalytics] returns come from a second set of
    records: every snapshot that is not deleted, whose form and academic
    year are not deleted and, when a year is given, that is of that year;
    the faculty asked for plays no part in that set.  The ranking lists
    each faculty with a score above zero in that set once, with the mean of
    its scores there, in descending order of mean; [totalFaculty] is its
    length, the same whichever faculty is asked for, and [rank] is the
    position, counted from 1, of the faculty asked for in it. *)
Theorem faculty_rank_over_all_faculties :
  forall (localeCompare : string -> string -> Z) (prisma : Database)
         (facultyId : string) (academicYearId : option string)
         (result : FacultyDetail.t),
    getFacultyDetailedAnalytics localeCompare prisma facultyId academicYearId
    = Return result ->
    let everyone :=
      filter
        (fun s =>
           negb (isDeleted s) && negb (formIsDeleted s)
           && negb (academicYearIsDeleted s)
           && match academicYearId with
              | Some year =>
                  if String.eqb year EmptyString then true
                  else String.eqb (Snapshot.academicYearId s) year
              | None => true
              end)
        (Prisma.feedbackSnapshot prisma) in
    let ranking := FacultyDetail.rankedFacultyOf everyone in
    (forall id : string,
        In id (map FacultyDetail.ranked_facultyId ranking)
        <-> exists s, In s everyone /\ scored s = true
                      /\ Snapshot.facultyId s = id)
    /\ NoDup (map FacultyDetail.ranked_facultyId ranking)
    /\ (forall f : FacultyDetail.RankedFaculty,
           In f ranking ->
           FacultyDetail.ranked_avgRating f
           = average
               (acceptedScores
                  (filter
                     (fun s => String.eqb (Snapshot.facultyId s)
                                 (FacultyDetail.ranked_facultyId f))
                     everyone)))
    /\ Sorted (fun higher lower => gt (sub lower higher) zero = false)
         (map FacultyDetail.ranked_avgRating ranking)
    /\ FacultyDetail.totalFaculty result = List.length ranking
    /\ FacultyDetail.totalFaculty result
       = distinctCount (map Snapshot.facultyId (filter scored everyone))
    /\ (forall (other : string) (otherResult : FacultyDetail.t),
           getFacultyDetailedAnalytics localeCompare prisma other
             academicYearId = Return otherResult ->
           FacultyDetail.totalFaculty otherResult
           = FacultyDetail.totalFaculty result)
    /\ (FacultyDetail.rank result <= FacultyDetail.totalFaculty result)%nat
    /\ (FacultyDetail.rank result = 0%nat
        <-> ~ In facultyId (map FacultyDetail.ranked_facultyId ranking))
    /\ (forall i : nat,
           FacultyDetail.rank result = S i ->
           exists f,
             nth_error ranking i = Some f
             /\ FacultyDetail.ranked_facultyId f = facultyId).
Proof.
  intros localeCompare prisma facultyId academicYearId result returned.
  destruct (faculty_detail_returned _ _ _ _ returned)
    as [_ [_ [_ [rankIs totalIs]]]].
  rewrite ranking_set in rankIs, totalIs.
  cbn zeta.
  set (everyone := filter _ (Prisma.feedbackSnapshot prisma)) in *.
  set (ranking := FacultyDetail.rankedFacultyOf everyone) in *.
  split; [intro id; apply ranked_In|].
  split.
  { apply (Permutation_NoDup (l := JSSet.ofList
                                      (map Snapshot.facultyId
                                         (filter scored everyone)))).
    - symmetry. apply ranked_ids.
    - unfold JSSet.ofList. apply addAll_spec. constructor. }
  split; [intros f inRanking; apply ranked_mean, inRanking|].
  split.
  { apply Sorted_map. unfold ranking, FacultyDetail.rankedFacultyOf.
    apply (sort_sorted (descending FacultyDetail.ranked_avgRating)).
    intros a b. apply descending_asym. }
  split; [exact totalIs|].
  split; [rewrite totalIs; apply ranked_length|].
  split.
  { intros other otherResult otherReturned.
    destruct (faculty_detail_returned _ _ _ _ otherReturned)
      as [_ [_ [_ [_ otherTotal]]]].
    rewrite ranking_set in otherTotal.
    rewrite otherTotal, totalIs. reflexivity. }
  split; [rewrite rankIs, totalIs; apply findIndexPlus1_bound|].
  split.
  { rewrite rankIs, findIndexPlus1_zero. split.
    - intros none inIds. apply in_map_iff in inIds.
      destruct inIds as [f [sameId inRanking]].
      specialize (none f inRanking). rewrite sameId, String.eqb_refl in none.
      discriminate.
    - intros absent f inRanking.
      destruct (String.eqb (FacultyDetail.ranked_facultyId f) facultyId)
        eqn:E; [|reflexivity].
      apply String.eqb_eq in E. exfalso. apply absent.
      apply in_map_iff. exists f. auto. }
  intros i rankS. rewrite rankIs in rankS.
  destruct (findIndexPlus1_found _ _ rankS) as [f [at_i [passes _]]].
  exists f. split; [exact at_i | apply String.eqb_eq, passes].
Qed.

(** C6 at work: Asha (mean 4.1) behind Bina (4.8), Chetan without a
    rating; asked for any of the three, the total is 2. *)
Lemma faculty_rank_over_all_faculties_witness :
  match getFacultyDetailedAnalytics codeUnitCompare Samples.rankingData
          "Asha" None with
  | Return result =>
      FacultyDetail.totalFaculty result = 2%nat
      /\ (FacultyDetail.rank result <= FacultyDetail.totalFaculty result)%nat
      /\ FacultyDetail.rank result = 2%nat
  | Throw _ => False
  end.
Proof.
  destruct (getFacultyDetailedAnalytics codeUnitCompare Samples.rankingData
              "Asha" None) as [result|e] eqn:returned.
  - pose proof (faculty_rank_over_all_faculties _ _ _ _ returned) as facts.
    cbn zeta in facts.
    destruct facts as [_ [_ [_ [_ [_ [total [_ [bound _]]]]]]]].
    split; [exact total|]. split; [exact bound|].
    vm_compute in returned. inversion returned. reflexivity.
  - vm_compute in returned. discriminate.
Defined.

(* ================================================================== *)
(** * A faculty with responses and no rating *)
(* ================================================================== *)

Lemma whereClause_in_ranking (facultyId : string)
  (academicYearId : option string) (s : Snapshot) :
  FacultyDetail.whereClause facultyId academicYearId s = true ->
  Snapshot.facultyId s = facultyId
  /\ FacultyDetail.rankingWhere academicYearId s = true.
Proof.
  unfold FacultyDetail.whereClause, FacultyDetail.rankingWhere, notDeleted.
  intro matches.
  apply andb_true_iff in matches. destruct matches as [matches ofYear].
  apply andb_true_iff in matches. destruct matches as [own flags].
  apply String.eqb_eq in own. split; [exact own|].
  rewrite ofYear.
  destruct (isDeleted s), (formIsDeleted s), (academicYearIsDeleted s),
    (questionIsDeleted s), (semesterIsDeleted s), (divisionIsDeleted s),
    (subjectIsDeleted s); simpl in *; congruence.
Qed.

Lemma no_scores (l : list Snapshot) :
  (forall s, In s l -> scored s = false) -> acceptedScores l = [].
Proof.
  intro unscored. rewrite acceptedScores_scored.
  induction l as [|s l IH]; simpl; [reflexivity|].
  rewrite (unscored s (or_introl eq_refl)).
  apply IH. intros x inL. apply unscored. right. exact inL.
Qed.

(** C10.  A faculty with at least one matching snapshot (its own, not
    deleted in any of the seven flags of the query, of the year asked for
    when one is given) and without any response that parses to a score
    above zero: [getFacultyDetailedAnalytics] raises no error; it returns
    [overallRating = 0], [totalResponses = 0] and [rank = 0], which is not
    a position in the ranking, the faculty being absent from it; and
    [totalFaculty] counts the faculties with a score above zero in the
    records the ranking reads, the faculty asked for not among them. *)
Theorem unrated_faculty_has_rank_zero :
  forall (localeCompare : string -> string -> Z) (prisma : Database)
         (facultyId : string) (academicYearId : option string),
    (exists s : Snapshot,
        In s (Prisma.feedbackSnapshot prisma)
        /\ Snapshot.facultyId s = facultyId
        /\ isDeleted s = false /\ formIsDeleted s = false
        /\ questionIsDeleted s = false /\ semesterIsDeleted s = false
        /\ divisionIsDeleted s = false /\ subjectIsDeleted s = false
        /\ academicYearIsDeleted s = false
        /\ match academicYearId with
           | Some year =>
               year = EmptyString \/ Snapshot.academicYearId s = year
           | None => True
           end) ->
    (forall s : Snapshot,
        In s (Prisma.feedbackSnapshot prisma) ->
        Snapshot.facultyId s = facultyId ->
        scored s = false) ->
    let everyone :=
      filter
        (fun s =>
           negb (isDeleted s) && negb (formIsDeleted s)
           && negb (academicYearIsDeleted s)
           && match academicYearId with
              | Some year =>
                  if String.eqb year EmptyString then true
                  else String.eqb (Snapshot.academicYearId s) year
              | None => true
              end)
        (Prisma.feedbackSnapshot prisma) in
    exists result : FacultyDetail.t,
      getFacultyDetailedAnalytics localeCompare prisma facultyId
        academicYearId = Return result
      /\ FacultyDetail.overallRating result = zero
      /\ FacultyDetail.totalResponses result = 0%nat
      /\ FacultyDetail.rank result = 0%nat
      /\ FacultyDetail.totalFaculty result
         = distinctCount (map Snapshot.facultyId (filter scored everyone))
      /\ ~ In facultyId (map Snapshot.facultyId (filter scored everyone)).
Proof.
  intros localeCompare prisma facultyId academicYearId
    [s [inTable [own [f1 [f2 [f3 [f4 [f5 [f6 [f7 ofYear]]]]]]]]]] unrated.
  cbn zeta. rewrite <- ranking_set.
  set (everyone := filter (FacultyDetail.rankingWhere academicYearId)
                     (Prisma.feedbackSnapshot prisma)).
  assert (matches : FacultyDetail.whereClause facultyId academicYearId s = true).
  { unfold FacultyDetail.whereClause, notDeleted, whenGiven, truthy.
    rewrite own, String.eqb_refl, f1, f2, f3, f4, f5, f6, f7. simpl.
    destruct academicYearId as [year|]; [|reflexivity].
    destruct (String.eqb year EmptyString) eqn:empty; [reflexivity|].
    simpl. destruct ofYear as [-> | ->]; [discriminate|].
    apply String.eqb_refl. }
  assert (found : In s (filter (FacultyDetail.whereClause facultyId
                                  academicYearId)
                          (Prisma.feedbackSnapshot prisma)))
    by (apply filter_In; auto).
  assert (noScore : acceptedScores
                      (filter (FacultyDetail.whereClause facultyId
                                 academicYearId)
                         (Prisma.feedbackSnapshot prisma)) = []).
  { apply no_scores. intros x inNarrow. apply filter_In in inNarrow.
    destruct inNarrow as [inT isOwn].
    apply whereClause_in_ranking in isOwn. apply unrated; tauto. }
  assert (absent : ~ In facultyId
                     (map Snapshot.facultyId (filter scored everyone))).
  { intro inIds. apply in_map_iff in inIds.
    destruct inIds as [x [sameId inScored]].
    apply filter_In in inScored. destruct inScored as [inEveryone counts].
    apply filter_In in inEveryone. destruct inEveryone as [inT _].
    rewrite (unrated x inT sameId) in counts. discriminate. }
  destruct (getFacultyDetailedAnalytics localeCompare prisma facultyId
              academicYearId) as [result|e] eqn:returned.
  - exists result. split; [reflexivity|].
    destruct (faculty_detail_returned _ _ _ _ returned)
      as [_ [overall [responses [rankIs totalIs]]]].
    rewrite noScore in overall, responses.
    fold everyone in rankIs, totalIs.
    split; [exact overall|]. split; [exact responses|].
    split.
    + rewrite rankIs. apply findIndexPlus1_zero. intros f inRanking.
      destruct (String.eqb (FacultyDetail.ranked_facultyId f) facultyId)
        eqn:E; [|reflexivity].
      apply String.eqb_eq in E. exfalso. apply absent.
      assert (inIds : In facultyId
                        (map FacultyDetail.ranked_facultyId
                           (FacultyDetail.rankedFacultyOf everyone))).
      { apply in_map_iff. exists f. auto. }
      apply ranked_In in inIds.
      destruct inIds as [x [inEveryone [counts sameId]]].
      apply in_map_iff. exists x. split; [exact sameId|].
      apply filter_In. auto.
    + split; [|exact absent]. rewrite totalIs. apply ranked_length.
  - exfalso. unfold getFacultyDetailedAnalytics in returned.
    destruct (filter (FacultyDetail.whereClause facultyId academicYearId)
                (Prisma.feedbackSnapshot prisma)) as [|first others];
      [contradiction | discriminate].
Qed.

(** C10 at work: Chetan, whose only response is the raw score ["0"]. *)
Lemma unrated_faculty_has_rank_zero_witness :
  exists result : FacultyDetail.t,
    getFacultyDetailedAnalytics codeUnitCompare Samples.rankingData
      "Chetan" None = Return result
    /\ FacultyDetail.overallRating result = zero
    /\ FacultyDetail.totalResponses result = 0%nat
    /\ FacultyDetail.rank result = 0%nat
    /\ FacultyDetail.totalFaculty result = 2%nat
    /\ ~ In "Chetan" ["Asha"; "Bina"; "Asha"].
Proof.
  apply (@unrated_faculty_has_rank_zero codeUnitCompare Samples.rankingData
           "Chetan" None).
  - exists (Samples.record "Maths" "Chetan" "A" (Some "Theory") None None
              (JString "0")).
    repeat split; try reflexivity.
    simpl. tauto.
  - intros s inTable own. simpl in inTable.
    destruct inTable as [<- | [<- | [<- | [<- | []]]]];
      first [discriminate own | reflexivity].
Defined.

(* ================================================================== *)
(** * Further properties: [groupBy] *)
(* ================================================================== *)

Section GroupByFacts.
Variable T : Type.
Variable key : T -> string.

(** The reduction of [groupBy], started on groups already made. *)
Let groupsFrom (start : list (string * list T)) (array : list T) :=
  fold_left
    (fun groups item =>
       JSMap.ensureThen String.eqb (key item) [] (fun g => g ++ [item]) groups)
    array start.

Lemma groupBy_groupsFrom (array : list T) :
  groupBy array key = groupsFrom [] array.
Proof. reflexivity. Qed.

Lemma get_groupsFrom (k : string) (array : list T)
  (start : list (string * list T)) :
  JSMap.get String.eqb k (groupsFrom start array)
  = match JSMap.get String.eqb k start with
    | Some g => Some (g ++ filter (fun x => String.eqb (key x) k) array)
    | None =>
        match filter (fun x => String.eqb (key x) k) array with
        | [] => None
        | items => Some items
        end
    end.
Proof.
  unfold groupsFrom. revert start.
  induction array as [|item array IH]; intro start; cbn [fold_left filter].
  - destruct (JSMap.get String.eqb k start); [rewrite app_nil_r|]; reflexivity.
  - rewrite IH, (get_ensureThen _ String.eqb_eq).
    rewrite (String.eqb_sym (key item) k).
    destruct (String.eqb k (key item)) eqn:same.
    + apply String.eqb_eq in same. subst k.
      destruct (JSMap.get String.eqb (key item) start) as [g|]; simpl.
      * rewrite <- app_assoc. reflexivity.
      * reflexivity.
    + destruct (JSMap.get String.eqb k start); reflexivity.
Qed.

Lemma keys_groupsFrom (array : list T) (start : list (string * list T)) :
  map fst (groupsFrom start array)
  = fold_left (fun keys k => JSSet.add k keys) (map key array) (map fst start).
Proof.
  unfold groupsFrom. revert start.
  induction array as [|item array IH]; intro start; cbn [fold_left map].
  - reflexivity.
  - rewrite IH, keys_ensureThen. reflexivity.
Qed.

Lemma items_modify (item : T) (k : string) (groups : list (string * list T)) :
  JSMap.has String.eqb k groups = true ->
  Permutation
    (List.concat (map snd (JSMap.modify String.eqb k (fun g => g ++ [item]) groups)))
    (item :: List.concat (map snd groups)).
Proof.
  unfold JSMap.has.
  induction groups as [|[k0 g] rest IH]; simpl; [discriminate|].
  destruct (String.eqb k k0); simpl; intro present.
  - rewrite <- app_assoc. apply Permutation_sym.
    apply (Permutation_middle g (List.concat (map snd rest)) item).
  - rewrite (IH present). apply Permutation_sym.
    apply (Permutation_middle g (List.concat (map snd rest)) item).
Qed.

Lemma items_set_new (k : string) (groups : list (string * list T)) :
  JSMap.has String.eqb k groups = false ->
  List.concat (map snd (JSMap.set String.eqb k [] groups))
  = List.concat (map snd groups)
  /\ JSMap.has String.eqb k (JSMap.set String.eqb k [] groups) = true.
Proof.
  unfold JSMap.has.
  induction groups as [|[k0 g] rest IH]; simpl.
  - rewrite String.eqb_refl. auto.
  - intro absent. apply orb_false_iff in absent. destruct absent as [E absent].
    rewrite E. simpl. rewrite E. simpl.
    destruct (IH absent) as [same present]. rewrite same. auto.
Qed.

Lemma items_groupsFrom (array : list T) (start : list (string * list T)) :
  Permutation (List.concat (map snd (groupsFrom start array)))
    (List.concat (map snd start) ++ array).
Proof.
  unfold groupsFrom. revert start.
  induction array as [|item array IH]; intro start; cbn [fold_left].
  - rewrite app_nil_r. reflexivity.
  - rewrite IH. rewrite <- Permutation_middle.
    change (item :: List.concat (map snd start) ++ array)
      with ((item :: List.concat (map snd start)) ++ array).
    apply Permutation_app_tail.
    unfold JSMap.ensureThen.
    destruct (JSMap.has String.eqb (key item) start) eqn:present; simpl.
    + apply items_modify, present.
    + destruct (items_set_new _ _ present) as [same nowPresent].
      rewrite (items_modify _ _ _ nowPresent), same. reflexivity.
Qed.
End GroupByFacts.

(** The keys of the groups, and the group a key leads to. *)
Lemma groupBy_keys {T} (array : list T) (key : T -> string) :
  map fst (groupBy array key) = JSSet.ofList (map key array).
Proof. rewrite groupBy_groupsFrom. apply (keys_groupsFrom key array []). Qed.

Lemma groupBy_NoDup {T} (array : list T) (key : T -> string) :
  NoDup (map fst (groupBy array key)).
Proof.
  rewrite groupBy_keys. unfold JSSet.ofList. apply addAll_spec. constructor.
Qed.

Lemma groupBy_get {T} (array : list T) (key : T -> string) (k : string) :
  JSMap.get String.eqb k (groupBy array key)
  = match filter (fun x => String.eqb (key x) k) array with
    | [] => None
    | items => Some items
    end.
Proof. rewrite groupBy_groupsFrom. apply (get_groupsFrom key k array []). Qed.

Lemma groupBy_items {T} (array : list T) (key : T -> string) :
  Permutation (List.concat (map snd (groupBy array key))) array.
Proof. rewrite groupBy_groupsFrom. apply (items_groupsFrom key array []). Qed.

(** A group is the items of its key, and has a first item. *)
Lemma groupBy_entry {T} (array : list T) (key : T -> string) (k : string)
  (items : list T) :
  In (k, items) (groupBy array key) ->
  items = filter (fun x => String.eqb (key x) k) array
  /\ exists first rest,
       items = first :: rest /\ In first array /\ key first = k.
Proof.
  intro inGroups.
  apply (get_of_In _ String.eqb_eq) in inGroups; [|apply groupBy_NoDup].
  rewrite groupBy_get in inGroups.
  destruct (filter _ array) as [|first rest] eqn:group; [discriminate|].
  inversion inGroups; subst items. split; [reflexivity|].
  exists first, rest. split; [reflexivity|].
  assert (inGroup : In first (first :: rest)) by (left; reflexivity).
  rewrite <- group in inGroup. apply filter_In in inGroup.
  destruct inGroup as [inArray sameKey].
  apply String.eqb_eq in sameKey. auto.
Qed.

Lemma groupBy_sizes {T} (array : list T) (key : T -> string) :
  list_sum (map (fun entry => List.length (snd entry)) (groupBy array key))
  = List.length array.
Proof.
  rewrite <- (Permutation_length (groupBy_items array key)).
  generalize (groupBy array key). intro groups.
  induction groups as [|[k items] rest IH]; simpl; [reflexivity|].
  rewrite length_app, IH. reflexivity.
Qed.

(** Every item is in the group of its key. *)
Lemma groupBy_group_of {T} (array : list T) (key : T -> string) (item : T) :
  In item array ->
  In (key item, filter (fun x => String.eqb (key x) (key item)) array)
    (groupBy array key).
Proof.
  intro inArray.
  assert (found :
            JSMap.get String.eqb (key item) (groupBy array key)
            = Some (filter (fun x => String.eqb (key x) (key item)) array)).
  { rewrite groupBy_get.
    destruct (filter _ array) as [|first rest] eqn:none; [|reflexivity].
    exfalso.
    assert (inFilter :
              In item
                (filter (fun x => String.eqb (key x) (key item)) array)).
    { apply filter_In. split; [exact inArray | apply String.eqb_refl]. }
    rewrite none in inFilter. contradiction. }
  revert found. generalize (groupBy array key). intros groups found.
  induction groups as [|[k0 g] rest IH]; simpl in *.
  - discriminate.
  - destruct (String.eqb (key item) k0) eqn:same.
    + apply String.eqb_eq in same. subst k0. inversion found. auto.
    + right. apply IH, found.
Qed.

(** X1.  [groupBy] puts every item of the array into exactly one group:
    the keys of the result are the keys of the items, each once, in the
    order in which they first occur; the group under a key holds the items
    of that key, in array order, and is never empty; all groups together
    hold the items of the array.  The keys are plain keys, as those the
    callers build are: the groups live in a plain object. *)
Theorem groupBy_partitions :
  forall (T : Type) (array : list T) (key : T -> string),
    Forall (fun item => isPlainKey (key item) = true) array ->
    let groups := groupBy array key in
    map fst groups = JSSet.ofList (map key array)
    /\ NoDup (map fst groups)
    /\ (forall (k : string) (items : list T),
           In (k, items) groups ->
           items = filter (fun x => String.eqb (key x) k) array
           /\ items <> [])
    /\ (forall item : T,
           In item array ->
           In (key item,
               filter (fun x => String.eqb (key x) (key item)) array)
             groups)
    /\ Permutation (List.concat (map snd groups)) array.
Proof.
  intros T array key _ groups. subst groups.
  split; [apply groupBy_keys|]. split; [apply groupBy_NoDup|].
  split; [|split; [|apply groupBy_items]].
  - intros k items inGroups.
    destruct (groupBy_entry _ _ _ _ inGroups)
      as [group [first [rest [cons _]]]].
    split; [exact group | rewrite cons; discriminate].
  - intros item inArray. apply groupBy_group_of, inArray.
Qed.

(** X1 at work: the records of two divisions, grouped by division and
    subject. *)
Lemma groupBy_partitions_witness :
  Forall
    (fun s => isPlainKey (divisionName s ++ "|" ++ subjectName s)%string = true)
    Samples.twoDivisions
  /\ map fst
       (groupBy Samples.twoDivisions
          (fun s => (divisionName s ++ "|" ++ subjectName s)%string))
     = ["B|Maths"; "A|Maths"]
  /\ Permutation
       (List.concat
          (map snd
             (groupBy Samples.twoDivisions
                (fun s => (divisionName s ++ "|" ++ subjectName s)%string))))
       Samples.twoDivisions.
Proof.
  assert (plain :
            Forall
              (fun s =>
                 isPlainKey (divisionName s ++ "|" ++ subjectName s)%string = true)
              Samples.twoDivisions).
  { vm_compute. repeat constructor. }
  split; [exact plain|].
  destruct (@groupBy_partitions _ Samples.twoDivisions
              (fun s => (divisionName s ++ "|" ++ subjectName s)%string) plain)
    as [keys [_ [_ [_ all]]]].
  split; [|exact all].
  etransitivity; [exact keys|]. vm_compute. reflexivity.
Defined.

(* ================================================================== *)
(** * Further properties: the test for a lab category *)
(* ================================================================== *)

Lemma prefix_of_longer (a b s : string) :
  String.prefix (a ++ b) s = true -> String.prefix a s = true.
Proof.
  revert s. induction a as [|c a IH]; intro s; [destruct s; reflexivity|].
  destruct s as [|d s]; cbn -[ascii_dec]; [discriminate|].
  destruct (ascii_dec c d); [apply IH | discriminate].
Qed.

Lemma prefix_laboratory_lab (s : string) :
  String.prefix "laboratory" s = true -> String.prefix "lab" s = true.
Proof. apply (prefix_of_longer "lab" "oratory"). Qed.

Lemma includes_laboratory_lab (s : string) :
  includes s "laboratory" = true -> includes s "lab" = true.
Proof.
  induction s as [|c s IH]; cbn [includes]; intro found;
    apply orb_true_iff in found; apply orb_true_iff;
    destruct found as [atFront | later].
  - left. apply prefix_laboratory_lab, atFront.
  - discriminate.
  - left. apply prefix_laboratory_lab, atFront.
  - right. apply IH, later.
Qed.

(** X2.  The test [includes('laboratory') || includes('lab')], by which
    every classification site recognises a lab category, accepts exactly
    the names that contain ["lab"] once put in lower case: the first half of
    the test never decides. *)
Theorem namesLab_is_includes_lab :
  forall category : option string,
    namesLab category
    = match category with
      | Some name => includes (toLowerCase name) "lab"
      | None => false
      end.
Proof.
  intros [name|]; [|reflexivity]. unfold namesLab.
  destruct (includes (toLowerCase name) "laboratory") eqn:long;
    [|reflexivity].
  rewrite (includes_laboratory_lab _ long). reflexivity.
Qed.

(* ================================================================== *)
(** * Further properties: what the rows of the rollups count *)
(* ================================================================== *)

Lemma list_sum_perm (l l' : list nat) :
  Permutation l l' -> list_sum l = list_sum l'.
Proof.
  induction 1 as [|x l l' perm IH|x y l|l l' l'' p1 IH1 p2 IH2]; simpl; lia.
Qed.

Section CountsOfEntries.
Variables K V : Type.
Variable eqb : K -> K -> bool.
Hypothesis eqb_eq : forall a b : K, eqb a b = true <-> a = b.

(** The number of scores an entry has taken. *)
Variable size : V -> nat.

Let total (m : JSMap.Map K V) : nat := list_sum (map size (JSMap.values m)).

Lemma total_modify (k : K) (f : V -> V) (m : JSMap.Map K V) :
  (forall v, size (f v) = S (size v)) ->
  JSMap.has eqb k m = true ->
  total (JSMap.modify eqb k f m) = S (total m).
Proof.
  intro grows. unfold total, JSMap.values, JSMap.has.
  induction m as [|[k0 v0] rest IH]; simpl; [discriminate|].
  destruct (eqb k k0); simpl; intro present.
  - rewrite grows. reflexivity.
  - rewrite (IH present). lia.
Qed.

Lemma total_set_new (k : K) (v : V) (m : JSMap.Map K V) :
  JSMap.has eqb k m = false ->
  total (JSMap.set eqb k v m) = (total m + size v)%nat
  /\ JSMap.has eqb k (JSMap.set eqb k v m) = true.
Proof.
  unfold total, JSMap.values, JSMap.has.
  induction m as [|[k0 v0] rest IH]; simpl.
  - intros _. rewrite (eqb_same _ eqb_eq). simpl. split; [lia | reflexivity].
  - intro absent. apply orb_false_iff in absent. destruct absent as [E absent].
    rewrite E. simpl. rewrite E. simpl.
    destruct (IH absent) as [same present]. rewrite same.
    split; [lia | exact present].
Qed.

(** [ensureThen] with an update that takes one score adds one to the
    scores the map holds. *)
Lemma total_ensureThen (k : K) (i : V) (f : V -> V) (m : JSMap.Map K V) :
  size i = 0%nat ->
  (forall v, size (f v) = S (size v)) ->
  list_sum (map size (JSMap.values (JSMap.ensureThen eqb k i f m)))
  = S (list_sum (map size (JSMap.values m))).
Proof.
  intros empty grows. fold (total m).
  fold (total (JSMap.ensureThen eqb k i f m)).
  unfold JSMap.ensureThen.
  destruct (JSMap.has eqb k m) eqn:present; simpl.
  - apply total_modify; assumption.
  - destruct (total_set_new k i m present) as [same nowPresent].
    rewrite total_modify; [|exact grows | exact nowPresent].
    rewrite same, empty. lia.
Qed.

Variable key : Snapshot -> K.
Variable init : Snapshot -> V.
Variable update : Snapshot -> number -> V -> V.
Hypothesis size_init : forall s, size (init s) = 0%nat.
Hypothesis size_update : forall s n v, size (update s n v) = S (size v).

Lemma total_loopFrom (l : list Snapshot) (start : JSMap.Map K V) :
  total
    (forEachScored
       (fun s score m =>
          JSMap.ensureThen eqb (key s) (init s) (update s score) m)
       l start)
  = (total start + List.length (filter scored l))%nat.
Proof.
  revert start. induction l as [|s l IH]; intro start.
  - rewrite forEachScored_nil. simpl. lia.
  - rewrite forEachScored_cons, IH. cbn [filter].
    destruct (scored s); cbn [List.length]; [|reflexivity].
    unfold total at 1. rewrite total_ensureThen; [|apply size_init|].
    + fold (total start). lia.
    + intro v. apply size_update.
Qed.

(** Every record that counts is in exactly one entry. *)
Lemma total_groupingLoop (l : list Snapshot) :
  list_sum (map size (JSMap.values (groupingLoop eqb key init update l)))
  = List.length (filter scored l).
Proof. apply (total_loopFrom l []). Qed.
End CountsOfEntries.

Lemma length_acceptedScores (l : list Snapshot) :
  List.length (acceptedScores l) = List.length (filter scored l).
Proof. rewrite acceptedScores_scored. apply length_map. Qed.

Lemma list_sum_sort {A} (after : A -> A -> bool) (count : A -> nat)
  (l : list A) :
  list_sum (map count (sort after l)) = list_sum (map count l).
Proof. apply list_sum_perm, Permutation_map, sort_perm. Qed.

Ltac count_laws :=
  first
    [ exact String.eqb_eq
    | exact Z.eqb_eq
    | intros; reflexivity
    | intros; cbn; rewrite ?length_app; cbn; lia ].

(** X3.  No response is lost or counted twice by a rollup: the response
    counts of the rows of each rollup add up to the [totalResponses] of
    [calculateOverallStats], the number of records with a score above
    zero.  In the two nested rollups the counts of the inner rows add up to
    it. *)
Theorem rollups_conserve_responses :
  forall (localeCompare : string -> string -> Z) (snapshots : list Snapshot),
    let total :=
      OverallStats.totalResponses (calculateOverallStats snapshots) in
    total = List.length (filter scored snapshots)
    /\ list_sum
         (map SubjectRatingAggregated.totalResponses
            (aggregateSubjectRatings snapshots)) = total
    /\ list_sum
         (map FacultyPerformanceAggregated.totalResponses
            (aggregateFacultyPerformance snapshots)) = total
    /\ list_sum
         (map DivisionPerformanceAggregated.totalResponses
            (aggregateDivisionPerformance localeCompare snapshots)) = total
    /\ list_sum
         (map AcademicYearTrendAggregated.totalResponses
            (aggregateAcademicYearTrends localeCompare snapshots)) = total
    /\ list_sum
         (map
            (fun row =>
               list_sum
                 (map SemesterTrendAggregated.responseCount
                    (SemesterTrendAggregated.academicYearData row)))
            (aggregateSemesterTrends localeCompare snapshots)) = total
    /\ list_sum
         (map
            (fun row =>
               list_sum
                 (map DepartmentTrendAggregated.responseCount
                    (DepartmentTrendAggregated.departmentData row)))
            (aggregateDepartmentTrends localeCompare snapshots)) = total.
Proof.
  intros localeCompare snapshots total.
  assert (totalIs : total = List.length (filter scored snapshots))
    by apply length_acceptedScores.
  rewrite totalIs. clear total totalIs.
  split; [reflexivity|].
  split; [|split; [|split; [|split; [|split]]]].
  - unfold aggregateSubjectRatings.
    rewrite list_sum_sort, map_map.
    apply total_groupingLoop; try count_laws.
    intros s n v. cbn.
    destruct (match lectureType s with
              | Some t => String.eqb t "LECTURE"
              | None => false
              end); rewrite ?length_app; cbn; lia.
  - unfold aggregateFacultyPerformance.
    rewrite forEachIndexed_map by reflexivity.
    rewrite list_sum_sort, map_map.
    apply total_groupingLoop; count_laws.
  - unfold aggregateDivisionPerformance.
    rewrite list_sum_sort, map_map.
    apply total_groupingLoop; count_laws.
  - unfold aggregateAcademicYearTrends.
    rewrite list_sum_sort, map_map.
    apply total_groupingLoop; count_laws.
  - unfold aggregateSemesterTrends.
    rewrite list_sum_sort, map_map. unfold JSMap.entries.
    cbn [SemesterTrendAggregated.academicYearData].
    erewrite map_ext;
      [|intro entry; rewrite list_sum_sort, map_map; reflexivity].
    rewrite <- (map_map snd
                  (fun yearMap =>
                     list_sum
                       (map (fun year => List.length (YearScores.scores year))
                          (JSMap.values yearMap)))).
    apply (total_groupingLoop _ Z.eqb_eq); [reflexivity|].
    intros s n yearMap.
    apply (total_ensureThen _ String.eqb_eq); count_laws.
  - unfold aggregateDepartmentTrends.
    rewrite list_sum_sort, map_map. unfold JSMap.entries.
    cbn [DepartmentTrendAggregated.departmentData].
    erewrite map_ext;
      [|intro entry; rewrite list_sum_sort, map_map; reflexivity].
    rewrite <- (map_map snd
                  (fun deptMap =>
                     list_sum
                       (map
                          (fun dept =>
                             List.length (DepartmentScores.scores dept))
                          (JSMap.values deptMap)))).
    apply (total_groupingLoop _ String.eqb_eq); [reflexivity|].
    intros s n deptMap.
    apply (total_ensureThen _ String.eqb_eq); count_laws.
Qed.

(* ================================================================== *)
(** * Further properties: one row per group *)
(* ================================================================== *)

(** X4.  Each rollup has exactly one row per group that has a score above
    zero: a subject, faculty, division or academic year is shown by one
    row when one of its records counts, and by none otherwise.  In
    [aggregateSemesterTrends] the same holds of the semester numbers and,
    inside the row of a semester, of the academic years of its records; in
    [aggregateDepartmentTrends] of the year labels and, inside, of the
    departments. *)
Theorem rollups_have_one_row_per_group :
  forall (localeCompare : string -> string -> Z) (snapshots : list Snapshot),
    oneRowPerGroup subjectId SubjectRatingAggregated.subjectId snapshots
      (aggregateSubjectRatings snapshots)
    /\ oneRowPerGroup facultyId FacultyPerformanceAggregated.facultyId
         snapshots (aggregateFacultyPerformance snapshots)
    /\ oneRowPerGroup divisionId DivisionPerformanceAggregated.divisionId
         snapshots (aggregateDivisionPerformance localeCompare snapshots)
    /\ oneRowPerGroup academicYearId
         AcademicYearTrendAggregated.academicYearId snapshots
         (aggregateAcademicYearTrends localeCompare snapshots)
    /\ oneRowPerGroup semesterNumber SemesterTrendAggregated.semesterNumber
         snapshots (aggregateSemesterTrends localeCompare snapshots)
    /\ (forall row : SemesterTrendAggregated.t,
           In row (aggregateSemesterTrends localeCompare snapshots) ->
           oneRowPerGroup academicYearId
             SemesterTrendAggregated.academicYearId
             (filter
                (fun s => Z.eqb (semesterNumber s)
                            (SemesterTrendAggregated.semesterNumber row))
                snapshots)
             (SemesterTrendAggregated.academicYearData row))
    /\ oneRowPerGroup academicYearString
         DepartmentTrendAggregated.academicYearString snapshots
         (aggregateDepartmentTrends localeCompare snapshots)
    /\ (forall row : DepartmentTrendAggregated.t,
           In row (aggregateDepartmentTrends localeCompare snapshots) ->
           oneRowPerGroup departmentId
             DepartmentTrendAggregated.departmentId
             (filter
                (fun s =>
                   String.eqb (academicYearString s)
                     (DepartmentTrendAggregated.academicYearString row))
                snapshots)
             (DepartmentTrendAggregated.departmentData row)).
Proof.
  intros localeCompare snapshots.
  split; [|split; [|split; [|split; [|split; [|split; [|split]]]]]].
  - apply oneRowPerGroup_sort.
    apply rows_are_groups with (keyOfEntry := SubjectAcc.subjectId);
      key_laws.
  - unfold aggregateFacultyPerformance.
    apply oneRowPerGroup_keys
      with (keyOf := FacultyPerformanceAggregated.facultyId)
           (rows :=
              sort (descending FacultyPerformanceAggregated.averageRating)
                (map facultyRow (JSMap.values (facultyMapOf snapshots)))).
    + apply forEachIndexed_map. reflexivity.
    + apply oneRowPerGroup_sort.
      apply rows_are_groups with (keyOfEntry := FacultyAcc.facultyId);
        key_laws.
  - apply oneRowPerGroup_sort.
    apply rows_are_groups with (keyOfEntry := DivisionAcc.divisionId);
      key_laws.
  - apply oneRowPerGroup_sort.
    apply rows_are_groups with (keyOfEntry := YearAcc.academicYearId);
      key_laws.
  - apply semester_rows_are_groups.
  - unfold aggregateSemesterTrends. intros row inRows.
    apply sort_In in inRows. apply in_map_iff in inRows.
    destruct inRows as [[semester yearMap] [<- inMap]].
    unfold JSMap.entries in inMap.
    apply (inner_loop Z.eqb String.eqb Z.eqb_eq) in inMap.
    cbn [fst snd SemesterTrendAggregated.semesterNumber
           SemesterTrendAggregated.academicYearData].
    rewrite inMap.
    apply oneRowPerGroup_sort.
    apply rows_are_groups with (keyOfEntry := YearScores.academicYearId);
      key_laws.
  - apply oneRowPerGroup_sort.
    apply (entries_are_groups String.eqb String.eqb_eq). reflexivity.
  - unfold aggregateDepartmentTrends. intros row inRows.
    apply sort_In in inRows. apply in_map_iff in inRows.
    destruct inRows as [[year deptMap] [<- inMap]].
    unfold JSMap.entries in inMap.
    apply (inner_loop String.eqb String.eqb String.eqb_eq) in inMap.
    cbn [fst snd DepartmentTrendAggregated.academicYearString
           DepartmentTrendAggregated.departmentData].
    rewrite inMap.
    apply oneRowPerGroup_sort.
    apply rows_are_groups with (keyOfEntry := DepartmentScores.departmentId);
      key_laws.
Qed.

(* ================================================================== *)
(** * Further properties: the order of the rows *)
(* ================================================================== *)






(* ================================================================== *)
(** * Further properties: the distinct counts of a row *)
(* ================================================================== *)

Section MembersOfGroups.
Variable V : Type.
Variable key : Snapshot -> string.
Variable init : Snapshot -> V.
Variable update : Snapshot -> number -> V -> V.
Variable keyOfEntry : V -> string.
Hypothesis keyOfEntry_init : forall s, keyOfEntry (init s) = key s.
Hypothesis keyOfEntry_update :
  forall s n v, keyOfEntry (update s n v) = keyOfEntry v.

(** A set to which [update] adds the column [col] of every record. *)
Variable members : V -> JSSet.StringSet.
Variable col : Snapshot -> string.
Hypothesis members_init : forall s, members (init s) = [].
Hypothesis members_update :
  forall s n v, members (update s n v) = JSSet.add (col s) (members v).


End MembersOfGroups.



(* ================================================================== *)
(** * Further properties: the overall statistics *)
(* ================================================================== *)

Lemma distinctCount_filter (col : Snapshot -> string)
  (test : Snapshot -> bool) (l : list Snapshot) :
  (distinctCount (map col (filter test l)) <= distinctCount (map col l))%nat.
Proof.
  unfold distinctCount. apply NoDup_incl_length; [apply NoDup_nodup|].
  intros x inFiltered. apply nodup_In in inFiltered. apply nodup_In.
  apply in_map_iff in inFiltered. destruct inFiltered as [s [<- inL]].
  apply filter_In in inL. apply in_map, inL.
Qed.

(** X8.  [calculateOverallStats] counts its distinct subjects, faculties,
    students and divisions over every record it is given, with or without
    a score, a student being counted when the record has a non-empty
    [studentId]; [totalResponses] counts the records with a score above
    zero only.  So [totalResponses] is at most the number of records, and a
    rollup never has more rows than the corresponding distinct count. *)
Theorem overall_stats_count_every_record :
  forall snapshots : list Snapshot,
    let stats := calculateOverallStats snapshots in
    OverallStats.uniqueSubjects stats
    = distinctCount (map subjectId snapshots)
    /\ OverallStats.uniqueFaculties stats
       = distinctCount (map facultyId snapshots)
    /\ OverallStats.uniqueDivisions stats
       = distinctCount (map divisionId snapshots)
    /\ OverallStats.uniqueStudents stats
       = distinctCount
           (flat_map
              (fun s =>
                 match studentId s with
                 | Some id => if String.eqb id EmptyString then [] else [id]
                 | None => []
                 end)
              snapshots)
    /\ OverallStats.totalResponses stats
       = List.length (filter scored snapshots)
    /\ (OverallStats.totalResponses stats <= List.length snapshots)%nat
    /\ (List.length (aggregateSubjectRatings snapshots)
        <= OverallStats.uniqueSubjects stats)%nat
    /\ (List.length (aggregateFacultyPerformance snapshots)
        <= OverallStats.uniqueFaculties stats)%nat
    /\ (forall localeCompare,
           (List.length (aggregateDivisionPerformance localeCompare snapshots)
            <= OverallStats.uniqueDivisions stats)%nat).
Proof.
  intros snapshots stats. subst stats. unfold calculateOverallStats.
  cbn [OverallStats.uniqueSubjects OverallStats.uniqueFaculties
         OverallStats.uniqueDivisions OverallStats.uniqueStudents
         OverallStats.totalResponses].
  rewrite !size_ofList, length_acceptedScores.
  split; [reflexivity|]. split; [reflexivity|]. split; [reflexivity|].
  split.
  { f_equal. apply flat_map_ext. intro s. unfold truthy.
    destruct (studentId s) as [id|]; [|reflexivity].
    destruct (String.eqb id EmptyString); reflexivity. }
  split; [reflexivity|].
  split; [apply filter_length_le|].
  split; [|split].
  - unfold aggregateSubjectRatings.
    rewrite sort_length, length_map. unfold JSMap.values. rewrite length_map.
    etransitivity;
      [apply Nat.eq_le_incl, (groupingLoop_length subjectId)
      |apply distinctCount_filter].
  - unfold aggregateFacultyPerformance.
    rewrite forEachIndexed_length, sort_length, length_map.
    unfold JSMap.values. rewrite length_map.
    etransitivity;
      [apply Nat.eq_le_incl, (groupingLoop_length facultyId)
      |apply distinctCount_filter].
  - intro localeCompare. unfold aggregateDivisionPerformance.
    rewrite sort_length, length_map. unfold JSMap.values. rewrite length_map.
    etransitivity;
      [apply Nat.eq_le_incl, (groupingLoop_length divisionId)
      |apply distinctCount_filter].
Qed.

(* ================================================================== *)
(** * Further properties: input without a score *)
(* ================================================================== *)

Lemma forEachScored_none {M} (body : Snapshot -> number -> M -> M)
  (l : list Snapshot) (start : M) :
  filter scored l = [] -> forEachScored body l start = start.
Proof.
  intro none. rewrite <- forEachScored_filter, none. reflexivity.
Qed.

(** X9.  When no record has a score above zero, and so on the empty input,
    every rollup returns no row at all, and [calculateOverallStats] reports
    [totalResponses = 0] and [averageRating = 0]. *)
Theorem rollups_without_scores :
  forall snapshots : list Snapshot,
    filter scored snapshots = [] ->
    aggregateSubjectRatings snapshots = []
    /\ aggregateFacultyPerformance snapshots = []
    /\ (forall localeCompare,
           aggregateDivisionPerformance localeCompare snapshots = []
           /\ aggregateAcademicYearTrends localeCompare snapshots = []
           /\ aggregateSemesterTrends localeCompare snapshots = []
           /\ aggregateDepartmentTrends localeCompare snapshots = [])
    /\ OverallStats.totalResponses (calculateOverallStats snapshots) = 0%nat
    /\ OverallStats.averageRating (calculateOverallStats snapshots) = zero.
Proof.
  intros snapshots none.
  unfold aggregateSubjectRatings, subjectMapOf, aggregateFacultyPerformance,
    facultyMapOf, aggregateDivisionPerformance, divisionMapOf,
    aggregateAcademicYearTrends, yearMapOf, aggregateSemesterTrends,
    aggregateDepartmentTrends, calculateOverallStats.
  cbn [OverallStats.totalResponses OverallStats.averageRating].
  rewrite !(forEachScored_none _ _ _ none), acceptedScores_scored, none.
  repeat split.
Qed.

(** X9 at work: a single record whose raw score is ["0"]. *)
Lemma rollups_without_scores_witness :
  filter scored [Samples.rated0] = []
  /\ aggregateSubjectRatings [Samples.rated0] = []
  /\ OverallStats.totalResponses (calculateOverallStats [Samples.rated0])
     = 0%nat.
Proof.
  split; [reflexivity|].
  pose proof (@rollups_without_scores [Samples.rated0] eq_refl)
    as [subjects [_ [_ [total _]]]].
  split; assumption.
Defined.

(* ================================================================== *)
(** * Further properties: the detail builders lose no response *)
(* ================================================================== *)

Lemma length_by_lecture_type (derive : Snapshot -> LectureType)
  (l : list Snapshot) :
  (List.length
     (acceptedScores (filter (fun s => LectureType_eqb (derive s) LECTURE) l))
   + List.length
       (acceptedScores (filter (fun s => LectureType_eqb (derive s) LAB) l)))%nat
  = List.length (filter scored l).
Proof.
  rewrite !length_acceptedScores.
  induction l as [|s l IH]; [reflexivity|].
  cbn [filter]. destruct (derive s); cbn [LectureType_eqb filter];
    destruct (scored s); cbn [List.length]; lia.
Qed.

Lemma filter_scored_and (test : Snapshot -> bool) (l : list Snapshot) :
  filter scored (filter test l) = filter (fun s => scored s && test s) l.
Proof.
  rewrite filter_twice. apply filter_same.
  intro s. apply andb_comm.
Qed.

(** X10.  The detail builders lose no response.  In each of them
    [totalResponses] is the number of matching records with a score above
    zero, and the [responses] of the rows of every breakdown add up to it;
    the rows of a category breakdown add up to the number of those records
    that have a category id (for a subject), or a category name (for a
    faculty).  For a subject, [lectureResponses] and [labResponses] add up
    to [totalResponses]. *)
Theorem detail_builders_conserve_responses :
  (forall (prisma : Database) (subjectId : string)
          (academicYearId semesterId departmentId : option string)
          (result : SubjectDetail.t),
      SubjectDetail.getSubjectDetailedAnalytics prisma subjectId
        academicYearId semesterId departmentId = Return result ->
      let snapshots :=
        filter
          (SubjectDetail.whereClause subjectId academicYearId semesterId
             departmentId)
          (Prisma.feedbackSnapshot prisma) in
      let counted := List.length (filter scored snapshots) in
      SubjectDetail.totalResponses result = counted
      /\ (SubjectDetail.lectureResponses result
          + SubjectDetail.labResponses result)%nat = counted
      /\ list_sum
           (map SubjectDetail.responses (SubjectDetail.facultyBreakdown result))
         = counted
      /\ list_sum
           (map SubjectDetail.division_responses
              (SubjectDetail.divisionBreakdown result))
         = counted
      /\ list_sum
           (map SubjectDetail.questionCount
              (SubjectDetail.questionBreakdown result))
         = List.length
             (filter (fun s => scored s && truthy (questionCategoryId s))
                snapshots))
  /\ (forall (localeCompare : string -> string -> Z) (prisma : Database)
             (facultyId : string) (academicYearId : option string)
             (result : FacultyDetail.t),
         getFacultyDetailedAnalytics localeCompare prisma facultyId
           academicYearId = Return result ->
         let snapshots :=
           filter (FacultyDetail.whereClause facultyId academicYearId)
             (Prisma.feedbackSnapshot prisma) in
         let counted := List.length (filter scored snapshots) in
         FacultyDetail.totalResponses result = counted
         /\ list_sum
              (map FacultyDetail.responses
                 (FacultyDetail.subjectBreakdown result))
            = counted
         /\ list_sum
              (map FacultyDetail.division_responses
                 (FacultyDetail.divisionBreakdown result))
            = counted
         /\ list_sum
              (map FacultyDetail.trend_responses
                 (FacultyDetail.trendData result))
            = counted
         /\ list_sum
              (map FacultyDetail.questionCount
                 (FacultyDetail.questionCategoryBreakdown result))
            = List.length
                (filter (fun s => scored s && truthy (questionCategoryName s))
                   snapshots))
  /\ (forall (localeCompare : string -> string -> Z) (prisma : Database)
             (divisionId : string) (academicYearId : option string)
             (result : DivisionDetail.t),
         getDivisionDetailedAnalytics localeCompare prisma divisionId
           academicYearId = Return result ->
         let snapshots :=
           filter (DivisionDetail.whereClause divisionId academicYearId)
             (Prisma.feedbackSnapshot prisma) in
         let counted := List.length (filter scored snapshots) in
         DivisionDetail.totalResponses result = counted
         /\ list_sum
              (map DivisionDetail.responses
                 (DivisionDetail.facultyBreakdown result))
            = counted
         /\ list_sum
              (map DivisionDetail.subject_responses
                 (DivisionDetail.subjectBreakdown result))
            = counted
         /\ list_sum
              (map DivisionDetail.year_responses
                 (DivisionDetail.academicYearComparison result))
            = counted).
Proof.
  split; [|split].
  - intros prisma subjectId academicYearId semesterId departmentId result.
    unfold SubjectDetail.getSubjectDetailedAnalytics.
    destruct (filter _ (Prisma.feedbackSnapshot prisma))
      as [|firstSnapshot others] eqn:found; [discriminate|].
    rewrite splitScores_spec. intro returned.
    apply Return_injective in returned. subst result.
    generalize (firstSnapshot :: others). clear. intro snapshots.
    cbn zeta.
    cbn [SubjectDetail.totalResponses SubjectDetail.lectureResponses
           SubjectDetail.labResponses SubjectDetail.facultyBreakdown
           SubjectDetail.divisionBreakdown SubjectDetail.questionBreakdown].
    rewrite length_app, length_by_lecture_type.
    split; [reflexivity|]. split; [reflexivity|].
    split; [|split].
    + rewrite map_map. apply total_groupingLoop; count_laws.
    + rewrite map_map. apply total_groupingLoop; try count_laws.
      intros s n v. cbn. destruct (SubjectDetail.deriveLectureType s);
        rewrite !length_app; cbn; lia.
    + unfold SubjectDetail.categoryMapOf.
      rewrite (forEachScored_skipping
                 (fun s => negb (truthy (questionCategoryId s)))).
      rewrite filter_truthy, map_map, <- filter_scored_and.
      apply total_groupingLoop; count_laws.
  - intros localeCompare prisma facultyId academicYearId result.
    unfold getFacultyDetailedAnalytics.
    destruct (filter (FacultyDetail.whereClause facultyId academicYearId)
                (Prisma.feedbackSnapshot prisma))
      as [|firstSnapshot others] eqn:found; [discriminate|].
    intro returned. apply Return_injective in returned. subst result.
    generalize (firstSnapshot :: others). clear. intro snapshots.
    cbn zeta.
    cbn [FacultyDetail.totalResponses FacultyDetail.subjectBreakdown
           FacultyDetail.divisionBreakdown
           FacultyDetail.questionCategoryBreakdown FacultyDetail.trendData].
    split; [apply length_acceptedScores|].
    split; [|split; [|split]].
    + rewrite map_map. apply total_groupingLoop; count_laws.
    + rewrite map_map. apply total_groupingLoop; count_laws.
    + rewrite list_sum_sort, map_map. apply total_groupingLoop; count_laws.
    + unfold FacultyDetail.categoryMapOf.
      rewrite (forEachScored_skipping
                 (fun s => negb (truthy (questionCategoryName s)))).
      rewrite filter_truthy, map_map, <- filter_scored_and.
      apply total_groupingLoop; count_laws.
  - intros localeCompare prisma divisionId academicYearId result.
    unfold getDivisionDetailedAnalytics.
    destruct (filter _ (Prisma.feedbackSnapshot prisma))
      as [|firstSnapshot others] eqn:found; [discriminate|].
    intro returned. apply Return_injective in returned. subst result.
    generalize (firstSnapshot :: others). clear. intro snapshots.
    cbn zeta.
    cbn [DivisionDetail.totalResponses DivisionDetail.facultyBreakdown
           DivisionDetail.subjectBreakdown
           DivisionDetail.academicYearComparison].
    split; [apply length_acceptedScores|].
    split; [|split].
    + rewrite map_map. apply total_groupingLoop; count_laws.
    + rewrite map_map. apply total_groupingLoop; try count_laws.
      intros s n v. cbn. destruct (DivisionDetail.deriveLectureType s);
        rewrite !length_app; cbn; lia.
    + rewrite list_sum_sort, map_map. apply total_groupingLoop; count_laws.
Qed.

(** X10 at work on the three records of the scenario. *)
Lemma detail_builders_conserve_responses_witness :
  match SubjectDetail.getSubjectDetailedAnalytics
          (Samples.database Samples.scenario) "S" None None None with
  | Return result =>
      SubjectDetail.totalResponses result = 3%nat
      /\ (SubjectDetail.lectureResponses result
          + SubjectDetail.labResponses result)%nat = 3%nat
  | Throw _ => False
  end
  /\ match getFacultyDetailedAnalytics codeUnitCompare
             (Samples.database Samples.scenario) "Asha" None with
     | Return result =>
         list_sum
           (map FacultyDetail.responses
              (FacultyDetail.subjectBreakdown result)) = 3%nat
     | Throw _ => False
     end
  /\ match getDivisionDetailedAnalytics codeUnitCompare
             (Samples.database Samples.scenario) "A" None with
     | Return result =>
         list_sum
           (map DivisionDetail.subject_responses
              (DivisionDetail.subjectBreakdown result)) = 3%nat
     | Throw _ => False
     end.
Proof.
  destruct detail_builders_conserve_responses
    as [ofSubject [ofFaculty ofDivision]].
  split; [|split].
  - destruct (SubjectDetail.getSubjectDetailedAnalytics _ _ _ _ _)
      as [result|e] eqn:returned.
    + pose proof (ofSubject _ _ _ _ _ result returned)
        as [total [byType _]].
      split; [exact total | exact byType].
    + vm_compute in returned. discriminate.
  - destruct (getFacultyDetailedAnalytics _ _ _ _)
      as [result|e] eqn:returned.
    + pose proof (ofFaculty _ _ _ _ result returned)
        as [_ [bySubject _]].
      exact bySubject.
    + vm_compute in returned. discriminate.
  - destruct (getDivisionDetailedAnalytics _ _ _ _)
      as [result|e] eqn:returned.
    + pose proof (ofDivision _ _ _ _ result returned)
        as [_ [_ [bySubject _]]].
      exact bySubject.
    + vm_compute in returned. discriminate.
Defined.

(* ================================================================== *)
(** * Further properties: the order of the detail rows *)
(* ================================================================== *)


Section YearThenSemester.
Variable localeCompare : string -> string -> Z.
Hypothesis localeCompare_antisym :
  forall a b, Z.sgn (localeCompare b a) = - Z.sgn (localeCompare a b).
Hypothesis localeCompare_trans :
  forall a b c,
    localeCompare a b <= 0 -> localeCompare b c <= 0 ->
    localeCompare a c <= 0.
Variable A : Type.
Variable label : A -> string.
Variable number : A -> Z.

(** The comparator [a.label.localeCompare(b.label) || a.number - b.number]
    is positive. *)
Let after (a b : A) : bool :=
  let byLabel := localeCompare (label a) (label b) in
  0 <? (if negb (byLabel =? 0) then byLabel else number a - number b).




End YearThenSemester.



(* ================================================================== *)
(** * Further properties: group keys and what [split] reads back *)
(* ================================================================== *)

Lemma prefix_bar (c : ascii) (r : string) :
  String.prefix "|" (String c r) = Ascii.eqb c "|".
Proof.
  cbn -[ascii_dec]. destruct (ascii_dec "|" c) as [<-|different].
  - destruct r; reflexivity.
  - symmetry. apply Ascii.eqb_neq. congruence.
Qed.

Lemma hasNoBar_cons (c : ascii) (r : string) :
  hasNoBar (String c r) = negb (Ascii.eqb c "|") && hasNoBar r.
Proof.
  unfold hasNoBar. cbn [includes]. rewrite prefix_bar.
  apply negb_orb.
Qed.

Lemma append_assoc (a b c : string) : ((a ++ b) ++ c = a ++ b ++ c)%string.
Proof. induction a as [|x a IH]; simpl; [|rewrite IH]; reflexivity. Qed.

Lemma append_empty (a : string) : (a ++ EmptyString = a)%string.
Proof. induction a as [|x a IH]; simpl; [|rewrite IH]; reflexivity. Qed.

(** A text without a bar is one part. *)
Lemma splitAux_plain (cur text : string) :
  hasNoBar text = true -> splitAux "|" cur text = [(cur ++ text)%string].
Proof.
  revert cur. induction text as [|c r IH]; intros cur plain; simpl.
  - rewrite append_empty. reflexivity.
  - rewrite hasNoBar_cons in plain. apply andb_true_iff in plain.
    destruct plain as [notBar plainRest].
    destruct (Ascii.eqb c "|"); [discriminate|].
    rewrite IH by exact plainRest. rewrite append_assoc. reflexivity.
Qed.

(** A part without a bar, a bar, and the rest. *)
Lemma splitAux_part (cur part rest : string) :
  hasNoBar part = true ->
  splitAux "|" cur (part ++ "|" ++ rest)
  = (cur ++ part)%string :: splitAux "|" EmptyString rest.
Proof.
  revert cur. induction part as [|c r IH]; intros cur plain; simpl.
  - rewrite append_empty. reflexivity.
  - rewrite hasNoBar_cons in plain. apply andb_true_iff in plain.
    destruct plain as [notBar plainRest].
    destruct (Ascii.eqb c "|"); [discriminate|].
    rewrite IH by exact plainRest. rewrite append_assoc. reflexivity.
Qed.

Lemma split_two (a b : string) :
  hasNoBar a = true -> hasNoBar b = true ->
  split "|" (a ++ "|" ++ b) = [a; b].
Proof.
  intros plainA plainB. unfold split.
  rewrite splitAux_part by exact plainA.
  rewrite splitAux_plain by exact plainB. reflexivity.
Qed.

Lemma split_three (a b c : string) :
  hasNoBar a = true -> hasNoBar b = true -> hasNoBar c = true ->
  split "|" (a ++ "|" ++ b ++ "|" ++ c) = [a; b; c].
Proof.
  intros plainA plainB plainC. unfold split.
  rewrite splitAux_part by exact plainA.
  rewrite splitAux_part by exact plainB.
  rewrite splitAux_plain by exact plainC. reflexivity.
Qed.

Lemma LectureType_name_plain (t : LectureType) :
  hasNoBar (LectureType_name t) = true.
Proof. destruct t; reflexivity. Qed.

(** ** [String(n)] and [parseInt] *)

Lemma isDigit_digit (d : Z) :
  0 <= d < 10 ->
  isDigit (ascii_of_N (Z.to_N (48 + d))) = true
  /\ digitValue (ascii_of_N (Z.to_N (48 + d))) = d
  /\ Ascii.eqb (ascii_of_N (Z.to_N (48 + d))) "|" = false
  /\ Ascii.eqb (ascii_of_N (Z.to_N (48 + d))) "x" = false
  /\ Ascii.eqb (ascii_of_N (Z.to_N (48 + d))) "X" = false
  /\ isWhiteSpace (ascii_of_N (Z.to_N (48 + d))) = false
  /\ Ascii.eqb (ascii_of_N (Z.to_N (48 + d))) "-" = false
  /\ Ascii.eqb (ascii_of_N (Z.to_N (48 + d))) "+" = false.
Proof.
  intro range.
  assert (cases : d = 0 \/ d = 1 \/ d = 2 \/ d = 3 \/ d = 4 \/ d = 5
                  \/ d = 6 \/ d = 7 \/ d = 8 \/ d = 9) by lia.
  repeat destruct cases as [-> | cases]; try subst d;
    repeat split; reflexivity.
Qed.

Lemma digitsText_app (ds ds' : list Z) (rest : string) :
  digitsText (ds ++ ds') rest = digitsText ds (digitsText ds' rest).
Proof. induction ds as [|d ds IH]; simpl; [|rewrite IH]; reflexivity. Qed.

Lemma digitsValue_app (acc : Z) (ds ds' : list Z) :
  digitsValue acc (ds ++ ds') = digitsValue (digitsValue acc ds) ds'.
Proof.
  revert acc. induction ds as [|d ds IH]; intro acc; simpl;
    [|rewrite IH]; reflexivity.
Qed.

Lemma digitsOfPos_S (fuel : nat) (n : Z) (acc : string) :
  digitsOfPos (S fuel) n acc
  = if n <? 10
    then String (ascii_of_N (Z.to_N (48 + n mod 10))) acc
    else digitsOfPos fuel (n / 10)
           (String (ascii_of_N (Z.to_N (48 + n mod 10))) acc).
Proof. reflexivity. Qed.

(** [String(n)] writes a number as its decimal digits. *)
Lemma digitsOfPos_digits (fuel : nat) :
  forall (n : Z) (rest : string),
    0 <= n < 10 ^ Z.of_nat (S fuel) ->
    exists ds : list Z,
      ds <> [] /\ Forall (fun d => 0 <= d < 10) ds
      /\ digitsOfPos (S fuel) n rest = digitsText ds rest
      /\ digitsValue 0 ds = n.
Proof.
  induction fuel as [|fuel IH]; intros n rest range.
  - exists [n]. change (10 ^ Z.of_nat 1) with 10 in range.
    rewrite digitsOfPos_S. replace (n mod 10) with n by (symmetry; apply Z.mod_small; lia).
    destruct (n <? 10) eqn:small; [|apply Z.ltb_ge in small; lia].
    repeat split; try (simpl; lia); [discriminate | repeat constructor; lia].
  - rewrite digitsOfPos_S. destruct (n <? 10) eqn:small.
    + apply Z.ltb_lt in small. exists [n].
      replace (n mod 10) with n by (symmetry; apply Z.mod_small; lia).
      repeat split; try (simpl; lia);
        [discriminate | repeat constructor; lia].
    + apply Z.ltb_ge in small.
      assert (smaller : 0 <= n / 10 < 10 ^ Z.of_nat (S fuel)).
      { split; [apply Z.div_pos; lia|].
        apply Z.div_lt_upper_bound; [lia|].
        rewrite <- Z.pow_succ_r by lia.
        rewrite <- Nat2Z.inj_succ. tauto. }
      destruct (IH (n / 10)
                  (String (ascii_of_N (Z.to_N (48 + n mod 10))) rest) smaller)
        as [ds [nonEmpty [digits [written value]]]].
      exists (ds ++ [n mod 10]).
      split; [destruct ds; discriminate|].
      split; [apply Forall_app; split;
              [exact digits | repeat constructor; apply Z.mod_pos_bound; lia]|].
      split.
      * rewrite written, digitsText_app. reflexivity.
      * rewrite digitsValue_app, value. cbn [digitsValue].
        pose proof (Z.div_mod n 10 ltac:(lia)). lia.
Qed.

Lemma takeDigits_digitsText (ds : list Z) :
  Forall (fun d => 0 <= d < 10) ds ->
  forall acc count : Z,
    takeDigits acc count (digitsText ds EmptyString)
    = (digitsValue acc ds, count + Z.of_nat (List.length ds), EmptyString).
Proof.
  induction 1 as [|d ds range digits IH]; intros acc count;
    cbn [digitsText takeDigits digitsValue List.length].
  - rewrite Z.add_0_r. reflexivity.
  - destruct (isDigit_digit range) as [isD [value _]].
    rewrite isD, value, IH. f_equal. f_equal. lia.
Qed.

Lemma hasNoBar_digitsText (ds : list Z) :
  Forall (fun d => 0 <= d < 10) ds -> hasNoBar (digitsText ds EmptyString) = true.
Proof.
  induction 1 as [|d ds range digits IH]; [reflexivity|].
  cbn [digitsText]. rewrite hasNoBar_cons, IH.
  destruct (isDigit_digit range) as [_ [_ [notBar _]]].
  rewrite notBar. reflexivity.
Qed.

(** Digits are read back in base ten: they never start with [0x]. *)
Lemma parseInt_digitsText (neg : bool) (ds : list Z) :
  ds <> [] -> Forall (fun d => 0 <= d < 10) ds ->
  parseInt ((if neg then "-" else EmptyString) ++ digitsText ds EmptyString)
  = ofDecimal neg (digitsValue 0 ds) 0.
Proof.
  intros nonEmpty digits.
  destruct ds as [|d ds]; [contradiction|].
  inversion digits as [|? ? range digitsTail]; subst.
  destruct (isDigit_digit range)
    as [isD [value [_ [notx [notX [notSpace [notMinus notPlus]]]]]]].
  assert (unsigned :
            forall text : string,
              text = digitsText (d :: ds) EmptyString ->
              match text with
              | String "-" r => (true, r)
              | String "+" r => (false, r)
              | _ => (false, text)
              end = (false, text)).
  { intros text ->. cbn [digitsText].
    destruct (ascii_of_N (Z.to_N (48 + d))) as [b0 b1 b2 b3 b4 b5 b6 b7] eqn:E.
    destruct b0, b1, b2, b3, b4, b5, b6, b7; try reflexivity;
      discriminate. }
  assert (decimal :
            match digitsText (d :: ds) EmptyString with
            | String "0" (String x r) =>
                if (Ascii.eqb x "x" || Ascii.eqb x "X")%bool
                then Some r else None
            | _ => None
            end = None).
  { cbn [digitsText].
    destruct ds as [|d' ds'].
    - cbn [digitsText].
      destruct (ascii_of_N (Z.to_N (48 + d)))
        as [b0 b1 b2 b3 b4 b5 b6 b7];
        destruct b0, b1, b2, b3, b4, b5, b6, b7; reflexivity.
    - cbn [digitsText].
      inversion digitsTail as [|? ? range' _]; subst.
      destruct (isDigit_digit range') as [_ [_ [_ [notx' [notX' _]]]]].
      rewrite notx', notX'.
      destruct (ascii_of_N (Z.to_N (48 + d)))
        as [b0 b1 b2 b3 b4 b5 b6 b7];
        destruct b0, b1, b2, b3, b4, b5, b6, b7; reflexivity. }
  unfold parseInt. destruct neg.
  - cbn [append trimStart isWhiteSpace].
    change (isWhiteSpace "-") with false. cbv iota.
    cbn [trimStart]. change (isWhiteSpace "-") with false. cbv iota.
    rewrite decimal, (takeDigits_digitsText digits).
    cbn [List.length]. 
    destruct (0 + Z.of_nat (S (List.length ds)) =? 0) eqn:none;
      [apply Z.eqb_eq in none; lia | reflexivity].
  - cbn [append]. 
    assert (trimmed : trimStart (digitsText (d :: ds) EmptyString)
                      = digitsText (d :: ds) EmptyString).
    { cbn [digitsText trimStart]. rewrite notSpace. reflexivity. }
    rewrite trimmed, (unsigned _ eq_refl), decimal,
      (takeDigits_digitsText digits).
    cbn [List.length].
    destruct (0 + Z.of_nat (S (List.length ds)) =? 0) eqn:none;
      [apply Z.eqb_eq in none; lia | reflexivity].
Qed.

Lemma ofInteger_digits (n : Z) :
  exists ds : list Z,
    ds <> [] /\ Forall (fun d => 0 <= d < 10) ds
    /\ ofInteger n
       = ((if (n <? 0)%Z then "-" else EmptyString) ++ digitsText ds EmptyString)%string
    /\ digitsValue 0 ds = Z.abs n.
Proof.
  assert (enough :
            forall m : Z,
              0 <= m -> 0 <= m < 10 ^ Z.of_nat (S (Z.to_nat (Z.log2 m)))).
  { intros m nonNegative. split; [exact nonNegative|].
    rewrite Nat2Z.inj_succ, Z2Nat.id by apply Z.log2_nonneg.
    destruct (Z.eq_dec m 0) as [->|positive]; [reflexivity|].
    pose proof (Z.log2_spec m ltac:(lia)) as [_ below].
    apply (Z.lt_le_trans _ _ _ below).
    apply Z.pow_le_mono_l. pose proof (Z.log2_nonneg m). lia. }
  unfold ofInteger. destruct (n <? 0) eqn:negative.
  - apply Z.ltb_lt in negative.
    destruct (digitsOfPos_digits (Z.to_nat (Z.log2 (- n))) EmptyString
                (enough (- n) ltac:(lia)))
      as [ds [nonEmpty [digits [written value]]]].
    exists ds. rewrite written. repeat split; try assumption. lia.
  - apply Z.ltb_ge in negative.
    destruct (digitsOfPos_digits (Z.to_nat (Z.log2 n)) EmptyString
                (enough n negative))
      as [ds [nonEmpty [digits [written value]]]].
    exists ds. rewrite written. repeat split; try assumption. lia.
Qed.

Lemma ofDecimal_integer (n : Z) : ofDecimal (n <? 0) (Z.abs n) 0 = ofZ n.
Proof.
  destruct n as [|p|p]; simpl; [reflexivity| |];
    unfold ofZ; rewrite Pos.mul_1_r; reflexivity.
Qed.

(** [parseInt(String(n))] is [n]. *)
Lemma parseInt_ofInteger (n : Z) : parseInt (ofInteger n) = ofZ n.
Proof.
  destruct (ofInteger_digits n) as [ds [nonEmpty [digits [written value]]]].
  rewrite written, (parseInt_digitsText _ nonEmpty digits), value.
  apply ofDecimal_integer.
Qed.

Lemma hasNoBar_ofInteger (n : Z) : hasNoBar (ofInteger n) = true.
Proof.
  destruct (ofInteger_digits n) as [ds [_ [digits [written _]]]].
  rewrite written. destruct (n <? 0).
  - cbn [append]. rewrite hasNoBar_cons, (hasNoBar_digitsText digits).
    reflexivity.
  - apply (hasNoBar_digitsText digits).
Qed.

(** The first part of a key is the first part of what stands before its
    first bar. *)
Lemma splitAux_head (cur text rest : string) :
  hd EmptyString (splitAux "|" cur (text ++ "|" ++ rest))
  = hd EmptyString (splitAux "|" cur text).
Proof.
  revert cur. induction text as [|c r IH]; intro cur; simpl.
  - reflexivity.
  - destruct (Ascii.eqb c "|"); [reflexivity | apply IH].
Qed.

Lemma nth_0_hd (l : list string) : nth 0 l EmptyString = hd EmptyString l.
Proof. destruct l; reflexivity. Qed.

(* ================================================================== *)
(** * Further properties: the two older endpoints that group by a key *)
(* ================================================================== *)

Lemma length_zero_iff {A} (l : list A) :
  (List.length l =? 0)%nat = true <-> l = [].
Proof. destruct l; simpl; split; congruence. Qed.

Lemma sort_nil_iff {A} (after : A -> A -> bool) (l : list A) :
  sort after l = [] <-> l = [].
Proof.
  split; [|intros ->; reflexivity].
  intro empty. apply (f_equal (@List.length A)) in empty.
  rewrite sort_length in empty. destruct l; [reflexivity | discriminate].
Qed.

(** X12.  [getSemesterTrendAnalysis] throws its 404 error exactly when no
    snapshot matches the filters.  Otherwise it returns rows whose
    [responseCount]s add up to the number of matching snapshots, scored or
    not; every row stands for a matching snapshot: its [semester] is the
    semester number of that snapshot, read back from the group key by
    [parseInt], and its [subject] is the subject name up to its first
    [|], the whole name when it has none. *)
Theorem getSemesterTrendAnalysis_rows :
  forall (localeCompare databaseCompare : string -> string -> Z)
         (prisma : Database) (subjectId academicYearId : option string),
    let matching :=
      filter
        (fun s =>
           negb (isDeleted s) && negb (formDeleted s)
           && whenGiven subjectId (Snapshot.subjectId s)
           && whenGiven academicYearId (Snapshot.academicYearId s))
        (Prisma.feedbackSnapshot prisma) in
    let outcome :=
      getSemesterTrendAnalysis localeCompare databaseCompare prisma subjectId
        academicYearId in
    (matching = [] ->
     outcome
     = Throw
         (AppErr
            {| message := "No trend data available for the given criteria.";
               statusCode := 404 |}))
    /\ (matching <> [] ->
        exists rows : list SemesterTrendAnalysisOutput,
          outcome = Return rows
          /\ list_sum (map sta_responseCount rows) = List.length matching
          /\ forall row,
               In row rows ->
               exists s,
                 In s matching
                 /\ sta_semester row = ofZ (Snapshot.semesterNumber s)
                 /\ sta_subject row
                    = nth 0 (split "|" (subjectName s)) EmptyString
                 /\ (hasNoBar (subjectName s) = true ->
                     sta_subject row = subjectName s)).
Proof.
  intros localeCompare databaseCompare prisma subjectId academicYearId
    matching outcome.
  subst outcome. unfold getSemesterTrendAnalysis. fold matching.
  generalize matching. clear matching. intro matching.
  set (fetched := sort (trendOrder databaseCompare) matching).
  split.
  - intros ->. reflexivity.
  - intro some.
    destruct (List.length fetched =? 0)%nat eqn:none.
    { apply length_zero_iff, sort_nil_iff in none. contradiction. }
    eexists. split; [reflexivity|]. split.
    + rewrite list_sum_sort, map_map. cbn [sta_responseCount].
      rewrite groupBy_sizes. apply sort_length.
    + intros row inRows. apply sort_In in inRows.
      apply in_map_iff in inRows. destruct inRows as [[k items] [<- inGroups]].
      destruct (groupBy_entry _ _ _ _ inGroups)
        as [_ [s [rest [_ [inFetched keyIs]]]]].
      exists s. split; [apply (sort_In (trendOrder databaseCompare)), inFetched|].
      cbn [fst snd sta_semester sta_subject]. rewrite <- keyIs.
      unfold split.
      rewrite (@splitAux_part EmptyString _ _ (hasNoBar_ofInteger _)).
      cbn [append nth]. rewrite parseInt_ofInteger.
      split; [reflexivity|]. split; [reflexivity|].
      intro plain. rewrite nth_0_hd.
      rewrite (@splitAux_plain EmptyString _ plain). reflexivity.
Qed.

(** X12 at work on the records of two divisions, both of semester 3. *)
Lemma getSemesterTrendAnalysis_rows_witness :
  exists rows : list SemesterTrendAnalysisOutput,
    getSemesterTrendAnalysis codeUnitCompare codeUnitCompare
      (Samples.database Samples.twoDivisions) None None
    = Return rows
    /\ list_sum (map sta_responseCount rows) = 2%nat
    /\ forall row, In row rows -> sta_semester row = ofZ 3.
Proof.
  destruct (getSemesterTrendAnalysis_rows codeUnitCompare codeUnitCompare
              (Samples.database Samples.twoDivisions) None None)
    as [_ some].
  destruct some as [rows [returned [total shown]]];
    [vm_compute; discriminate|].
  exists rows. split; [exact returned|]. split; [exact total|].
  intros row inRows.
  destruct (shown row inRows) as [s [inMatching [semester _]]].
  rewrite semester. simpl in inMatching.
  destruct inMatching as [<- | [<- | []]]; reflexivity.
Defined.

(** X13.  [getSubjectWiseLectureLabRating] throws ['Semester not found.']
    when no semester that is not deleted has the id, and its second 404
    error exactly when no snapshot matches.  Otherwise it returns rows whose
    [responseCount]s add up to the number of matching snapshots, scored or
    not; every row stands for a matching snapshot: its [subject] is the
    subject name of that snapshot up to its first [|] and, when the name
    has none, its [lectureType] is the type derived for the snapshot from
    its question category and its [batch]. *)
Theorem getSubjectWiseLectureLabRating_rows :
  forall (localeCompare : string -> string -> Z) (prisma : Database)
         (semesterId : string) (academicYearId : option string),
    let outcome :=
      getSubjectWiseLectureLabRating localeCompare prisma semesterId
        academicYearId in
    let derived (s : Snapshot) : LectureType :=
      if namesLab (questionCategoryName s) then LAB
      else if isBatch (batch s) then LAB
      else LECTURE in
    match find (fun row => String.eqb (semester_id row) semesterId
                           && negb (semester_isDeleted row))
               (Prisma.semester prisma) with
    | None =>
        outcome
        = Throw
            (AppErr {| message := "Semester not found."; statusCode := 404 |})
    | Some semester =>
        let matching :=
          filter
            (fun s =>
               negb (isDeleted s) && negb (formDeleted s)
               && (Snapshot.semesterNumber s
                     =? semester_semesterNumber semester)
               && String.eqb (Snapshot.academicYearId s)
                    (if truthy academicYearId
                     then textOf academicYearId
                     else semester_academicYearId semester))
            (Prisma.feedbackSnapshot prisma) in
        (matching = [] ->
         outcome
         = Throw
             (AppErr
                {| message :=
                     "No feedback data found for the given semester.";
                   statusCode := 404 |}))
        /\ (matching <> [] ->
            exists rows : list SubjectWiseRatingOutput,
              outcome = Return rows
              /\ list_sum (map swr_responseCount rows)
                 = List.length matching
              /\ forall row,
                   In row rows ->
                   exists s,
                     In s matching
                     /\ swr_subject row
                        = nth 0 (split "|" (subjectName s)) EmptyString
                     /\ (hasNoBar (subjectName s) = true ->
                         swr_subject row = subjectName s
                         /\ swr_lectureType row
                            = LectureType_name (derived s)))
    end.
Proof.
  intros localeCompare prisma semesterId academicYearId outcome derived.
  subst outcome. unfold getSubjectWiseLectureLabRating.
  destruct (find _ (Prisma.semester prisma)) as [semester|]; [|reflexivity].
  cbn zeta.
  assert (sameFilter :
            filter
              (fun s =>
                 negb (isDeleted s) && negb (formDeleted s)
                 && (Snapshot.semesterNumber s
                       =? semester_semesterNumber semester)
                 && (if truthy academicYearId
                     then whenGiven academicYearId (Snapshot.academicYearId s)
                     else String.eqb (Snapshot.academicYearId s)
                            (semester_academicYearId semester)))
              (Prisma.feedbackSnapshot prisma)
            = filter
                (fun s =>
                   negb (isDeleted s) && negb (formDeleted s)
                   && (Snapshot.semesterNumber s
                         =? semester_semesterNumber semester)
                   && String.eqb (Snapshot.academicYearId s)
                        (if truthy academicYearId
                         then textOf academicYearId
                         else semester_academicYearId semester))
                (Prisma.feedbackSnapshot prisma)).
  { apply filter_same. intro s. f_equal.
    unfold whenGiven, truthy, textOf.
    destruct academicYearId as [year|]; [|reflexivity].
    destruct (String.eqb year EmptyString) eqn:E; simpl;
      first [reflexivity | apply String.eqb_sym]. }
  rewrite sameFilter. clear sameFilter.
  generalize (filter
                (fun s =>
                   negb (isDeleted s) && negb (formDeleted s)
                   && (Snapshot.semesterNumber s
                         =? semester_semesterNumber semester)
                   && String.eqb (Snapshot.academicYearId s)
                        (if truthy academicYearId
                         then textOf academicYearId
                         else semester_academicYearId semester))
                (Prisma.feedbackSnapshot prisma)).
  intro matching. split.
  - intros ->. reflexivity.
  - intro some.
    destruct (List.length matching =? 0)%nat eqn:none.
    { apply length_zero_iff in none. contradiction. }
    eexists. split; [reflexivity|]. split.
    + rewrite list_sum_sort, map_map. cbn [swr_responseCount].
      apply groupBy_sizes.
    + intros row inRows. apply sort_In in inRows.
      apply in_map_iff in inRows. destruct inRows as [[k items] [<- inGroups]].
      destruct (groupBy_entry _ _ _ _ inGroups)
        as [_ [s [rest [_ [inMatching keyIs]]]]].
      exists s. split; [exact inMatching|].
      cbn [fst snd swr_subject swr_lectureType]. rewrite <- keyIs.
      fold (derived s). unfold split. split.
      * rewrite !nth_0_hd. apply splitAux_head.
      * intro plain.
        fold (split "|" (subjectName s ++ "|" ++ LectureType_name (derived s))).
        rewrite (@split_two _ _ plain (LectureType_name_plain _)).
        split; reflexivity.
Qed.

(** X13 at work on the records of two divisions, both theory answers for
    one subject. *)
Lemma getSubjectWiseLectureLabRating_rows_witness :
  exists rows : list SubjectWiseRatingOutput,
    getSubjectWiseLectureLabRating codeUnitCompare
      (Samples.database Samples.twoDivisions) "sem-3" None
    = Return rows
    /\ list_sum (map swr_responseCount rows) = 2%nat
    /\ forall row,
         In row rows ->
         swr_subject row = "Maths" /\ swr_lectureType row = "LECTURE".
Proof.
  pose proof (getSubjectWiseLectureLabRating_rows codeUnitCompare
                (Samples.database Samples.twoDivisions) "sem-3" None)
    as ofRows.
  cbn [find Samples.database Prisma.semester semester_id semester_isDeleted
       String.eqb Ascii.eqb Bool.eqb negb andb] in ofRows.
  destruct ofRows as [_ some].
  destruct some as [rows [returned [total shown]]];
    [vm_compute; discriminate|].
  exists rows. split; [exact returned|]. split; [exact total|].
  intros row inRows.
  destruct (shown row inRows) as [s [inMatching [_ plain]]].
  simpl in inMatching.
  destruct inMatching as [<- | [<- | []]];
    destruct (plain eq_refl) as [subject type];
    rewrite subject, type; split; reflexivity.
Defined.

(* ================================================================== *)
(** * Further properties: the subject ratings of the complete endpoint *)
(* ================================================================== *)

Lemma filterByLectureType_In (lectureType : option LectureType)
  (fetched : list Snapshot) (s : Snapshot) :
  In s (CompleteAnalytics.filterByLectureType lectureType fetched) ->
  In s fetched
  /\ match lectureType with
     | Some wanted => CompleteAnalytics.snapshotLectureType s = wanted
     | None => True
     end.
Proof.
  unfold CompleteAnalytics.filterByLectureType.
  destruct lectureType as [wanted|]; [|auto].
  intro kept. apply filter_In in kept. destruct kept as [inFetched same].
  apply LectureType_eqb_eq in same. auto.
Qed.

Lemma counts_of_first_rows {T Row} (rowOf : string * list T -> T -> Row)
  (count : Row -> nat) (groups : list (string * list T)) :
  (forall entry first, count (rowOf entry first) = List.length (snd entry)) ->
  list_sum
    (map count
       (flat_map
          (fun entry =>
             match snd entry with
             | first :: _ => [rowOf entry first]
             | [] => []
             end)
          groups))
  = list_sum (map (fun entry => List.length (snd entry)) groups).
Proof.
  intro counted.
  induction groups as [|[k items] others IH]; [reflexivity|].
  cbn [flat_map map]. rewrite map_app, list_sum_app, IH.
  cbn [snd list_sum]. destruct items as [|first rest]; [reflexivity|].
  cbn [map]. rewrite counted. cbn [snd List.length]. simpl. lia.
Qed.

(** Every snapshot that passes the filter is counted by one row. *)
Lemma subjectRatings_total (lectureType : option LectureType)
  (fetched : list Snapshot) :
  list_sum
    (map CompleteAnalytics.responseCount
       (CompleteAnalytics.subjectRatings lectureType fetched))
  = List.length (CompleteAnalytics.filterByLectureType lectureType fetched).
Proof.
  unfold CompleteAnalytics.subjectRatings. cbn zeta.
  etransitivity; [|apply groupBy_sizes].
  apply (counts_of_first_rows
           (fun entry firstSnapshot =>
              {| CompleteAnalytics.subjectId :=
                   Snapshot.subjectId firstSnapshot;
                 CompleteAnalytics.subjectName :=
                   nth 0 (split "|" (fst entry)) EmptyString;
                 CompleteAnalytics.subjectAbbreviation :=
                   Snapshot.subjectAbbreviation firstSnapshot;
                 CompleteAnalytics.lectureType :=
                   nth 1 (split "|" (fst entry)) EmptyString;
                 CompleteAnalytics.averageRating :=
                   averageRatingOf (numericResponses (snd entry));
                 CompleteAnalytics.responseCount :=
                   List.length (snd entry);
                 CompleteAnalytics.semesterNumber :=
                   parseInt (nth 2 (split "|" (fst entry)) EmptyString);
                 CompleteAnalytics.academicYearId :=
                   Snapshot.academicYearId firstSnapshot;
                 CompleteAnalytics.facultyId :=
                   Snapshot.facultyId firstSnapshot;
                 CompleteAnalytics.facultyName :=
                   Snapshot.facultyName firstSnapshot |})).
  reflexivity.
Qed.

Lemma hasNoBar_after_bar (a b : string) :
  hasNoBar (a ++ String "|" b) = false.
Proof.
  induction a as [|c r IH]; cbn [append]; rewrite hasNoBar_cons.
  - reflexivity.
  - rewrite IH. apply andb_false_r.
Qed.

(** A key is cut at its last bar in one way only. *)
Lemma last_bar_unique (a a' b b' : string) :
  hasNoBar b = true -> hasNoBar b' = true ->
  (a ++ "|" ++ b = a' ++ "|" ++ b')%string -> a = a' /\ b = b'.
Proof.
  intros plain plain'. revert a'.
  induction a as [|c r IH]; intros [|c' r'] same; cbn [append] in same.
  - inversion same. auto.
  - inversion same as [[bar rest]]. subst b.
    rewrite hasNoBar_after_bar in plain. discriminate.
  - inversion same as [[bar rest]]. subst b'.
    rewrite hasNoBar_after_bar in plain'. discriminate.
  - inversion same as [[char rest]].
    destruct (IH _ rest) as [-> ->]. auto.
Qed.

Lemma digitsText_first (ds : list Z) :
  ds <> [] -> Forall (fun d => 0 <= d < 10) ds ->
  exists c r, digitsText ds EmptyString = String c r /\ c <> "-"%char.
Proof.
  intros nonEmpty digits. destruct ds as [|d ds]; [contradiction|].
  inversion digits as [|? ? range _]; subst.
  destruct (isDigit_digit range)
    as [_ [_ [_ [_ [_ [_ [notMinus _]]]]]]].
  cbn [digitsText]. eexists. eexists. split; [reflexivity|].
  intro same. rewrite same in notMinus. discriminate.
Qed.

(** [String(n)] tells the integers apart. *)
Lemma ofInteger_injective (n m : Z) : ofInteger n = ofInteger m -> n = m.
Proof.
  destruct (ofInteger_digits n) as [ds [some [digits [-> value]]]].
  destruct (ofInteger_digits m) as [ds' [some' [digits' [-> value']]]].
  destruct (digitsText_first some digits) as [c [r [text notMinus]]].
  destruct (digitsText_first some' digits') as [c' [r' [text' notMinus']]].
  pose proof (takeDigits_digitsText digits 0 0) as read.
  pose proof (takeDigits_digitsText digits' 0 0) as read'.
  destruct (n <? 0) eqn:negative, (m <? 0) eqn:negative';
    cbn [append]; intro same.
  - inversion same as [sameDigits]. rewrite sameDigits in read.
    rewrite read in read'. inversion read'.
    apply Z.ltb_lt in negative, negative'. lia.
  - rewrite text' in same. inversion same. congruence.
  - rewrite text in same. inversion same. congruence.
  - rewrite same in read. rewrite read in read'. inversion read'.
    apply Z.ltb_ge in negative, negative'. lia.
Qed.

(** Two snapshots have the same key when they have the same subject name,
    the same type by their question category and the same semester
    number, and only then. *)
Lemma rating_key_same (x s : Snapshot) :
  String.eqb
    (subjectName x ++ "|"
     ++ LectureType_name (CompleteAnalytics.groupLectureType x) ++ "|"
     ++ ofInteger (Snapshot.semesterNumber x))
    (subjectName s ++ "|"
     ++ LectureType_name (CompleteAnalytics.groupLectureType s) ++ "|"
     ++ ofInteger (Snapshot.semesterNumber s))
  = String.eqb (subjectName x) (subjectName s)
    && LectureType_eqb (CompleteAnalytics.groupLectureType x)
         (CompleteAnalytics.groupLectureType s)
    && (Snapshot.semesterNumber x =? Snapshot.semesterNumber s).
Proof.
  assert (cut :
            (subjectName x ++ "|"
             ++ LectureType_name (CompleteAnalytics.groupLectureType x) ++ "|"
             ++ ofInteger (Snapshot.semesterNumber x)
             = subjectName s ++ "|"
               ++ LectureType_name (CompleteAnalytics.groupLectureType s)
               ++ "|" ++ ofInteger (Snapshot.semesterNumber s))%string ->
            subjectName x = subjectName s
            /\ CompleteAnalytics.groupLectureType x
               = CompleteAnalytics.groupLectureType s
            /\ Snapshot.semesterNumber x = Snapshot.semesterNumber s).
  { intro same.
    rewrite <- (append_assoc (subjectName x) "|"),
      <- (append_assoc (subjectName s) "|"),
      <- (append_assoc (subjectName x ++ "|")),
      <- (append_assoc (subjectName s ++ "|")) in same.
    apply last_bar_unique in same; try apply hasNoBar_ofInteger.
    destruct same as [front number].
    rewrite !append_assoc in front.
    apply last_bar_unique in front; try apply LectureType_name_plain.
    destruct front as [name type].
    split; [exact name|]. split.
    - destruct (CompleteAnalytics.groupLectureType x),
        (CompleteAnalytics.groupLectureType s);
        first [reflexivity | discriminate type].
    - apply ofInteger_injective, number. }
  destruct (String.eqb (subjectName x) (subjectName s)) eqn:sameName;
    cbn [andb].
  - destruct (LectureType_eqb (CompleteAnalytics.groupLectureType x)
                (CompleteAnalytics.groupLectureType s)) eqn:sameType;
      cbn [andb].
    + destruct (Snapshot.semesterNumber x =? Snapshot.semesterNumber s)
        eqn:sameNumber.
      * apply String.eqb_eq in sameName. apply LectureType_eqb_eq in sameType.
        apply Z.eqb_eq in sameNumber.
        rewrite sameName, sameType, sameNumber. apply String.eqb_refl.
      * apply String.eqb_neq. intro same. apply cut in same.
        apply Z.eqb_neq in sameNumber. tauto.
    + apply String.eqb_neq. intro same. apply cut in same.
      destruct same as [_ [type _]]. rewrite type in sameType.
      destruct (CompleteAnalytics.groupLectureType s); discriminate.
  - apply String.eqb_neq. intro same. apply cut in same.
    apply String.eqb_neq in sameName. tauto.
Qed.

(** X14.  The [subjectRatings] of [getCompleteAnalyticsData] have one row
    per subject name, type and semester number among the fetched snapshots
    that pass the [lectureType] filter, whatever the names are made of,
    the type being the one the grouping derives from the question category
    alone: every such snapshot is counted by the row of its group, and a
    row counts the snapshots of one group, scored or not, reports the mean
    of their scores and takes its subject id from the first of them.  So
    the [responseCount]s add up to the number of those snapshots.  When
    the subject name has no [|], the row shows that name, the semester
    number and the type of the group.  So under the filter [LECTURE] every
    snapshot is counted by a row of the type [LECTURE], which shows when
    the name has no [|]; under the filter [LAB] a snapshot that is a lab
    by its [questionBatch] only passes the filter and yet is counted by a
    row of the type [LECTURE]. *)
Theorem complete_subject_ratings_rows :
  forall (lectureType : option LectureType) (fetched : list Snapshot),
    let kept := CompleteAnalytics.filterByLectureType lectureType fetched in
    let rows := CompleteAnalytics.subjectRatings lectureType fetched in
    let counted (s : Snapshot) :=
      filter
        (fun x =>
           String.eqb (subjectName x) (subjectName s)
           && LectureType_eqb (CompleteAnalytics.groupLectureType x)
                (CompleteAnalytics.groupLectureType s)
           && (Snapshot.semesterNumber x =? Snapshot.semesterNumber s))
        kept in
    let standsFor (row : CompleteAnalytics.SubjectRating) (s : Snapshot) :=
      CompleteAnalytics.responseCount row = List.length (counted s)
      /\ CompleteAnalytics.averageRating row
         = averageRatingOf (numericResponses (counted s))
      /\ CompleteAnalytics.subjectId row
         = Snapshot.subjectId (hd s (counted s))
      /\ (hasNoBar (subjectName s) = true ->
          CompleteAnalytics.subjectName row = subjectName s
          /\ CompleteAnalytics.semesterNumber row
             = ofZ (Snapshot.semesterNumber s)
          /\ CompleteAnalytics.lectureType row
             = LectureType_name (CompleteAnalytics.groupLectureType s)) in
    list_sum (map CompleteAnalytics.responseCount rows) = List.length kept
    /\ (forall s, In s kept -> exists row, In row rows /\ standsFor row s)
    /\ (forall row, In row rows -> exists s, In s kept /\ standsFor row s)
    /\ (forall s,
           In s kept -> lectureType = Some LECTURE ->
           exists row,
             In row rows /\ standsFor row s
             /\ (hasNoBar (subjectName s) = true ->
                 CompleteAnalytics.lectureType row = "LECTURE"))
    /\ (forall s,
           In s fetched ->
           lectureType = Some LAB ->
           namesLab (questionCategoryName s) = false ->
           isBatch (questionBatch s) = true ->
           In s kept
           /\ exists row,
                In row rows /\ standsFor row s
                /\ (hasNoBar (subjectName s) = true ->
                    CompleteAnalytics.lectureType row = "LECTURE")).
Proof.
  intros lectureType fetched kept rows counted standsFor.
  set (key := fun snapshot : Snapshot =>
         (subjectName snapshot ++ "|"
          ++ LectureType_name (CompleteAnalytics.groupLectureType snapshot)
          ++ "|" ++ ofInteger (Snapshot.semesterNumber snapshot))%string).
  set (rowOf :=
         fun (entry : string * list Snapshot) (firstSnapshot : Snapshot) =>
         {| CompleteAnalytics.subjectId := Snapshot.subjectId firstSnapshot;
            CompleteAnalytics.subjectName :=
              nth 0 (split "|" (fst entry)) EmptyString;
            CompleteAnalytics.subjectAbbreviation :=
              Snapshot.subjectAbbreviation firstSnapshot;
            CompleteAnalytics.lectureType :=
              nth 1 (split "|" (fst entry)) EmptyString;
            CompleteAnalytics.averageRating :=
              averageRatingOf (numericResponses (snd entry));
            CompleteAnalytics.responseCount := List.length (snd entry);
            CompleteAnalytics.semesterNumber :=
              parseInt (nth 2 (split "|" (fst entry)) EmptyString);
            CompleteAnalytics.academicYearId :=
              Snapshot.academicYearId firstSnapshot;
            CompleteAnalytics.facultyId := Snapshot.facultyId firstSnapshot;
            CompleteAnalytics.facultyName :=
              Snapshot.facultyName firstSnapshot |}).
  assert (shape :
            rows
            = flat_map
                (fun entry =>
                   match snd entry with
                   | firstSnapshot :: _ => [rowOf entry firstSnapshot]
                   | [] => []
                   end)
                (groupBy kept key)) by reflexivity.
  assert (ofEntry :
            forall k items s,
              In (k, items) (groupBy kept key) ->
              k = key s ->
              exists first rest,
                items = first :: rest
                /\ In (rowOf (k, items) first) rows
                /\ standsFor (rowOf (k, items) first) s).
  { intros k items s inGroups ->.
    destruct (groupBy_entry _ _ _ _ inGroups)
      as [group [first [rest [cons _]]]].
    assert (same : items = counted s).
    { rewrite group. apply filter_same. intro x. apply rating_key_same. }
    exists first, rest. split; [exact cons|]. split.
    - rewrite shape. apply in_flat_map. eexists. split; [exact inGroups|].
      cbn [fst snd]. rewrite cons. left. reflexivity.
    - unfold standsFor, rowOf.
      cbn [fst snd CompleteAnalytics.responseCount
           CompleteAnalytics.averageRating CompleteAnalytics.subjectId
           CompleteAnalytics.subjectName CompleteAnalytics.semesterNumber
           CompleteAnalytics.lectureType].
      rewrite <- same, cons. cbn [hd].
      split; [reflexivity|]. split; [reflexivity|]. split; [reflexivity|].
      intro plain. unfold key.
      rewrite (@split_three _ _ _ plain (LectureType_name_plain _)
                 (hasNoBar_ofInteger _)).
      cbn [nth]. rewrite parseInt_ofInteger. repeat split. }
  assert (covered :
            forall s, In s kept -> exists row, In row rows /\ standsFor row s).
  { intros s inKept.
    pose proof (groupBy_group_of _ key s inKept) as inGroups.
    destruct (ofEntry _ _ s inGroups eq_refl)
      as [first [rest [_ [inRows stands]]]].
    eexists. split; [exact inRows | exact stands]. }
  assert (labelled :
            forall s,
              In s kept -> CompleteAnalytics.groupLectureType s = LECTURE ->
              exists row,
                In row rows /\ standsFor row s
                /\ (hasNoBar (subjectName s) = true ->
                    CompleteAnalytics.lectureType row = "LECTURE")).
  { intros s inKept asLecture.
    destruct (covered s inKept) as [row [inRows stands]].
    exists row. split; [exact inRows|]. split; [exact stands|].
    intro plain. destruct stands as [_ [_ [_ shown]]].
    destruct (shown plain) as [_ [_ type]].
    rewrite type, asLecture. reflexivity. }
  split; [apply subjectRatings_total|]. split; [exact covered|].
  split; [|split].
  - intros row inRows. rewrite shape in inRows.
    apply in_flat_map in inRows.
    destruct inRows as [[k items] [inGroups inRow]].
    destruct (groupBy_entry _ _ _ _ inGroups)
      as [_ [s [tail [cons [inKept keyIs]]]]].
    destruct (ofEntry k items s inGroups (eq_sym keyIs))
      as [first [rest [cons' [_ stands]]]].
    cbn [fst snd] in inRow. rewrite cons' in inRow, stands.
    destruct inRow as [<- | []].
    exists s. split; [exact inKept | exact stands].
  - intros s inKept isLecture. apply (labelled s inKept).
    subst kept. rewrite isLecture in inKept.
    apply filterByLectureType_In in inKept. destruct inKept as [_ passes].
    unfold CompleteAnalytics.snapshotLectureType in passes.
    unfold CompleteAnalytics.groupLectureType.
    destruct (namesLab (questionCategoryName s)); [discriminate|reflexivity].
  - intros s inFetched isLab notLabCategory byBatch.
    assert (inKept : In s kept).
    { subst kept. rewrite isLab.
      unfold CompleteAnalytics.filterByLectureType. apply filter_In.
      split; [exact inFetched|].
      unfold CompleteAnalytics.snapshotLectureType.
      rewrite notLabCategory, byBatch. reflexivity. }
    split; [exact inKept|]. apply (labelled s inKept).
    unfold CompleteAnalytics.groupLectureType.
    rewrite notLabCategory. reflexivity.
Qed.

(** X14 at work: a theory answer given in a lab batch, under the filter
    [LAB], is counted by a row labelled [LECTURE]. *)
Lemma complete_subject_ratings_rows_witness :
  In Samples.theoryInBatch [Samples.theoryInBatch]
  /\ namesLab (questionCategoryName Samples.theoryInBatch) = false
  /\ isBatch (questionBatch Samples.theoryInBatch) = true
  /\ hasNoBar (subjectName Samples.theoryInBatch) = true
  /\ exists row,
       In row
         (CompleteAnalytics.subjectRatings (Some LAB)
            [Samples.theoryInBatch])
       /\ CompleteAnalytics.responseCount row = 1%nat
       /\ CompleteAnalytics.subjectName row = "Maths"
       /\ CompleteAnalytics.lectureType row = "LECTURE".
Proof.
  assert (inFetched : In Samples.theoryInBatch [Samples.theoryInBatch])
    by (left; reflexivity).
  split; [exact inFetched|].
  split; [reflexivity|]. split; [reflexivity|]. split; [reflexivity|].
  destruct (complete_subject_ratings_rows (Some LAB)
              [Samples.theoryInBatch])
    as [_ [_ [_ [_ mislabelled]]]].
  destruct (mislabelled Samples.theoryInBatch inFetched eq_refl eq_refl
              eq_refl) as [_ [row [inRows [[count [_ [_ shown]]] label]]]].
  destruct (shown eq_refl) as [name _].
  exists row. split; [exact inRows|]. split; [exact count|].
  split; [exact name | exact (label eq_refl)].
Defined.

(* ================================================================== *)
(** * Further properties: a bar in a subject name *)
(* ================================================================== *)

Lemma split_four (a b c d : string) :
  hasNoBar a = true -> hasNoBar b = true -> hasNoBar c = true ->
  hasNoBar d = true ->
  split "|" (a ++ "|" ++ b ++ "|" ++ c ++ "|" ++ d) = [a; b; c; d].
Proof.
  intros plainA plainB plainC plainD. unfold split.
  rewrite splitAux_part by exact plainA.
  rewrite splitAux_part by exact plainB.
  rewrite splitAux_part by exact plainC.
  rewrite splitAux_plain by exact plainD. reflexivity.
Qed.

Lemma parseInt_LectureType (t : LectureType) :
  isNaN (parseInt (LectureType_name t)) = true.
Proof. destruct t; reflexivity. Qed.

(** X15.  The group keys are joined and split on [|], so a bar in a subject
    name shifts what the rows show.  For a snapshot whose subject is named
    [a|b], the [subjectRatings] of [getCompleteAnalyticsData] have a row
    with the subject name [a], the lecture type [b] and the semester number
    [NaN], [parseInt] having read the name of the lecture type; the rows of
    [getSubjectWiseLectureLabRating] have one with the subject [a] and the
    lecture type [b]. *)
Theorem subject_name_with_bar_shifts_fields :
  forall (a b : string) (s : Snapshot),
    subjectName s = (a ++ "|" ++ b)%string ->
    hasNoBar a = true ->
    hasNoBar b = true ->
    (forall (lectureType : option LectureType) (fetched : list Snapshot),
        In s (CompleteAnalytics.filterByLectureType lectureType fetched) ->
        exists row,
          In row (CompleteAnalytics.subjectRatings lectureType fetched)
          /\ CompleteAnalytics.subjectName row = a
          /\ CompleteAnalytics.lectureType row = b
          /\ isNaN (CompleteAnalytics.semesterNumber row) = true)
    /\ (forall (localeCompare : string -> string -> Z) (prisma : Database)
               (semesterId : string) (academicYearId : option string)
               (semester : SemesterRow),
           find (fun row => String.eqb (semester_id row) semesterId
                            && negb (semester_isDeleted row))
             (Prisma.semester prisma)
           = Some semester ->
           In s (Prisma.feedbackSnapshot prisma) ->
           isDeleted s = false ->
           formDeleted s = false ->
           Snapshot.semesterNumber s = semester_semesterNumber semester ->
           Snapshot.academicYearId s
           = (if truthy academicYearId
              then textOf academicYearId
              else semester_academicYearId semester) ->
           exists rows row,
             getSubjectWiseLectureLabRating localeCompare prisma semesterId
               academicYearId
             = Return rows
             /\ In row rows
             /\ swr_subject row = a
             /\ swr_lectureType row = b).
Proof.
  intros a b s named plainA plainB. split.
  - intros lectureType fetched kept.
    pose proof (groupBy_group_of _
                  (fun snapshot =>
                     (subjectName snapshot ++ "|"
                      ++ LectureType_name
                           (CompleteAnalytics.groupLectureType snapshot)
                      ++ "|" ++ ofInteger (Snapshot.semesterNumber snapshot))%string)
                  s kept) as inGroups.
    cbv beta in inGroups.
    destruct (groupBy_entry _ _ _ _ inGroups)
      as [_ [first [rest [cons [_ keyIs]]]]].
    eexists. split.
    + unfold CompleteAnalytics.subjectRatings. cbn zeta.
      apply in_flat_map. eexists. split; [exact inGroups|].
      cbn [fst snd]. rewrite cons. left. reflexivity.
    + cbn [CompleteAnalytics.subjectName CompleteAnalytics.lectureType
           CompleteAnalytics.semesterNumber].
      rewrite named, !append_assoc.
      rewrite (@split_four _ _ _ _ plainA plainB (LectureType_name_plain _)
                 (hasNoBar_ofInteger _)).
      cbn [nth]. split; [reflexivity|]. split; [reflexivity|].
      apply parseInt_LectureType.
  - intros localeCompare prisma semesterId academicYearId semester found
      inTable notDeleted formKept sameSemester sameYear.
    unfold getSubjectWiseLectureLabRating. rewrite found. cbn zeta.
    set (matching := filter _ (Prisma.feedbackSnapshot prisma)).
    assert (inMatching : In s matching).
    { apply filter_In. split; [exact inTable|].
      rewrite notDeleted, formKept, sameSemester, Z.eqb_refl.
      cbn [negb andb].
      unfold whenGiven. rewrite sameYear. unfold textOf, truthy.
      destruct academicYearId as [year|]; [|apply String.eqb_refl].
      destruct (String.eqb year EmptyString); cbn [negb];
        apply String.eqb_refl. }
    destruct (List.length matching =? 0)%nat eqn:none.
    { apply length_zero_iff in none. rewrite none in inMatching.
      contradiction. }
    pose proof (groupBy_group_of _
                  (fun snapshot =>
                     let lectureType :=
                       if namesLab (questionCategoryName snapshot) then LAB
                       else if isBatch (batch snapshot) then LAB
                       else LECTURE in
                     (subjectName snapshot ++ "|"
                      ++ LectureType_name lectureType)%string)
                  s inMatching) as inGroups.
    cbv beta in inGroups.
    eexists. eexists. split; [reflexivity|]. split.
    + apply sort_In. apply in_map_iff. eexists. split; [reflexivity|].
      exact inGroups.
    + cbn [fst snd swr_subject swr_lectureType]. cbn zeta.
      rewrite named, !append_assoc.
      rewrite (@split_three _ _ _ plainA plainB (LectureType_name_plain _)).
      split; reflexivity.
Qed.

(** X15 at work: a subject named [Maths|II]. *)
Lemma subject_name_with_bar_shifts_fields_witness :
  subjectName Samples.barred = ("Maths" ++ "|" ++ "II")%string
  /\ hasNoBar "Maths" = true
  /\ hasNoBar "II" = true
  /\ In Samples.barred
       (CompleteAnalytics.filterByLectureType None [Samples.barred])
  /\ exists row,
       In row (CompleteAnalytics.subjectRatings None [Samples.barred])
       /\ CompleteAnalytics.subjectName row = "Maths"
       /\ CompleteAnalytics.lectureType row = "II"
       /\ isNaN (CompleteAnalytics.semesterNumber row) = true.
Proof.
  assert (kept :
            In Samples.barred
              (CompleteAnalytics.filterByLectureType None [Samples.barred]))
    by (left; reflexivity).
  split; [reflexivity|]. split; [reflexivity|]. split; [reflexivity|].
  split; [exact kept|].
  destruct (@subject_name_with_bar_shifts_fields "Maths" "II" Samples.barred
              eq_refl eq_refl eq_refl)
    as [ofComplete _].
  exact (ofComplete None [Samples.barred] kept).
Defined.

(* ================================================================== *)
(** * Further properties: the faculty performance endpoints *)
(* ================================================================== *)

Section EnsureLoop.
Variables S K V : Type.
Variable eqb : K -> K -> bool.
Hypothesis eqb_eq : forall a b : K, eqb a b = true <-> a = b.
Variable key : S -> K.
Variable init : S -> V.
Variable step : S -> V -> V.

(** A loop whose body makes the entry of the item's key if it is missing
    and then changes it. *)
Let ensureLoop (m : JSMap.Map K V) (l : list S) : JSMap.Map K V :=
  fold_left
    (fun m s => JSMap.ensureThen eqb (key s) (init s) (step s) m) l m.

Lemma ensureLoop_NoDup (l : list S) (m0 : JSMap.Map K V) :
  NoDup (map fst m0) -> NoDup (map fst (ensureLoop m0 l)).
Proof.
  unfold ensureLoop. revert m0.
  induction l as [|s l IH]; intros m0 nodup; [exact nodup|].
  cbn [fold_left]. apply IH. apply (ensureThen_NoDup _ eqb_eq), nodup.
Qed.

(** The entry under a key is made from the first item of that key and has
    taken every item of that key, in order. *)
Lemma get_ensureLoop (k : K) (l : list S) (m0 : JSMap.Map K V) :
  JSMap.get eqb k (ensureLoop m0 l)
  = match JSMap.get eqb k m0 with
    | Some v =>
        Some (fold_left (fun v s => step s v)
                (filter (fun s => eqb (key s) k) l) v)
    | None =>
        match filter (fun s => eqb (key s) k) l with
        | [] => None
        | first :: rest =>
            Some (fold_left (fun v s => step s v) (first :: rest)
                    (init first))
        end
    end.
Proof.
  unfold ensureLoop. revert m0.
  induction l as [|s l IH]; intro m0.
  - cbn [fold_left filter]. destruct (JSMap.get eqb k m0); reflexivity.
  - cbn [fold_left filter]. rewrite IH, (get_ensureThen _ eqb_eq).
    rewrite (eqb_swap _ eqb_eq k (key s)).
    destruct (eqb (key s) k) eqn:same.
    + apply eqb_eq in same. subst k.
      destruct (JSMap.get eqb (key s) m0); reflexivity.
    + destruct (JSMap.get eqb k m0); reflexivity.
Qed.

(** What the entries hold together grows by what each item adds. *)
Variable size : V -> nat.
Variable gain : S -> nat.
Hypothesis size_init : forall s, size (init s) = 0%nat.
Hypothesis size_step : forall s v, size (step s v) = (size v + gain s)%nat.

Lemma total_modify_by (k : K) (f : V -> V) (g : nat) (m : JSMap.Map K V) :
  (forall v, size (f v) = (size v + g)%nat) ->
  JSMap.has eqb k m = true ->
  list_sum (map size (JSMap.values (JSMap.modify eqb k f m)))
  = (list_sum (map size (JSMap.values m)) + g)%nat.
Proof.
  intro grows. unfold JSMap.values, JSMap.has.
  induction m as [|[k0 v0] rest IH]; simpl; [discriminate|].
  destruct (eqb k k0); simpl; intro present.
  - rewrite grows. lia.
  - rewrite (IH present). lia.
Qed.

Lemma total_ensureLoop (l : list S) (m0 : JSMap.Map K V) :
  list_sum (map size (JSMap.values (ensureLoop m0 l)))
  = (list_sum (map size (JSMap.values m0)) + list_sum (map gain l))%nat.
Proof.
  unfold ensureLoop. revert m0.
  induction l as [|s l IH]; intro m0; [simpl; lia|].
  cbn [fold_left map]. rewrite IH.
  change (list_sum (gain s :: map gain l))
    with (gain s + list_sum (map gain l))%nat.
  unfold JSMap.ensureThen.
  destruct (JSMap.has eqb (key s) m0) eqn:present; cbn [negb].
  - rewrite (total_modify_by _ (step s) (gain s));
      [lia | apply size_step | exact present].
  - destruct (total_set_new _ eqb_eq size (key s) (init s) m0 present)
      as [same nowPresent].
    cbv beta in same.
    rewrite (total_modify_by _ (step s) (gain s));
      [|apply size_step | exact nowPresent].
    rewrite same, size_init. lia.
Qed.
End EnsureLoop.

Section EnsureLoopKeys.
Variables S V : Type.
Variable key : S -> string.
Variable init : S -> V.
Variable step : S -> V -> V.

(** The keys of the entries are the keys of the items, each once, in the
    order in which they first occur. *)
Lemma keys_ensureLoop (l : list S) (m0 : JSMap.Map string V) :
  map fst
    (fold_left
       (fun m s => JSMap.ensureThen String.eqb (key s) (init s) (step s) m)
       l m0)
  = fold_left (fun acc x => JSSet.add x acc) (map key l) (map fst m0).
Proof.
  revert m0. induction l as [|s l IH]; intro m0; [reflexivity|].
  cbn [fold_left map]. rewrite IH, keys_ensureThen. reflexivity.
Qed.
End EnsureLoopKeys.

Lemma modify_same {K V} (eqb : K -> K -> bool) (k : K) (m : JSMap.Map K V) :
  JSMap.modify eqb k (fun v => v) m = m.
Proof.
  induction m as [|[k0 v0] rest IH]; simpl; [reflexivity|].
  destruct (eqb k k0); [reflexivity|]. rewrite IH. reflexivity.
Qed.

Lemma numericResponses_cons (s : Snapshot) (l : list Snapshot) :
  numericResponses (s :: l)
  = match scoreOf (responseValue s) with
    | Some n => n :: numericResponses l
    | None => numericResponses l
    end.
Proof.
  unfold numericResponses. cbn [flat_map].
  destruct (scoreOf (responseValue s)); reflexivity.
Qed.

Lemma numericResponses_parsed (l : list Snapshot) :
  numericResponses (filter parsed l) = numericResponses l.
Proof.
  induction l as [|s l IH]; [reflexivity|].
  cbn [filter]. unfold parsed at 1. rewrite (numericResponses_cons s l).
  destruct (scoreOf (responseValue s)) eqn:score; [|exact IH].
  rewrite numericResponses_cons, score, IH. reflexivity.
Qed.

Lemma length_numericResponses (l : list Snapshot) :
  List.length (numericResponses l) = List.length (filter parsed l).
Proof.
  induction l as [|s l IH]; [reflexivity|].
  rewrite numericResponses_cons. cbn [filter]. unfold parsed at 1.
  destruct (scoreOf (responseValue s)); cbn [List.length]; rewrite IH;
    reflexivity.
Qed.

Lemma filter_swap {A} (p q : A -> bool) (l : list A) :
  filter p (filter q l) = filter q (filter p l).
Proof.
  induction l as [|x l IH]; [reflexivity|].
  cbn [filter].
  destruct (q x) eqn:Q, (p x) eqn:P; cbn [filter];
    rewrite ?Q, ?P, IH; reflexivity.
Qed.

(** The change [sum += score; count += 1] of an entry, for a record that
    has a score. *)
Lemma scores_taken (group : list Snapshot) (start : SemesterScore.t) :
  fold_left
    (fun scores s =>
       match scoreOf (responseValue s) with
       | Some score =>
           {| SemesterScore.sum := add (SemesterScore.sum scores) score;
              SemesterScore.count := SemesterScore.count scores + 1 |}
       | None => scores
       end)
    group start
  = {| SemesterScore.sum :=
         fold_left add (numericResponses group) (SemesterScore.sum start);
       SemesterScore.count :=
         SemesterScore.count start + List.length (numericResponses group) |}.
Proof.
  revert start. induction group as [|s group IH]; intro start.
  - destruct start as [sum0 count0].
    cbn [fold_left numericResponses flat_map List.length
         SemesterScore.sum SemesterScore.count].
    f_equal. lia.
  - cbn [fold_left]. rewrite IH, numericResponses_cons.
    destruct (scoreOf (responseValue s));
      cbn [fold_left List.length SemesterScore.sum SemesterScore.count];
      f_equal; lia.
Qed.

(** [addScore] over the records with a score, as a loop over entries. *)
Lemma addScore_loop (l : list Snapshot)
  (start : JSMap.Map Z SemesterScore.t) :
  fold_left
    (fun semesters s =>
       match scoreOf (responseValue s) with
       | Some score =>
           if negb (isNaN score)
           then addScore (Snapshot.semesterNumber s) score semesters
           else semesters
       | None => semesters
       end)
    l start
  = fold_left
      (fun semesters s =>
         JSMap.ensureThen Z.eqb (Snapshot.semesterNumber s)
           {| SemesterScore.sum := zero; SemesterScore.count := 0 |}
           (fun scores =>
              match scoreOf (responseValue s) with
              | Some score =>
                  {| SemesterScore.sum :=
                       add (SemesterScore.sum scores) score;
                     SemesterScore.count := SemesterScore.count scores + 1 |}
              | None => scores
              end)
           semesters)
      (filter parsed l) start.
Proof.
  revert start. induction l as [|s l IH]; intro start; [reflexivity|].
  cbn [fold_left filter]. unfold parsed at 1.
  destruct (scoreOf (responseValue s)) as [score|] eqn:found; [|apply IH].
  rewrite (scoreOf_not_NaN _ found). cbn [negb fold_left].
  rewrite IH, found. reflexivity.
Qed.

(** The entry of a semester after the loop: the sum and the number of the
    scores of that semester, in the order of the records. *)
Lemma get_addScore_loop (i : Z) (l : list Snapshot) :
  JSMap.get Z.eqb i
    (fold_left
       (fun semesters s =>
          match scoreOf (responseValue s) with
          | Some score =>
              if negb (isNaN score)
              then addScore (Snapshot.semesterNumber s) score semesters
              else semesters
          | None => semesters
          end)
       l [])
  = match numericResponses
            (filter (fun s => Snapshot.semesterNumber s =? i) l) with
    | [] => None
    | scores =>
        Some {| SemesterScore.sum := fold_left add scores zero;
                SemesterScore.count := List.length scores |}
    end.
Proof.
  rewrite addScore_loop.
  rewrite (get_ensureLoop _ Z.eqb_eq Snapshot.semesterNumber
             (fun _ => {| SemesterScore.sum := zero;
                          SemesterScore.count := 0 |})
             (fun s scores =>
                match scoreOf (responseValue s) with
                | Some score =>
                    {| SemesterScore.sum :=
                         add (SemesterScore.sum scores) score;
                       SemesterScore.count :=
                         SemesterScore.count scores + 1 |}
                | None => scores
                end)).
  cbn [JSMap.get].
  rewrite filter_swap.
  rewrite <- (numericResponses_parsed
                (filter (fun s => Snapshot.semesterNumber s =? i) l)).
  destruct (filter parsed
              (filter (fun s => Snapshot.semesterNumber s =? i) l))
    as [|first rest] eqn:group; [reflexivity|].
  rewrite scores_taken. cbn [SemesterScore.sum SemesterScore.count].
  assert (some : parsed first = true).
  { assert (inGroup : In first (first :: rest)) by (left; reflexivity).
    rewrite <- group in inGroup. apply filter_In in inGroup. tauto. }
  rewrite numericResponses_cons. unfold parsed in some.
  destruct (scoreOf (responseValue first)) as [score|]; [|discriminate].
  reflexivity.
Qed.

(** A member of the result is found under its name. *)
Lemma get_semesterMember (value : Z -> option number) (i : Z) :
  1 <= i <= 8 ->
  JSMap.get String.eqb (semesterMember i)
    (map (fun i => (semesterMember i, value i)) semesterIndices)
  = Some (value i).
Proof.
  intro inRange.
  assert (cases : i = 1 \/ i = 2 \/ i = 3 \/ i = 4 \/ i = 5 \/ i = 6
                  \/ i = 7 \/ i = 8) by lia.
  destruct cases as [-> | [-> | [-> | [-> | [-> | [-> | [-> | ->]]]]]]];
    vm_compute; reflexivity.
Qed.

(** The loop of [getFacultyPerformanceYearData], variable by variable. *)
Lemma yearTotals_loop (l : list Snapshot) (start : YearTotals.t) :
  fold_left
    (fun totals snapshot =>
       let semester := Snapshot.semesterNumber snapshot in
       match scoreOf (responseValue snapshot) with
       | Some score =>
           if negb (isNaN score) then
             {| YearTotals.semesterScores :=
                  addScore semester score (YearTotals.semesterScores totals);
                YearTotals.totalSum := add (YearTotals.totalSum totals) score;
                YearTotals.totalCount := YearTotals.totalCount totals + 1 |}
           else totals
       | None => totals
       end)
    l start
  = {| YearTotals.semesterScores :=
         fold_left
           (fun semesters s =>
              match scoreOf (responseValue s) with
              | Some score =>
                  if negb (isNaN score)
                  then addScore (Snapshot.semesterNumber s) score semesters
                  else semesters
              | None => semesters
              end)
           l (YearTotals.semesterScores start);
       YearTotals.totalSum :=
         fold_left add (numericResponses l) (YearTotals.totalSum start);
       YearTotals.totalCount :=
         YearTotals.totalCount start + List.length (numericResponses l) |}.
Proof.
  revert start. induction l as [|s l IH]; intro start.
  - destruct start as [semesters0 sum0 count0].
    cbn [fold_left numericResponses flat_map List.length
         YearTotals.semesterScores YearTotals.totalSum YearTotals.totalCount].
    f_equal. lia.
  - cbn [fold_left]. rewrite IH, numericResponses_cons. cbn zeta.
    destruct (scoreOf (responseValue s)) as [score|] eqn:found;
      [|reflexivity].
    rewrite (scoreOf_not_NaN _ found).
    cbn [negb fold_left List.length YearTotals.semesterScores
         YearTotals.totalSum YearTotals.totalCount].
    f_equal. lia.
Qed.

Lemma totalAverage_meanOrNull (scores : list number) :
  totalAverage (fold_left add scores zero) (0 + List.length scores)
  = meanOrNull scores.
Proof. destruct scores; reflexivity. Qed.

Lemma find_none_default {A} (p : A -> bool) (name : A -> string)
  (table : list A) (fallback : string) :
  (forall row, In row table -> p row = false) ->
  orElse (option_map name (find p table)) fallback = fallback.
Proof.
  intro none. destruct (find p table) as [row|] eqn:found; [|reflexivity].
  apply find_some in found. destruct found as [inTable holds].
  rewrite (none row inTable) in holds. discriminate.
Qed.

(** X16.  [getFacultyPerformanceYearData] always returns the eight members
    ['semester 1'] to ['semester 8'].  The member of a semester is the mean,
    rounded to two decimals, of the scores of the fetched records of that
    semester, and [null] when none of them has a score; [total_average] is
    the same figure over all fetched records, those of a semester beyond
    the eighth included.  Every score counts here, a zero or a negative one
    too.  With records, the names are those of the first fetched record;
    without, a faculty or an academic year that is missing or deleted is
    reported as unknown. *)
Theorem getFacultyPerformanceYearData_means :
  forall (prisma : PerformanceTables.t) (academicYearId facultyId : string),
    let fetched := facultyYearSnapshots prisma academicYearId facultyId in
    let result :=
      getFacultyPerformanceYearData prisma academicYearId facultyId in
    map fst (FacultyPerformanceYearDataOutput.semesters result)
    = map semesterMember semesterIndices
    /\ (forall i : Z,
           1 <= i <= 8 ->
           JSMap.get String.eqb (semesterMember i)
             (FacultyPerformanceYearDataOutput.semesters result)
           = Some
               (meanOrNull
                  (numericResponses
                     (filter (fun s => Snapshot.semesterNumber s =? i)
                        fetched))))
    /\ FacultyPerformanceYearDataOutput.total_average result
       = meanOrNull (numericResponses fetched)
    /\ match fetched with
       | firstSnapshot :: _ =>
           FacultyPerformanceYearDataOutput.Faculty_name result
           = Snapshot.facultyName firstSnapshot
           /\ FacultyPerformanceYearDataOutput.academic_year result
              = Snapshot.academicYearString firstSnapshot
       | [] =>
           ((forall row,
                In row (PerformanceTables.faculty prisma) ->
                entity_id row = facultyId -> entity_isDeleted row = true) ->
            FacultyPerformanceYearDataOutput.Faculty_name result
            = "Unknown Faculty")
           /\ ((forall row,
                   In row (PerformanceTables.academicYear prisma) ->
                   academicYear_id row = academicYearId ->
                   academicYear_isDeleted row = true) ->
               FacultyPerformanceYearDataOutput.academic_year result
               = "Unknown Academic Year")
       end.
Proof.
  intros prisma academicYearId facultyId fetched result.
  subst result. unfold getFacultyPerformanceYearData. cbn zeta.
  fold fetched.
  destruct fetched as [|firstSnapshot others] eqn:rows.
  - cbn [FacultyPerformanceYearDataOutput.semesters
         FacultyPerformanceYearDataOutput.total_average
         FacultyPerformanceYearDataOutput.Faculty_name
         FacultyPerformanceYearDataOutput.academic_year].
    split; [rewrite map_map; reflexivity|].
    split; [intros i inRange; apply (get_semesterMember (fun _ => None) inRange)|].
    split; [reflexivity|]. split.
    + intro deleted. apply find_none_default.
      intros row inTable.
      destruct (String.eqb (entity_id row) facultyId) eqn:same;
        [|reflexivity].
      apply String.eqb_eq in same. rewrite (deleted row inTable same).
      reflexivity.
    + intro deleted. unfold defaultAcademicYear. apply find_none_default.
      intros row inTable.
      destruct (String.eqb (academicYear_id row) academicYearId) eqn:same;
        [|reflexivity].
      apply String.eqb_eq in same. rewrite (deleted row inTable same).
      reflexivity.
  - rewrite yearTotals_loop.
    cbn [FacultyPerformanceYearDataOutput.semesters
         FacultyPerformanceYearDataOutput.total_average
         FacultyPerformanceYearDataOutput.Faculty_name
         FacultyPerformanceYearDataOutput.academic_year
         YearTotals.semesterScores YearTotals.totalSum
         YearTotals.totalCount].
    generalize (firstSnapshot :: others). intro l.
    split; [unfold semesterMembers; rewrite map_map; reflexivity|].
    split; [|split; [apply totalAverage_meanOrNull | split; reflexivity]].
    intros i inRange. unfold semesterMembers.
    rewrite (get_semesterMember
               (fun i =>
                  match
                    JSMap.get Z.eqb i
                      (fold_left
                         (fun semesters s =>
                            match scoreOf (responseValue s) with
                            | Some score =>
                                if negb (isNaN score)
                                then addScore (Snapshot.semesterNumber s)
                                       score semesters
                                else semesters
                            | None => semesters
                            end)
                         l [])
                  with
                  | Some scores =>
                      if (0 <? SemesterScore.count scores)%nat
                      then Some (fixedMean (SemesterScore.sum scores)
                                   (SemesterScore.count scores))
                      else None
                  | None => None
                  end) inRange).
    rewrite get_addScore_loop. f_equal.
    destruct (numericResponses
                (filter (fun s => Snapshot.semesterNumber s =? i) l));
      reflexivity.
Qed.

(** The loop of [getAllFacultyPerformanceData] on one entry, variable by
    variable. *)
Lemma facultyData_loop (own : list Snapshot)
  (start : FacultyAggregatedData.t) :
  fold_left
    (fun data s =>
       match scoreOf (responseValue s) with
       | Some score =>
           {| FacultyAggregatedData.facultyId :=
                FacultyAggregatedData.facultyId data;
              FacultyAggregatedData.Faculty_name :=
                FacultyAggregatedData.Faculty_name data;
              FacultyAggregatedData.academic_year :=
                FacultyAggregatedData.academic_year data;
              FacultyAggregatedData.semesters :=
                addScore (Snapshot.semesterNumber s) score
                  (FacultyAggregatedData.semesters data);
              FacultyAggregatedData.totalSum :=
                add (FacultyAggregatedData.totalSum data) score;
              FacultyAggregatedData.totalCount :=
                FacultyAggregatedData.totalCount data + 1 |}
       | None => data
       end)
    own start
  = {| FacultyAggregatedData.facultyId :=
         FacultyAggregatedData.facultyId start;
       FacultyAggregatedData.Faculty_name :=
         FacultyAggregatedData.Faculty_name start;
       FacultyAggregatedData.academic_year :=
         FacultyAggregatedData.academic_year start;
       FacultyAggregatedData.semesters :=
         fold_left
           (fun semesters s =>
              match scoreOf (responseValue s) with
              | Some score =>
                  if negb (isNaN score)
                  then addScore (Snapshot.semesterNumber s) score semesters
                  else semesters
              | None => semesters
              end)
           own (FacultyAggregatedData.semesters start);
       FacultyAggregatedData.totalSum :=
         fold_left add (numericResponses own)
           (FacultyAggregatedData.totalSum start);
       FacultyAggregatedData.totalCount :=
         FacultyAggregatedData.totalCount start
         + List.length (numericResponses own) |}.
Proof.
  revert start. induction own as [|s own IH]; intro start.
  - destruct start.
    cbn [fold_left numericResponses flat_map List.length
         FacultyAggregatedData.facultyId FacultyAggregatedData.Faculty_name
         FacultyAggregatedData.academic_year FacultyAggregatedData.semesters
         FacultyAggregatedData.totalSum FacultyAggregatedData.totalCount].
    f_equal. lia.
  - cbn [fold_left]. rewrite IH, numericResponses_cons.
    destruct (scoreOf (responseValue s)) as [score|] eqn:found;
      [|reflexivity].
    rewrite (scoreOf_not_NaN _ found).
    cbn [negb fold_left List.length
         FacultyAggregatedData.facultyId FacultyAggregatedData.Faculty_name
         FacultyAggregatedData.academic_year FacultyAggregatedData.semesters
         FacultyAggregatedData.totalSum FacultyAggregatedData.totalCount].
    f_equal. lia.
Qed.

(** The body of the loop of [getAllFacultyPerformanceData] makes the entry
    of the faculty if it is missing and then changes it. *)
Lemma aggregatedData_loop (l : list Snapshot)
  (start : JSMap.Map string FacultyAggregatedData.t) :
  fold_left
    (fun aggregatedData snapshot =>
       let facultyId := Snapshot.facultyId snapshot in
       let semester := Snapshot.semesterNumber snapshot in
       let aggregatedData :=
         if negb (JSMap.has String.eqb facultyId aggregatedData)
         then
           JSMap.set String.eqb facultyId
             {| FacultyAggregatedData.facultyId := facultyId;
                FacultyAggregatedData.Faculty_name :=
                  Snapshot.facultyName snapshot;
                FacultyAggregatedData.academic_year :=
                  Snapshot.academicYearString snapshot;
                FacultyAggregatedData.semesters := [];
                FacultyAggregatedData.totalSum := zero;
                FacultyAggregatedData.totalCount := 0 |}
             aggregatedData
         else aggregatedData in
       match scoreOf (responseValue snapshot) with
       | Some score =>
           if negb (isNaN score) then
             JSMap.modify String.eqb facultyId
               (fun data =>
                  {| FacultyAggregatedData.facultyId :=
                       FacultyAggregatedData.facultyId data;
                     FacultyAggregatedData.Faculty_name :=
                       FacultyAggregatedData.Faculty_name data;
                     FacultyAggregatedData.academic_year :=
                       FacultyAggregatedData.academic_year data;
                     FacultyAggregatedData.semesters :=
                       addScore semester score
                         (FacultyAggregatedData.semesters data);
                     FacultyAggregatedData.totalSum :=
                       add (FacultyAggregatedData.totalSum data) score;
                     FacultyAggregatedData.totalCount :=
                       FacultyAggregatedData.totalCount data + 1 |})
               aggregatedData
           else aggregatedData
       | None => aggregatedData
       end)
    l start
  = fold_left
      (fun aggregatedData s =>
         JSMap.ensureThen String.eqb (Snapshot.facultyId s)
           {| FacultyAggregatedData.facultyId := Snapshot.facultyId s;
              FacultyAggregatedData.Faculty_name := Snapshot.facultyName s;
              FacultyAggregatedData.academic_year :=
                Snapshot.academicYearString s;
              FacultyAggregatedData.semesters := [];
              FacultyAggregatedData.totalSum := zero;
              FacultyAggregatedData.totalCount := 0 |}
           (fun data =>
              match scoreOf (responseValue s) with
              | Some score =>
                  {| FacultyAggregatedData.facultyId :=
                       FacultyAggregatedData.facultyId data;
                     FacultyAggregatedData.Faculty_name :=
                       FacultyAggregatedData.Faculty_name data;
                     FacultyAggregatedData.academic_year :=
                       FacultyAggregatedData.academic_year data;
                     FacultyAggregatedData.semesters :=
                       addScore (Snapshot.semesterNumber s) score
                         (FacultyAggregatedData.semesters data);
                     FacultyAggregatedData.totalSum :=
                       add (FacultyAggregatedData.totalSum data) score;
                     FacultyAggregatedData.totalCount :=
                       FacultyAggregatedData.totalCount data + 1 |}
              | None => data
              end)
           aggregatedData)
      l start.
Proof.
  revert start. induction l as [|s l IH]; intro start; [reflexivity|].
  cbn [fold_left]. rewrite IH. f_equal. cbn zeta.
  unfold JSMap.ensureThen.
  destruct (scoreOf (responseValue s)) as [score|] eqn:found.
  - rewrite (scoreOf_not_NaN _ found). reflexivity.
  - symmetry. apply modify_same.
Qed.

Lemma gains_numericResponses (l : list Snapshot) :
  list_sum (map (fun s => if parsed s then 1%nat else 0%nat) l)
  = List.length (numericResponses l).
Proof.
  induction l as [|s l IH]; [reflexivity|].
  cbn [map]. rewrite numericResponses_cons. unfold parsed at 1.
  change (list_sum (?x :: ?r)) with (x + list_sum r)%nat.
  rewrite IH.
  destruct (scoreOf (responseValue s)); reflexivity.
Qed.

(** X17.  [getAllFacultyPerformanceData] returns one row per faculty that
    has a fetched record, in the order in which the faculties first occur,
    also for a faculty none of whose records has a score.  The row carries
    the names of the first record of the faculty; its [total_responses] is
    the number of the faculty's records that have a score, of either sign,
    and its averages are the rounded means of those scores, over all of
    them and semester by semester, [null] where there is none.  Over all
    rows [total_responses] adds up to the number of fetched records with a
    score.  (The identifiers are plain keys: [aggregatedData] is a plain
    object.) *)
Theorem getAllFacultyPerformanceData_rows :
  forall (databaseCompare : string -> string -> Z)
         (prisma : PerformanceTables.t) (academicYearId : string),
    let fetched := academicYearSnapshots databaseCompare prisma academicYearId in
    let rows :=
      AllFacultyPerformanceDataOutput.faculties
        (getAllFacultyPerformanceData databaseCompare prisma academicYearId) in
    Forall (fun s => isPlainKey (Snapshot.facultyId s) = true) fetched ->
    map FacultyPerformanceRow.facultyId rows
    = JSSet.ofList (map Snapshot.facultyId fetched)
    /\ list_sum (map FacultyPerformanceRow.total_responses rows)
       = List.length (numericResponses fetched)
    /\ (forall row : FacultyPerformanceRow.t,
           In row rows ->
           exists first rest,
             filter
               (fun s =>
                  String.eqb (Snapshot.facultyId s)
                    (FacultyPerformanceRow.facultyId row))
               fetched
             = first :: rest
             /\ FacultyPerformanceRow.Faculty_name row
                = Snapshot.facultyName first
             /\ FacultyPerformanceRow.academic_year row
                = Snapshot.academicYearString first
             /\ FacultyPerformanceRow.total_responses row
                = List.length (numericResponses (first :: rest))
             /\ FacultyPerformanceRow.total_average row
                = meanOrNull (numericResponses (first :: rest))
             /\ (forall i : Z,
                    1 <= i <= 8 ->
                    JSMap.get String.eqb (semesterMember i)
                      (FacultyPerformanceRow.semesters row)
                    = Some
                        (meanOrNull
                           (numericResponses
                              (filter
                                 (fun s => Snapshot.semesterNumber s =? i)
                                 (first :: rest)))))).
Proof.
  intros databaseCompare prisma academicYearId fetched rows _.
  subst rows. unfold getAllFacultyPerformanceData. cbn zeta. fold fetched.
  destruct fetched as [|firstSnapshot others] eqn:found.
  - cbn [AllFacultyPerformanceDataOutput.faculties].
    split; [reflexivity|]. split; [reflexivity|]. intros row [].
  - cbn [AllFacultyPerformanceDataOutput.faculties].
    rewrite aggregatedData_loop.
    generalize (firstSnapshot :: others). clear. intro l.
    set (init := fun s : Snapshot =>
           {| FacultyAggregatedData.facultyId := Snapshot.facultyId s;
              FacultyAggregatedData.Faculty_name := Snapshot.facultyName s;
              FacultyAggregatedData.academic_year :=
                Snapshot.academicYearString s;
              FacultyAggregatedData.semesters := [];
              FacultyAggregatedData.totalSum := zero;
              FacultyAggregatedData.totalCount := 0 |}).
    set (step := fun (s : Snapshot) (data : FacultyAggregatedData.t) =>
           match scoreOf (responseValue s) with
           | Some score =>
               {| FacultyAggregatedData.facultyId :=
                    FacultyAggregatedData.facultyId data;
                  FacultyAggregatedData.Faculty_name :=
                    FacultyAggregatedData.Faculty_name data;
                  FacultyAggregatedData.academic_year :=
                    FacultyAggregatedData.academic_year data;
                  FacultyAggregatedData.semesters :=
                    addScore (Snapshot.semesterNumber s) score
                      (FacultyAggregatedData.semesters data);
                  FacultyAggregatedData.totalSum :=
                    add (FacultyAggregatedData.totalSum data) score;
                  FacultyAggregatedData.totalCount :=
                    FacultyAggregatedData.totalCount data + 1 |}
           | None => data
           end).
    change (fold_left _ l [])
      with (fold_left
              (fun m s =>
                 JSMap.ensureThen String.eqb (Snapshot.facultyId s) (init s)
                   (step s) m)
              l []).
    set (aggregatedData :=
           fold_left
             (fun m s =>
                JSMap.ensureThen String.eqb (Snapshot.facultyId s) (init s)
                  (step s) m)
             l []).
    assert (entry :
              forall k data,
                In (k, data) aggregatedData ->
                exists first rest,
                  filter (fun s => String.eqb (Snapshot.facultyId s) k) l
                  = first :: rest
                  /\ data
                     = fold_left (fun v s => step s v) (first :: rest)
                         (init first)).
    { intros k data inMap.
      apply (get_of_In _ String.eqb_eq) in inMap;
        [|apply (ensureLoop_NoDup _ String.eqb_eq); constructor].
      unfold aggregatedData in inMap.
      rewrite (get_ensureLoop _ String.eqb_eq) in inMap.
      cbn [JSMap.get] in inMap.
      destruct (filter (fun s => String.eqb (Snapshot.facultyId s) k) l)
        as [|first rest]; [discriminate|].
      exists first, rest. split; [reflexivity|]. congruence. }
    assert (named :
              forall e, In e aggregatedData ->
                        FacultyAggregatedData.facultyId (snd e) = fst e).
    { intros [k data] inMap.
      destruct (entry k data inMap) as [first [rest [own ->]]].
      unfold step. rewrite facultyData_loop.
      cbn [fst snd FacultyAggregatedData.facultyId init].
      assert (inOwn : In first (first :: rest)) by (left; reflexivity).
      rewrite <- own in inOwn. apply filter_In in inOwn.
      apply String.eqb_eq. tauto. }
    unfold JSMap.entries. split; [|split].
    + rewrite map_map. cbn [FacultyPerformanceRow.facultyId].
      rewrite (map_ext_in _ fst _ named).
      unfold aggregatedData. rewrite keys_ensureLoop. reflexivity.
    + rewrite map_map. cbn [FacultyPerformanceRow.total_responses].
      rewrite <- gains_numericResponses.
      rewrite <- (map_map snd FacultyAggregatedData.totalCount).
      fold (JSMap.values aggregatedData). unfold aggregatedData.
      rewrite (total_ensureLoop _ String.eqb_eq Snapshot.facultyId init step
                 FacultyAggregatedData.totalCount
                 (fun s => if parsed s then 1%nat else 0%nat)).
      * reflexivity.
      * reflexivity.
      * intros s data. unfold step, parsed.
        destruct (scoreOf (responseValue s));
          cbn [FacultyAggregatedData.totalCount]; lia.
    + intros row inRows. apply in_map_iff in inRows.
      destruct inRows as [[k data] [<- inMap]].
      pose proof (named _ inMap) as name. cbn [fst snd] in name.
      destruct (entry k data inMap) as [first [rest [own ->]]].
      cbn [snd FacultyPerformanceRow.facultyId
           FacultyPerformanceRow.Faculty_name
           FacultyPerformanceRow.academic_year
           FacultyPerformanceRow.total_responses
           FacultyPerformanceRow.total_average
           FacultyPerformanceRow.semesters].
      rewrite name.
      exists first, rest. split; [exact own|].
      unfold step. rewrite facultyData_loop.
      cbn [FacultyAggregatedData.facultyId FacultyAggregatedData.Faculty_name
           FacultyAggregatedData.academic_year
           FacultyAggregatedData.semesters FacultyAggregatedData.totalSum
           FacultyAggregatedData.totalCount init].
      split; [reflexivity|]. split; [reflexivity|].
      split; [reflexivity|].
      split; [apply totalAverage_meanOrNull|].
      intros i inRange. unfold semesterMembers.
      rewrite (get_semesterMember
                 (fun i =>
                    match
                      JSMap.get Z.eqb i
                        (fold_left
                           (fun semesters s =>
                              match scoreOf (responseValue s) with
                              | Some score =>
                                  if negb (isNaN score)
                                  then addScore (Snapshot.semesterNumber s)
                                         score semesters
                                  else semesters
                              | None => semesters
                              end)
                           (first :: rest) [])
                    with
                    | Some scores =>
                        if (0 <? SemesterScore.count scores)%nat
                        then Some (fixedMean (SemesterScore.sum scores)
                                     (SemesterScore.count scores))
                        else None
                    | None => None
                    end) inRange).
      rewrite get_addScore_loop. f_equal.
      destruct (numericResponses
                  (filter (fun s => Snapshot.semesterNumber s =? i)
                     (first :: rest)));
        reflexivity.
Qed.

(** X16 at work: Asha is rated 4 and 0 in semester 3 and 5 in semester 9;
    the zero counts, and so does the ninth semester in the total. *)
Lemma getFacultyPerformanceYearData_means_witness :
  1 <= 3 <= 8
  /\ JSMap.get String.eqb "semester 3"
       (FacultyPerformanceYearDataOutput.semesters
          (getFacultyPerformanceYearData PerformanceSamples.tables
             "ay-2024" "Asha"))
     = Some (Some (ofZ 2))
  /\ JSMap.get String.eqb "semester 1"
       (FacultyPerformanceYearDataOutput.semesters
          (getFacultyPerformanceYearData PerformanceSamples.tables
             "ay-2024" "Asha"))
     = Some None
  /\ FacultyPerformanceYearDataOutput.total_average
       (getFacultyPerformanceYearData PerformanceSamples.tables
          "ay-2024" "Asha")
     = Some (ofZ 3).
Proof.
  destruct (getFacultyPerformanceYearData_means PerformanceSamples.tables
              "ay-2024" "Asha")
    as [_ [members [total _]]].
  assert (third : 1 <= 3 <= 8) by lia.
  assert (first : 1 <= 1 <= 8) by lia.
  split; [exact third|]. split; [|split].
  - etransitivity; [exact (members 3 third)|]. vm_compute. reflexivity.
  - etransitivity; [exact (members 1 first)|]. vm_compute. reflexivity.
  - etransitivity; [exact total|]. vm_compute. reflexivity.
Defined.

(** X17 at work: Bina, whose only rating is a word, has a row of her own
    and no response. *)
Lemma getAllFacultyPerformanceData_rows_witness :
  Forall (fun s => isPlainKey (Snapshot.facultyId s) = true)
    (academicYearSnapshots codeUnitCompare PerformanceSamples.tables "ay-2024")
  /\ map FacultyPerformanceRow.facultyId
       (AllFacultyPerformanceDataOutput.faculties
          (getAllFacultyPerformanceData codeUnitCompare
             PerformanceSamples.tables "ay-2024"))
     = ["Asha"; "Bina"]
  /\ list_sum
       (map FacultyPerformanceRow.total_responses
          (AllFacultyPerformanceDataOutput.faculties
             (getAllFacultyPerformanceData codeUnitCompare
                PerformanceSamples.tables "ay-2024")))
     = 3%nat.
Proof.
  assert (plain :
            Forall (fun s => isPlainKey (Snapshot.facultyId s) = true)
              (academicYearSnapshots codeUnitCompare
                 PerformanceSamples.tables "ay-2024")).
  { vm_compute. repeat constructor. }
  split; [exact plain|].
  destruct (getAllFacultyPerformanceData_rows codeUnitCompare
              PerformanceSamples.tables "ay-2024" plain)
    as [keys [total _]].
  split.
  - etransitivity; [exact keys|]. vm_compute. reflexivity.
  - etransitivity; [exact total|]. vm_compute. reflexivity.
Defined.

(* ================================================================== *)
(** * Further properties: [getAnnualPerformanceTrend] *)
(* ================================================================== *)

(** X18.  [getAnnualPerformanceTrend] never answers with status 404: the
    404 it throws when the query returns no group is caught by its own
    handler and replaced by the error 500 'Error analyzing annual
    performance trends.'.  With groups it returns one row per group, in
    the order of the groups, with the year of the group's instant and the
    two averages rounded to two decimals, [0] for an average that is
    [null]. *)
Theorem getAnnualPerformanceTrend_outcome :
  forall (getFullYear : Z -> Z) (annualTrends : list AnnualTrendGroup),
    match getAnnualPerformanceTrend getFullYear annualTrends with
    | Return rows =>
        annualTrends <> []
        /\ map apt_year rows
           = map (fun trend => getFullYear (calculatedAt trend)) annualTrends
        /\ map apt_averageRating rows
           = map (fun trend =>
                    match avg_averageRating trend with
                    | Some average => toFixed2 average
                    | None => zero
                    end)
               annualTrends
        /\ map apt_completionRate rows
           = map (fun trend =>
                    match avg_completionRate trend with
                    | Some average => toFixed2 average
                    | None => zero
                    end)
               annualTrends
    | Throw error =>
        annualTrends = []
        /\ error
           = AppErr {| message := "Error analyzing annual performance trends.";
                       statusCode := 500 |}
    end.
Proof.
  intros getFullYear annualTrends. unfold getAnnualPerformanceTrend.
  destruct annualTrends as [|trend others].
  - cbn. split; reflexivity.
  - cbn [List.length Nat.eqb try_catch].
    split; [discriminate|]. rewrite !map_map.
    repeat split; reflexivity.
Qed.

(* ================================================================== *)
(** * Further properties: a string that holds a JSON number *)
(* ================================================================== *)

(** Rounding never makes a [NaN]. *)
Lemma shr_1_nonneg (mrs : shr_record) :
  0 <= shr_m mrs -> 0 <= shr_m (shr_1 mrs).
Proof.
  destruct mrs as [m r s]. cbn [shr_m].
  destruct m as [|p|p]; intro nonneg; [cbn; lia | | lia].
  destruct p; cbn; lia.
Qed.

Lemma iter_shr_1_nonneg (p : positive) (mrs : shr_record) :
  0 <= shr_m mrs -> 0 <= shr_m (iter_pos shr_1 p mrs).
Proof.
  revert mrs. induction p as [p IH|p IH|]; intros mrs nonneg; cbn [iter_pos].
  - apply IH, IH, shr_1_nonneg, nonneg.
  - apply IH, IH, nonneg.
  - apply shr_1_nonneg, nonneg.
Qed.

Lemma shr_fexp_nonneg (m e : Z) (l : location) :
  0 <= m -> 0 <= shr_m (fst (shr_fexp prec emax m e l)).
Proof.
  intro nonneg. unfold shr_fexp, shr.
  assert (start : 0 <= shr_m (shr_record_of_loc m l)).
  { destruct l as [|[| |]]; exact nonneg. }
  destruct (fexp prec emax (Zdigits2 m + e) - e) as [|p|p]; cbn [fst];
    [exact start | | exact start].
  apply iter_shr_1_nonneg, start.
Qed.

Lemma round_nearest_even_nonneg (m : Z) (l : location) :
  0 <= m -> 0 <= round_nearest_even m l.
Proof.
  intro nonneg. unfold round_nearest_even.
  destruct l as [|[| |]]; [lia | | lia | lia].
  destruct (Z.even m); lia.
Qed.

Lemma binary_round_aux_not_NaN (sx : bool) (m e : Z) (l : location) :
  0 <= m -> isNaN (binary_round_aux prec emax sx m e l) = false.
Proof.
  intro nonneg. unfold binary_round_aux.
  pose proof (shr_fexp_nonneg e l nonneg) as first.
  destruct (shr_fexp prec emax m e l) as [mrs' e']. cbn [fst] in first.
  pose proof (shr_fexp_nonneg e' loc_Exact
                (round_nearest_even_nonneg (loc_of_shr_record mrs') first))
    as second.
  destruct (shr_fexp prec emax _ e' loc_Exact) as [mrs'' e''].
  cbn [fst] in second.
  destruct (shr_m mrs'') as [|p|p]; [reflexivity | | lia].
  destruct (e'' <=? emax - prec); reflexivity.
Qed.

Lemma binary_normalize_not_NaN (m e : Z) :
  isNaN (binary_normalize prec emax m e false) = false.
Proof.
  destruct m as [|p|p]; [reflexivity | |]; cbn [binary_normalize];
    unfold binary_round;
    destruct (shl_align p e _) as [mz ez];
    apply binary_round_aux_not_NaN; lia.
Qed.

Lemma ofDecimal_not_NaN (neg : bool) (mant e10 : Z) :
  isNaN (ofDecimal neg mant e10) = false.
Proof.
  unfold ofDecimal. destruct mant as [|p|p]; [reflexivity | | reflexivity].
  destruct (0 <=? e10); [apply binary_normalize_not_NaN|].
  unfold SFdiv, SFdiv_core_binary.
  set (divisor := Z.to_pos (10 ^ (- e10))).
  set (e' := Z.min _ _).
  set (m' := match 0 - 0 - e' with
             | Zpos _ => Z.shiftl (Zpos p) (0 - 0 - e')
             | Z0 => Zpos p
             | Zneg _ => Z0
             end).
  assert (nonneg : 0 <= m').
  { unfold m'. destruct (0 - 0 - e') as [|s|s]; [lia | | lia].
    apply Z.shiftl_nonneg. lia. }
  pose proof (Z.div_pos m' (Zpos divisor) nonneg ltac:(lia)) as quotient.
  unfold Z.div in quotient.
  destruct (Z.div_eucl m' (Zpos divisor)) as [q r].
  apply binary_round_aux_not_NaN, quotient.
Qed.

(** What [takeDigits] counts. *)
Lemma takeDigits_count (acc count : Z) (s : string) :
  count <= snd (fst (takeDigits acc count s)).
Proof.
  revert acc count. induction s as [|c r IH]; intros acc count;
    cbn [takeDigits]; [cbn; lia|].
  destruct (isDigit c); [|cbn; lia].
  specialize (IH (10 * acc + digitValue c) (count + 1)). lia.
Qed.

Lemma takeDigits_digit (acc count : Z) (s : string) :
  snd (fst (takeDigits acc count s)) <> count ->
  exists c r, s = String c r /\ isDigit c = true.
Proof.
  destruct s as [|c r]; cbn [takeDigits]; [cbn; congruence|].
  destruct (isDigit c) eqn:digit; [|cbn; congruence].
  intros _. exists c, r. auto.
Qed.

(** A text that starts with a digit, or with a minus sign and a digit, is
    read by [parseFloat]. *)
Lemma parseFloat_of_digit (neg : bool) (c : ascii) (r : string) :
  isDigit c = true ->
  isNaN (parseFloat ((if neg then "-" else EmptyString) ++ String c r)) = false.
Proof.
  intro digit.
  assert (notSpace : isWhiteSpace c = false).
  { unfold isDigit, isWhiteSpace in *.
    apply andb_true_iff in digit. destruct digit as [low high].
    apply N.leb_le in low. apply N.leb_le in high.
    repeat (apply orb_false_iff; split);
      first [ apply andb_false_iff; right; apply N.leb_gt; lia
            | apply N.eqb_neq; lia ]. }
  assert (notSign : c <> "-"%char /\ c <> "+"%char /\ c <> "I"%char).
  { repeat split; intros ->; discriminate. }
  destruct notSign as [notMinus [notPlus notI]].
  unfold parseFloat.
  assert (signed :
            (let t := trimStart ((if neg then "-" else EmptyString) ++ String c r) in
             match t with
             | String "-" r' => (true, r')
             | String "+" r' => (false, r')
             | _ => (false, t)
             end)
            = (neg, String c r)).
  { destruct neg; cbn [append trimStart].
    - reflexivity.
    - rewrite notSpace.
      destruct c as [b0 b1 b2 b3 b4 b5 b6 b7].
      destruct b0, b1, b2, b3, b4, b5, b6, b7;
        first [reflexivity | congruence]. }
  cbv zeta in signed. cbv zeta. rewrite signed.
  assert (notInfinity : String.prefix "Infinity" (String c r) = false).
  { cbn -[ascii_dec]. destruct (ascii_dec "I" c) as [<-|]; [|reflexivity].
    congruence. }
  rewrite notInfinity. cbn [takeDigits]. rewrite digit.
  pose proof (takeDigits_count (10 * 0 + digitValue c) (0 + 1) r) as counted.
  destruct (takeDigits (10 * 0 + digitValue c) (0 + 1) r) as [[ip ni] r1].
  cbn [fst snd] in counted.
  assert (fraction :
            forall m nf r2,
              match r1 with
              | String "." r' => takeDigits ip 0 r'
              | _ => (ip, 0, r1)
              end = (m, nf, r2) ->
              0 <= nf).
  { intros m nf r2 taken.
    destruct r1 as [|d r']; [inversion taken; lia|].
    destruct (Ascii.eqb d ".") eqn:point.
    - apply Ascii.eqb_eq in point. subst d.
      pose proof (takeDigits_count ip 0 r') as least.
      rewrite taken in least. exact least.
    - assert (same :
                match String d r' with
                | String "." r'' => takeDigits ip 0 r''
                | _ => (ip, 0, String d r')
                end = (ip, 0, String d r')).
      { destruct d as [b0 b1 b2 b3 b4 b5 b6 b7].
        destruct b0, b1, b2, b3, b4, b5, b6, b7;
          first [reflexivity | discriminate point]. }
      rewrite same in taken. inversion taken. lia. }
  destruct (match r1 with
            | String "." r' => takeDigits ip 0 r'
            | _ => (ip, 0, r1)
            end) as [[m nf] r2] eqn:taken.
  pose proof (fraction m nf r2 eq_refl) as least.
  destruct (ni + nf =? 0) eqn:none; [apply Z.eqb_eq in none; lia|].
  apply ofDecimal_not_NaN.
Qed.

(** The shape of a JSON number: a digit, after a minus sign or not. *)
Lemma minus_sign (w : string) :
  match w with
  | String "-" r => (true, r)
  | _ => (false, w)
  end
  = match w with
    | String c r => if Ascii.eqb c "-" then (true, r) else (false, w)
    | EmptyString => (false, w)
    end.
Proof.
  destruct w as [|c r]; [reflexivity|].
  destruct c as [b0 b1 b2 b3 b4 b5 b6 b7].
  destruct b0, b1, b2, b3, b4, b5, b6, b7; reflexivity.
Qed.

Lemma jsonNumber_shape (w : string) (n : number) :
  jsonNumber w = Some n ->
  exists (neg : bool) (d : ascii) (r : string),
    w = ((if neg then "-" else EmptyString) ++ String d r)%string
    /\ isDigit d = true.
Proof.
  unfold jsonNumber. rewrite minus_sign.
  assert (digits :
            forall neg u,
              (let '(ip, ni, r1) := takeDigits 0 0 u in
               let leadingZero :=
                 match u with String "0" _ => true | _ => false end in
               if ((ni =? 0) || (leadingZero && (1 <? ni)))%bool
               then None
               else
                 let fracOk_m_nf_r2 :=
                   match r1 with
                   | String "." r =>
                       let '(m, nf, r2) := takeDigits ip 0 r in
                       (0 <? nf, m, nf, r2)
                   | _ => (true, ip, 0, r1)
                   end in
                 let '(fracOk, m, nf, r2) := fracOk_m_nf_r2 in
                 if negb fracOk then None
                 else
                   match r2 with
                   | EmptyString => Some (ofDecimal neg m (- nf))
                   | String c r =>
                       if (Ascii.eqb c "e" || Ascii.eqb c "E")%bool then
                         let digits :=
                           match r with
                           | String "-" r' => r'
                           | String "+" r' => r'
                           | _ => r
                           end in
                         match takeDigits 0 0 digits with
                         | (_, n, EmptyString) =>
                             if 0 <? n
                             then Some (ofDecimal neg m (exponentPart r2 - nf))
                             else None
                         | _ => None
                         end
                       else None
                   end)
              = Some n ->
              exists d r, u = String d r /\ isDigit d = true).
  { intros neg u.
    pose proof (@takeDigits_digit 0 0 u) as first.
    destruct (takeDigits 0 0 u) as [[ip ni] r1]. cbn [fst snd] in first.
    cbv zeta.
    destruct (ni =? 0) eqn:none; [discriminate|].
    intros _. apply first. apply Z.eqb_neq in none. exact none. }
  destruct w as [|c r]; intro isNumber.
  - destruct (digits false EmptyString isNumber) as [d [r [impossible _]]].
    discriminate.
  - destruct (Ascii.eqb c "-") eqn:minus.
    + apply Ascii.eqb_eq in minus. subst c.
      destruct (digits true r isNumber) as [d [r' [-> digit]]].
      exists true, d, r'. split; [reflexivity | exact digit].
    + destruct (digits false (String c r) isNumber) as [d [r' [same digit]]].
      exists false, d, r'. split; [exact same | exact digit].
Qed.

Lemma wordToken_number (w : string) (n : number) :
  wordToken w = Some (TokNumber n) -> jsonNumber w = Some n.
Proof.
  unfold wordToken.
  destruct (String.eqb w "true"); [discriminate|].
  destruct (String.eqb w "false"); [discriminate|].
  destruct (String.eqb w "null"); [discriminate|].
  destruct (jsonNumber w); cbn; congruence.
Qed.

(** The lexer only ever adds to the tokens it has. *)
Lemma lexDefault_tokens (c : ascii) (toks : list token) (st : lexState)
  (toks' : list token) :
  lexDefault c toks = Some (st, toks') ->
  exists more, rev toks' = rev toks ++ more.
Proof.
  unfold lexDefault. cbv zeta.
  repeat match goal with
         | |- context [if ?b then _ else _] => destruct b
         end;
    intro same; inversion same; subst;
    first [ exists []; rewrite app_nil_r; reflexivity
          | eexists; cbn [rev]; reflexivity ].
Qed.

Lemma lex_keeps_tokens (s : string) :
  forall (st : lexState) (toks out : list token),
    lex st toks s = Some out -> exists more, out = rev toks ++ more.
Proof.
  induction s as [|c r IH]; intros st toks out.
  - cbn [lex]. destruct st; try discriminate.
    + intro same. inversion same. exists []. rewrite app_nil_r. reflexivity.
    + destruct (wordToken w) as [t|]; cbn [option_map]; [|discriminate].
      intro same. inversion same. exists [t]. reflexivity.
  - cbn [lex]. destruct st as [|w|acc|acc|acc count value].
    + destruct (lexDefault c toks) as [[st' toks']|] eqn:next;
        [|discriminate].
      intro lexed. destruct (IH _ _ _ lexed) as [more ->].
      destruct (lexDefault_tokens _ _ next) as [pre ->].
      exists (pre ++ more). rewrite app_assoc. reflexivity.
    + destruct (endsWord c).
      * destruct (wordToken w) as [t|]; [|discriminate].
        destruct (lexDefault c (t :: toks)) as [[st' toks']|] eqn:next;
          [|discriminate].
        intro lexed. destruct (IH _ _ _ lexed) as [more ->].
        destruct (lexDefault_tokens _ _ next) as [pre ->].
        exists (t :: pre ++ more). cbn [rev].
        rewrite <- !app_assoc. reflexivity.
      * apply IH.
    + destruct (Ascii.eqb c quote).
      * intro lexed. destruct (IH _ _ _ lexed) as [more ->].
        exists (TokString acc :: more). cbn [rev].
        rewrite <- app_assoc. reflexivity.
      * destruct (Ascii.eqb c backslash); [apply IH|].
        destruct (codeUnit c <? 32)%N; [discriminate | apply IH].
    + destruct (Ascii.eqb c "u"); [apply IH|].
      destruct (escaped c); [apply IH | discriminate].
    + destruct (hexValue c); [|discriminate].
      destruct count as [|[|[|[|count]]]]; apply IH.
Qed.

(** A string that has been opened gives a string token. *)
Lemma lex_string_token (s : string) :
  forall (st : lexState) (toks out : list token),
    match st with
    | LInString _ | LEscape _ | LUnicode _ _ _ => True
    | _ => False
    end ->
    lex st toks s = Some out ->
    exists text more, out = rev toks ++ TokString text :: more.
Proof.
  induction s as [|c r IH]; intros st toks out inString.
  - destruct st; try contradiction; discriminate.
  - cbn [lex]. destruct st as [|w|acc|acc|acc count value];
      try contradiction.
    + destruct (Ascii.eqb c quote).
      * intro lexed.
        destruct (lex_keeps_tokens _ _ _ lexed) as [more ->].
        exists acc, more. cbn [rev]. rewrite <- app_assoc. reflexivity.
      * destruct (Ascii.eqb c backslash); [apply IH; exact I|].
        destruct (codeUnit c <? 32)%N; [discriminate | apply IH; exact I].
    + destruct (Ascii.eqb c "u"); [apply IH; exact I|].
      destruct (escaped c); [apply IH; exact I | discriminate].
    + destruct (hexValue c); [|discriminate].
      destruct count as [|[|[|[|count]]]]; apply IH; exact I.
Qed.

(** A word that has been started is a prefix of the rest of the text and
    gives the next token. *)
Lemma lex_word_token (s : string) :
  forall (w : string) (toks out : list token),
    lex (LWord w) toks s = Some out ->
    exists (word rest : string) (tok : token) (more : list token),
      (w ++ s = word ++ rest)%string
      /\ wordToken word = Some tok
      /\ out = rev toks ++ tok :: more.
Proof.
  induction s as [|c r IH]; intros w toks out.
  - cbn [lex]. destruct (wordToken w) as [t|] eqn:token; cbn [option_map];
      [|discriminate].
    intro same. inversion same.
    exists w, EmptyString, t, []. split; [reflexivity|].
    split; [exact token | reflexivity].
  - cbn [lex]. destruct (endsWord c).
    + destruct (wordToken w) as [t|] eqn:token; [|discriminate].
      destruct (lexDefault c (t :: toks)) as [[st' toks']|] eqn:next;
        [|discriminate].
      intro lexed. destruct (lex_keeps_tokens _ _ _ lexed) as [more ->].
      destruct (lexDefault_tokens _ _ next) as [pre ->].
      exists w, (String c r), t, (pre ++ more). split; [reflexivity|].
      split; [exact token|]. cbn [rev]. rewrite <- !app_assoc. reflexivity.
    + intro lexed.
      destruct (IH _ _ _ lexed) as [word [rest [tok [more [same found]]]]].
      exists word, rest, tok, more. split; [|exact found].
      rewrite <- same. unfold snoc. rewrite append_assoc. reflexivity.
Qed.

(** A text whose only token is a number is read by [parseFloat]. *)
Lemma lexed_number_parses (s : string) (n : number) :
  lex LDefault [] s = Some [TokNumber n] -> isNaN (parseFloat s) = false.
Proof.
  induction s as [|c r IH]; [discriminate|].
  cbn [lex]. unfold lexDefault. cbv zeta.
  destruct ((codeUnit c =? 32) || (codeUnit c =? 9) || (codeUnit c =? 10)
            || (codeUnit c =? 13))%N eqn:space.
  - intro lexed.
    assert (white : isWhiteSpace c = true).
    { unfold isWhiteSpace. cbv zeta.
      repeat (apply orb_true_iff in space; destruct space as [space|space]);
        apply N.eqb_eq in space; rewrite space; reflexivity. }
    unfold parseFloat. cbn [trimStart]. rewrite white. apply IH, lexed.
  - assert (opened :
              forall (t : token) (st : lexState),
                t <> TokNumber n ->
                lex st [t] r = Some [TokNumber n] -> False).
    { intros t st different lexed.
      destruct (lex_keeps_tokens _ _ _ lexed) as [more same].
      cbn [rev app] in same. inversion same. congruence. }
    destruct (Ascii.eqb c quote).
    { intro lexed.
      destruct (lex_string_token _ (LInString EmptyString) _ I lexed)
        as [text [more same]].
      discriminate same. }
    destruct (Ascii.eqb c "{");
      [intro lexed; exfalso;
       apply (opened TokLBrace LDefault ltac:(discriminate) lexed)|].
    destruct (Ascii.eqb c "}");
      [intro lexed; exfalso;
       apply (opened TokRBrace LDefault ltac:(discriminate) lexed)|].
    destruct (Ascii.eqb c "[");
      [intro lexed; exfalso;
       apply (opened TokLBracket LDefault ltac:(discriminate) lexed)|].
    destruct (Ascii.eqb c "]");
      [intro lexed; exfalso;
       apply (opened TokRBracket LDefault ltac:(discriminate) lexed)|].
    destruct (Ascii.eqb c ":");
      [intro lexed; exfalso;
       apply (opened TokColon LDefault ltac:(discriminate) lexed)|].
    destruct (Ascii.eqb c ",");
      [intro lexed; exfalso;
       apply (opened TokComma LDefault ltac:(discriminate) lexed)|].
    intro lexed.
    destruct (lex_word_token _ _ _ lexed)
      as [word [rest [tok [more [same [token out]]]]]].
    cbn [rev app] in out. inversion out; subst tok more.
    apply wordToken_number, jsonNumber_shape in token.
    destruct token as [neg [d [digits [-> digit]]]].
    cbn [append] in same. rewrite same, append_assoc. cbn [append].
    apply parseFloat_of_digit, digit.
Qed.

(** The parser of the tokens ends in a number only on a single number. *)
Lemma pushValue_pastNumber (v : JSValue) (stack : list frame)
  (st' : list frame * expect) :
  match v with JNumber _ => stack <> [] | _ => True end ->
  pushValue v stack = Some st' -> pastNumber st'.
Proof.
  unfold pushValue, pastNumber.
  destruct stack as [|[elems|members [key|]] rest]; intros open pushed;
    inversion pushed; subst st'; cbn [fst snd];
    first [discriminate | destruct v; first [exact I | congruence]].
Qed.

Lemma startValue_pastNumber (t : token) (stack : list frame)
  (st' : list frame * expect) :
  stack <> [] -> startValue t stack = Some st' -> pastNumber st'.
Proof.
  intros open started.
  destruct t; cbn [startValue] in started;
    first [ discriminate started
          | refine (pushValue_pastNumber _ _ _ started);
            first [exact I | exact open]
          | inversion started; subst st'; cbn; discriminate ].
Qed.

Lemma startKey_pastNumber (t : token) (stack : list frame)
  (st' : list frame * expect) :
  startKey t stack = Some st' -> pastNumber st'.
Proof.
  unfold startKey.
  destruct t; try discriminate.
  destruct stack as [|[elems|members [key|]] rest]; try discriminate.
  intro started. inversion started. cbn. discriminate.
Qed.

Lemma closeArray_pastNumber (stack : list frame)
  (st' : list frame * expect) :
  closeArray stack = Some st' -> pastNumber st'.
Proof.
  unfold closeArray.
  destruct stack as [|[elems|members key] rest]; try discriminate.
  intro closed. refine (pushValue_pastNumber _ _ _ closed). exact I.
Qed.

Lemma closeObject_pastNumber (stack : list frame)
  (st' : list frame * expect) :
  closeObject stack = Some st' -> pastNumber st'.
Proof.
  unfold closeObject.
  destruct stack as [|[elems|members [key|]] rest]; try discriminate.
  intro closed. refine (pushValue_pastNumber _ _ _ closed). exact I.
Qed.

Lemma step_pastNumber (st st' : list frame * expect) (t : token) :
  pastNumber st -> step st t = Some st' -> pastNumber st'.
Proof.
  destruct st as [stack e]. unfold pastNumber at 1. cbn [fst snd].
  intros past stepped.
  destruct e; cbn [step] in stepped.
  - (eapply startValue_pastNumber; eassumption).
  - destruct t;
      first [ (eapply closeArray_pastNumber; eassumption)
            | (eapply startValue_pastNumber; eassumption) ].
  - destruct t;
      first [ (eapply closeObject_pastNumber; eassumption)
            | (eapply startKey_pastNumber; eassumption) ].
  - (eapply startKey_pastNumber; eassumption).
  - destruct t; try discriminate stepped.
    inversion stepped. subst st'. exact past.
  - destruct t; try discriminate stepped;
      first [ (eapply closeArray_pastNumber; eassumption)
            | (eapply closeObject_pastNumber; eassumption)
            | idtac ].
    destruct stack as [|[elems|members key] rest]; try discriminate stepped;
      inversion stepped; subst st'; cbn; discriminate.
  - discriminate stepped.
Qed.

Lemma run_pastNumber (toks : list token) :
  forall st st' : list frame * expect,
    pastNumber st -> run st toks = Some st' -> pastNumber st'.
Proof.
  induction toks as [|t r IH]; intros st st' past; cbn [run].
  - intro same. inversion same. subst. exact past.
  - destruct (step st t) as [next|] eqn:stepped; [|discriminate].
    apply IH. eapply step_pastNumber; eassumption.
Qed.

Lemma run_number (toks : list token) (stack : list frame) (n : number) :
  run ([], EValue) toks = Some (stack, EDone (JNumber n)) ->
  toks = [TokNumber n].
Proof.
  destruct toks as [|t r]; cbn [run]; [discriminate|].
  destruct (step ([], EValue) t) as [next|] eqn:stepped; [|discriminate].
  intro ran.
  destruct t; cbn in stepped; inversion stepped; subst next;
    try (exfalso;
         change False with (pastNumber (stack, EDone (JNumber n)));
         eapply run_pastNumber; [|exact ran];
         cbn; first [exact I | discriminate]).
  destruct r as [|t' r']; cbn [run] in ran; [congruence | discriminate].
Qed.

Lemma JSON_number_parses (text : string) (n : number) :
  JSON_parse text = Return (JNumber n) -> isNaN (parseFloat text) = false.
Proof.
  unfold JSON_parse.
  destruct (lex LDefault [] text) as [toks|] eqn:lexed; [|discriminate].
  destruct (run ([], EValue) toks) as [[stack e]|] eqn:ran; [|discriminate].
  destruct e; try discriminate.
  intro same. inversion same. subst v.
  apply run_number in ran. subst toks.
  exact (lexed_number_parses _ lexed).
Qed.

(** X19.  A string that [JSON.parse] reads as a number is a string that
    [parseFloat] reads.  So the test [typeof parsedJson === 'number'] that
    follows [JSON.parse] never holds, and a string that [parseFloat] does
    not read has a score only as the text of a JSON object with a numeric
    [score] member. *)
Theorem json_number_is_read_by_parseFloat :
  (forall (text : string) (n : number),
      JSON_parse text = Return (JNumber n) ->
      isNaN (parseFloat text) = false)
  /\ (forall text : string,
         isNaN (parseFloat text) = true ->
         parseResponseValueToScore (JString text)
         = Return
             match JSON_parse text with
             | Return (JObject members) =>
                 match lookupLast "score" members with
                 | Some (JNumber n) => if isNaN n then None else Some n
                 | _ => None
                 end
             | _ => None
             end).
Proof.
  split; [exact JSON_number_parses|].
  intros text unread. unfold parseResponseValueToScore.
  rewrite unread. cbn [negb].
  destruct (JSON_parse text) as [parsed|e] eqn:json; [|reflexivity].
  destruct parsed as [ | | b | n | s | elems | members ];
    try reflexivity.
  - rewrite (JSON_number_parses _ json) in unread. discriminate.
  - cbn. destruct (lookupLast "score" members) as [field|]; [|reflexivity].
    destruct field; try reflexivity.
    cbn. destruct (isNaN n); reflexivity.
Qed.

(** X19 at work on the texts ["4"] and ["good"]. *)
Lemma json_number_is_read_by_parseFloat_witness :
  JSON_parse "4" = Return (JNumber (ofZ 4))
  /\ isNaN (parseFloat "4") = false
  /\ isNaN (parseFloat "good") = true
  /\ parseResponseValueToScore (JString "good") = Return None.
Proof.
  destruct json_number_is_read_by_parseFloat as [read unread].
  assert (four : JSON_parse "4" = Return (JNumber (ofZ 4)))
    by (vm_compute; reflexivity).
  assert (word : isNaN (parseFloat "good") = true) by reflexivity.
  split; [exact four|]. split; [exact (read "4" (ofZ 4) four)|].
  split; [exact word|].
  etransitivity; [exact (unread "good" word)|]. reflexivity.
Defined.

(* ================================================================== *)
(** * Further properties: the semester trends of the complete endpoint *)
(* ================================================================== *)

(** Two snapshots have the same key when they have the same subject name
    and the same semester number, and only then. *)
Lemma trend_key_same (x s : Snapshot) :
  String.eqb
    (subjectName x ++ "|" ++ ofInteger (Snapshot.semesterNumber x))
    (subjectName s ++ "|" ++ ofInteger (Snapshot.semesterNumber s))
  = String.eqb (subjectName x) (subjectName s)
    && (Snapshot.semesterNumber x =? Snapshot.semesterNumber s).
Proof.
  destruct (String.eqb (subjectName x) (subjectName s)) eqn:sameName;
    cbn [andb].
  - apply String.eqb_eq in sameName. rewrite sameName.
    destruct (Snapshot.semesterNumber x =? Snapshot.semesterNumber s)
      eqn:sameNumber.
    + apply Z.eqb_eq in sameNumber. rewrite sameNumber.
      apply String.eqb_refl.
    + apply String.eqb_neq. intro same.
      apply last_bar_unique in same; try apply hasNoBar_ofInteger.
      destruct same as [_ same]. apply ofInteger_injective in same.
      apply Z.eqb_neq in sameNumber. contradiction.
  - apply String.eqb_neq. intro same.
    apply last_bar_unique in same; try apply hasNoBar_ofInteger.
    destruct same as [same _]. apply String.eqb_neq in sameName.
    contradiction.
Qed.

(** X20.  The [semesterTrends] of [getCompleteAnalyticsData] have one row
    per subject name and semester number among the fetched snapshots that
    pass the [lectureType] filter, whatever the names are made of: every
    such snapshot is counted by the row of its subject and semester, and a
    row counts the snapshots of one subject name and one semester number,
    scored or not, and reports the mean of their scores, of either sign.
    So the [responseCount]s add up to the number of those snapshots, as
    those of [subjectRatings] do.  A row takes its academic year from the
    first snapshot it counts and shows, when the subject name has no [|],
    that name and the semester number. *)
Theorem complete_semester_trends_rows :
  forall (lectureType : option LectureType) (fetched : list Snapshot),
    let kept := CompleteAnalytics.filterByLectureType lectureType fetched in
    let rows := CompleteTrends.semesterTrends lectureType fetched in
    let counted (s : Snapshot) :=
      filter
        (fun x =>
           String.eqb (subjectName x) (subjectName s)
           && (Snapshot.semesterNumber x =? Snapshot.semesterNumber s))
        kept in
    let standsFor (row : CompleteTrends.SemesterTrend) (s : Snapshot) :=
      CompleteTrends.responseCount row = List.length (counted s)
      /\ CompleteTrends.averageRating row
         = averageRatingOf (numericResponses (counted s))
      /\ CompleteTrends.academicYearId row
         = Snapshot.academicYearId (hd s (counted s))
      /\ CompleteTrends.academicYear row
         = Snapshot.academicYearString (hd s (counted s))
      /\ (hasNoBar (subjectName s) = true ->
          CompleteTrends.subject row = subjectName s
          /\ CompleteTrends.semester row = ofZ (Snapshot.semesterNumber s)) in
    list_sum (map CompleteTrends.responseCount rows) = List.length kept
    /\ list_sum (map CompleteTrends.responseCount rows)
       = list_sum
           (map CompleteAnalytics.responseCount
              (CompleteAnalytics.subjectRatings lectureType fetched))
    /\ (forall s, In s kept -> exists row, In row rows /\ standsFor row s)
    /\ (forall row, In row rows -> exists s, In s kept /\ standsFor row s).
Proof.
  intros lectureType fetched kept rows counted standsFor.
  set (key := fun snapshot : Snapshot =>
         (subjectName snapshot ++ "|"
          ++ ofInteger (Snapshot.semesterNumber snapshot))%string).
  set (rowOf := fun (entry : string * list Snapshot) (firstSnapshot : Snapshot) =>
         {| CompleteTrends.subject :=
              nth 0 (split "|" (fst entry)) EmptyString;
            CompleteTrends.semester :=
              parseInt (nth 1 (split "|" (fst entry)) EmptyString);
            CompleteTrends.averageRating :=
              averageRatingOf (numericResponses (snd entry));
            CompleteTrends.responseCount := List.length (snd entry);
            CompleteTrends.academicYearId :=
              Snapshot.academicYearId firstSnapshot;
            CompleteTrends.academicYear :=
              Snapshot.academicYearString firstSnapshot |}).
  assert (shape :
            rows
            = flat_map
                (fun entry =>
                   match snd entry with
                   | firstSnapshot :: _ => [rowOf entry firstSnapshot]
                   | [] => []
                   end)
                (groupBy kept key)) by reflexivity.
  assert (total : list_sum (map CompleteTrends.responseCount rows)
                  = List.length kept).
  { rewrite shape. etransitivity; [|apply groupBy_sizes].
    apply (counts_of_first_rows rowOf). reflexivity. }
  assert (ofEntry :
            forall k items s,
              In (k, items) (groupBy kept key) ->
              k = key s ->
              exists first rest,
                items = first :: rest
                /\ In (rowOf (k, items) first) rows
                /\ standsFor (rowOf (k, items) first) s).
  { intros k items s inGroups ->.
    destruct (groupBy_entry _ _ _ _ inGroups)
      as [group [first [rest [cons _]]]].
    assert (same : items = counted s).
    { rewrite group. apply filter_same. intro x. apply trend_key_same. }
    exists first, rest. split; [exact cons|]. split.
    - rewrite shape. apply in_flat_map. eexists. split; [exact inGroups|].
      cbn [fst snd]. rewrite cons. left. reflexivity.
    - unfold standsFor, rowOf.
      cbn [fst snd CompleteTrends.responseCount CompleteTrends.averageRating
           CompleteTrends.academicYearId CompleteTrends.academicYear
           CompleteTrends.subject CompleteTrends.semester].
      rewrite <- same, cons. cbn [hd].
      split; [reflexivity|]. split; [reflexivity|].
      split; [reflexivity|]. split; [reflexivity|].
      intro plain. unfold key.
      rewrite (@split_two _ _ plain (hasNoBar_ofInteger _)).
      cbn [nth]. rewrite parseInt_ofInteger. split; reflexivity. }
  split; [exact total|]. split; [|split].
  - rewrite total. symmetry. apply subjectRatings_total.
  - intros s inKept.
    pose proof (groupBy_group_of _ key s inKept) as inGroups.
    destruct (ofEntry _ _ s inGroups eq_refl)
      as [first [rest [_ [inRows stands]]]].
    eexists. split; [exact inRows | exact stands].
  - intros row inRows. rewrite shape in inRows.
    apply in_flat_map in inRows.
    destruct inRows as [[k items] [inGroups inRow]].
    destruct (groupBy_entry _ _ _ _ inGroups)
      as [_ [s [tail [cons [inKept keyIs]]]]].
    destruct (ofEntry k items s inGroups (eq_sym keyIs))
      as [first [rest [cons' [_ stands]]]].
    cbn [fst snd] in inRow. rewrite cons' in inRow, stands.
    destruct inRow as [<- | []].
    exists s. split; [exact inKept | exact stands].
Qed.

(** X20 at work on the records of two divisions, both for one subject in
    semester 3: one row counts the two. *)
Lemma complete_semester_trends_rows_witness :
  In Samples.rated4
    (CompleteAnalytics.filterByLectureType None
       [Samples.rated4; Samples.rated0])
  /\ hasNoBar (subjectName Samples.rated4) = true
  /\ exists row,
       In row
         (CompleteTrends.semesterTrends None [Samples.rated4; Samples.rated0])
       /\ CompleteTrends.responseCount row = 2%nat
       /\ CompleteTrends.averageRating row = ofZ 2
       /\ CompleteTrends.subject row = "Maths"
       /\ CompleteTrends.semester row = ofZ 3.
Proof.
  assert (kept :
            In Samples.rated4
              (CompleteAnalytics.filterByLectureType None
                 [Samples.rated4; Samples.rated0]))
    by (left; reflexivity).
  split; [exact kept|]. split; [reflexivity|].
  destruct (complete_semester_trends_rows None
              [Samples.rated4; Samples.rated0])
    as [_ [_ [counted _]]].
  destruct (counted Samples.rated4 kept)
    as [row [inRows [count [average [_ [_ shown]]]]]].
  exists row. split; [exact inRows|].
  split; [exact count|]. split; [|exact (shown eq_refl)].
  etransitivity; [exact average|]. vm_compute. reflexivity.
Defined.

(* ================================================================== *)
(** * Further properties: the endpoints over the response tables *)
(* ================================================================== *)

(** A loop that pushes a row for the items that pass a test. *)
Lemma fold_push {A B} (test : A -> bool) (rowOf : A -> B) (l : list A)
  (start : list B) :
  fold_left (fun rows x => if test x then rows ++ [rowOf x] else rows) l start
  = start ++ map rowOf (filter test l).
Proof.
  revert start. induction l as [|x l IH]; intro start; cbn [fold_left filter].
  - rewrite app_nil_r. reflexivity.
  - rewrite IH. destruct (test x); [|reflexivity].
    cbn [map]. rewrite <- app_assoc. reflexivity.
Qed.

Lemma length_filter_le {A} (p : A -> bool) (l : list A) :
  (List.length (filter p l) <= List.length l)%nat.
Proof.
  induction l as [|x l IH]; cbn [filter List.length]; [lia|].
  destruct (p x); cbn [List.length]; lia.
Qed.

(** A thrown error ends a loop. *)
Lemma fold_thrown {A B} (step : B -> A -> outcome B) (l : list A)
  (e : JSError) :
  fold_left (fun acc x => bind acc (fun b => step b x)) l (Throw e)
  = Throw e.
Proof. induction l as [|x l IH]; [reflexivity | exact IH]. Qed.

(** A loop whose body throws [e] on the items that are [bad], and on no
    other, throws [e] when an item is bad and runs to its end otherwise. *)
Lemma fold_throwing {A B} (step : B -> A -> outcome B) (bad : A -> bool)
  (next : B -> A -> B) (e : JSError) (l : list A) (start : B) :
  (forall b x,
      In x l -> step b x = if bad x then Throw e else Return (next b x)) ->
  fold_left (fun acc x => bind acc (fun b => step b x)) l (Return start)
  = if existsb bad l then Throw e else Return (fold_left next l start).
Proof.
  revert start. induction l as [|x l IH]; intros start body; [reflexivity|].
  cbn [fold_left bind existsb].
  rewrite (body start x (or_introl eq_refl)).
  destruct (bad x); cbn [orb].
  - apply fold_thrown.
  - apply IH. intros b y inRest. apply body. right. exact inRest.
Qed.

(** The same for [map]. *)
Lemma mapThrowing_cases {A B} (f : A -> outcome B) (bad : A -> bool)
  (g : A -> B) (e : JSError) (l : list A) :
  (forall x, In x l -> f x = if bad x then Throw e else Return (g x)) ->
  mapThrowing f l = if existsb bad l then Throw e else Return (map g l).
Proof.
  induction l as [|x l IH]; intro body; [reflexivity|].
  cbn [mapThrowing existsb map].
  rewrite (body x (or_introl eq_refl)).
  destruct (bad x); cbn [orb bind]; [reflexivity|].
  rewrite IH by (intros y inRest; apply body; right; exact inRest).
  destruct (existsb bad l); reflexivity.
Qed.

(** [String] throws on the values without a text, a [TypeError], and on
    no other. *)
Lemma toText_cases (numberToString : number -> string) (v : JSValue) :
  toText numberToString v
  = if hasNoText v then Throw TypeError
    else Return (textOfValue numberToString v).
Proof.
  unfold textOfValue. revert v. fix IH 1.
  intros [| |[|]|n|s|elems|members]; try reflexivity.
  - cbn [toText hasNoText].
    assert (each :
              mapThrowing
                (fun e =>
                   match e with
                   | JUndefined | JNull => Return EmptyString
                   | _ => toText numberToString e
                   end)
                elems
              = if existsb hasNoText elems then Throw TypeError
                else
                  Return
                    (map
                       (fun e =>
                          match e with
                          | JUndefined | JNull => EmptyString
                          | _ =>
                              match toText numberToString e with
                              | Return text => text
                              | Throw _ => EmptyString
                              end
                          end)
                       elems)).
    { induction elems as [|e elems IHelems]; [reflexivity|].
      cbn [mapThrowing existsb map]. rewrite IHelems.
      pose proof (IH e) as first.
      assert (one :
                match e with
                | JUndefined | JNull => Return EmptyString
                | _ => toText numberToString e
                end
                = if hasNoText e then Throw TypeError
                  else
                    Return
                      match e with
                      | JUndefined | JNull => EmptyString
                      | _ =>
                          match toText numberToString e with
                          | Return text => text
                          | Throw _ => EmptyString
                          end
                      end).
      { destruct e; try reflexivity; exact first. }
      rewrite one.
      destruct (hasNoText e); cbn [orb bind]; [reflexivity|].
      destruct (existsb hasNoText elems); reflexivity. }
    rewrite each.
    destruct (existsb hasNoText elems); reflexivity.
  - cbn [toText hasNoText].
    destruct (lookupLast "toString" members); reflexivity.
Qed.

(** [String({ toString: v })] throws, whatever the value [v] is. *)
Lemma toText_hidden_toString (numberToString : number -> string)
  (v : JSValue) :
  toText numberToString (JObject [("toString", v)]) = Throw TypeError.
Proof. reflexivity. Qed.

Lemma someWithoutText_found (responses : list StudentResponseRow) :
  someWithoutText responses = true
  <-> exists r,
        In r responses /\ hasNoText (response_responseValue r) = true.
Proof. unfold someWithoutText. apply existsb_exists. Qed.

Lemma someWithoutText_none (responses : list StudentResponseRow) :
  someWithoutText responses = false
  <-> forall r,
        In r responses -> hasNoText (response_responseValue r) = false.
Proof.
  unfold someWithoutText. rewrite <- not_true_iff_false, existsb_exists.
  split.
  - intros none r inList. apply not_true_iff_false. intro bad.
    apply none. exists r. auto.
  - intros all [r [inList bad]]. rewrite (all r inList) in bad.
    discriminate.
Qed.

(** The numeric responses are read when every response has a text. *)
Lemma numericValues_cases (numberToString : number -> string)
  (responses : list StudentResponseRow) :
  numericValues numberToString responses
  = if someWithoutText responses then Throw TypeError
    else Return (numbersOf numberToString responses).
Proof.
  unfold numericValues, numbersOf, someWithoutText.
  rewrite (mapThrowing_cases
             (fun r =>
                text <- toText numberToString (response_responseValue r) ;;
                Return (parseFloat text))
             (fun r => hasNoText (response_responseValue r))
             (fun r =>
                parseFloat
                  (textOfValue numberToString (response_responseValue r)))
             TypeError).
  - destruct (existsb _ responses); reflexivity.
  - intros r _. rewrite toText_cases.
    destruct (hasNoText (response_responseValue r)); reflexivity.
Qed.

(** X21.  [getHighImpactFeedbackAreas] fails with a [TypeError] when a
    response to a question of the semester holds a value that [String]
    throws on, an object with a member named [toString].  Otherwise it
    never returns an empty list: it throws its 404 error exactly when no
    question of the semester has five or more numeric responses below 3,
    and else returns one row for each question that has, in the order of
    the questions; the [lowRatingCount] of a row is the number of the
    question's numeric responses below 3, at least 5 and at most the
    number of its numeric responses, and its [averageRating] is the
    rounded mean of all numeric responses of the question, the high ones
    included. *)
Theorem getHighImpactFeedbackAreas_rows :
  forall (numberToString : number -> string) (prisma : ResponseTables.t)
         (semesterId : string),
    let questions := questionsOf prisma semesterId in
    let withoutText :=
      existsb (fun question => someWithoutText (responsesTo prisma question))
        questions in
    let numeric (question : FeedbackQuestionRow) :=
      numbersOf numberToString (responsesTo prisma question) in
    let significant (question : FeedbackQuestionRow) :=
      (5 <=? List.length (lowRated (numeric question)))%nat in
    let found := filter significant questions in
    match getHighImpactFeedbackAreas numberToString prisma semesterId with
    | Return rows =>
        withoutText = false
        /\ rows <> []
        /\ map hia_question rows = map question_text found
        /\ map hia_lowRatingCount rows
           = map (fun question => List.length (lowRated (numeric question)))
               found
        /\ map hia_averageRating rows
           = map (fun question => rounded (numeric question)) found
        /\ Forall
             (fun row => (5 <= hia_lowRatingCount row)%nat)
             rows
        /\ Forall
             (fun question =>
                (List.length (lowRated (numeric question))
                 <= List.length (numeric question))%nat)
             found
    | Throw error =>
        if withoutText then error = TypeError
        else
          found = []
          /\ error
             = AppErr {| message := "No significant low-rated areas found.";
                         statusCode := 404 |}
    end.
Proof.
  intros numberToString prisma semesterId questions withoutText numeric
    significant found.
  unfold getHighImpactFeedbackAreas. cbn zeta. fold questions.
  set (rowOf := fun question : FeedbackQuestionRow =>
         {| hia_question := question_text question;
            hia_category := orElse (question_categoryName question) "N/A";
            hia_faculty := orElse (question_facultyName question) "N/A";
            hia_subject := orElse (question_subjectName question) "N/A";
            hia_lowRatingCount := List.length (lowRated (numeric question));
            hia_averageRating := averageRatingOf (numeric question) |}).
  rewrite (fold_throwing
             (fun significantLowRatedQuestions question =>
                numericResponses <-
                  numericValues numberToString (responsesTo prisma question) ;;
                if (5 <=? List.length (lowRated numericResponses))%nat then
                  Return
                    (significantLowRatedQuestions
                     ++ [ {| hia_question := question_text question;
                             hia_category :=
                               orElse (question_categoryName question) "N/A";
                             hia_faculty :=
                               orElse (question_facultyName question) "N/A";
                             hia_subject :=
                               orElse (question_subjectName question) "N/A";
                             hia_lowRatingCount :=
                               List.length (lowRated numericResponses);
                             hia_averageRating :=
                               averageRatingOf numericResponses |} ])
                else Return significantLowRatedQuestions)
             (fun question => someWithoutText (responsesTo prisma question))
             (fun rows question =>
                if significant question then rows ++ [rowOf question]
                else rows)
             TypeError).
  2:{ intros rows question _. rewrite numericValues_cases.
      destruct (someWithoutText (responsesTo prisma question));
        [reflexivity|].
      cbn [bind]. fold (numeric question). fold (significant question).
      destruct (significant question); reflexivity. }
  fold withoutText.
  destruct withoutText; [reflexivity|]. cbn [bind].
  rewrite (fold_push significant rowOf). cbn [app]. fold found.
  assert (passes : forall q, In q found ->
                             (5 <= List.length (lowRated (numeric q)))%nat).
  { intros q inFound. apply filter_In in inFound.
    apply Nat.leb_le. tauto. }
  assert (atMost : forall q,
             (List.length (lowRated (numeric q))
              <= List.length (numeric q))%nat).
  { intro q. apply (length_filter_le (fun val => lt val (ofZ 3))). }
  assert (averages :
            map hia_averageRating (map rowOf found)
            = map (fun question => rounded (numeric question)) found).
  { rewrite map_map. apply map_ext_in. intros q inFound.
    cbn [rowOf hia_averageRating]. unfold averageRatingOf.
    destruct (0 <? List.length (numeric q))%nat eqn:some; [reflexivity|].
    apply Nat.ltb_ge in some.
    pose proof (passes q inFound). pose proof (atMost q). lia. }
  assert (counts :
            Forall (fun row => (5 <= hia_lowRatingCount row)%nat)
              (map rowOf found)).
  { apply Forall_forall. intros row inRows. apply in_map_iff in inRows.
    destruct inRows as [q [<- inFound]]. exact (passes q inFound). }
  assert (names : map hia_question (map rowOf found)
                  = map question_text found)
    by (rewrite map_map; reflexivity).
  assert (lows :
            map hia_lowRatingCount (map rowOf found)
            = map (fun question => List.length (lowRated (numeric question)))
                found)
    by (rewrite map_map; reflexivity).
  destruct (map rowOf found) as [|row rows] eqn:shape.
  - destruct found as [|q others]; [|discriminate shape].
    cbn. split; reflexivity.
  - cbn [List.length Nat.eqb].
    split; [reflexivity|].
    split; [discriminate|].
    split; [exact names|]. split; [exact lows|].
    split; [exact averages|]. split; [exact counts|].
    apply Forall_forall. intros q _. apply atMost.
Qed.

Lemma In_of_get {V} (k : string) (v : V) (m : JSMap.Map string V) :
  JSMap.get String.eqb k m = Some v -> In (k, v) m.
Proof.
  induction m as [|[k0 v0] rest IH]; cbn [JSMap.get]; [discriminate|].
  destruct (String.eqb k k0) eqn:same.
  - apply String.eqb_eq in same. intro got. left. congruence.
  - intro got. right. apply IH, got.
Qed.

Lemma existsb_same {A B} (p : A -> bool) (q : B -> bool) (l : list A)
  (l' : list B) :
  (existsb p l = true <-> existsb q l' = true) ->
  existsb p l = existsb q l'.
Proof.
  destruct (existsb p l), (existsb q l'); intros [there back];
    try reflexivity.
  - symmetry. apply there. reflexivity.
  - apply back. reflexivity.
Qed.

Lemma modify_twice {K V} (eqb : K -> K -> bool) (k : K) (f g : V -> V)
  (m : JSMap.Map K V) :
  JSMap.modify eqb k g (JSMap.modify eqb k f m)
  = JSMap.modify eqb k (fun v => g (f v)) m.
Proof.
  induction m as [|[k0 v0] rest IH]; cbn [JSMap.modify]; [reflexivity|].
  destruct (eqb k k0) eqn:same; cbn [JSMap.modify]; rewrite same;
    [reflexivity|].
  rewrite IH. reflexivity.
Qed.

Lemma list_sum_ones {A} (l : list A) :
  (0 + list_sum (map (fun _ => 1%nat) l))%nat = List.length l.
Proof.
  induction l as [|x l IH]; simpl in *; [reflexivity|].
  rewrite IH. reflexivity.
Qed.

(** What an entry of [lectureTypeData] has taken after the forms of its
    lecture type. *)
Lemma lectureTypeData_taken (responsesOn : FeedbackFormRow ->
                                            list StudentResponseRow)
  (group : list FeedbackFormRow) (start : LectureTypeData) :
  fold_left
    (fun data form =>
       {| ltd_responses := ltd_responses data ++ responsesOn form;
          ltd_forms := ltd_forms data ++ [form] |})
    group start
  = {| ltd_responses := ltd_responses start ++ flat_map responsesOn group;
       ltd_forms := ltd_forms start ++ group |}.
Proof.
  revert start. induction group as [|form group IH]; intro start.
  - destruct start. cbn. rewrite !app_nil_r. reflexivity.
  - cbn [fold_left flat_map]. rewrite IH.
    cbn [ltd_responses ltd_forms]. rewrite <- !app_assoc. reflexivity.
Qed.

(** X22.  [getLabLectureComparison] throws its 404 error exactly when the
    semester has no form, and fails with a [TypeError] when a response on
    a form of the semester that is not deleted holds a value that [String]
    throws on, an object with a member named [toString].  Otherwise it
    returns one row per lecture type that a form of the semester has, in
    the order in which the types first occur: [formCount] is the number of
    the forms of that type and [responseCount] the number of their
    responses that are not deleted, numeric or not, the [averageRating]
    being the rounded mean of the numeric ones.  So the form counts add up
    to the number of forms and the response counts to the number of
    responses of the forms. *)
Theorem getLabLectureComparison_rows :
  forall (numberToString : number -> string) (prisma : ResponseTables.t)
         (semesterId : string),
    let forms := formsOf prisma semesterId in
    let typeOf (form : FeedbackFormRow) :=
      match allocationOf prisma (form_subjectAllocationId form) with
      | Some allocation => LectureType_name (allocation_lectureType allocation)
      | None => "LECTURE"
      end in
    let withoutText :=
      existsb (fun form => someWithoutText (responsesOn prisma form)) forms in
    match getLabLectureComparison numberToString prisma semesterId with
    | Throw error =>
        match forms with
        | [] =>
            error
            = AppErr
                {| message :=
                     "No comparison data available for the given semester.";
                   statusCode := 404 |}
        | _ => withoutText = true /\ error = TypeError
        end
    | Return rows =>
        forms <> []
        /\ withoutText = false
        /\ map llc_lectureType rows = JSSet.ofList (map typeOf forms)
        /\ list_sum (map llc_formCount rows) = List.length forms
        /\ list_sum (map llc_responseCount rows)
           = list_sum
               (map (fun form => List.length (responsesOn prisma form)) forms)
        /\ (forall row,
               In row rows ->
               let own :=
                 filter
                   (fun form => String.eqb (typeOf form) (llc_lectureType row))
                   forms in
               own <> []
               /\ llc_formCount row = List.length own
               /\ llc_responseCount row
                  = List.length (flat_map (responsesOn prisma) own)
               /\ llc_averageRating row
                  = averageRatingOf
                      (numbersOf numberToString
                         (flat_map (responsesOn prisma) own)))
    end.
Proof.
  intros numberToString prisma semesterId forms typeOf withoutText.
  unfold getLabLectureComparison. fold forms.
  destruct (List.length forms =? 0)%nat eqn:none.
  { apply length_zero_iff in none. rewrite none. reflexivity. }
  assert (some : forms <> []).
  { intro empty. rewrite empty in none. discriminate. }
  clear none.
  set (init := fun _ : FeedbackFormRow =>
         {| ltd_responses := []; ltd_forms := [] |}).
  set (step := fun (form : FeedbackFormRow) (data : LectureTypeData) =>
         {| ltd_responses := ltd_responses data ++ responsesOn prisma form;
            ltd_forms := ltd_forms data ++ [form] |}).
  assert (loop :
            forall (l : list FeedbackFormRow) start,
              fold_left
                (fun lectureTypeData form =>
                   let lectureType :=
                     match allocationOf prisma (form_subjectAllocationId form)
                     with
                     | Some allocation =>
                         LectureType_name (allocation_lectureType allocation)
                     | None => "LECTURE"
                     end in
                   let lectureTypeData :=
                     if negb (JSMap.has String.eqb lectureType lectureTypeData)
                     then JSMap.set String.eqb lectureType
                            {| ltd_responses := []; ltd_forms := [] |}
                            lectureTypeData
                     else lectureTypeData in
                   let lectureTypeData :=
                     JSMap.modify String.eqb lectureType
                       (fun data =>
                          {| ltd_responses := ltd_responses data;
                             ltd_forms := ltd_forms data ++ [form] |})
                       lectureTypeData in
                   JSMap.modify String.eqb lectureType
                     (fun data =>
                        {| ltd_responses :=
                             ltd_responses data ++ responsesOn prisma form;
                           ltd_forms := ltd_forms data |})
                     lectureTypeData)
                l start
              = fold_left
                  (fun m form =>
                     JSMap.ensureThen String.eqb (typeOf form) (init form)
                       (step form) m)
                  l start).
  { induction l as [|form l IH]; intro start; [reflexivity|].
    cbn [fold_left]. rewrite IH. f_equal. cbn zeta.
    rewrite modify_twice. reflexivity. }
  rewrite loop. clear loop.
  set (lectureTypeData :=
         fold_left
           (fun m form =>
              JSMap.ensureThen String.eqb (typeOf form) (init form)
                (step form) m)
           forms []).
  assert (entry :
            forall k data,
              In (k, data) lectureTypeData ->
              let own :=
                filter (fun form => String.eqb (typeOf form) k) forms in
              own <> []
              /\ data = {| ltd_responses := flat_map (responsesOn prisma) own;
                           ltd_forms := own |}).
  { intros k data inMap own.
    apply (get_of_In _ String.eqb_eq) in inMap;
      [|apply (ensureLoop_NoDup _ String.eqb_eq); constructor].
    unfold lectureTypeData in inMap.
    rewrite (get_ensureLoop _ String.eqb_eq) in inMap.
    cbn [JSMap.get] in inMap. fold own in inMap.
    destruct own as [|first rest]; [discriminate|].
    split; [discriminate|].
    unfold step in inMap. rewrite lectureTypeData_taken in inMap.
    cbn [init ltd_responses ltd_forms app] in inMap. congruence. }
  assert (present :
            forall form,
              In form forms ->
              exists data, In (typeOf form, data) lectureTypeData).
  { intros form inForms.
    destruct (JSMap.get String.eqb (typeOf form) lectureTypeData)
      as [data|] eqn:got.
    - exists data. apply In_of_get, got.
    - exfalso. unfold lectureTypeData in got.
      rewrite (get_ensureLoop _ String.eqb_eq) in got.
      cbn [JSMap.get] in got.
      assert (inOwn :
                In form
                  (filter (fun f => String.eqb (typeOf f) (typeOf form))
                     forms)).
      { apply filter_In. split; [exact inForms | apply String.eqb_refl]. }
      destruct (filter _ forms); [contradiction | discriminate]. }
  assert (texts :
            existsb
              (fun entry : string * LectureTypeData =>
                 someWithoutText (ltd_responses (snd entry)))
              lectureTypeData
            = withoutText).
  { apply existsb_same. unfold withoutText.
    rewrite !existsb_exists. split.
    - intros [[k data] [inMap bad]]. cbn [snd] in bad.
      destruct (entry k data inMap) as [_ ->]. cbn [ltd_responses] in bad.
      apply someWithoutText_found in bad.
      destruct bad as [r [inAll bad]]. apply in_flat_map in inAll.
      destruct inAll as [form [inOwn inForm]].
      apply filter_In in inOwn. exists form. split; [tauto|].
      apply someWithoutText_found. exists r. auto.
    - intros [form [inForms bad]].
      destruct (present form inForms) as [data inMap].
      exists (typeOf form, data). split; [exact inMap|]. cbn [snd].
      destruct (entry _ data inMap) as [_ ->]. cbn [ltd_responses].
      apply someWithoutText_found in bad. destruct bad as [r [inForm bad]].
      apply someWithoutText_found. exists r. split; [|exact bad].
      apply in_flat_map. exists form. split; [|exact inForm].
      apply filter_In. split; [exact inForms | apply String.eqb_refl]. }
  unfold JSMap.entries.
  rewrite (mapThrowing_cases
             (fun entry : string * LectureTypeData =>
                numericResponses <-
                  numericValues numberToString (ltd_responses (snd entry)) ;;
                Return
                  {| llc_lectureType := fst entry;
                     llc_averageRating := averageRatingOf numericResponses;
                     llc_responseCount :=
                       List.length (ltd_responses (snd entry));
                     llc_formCount := List.length (ltd_forms (snd entry)) |})
             (fun entry => someWithoutText (ltd_responses (snd entry)))
             (fun entry =>
                {| llc_lectureType := fst entry;
                   llc_averageRating :=
                     averageRatingOf
                       (numbersOf numberToString (ltd_responses (snd entry)));
                   llc_responseCount :=
                     List.length (ltd_responses (snd entry));
                   llc_formCount := List.length (ltd_forms (snd entry)) |})
             TypeError).
  2:{ intros entry' _. rewrite numericValues_cases.
      destruct (someWithoutText (ltd_responses (snd entry')));
        reflexivity. }
  rewrite texts.
  destruct withoutText.
  { destruct forms; [contradiction | split; reflexivity]. }
  split; [exact some|]. split; [reflexivity|]. split; [|split; [|split]].
  - rewrite map_map. cbn [llc_lectureType].
    unfold lectureTypeData. rewrite keys_ensureLoop. reflexivity.
  - rewrite map_map. cbn [llc_formCount].
    rewrite <- (map_map snd (fun data => List.length (ltd_forms data))).
    fold (JSMap.values lectureTypeData). unfold lectureTypeData.
    rewrite (total_ensureLoop _ String.eqb_eq typeOf init step
               (fun data => List.length (ltd_forms data))
               (fun _ => 1%nat)).
    + apply list_sum_ones.
    + reflexivity.
    + intros form data. cbn [step ltd_forms]. rewrite length_app.
      reflexivity.
  - rewrite map_map. cbn [llc_responseCount].
    rewrite <- (map_map snd (fun data => List.length (ltd_responses data))).
    fold (JSMap.values lectureTypeData). unfold lectureTypeData.
    rewrite (total_ensureLoop _ String.eqb_eq typeOf init step
               (fun data => List.length (ltd_responses data))
               (fun form => List.length (responsesOn prisma form))).
    + reflexivity.
    + reflexivity.
    + intros form data. cbn [step ltd_responses]. apply length_app.
  - intros row inRows. apply in_map_iff in inRows.
    destruct inRows as [[k data] [<- inMap]].
    cbn [fst snd llc_lectureType llc_formCount llc_responseCount
         llc_averageRating].
    destruct (entry k data inMap) as [nonEmpty ->].
    cbn [ltd_responses ltd_forms]. cbn zeta.
    split; [exact nonEmpty|]. repeat split; reflexivity.
Qed.

(** The entries of a plain object are what it owns, array indices first. *)
Lemma filter_partition {A} (p : A -> bool) (l : list A) :
  Permutation (filter p l ++ filter (fun x => negb (p x)) l) l.
Proof.
  induction l as [|x l IH]; [constructor|].
  cbn [filter]. destruct (p x); cbn [negb app].
  - apply perm_skip, IH.
  - apply Permutation_sym, Permutation_cons_app, Permutation_sym, IH.
Qed.

Lemma entries_perm {V} (o : JSObject.t V) :
  Permutation (JSObject.entries o) o.
Proof.
  unfold JSObject.entries.
  etransitivity; [|apply (filter_partition
                            (fun e => JSObject.isArrayIndex (fst e)))].
  apply Permutation_app_tail, sort_perm.
Qed.

(** [batchGroups] holds the groups of [groupBy] when no batch has the name
    of a member of [Object.prototype], and is never made otherwise. *)
Lemma batchGroupsOf_groups (l : list StudentResponseRow) :
  (forall r, In r l -> JSObject.inherited (batchOf r) = false) ->
  batchGroupsOf l = Return (groupBy l batchOf).
Proof.
  unfold batchGroupsOf, groupBy. generalize (@nil (string * list StudentResponseRow)).
  induction l as [|r l IH]; intros start plain; [reflexivity|].
  cbn [fold_left bind]. unfold JSObject.push at 2.
  rewrite (plain r (or_introl eq_refl)).
  apply IH. intros r' inRest. apply plain. right. exact inRest.
Qed.

Lemma batchGroupsOf_thrown (l : list StudentResponseRow) :
  (exists r, In r l /\ JSObject.inherited (batchOf r) = true) ->
  batchGroupsOf l = Throw TypeError.
Proof.
  unfold batchGroupsOf. generalize (@nil (string * list StudentResponseRow)).
  induction l as [|r l IH]; intros start [bad [inList named]];
    [contradiction|].
  cbn [fold_left bind]. unfold JSObject.push at 2.
  destruct (JSObject.inherited (batchOf r)) eqn:first.
  - apply (fold_thrown
             (fun batchGroups response =>
                JSObject.push (batchOf response) response batchGroups)).
  - apply IH. destruct inList as [<- | inRest]; [congruence|].
    exists bad. auto.
Qed.

Lemma fold_append {A B} (g : A -> list B) (l : list A) (start : list B) :
  fold_left (fun rows x => rows ++ g x) l start = start ++ flat_map g l.
Proof.
  revert start. induction l as [|x l IH]; intro start; cbn [fold_left flat_map].
  - rewrite app_nil_r. reflexivity.
  - rewrite IH, app_assoc. reflexivity.
Qed.

Section DivisionBatchLoop.
Variable numberToString : number -> string.
Variable prisma : ResponseTables.t.

(** The rows one form adds to [comparisonData]. *)
Let rowsOfForm (form : FeedbackFormRow) : list DivisionBatchComparisonOutput :=
  match divisionOf prisma (form_divisionId form) with
  | None => []
  | Some division =>
      map
        (fun entry =>
           {| dbc_division := entity_name division;
              dbc_batch := fst entry;
              dbc_averageRating :=
                averageRatingOf (numbersOf numberToString (snd entry));
              dbc_responseCount := List.length (snd entry) |})
        (JSObject.entries (groupBy (activeResponsesOn prisma form) batchOf))
  end.

(** The form ends the loop: it has a division, and an active response on
    it has a batch with an inherited name or a value without a text. *)
Let failing (form : FeedbackFormRow) : bool :=
  match divisionOf prisma (form_divisionId form) with
  | None => false
  | Some _ =>
      existsb (fun r => JSObject.inherited (batchOf r))
        (activeResponsesOn prisma form)
      || someWithoutText (activeResponsesOn prisma form)
  end.

(** The body of the loop over the forms. *)
Let formStep (comparisonData : list DivisionBatchComparisonOutput)
  (form : FeedbackFormRow) : outcome (list DivisionBatchComparisonOutput) :=
  match divisionOf prisma (form_divisionId form) with
  | None => Return comparisonData
  | Some division =>
      batchGroups <- batchGroupsOf (activeResponsesOn prisma form) ;;
      pushed <-
        mapThrowing
          (fun entry =>
             numericBatchResponses <-
               numericValues numberToString (snd entry) ;;
             Return
               {| dbc_division := entity_name division;
                  dbc_batch := fst entry;
                  dbc_averageRating := averageRatingOf numericBatchResponses;
                  dbc_responseCount := List.length (snd entry) |})
          (JSObject.entries batchGroups) ;;
      Return (comparisonData ++ pushed)
  end.

(** A group has a value without a text when an active response has. *)
Lemma groups_withoutText (active : list StudentResponseRow) :
  existsb
    (fun entry : string * list StudentResponseRow =>
       someWithoutText (snd entry))
    (JSObject.entries (groupBy active batchOf))
  = someWithoutText active.
Proof.
  apply existsb_same. fold (someWithoutText active).
  rewrite existsb_exists, someWithoutText_found. split.
  - intros [[batch items] [inEntries bad]]. cbn [snd] in bad.
    apply (Permutation_in _ (entries_perm _)) in inEntries.
    destruct (groupBy_entry _ _ _ _ inEntries) as [group _].
    apply someWithoutText_found in bad. destruct bad as [r [inItems bad]].
    rewrite group in inItems. apply filter_In in inItems.
    exists r. tauto.
  - intros [r [inActive bad]].
    exists (batchOf r,
            filter (fun x => String.eqb (batchOf x) (batchOf r)) active).
    split.
    + apply (Permutation_in _ (Permutation_sym (entries_perm _))).
      apply groupBy_group_of, inActive.
    + cbn [snd]. apply someWithoutText_found. exists r.
      split; [|exact bad].
      apply filter_In. split; [exact inActive | apply String.eqb_refl].
Qed.

Lemma formStep_cases (comparisonData : list DivisionBatchComparisonOutput)
  (form : FeedbackFormRow) :
  formStep comparisonData form
  = if failing form then Throw TypeError
    else Return (comparisonData ++ rowsOfForm form).
Proof.
  unfold formStep, failing, rowsOfForm.
  destruct (divisionOf prisma (form_divisionId form)) as [division|];
    [|rewrite app_nil_r; reflexivity].
  destruct (existsb (fun r => JSObject.inherited (batchOf r))
              (activeResponsesOn prisma form)) eqn:named; cbn [orb].
  - apply existsb_exists in named.
    rewrite (batchGroupsOf_thrown (activeResponsesOn prisma form) named).
    reflexivity.
  - rewrite (batchGroupsOf_groups (activeResponsesOn prisma form)).
    2:{ intros r inActive. apply not_true_iff_false. intro bad.
        apply not_true_iff_false in named. apply named.
        apply existsb_exists. exists r. auto. }
    cbn [bind].
    rewrite (mapThrowing_cases
               (fun entry : string * list StudentResponseRow =>
                  numericBatchResponses <-
                    numericValues numberToString (snd entry) ;;
                  Return
                    {| dbc_division := entity_name division;
                       dbc_batch := fst entry;
                       dbc_averageRating :=
                         averageRatingOf numericBatchResponses;
                       dbc_responseCount := List.length (snd entry) |})
               (fun entry => someWithoutText (snd entry))
               (fun entry =>
                  {| dbc_division := entity_name division;
                     dbc_batch := fst entry;
                     dbc_averageRating :=
                       averageRatingOf (numbersOf numberToString (snd entry));
                     dbc_responseCount := List.length (snd entry) |})
               TypeError).
    2:{ intros entry _. rewrite numericValues_cases.
        destruct (someWithoutText (snd entry)); reflexivity. }
    rewrite groups_withoutText.
    destruct (someWithoutText (activeResponsesOn prisma form)); reflexivity.
Qed.

Lemma formLoop_cases (forms : list FeedbackFormRow) :
  fold_left
    (fun data form =>
       comparisonData <- data ;; formStep comparisonData form)
    forms (Return [])
  = if existsb failing forms then Throw TypeError
    else Return (flat_map rowsOfForm forms).
Proof.
  rewrite (fold_throwing formStep failing
             (fun rows form => rows ++ rowsOfForm form) TypeError).
  - rewrite fold_append. reflexivity.
  - intros rows form _. apply formStep_cases.
Qed.

(** The rows of a form count its active responses, batch by batch. *)
Lemma rowsOfForm_counts (form : FeedbackFormRow) :
  divisionOf prisma (form_divisionId form) <> None ->
  list_sum (map dbc_responseCount (rowsOfForm form))
  = List.length (activeResponsesOn prisma form)
  /\ List.length (rowsOfForm form)
     = distinctCount (map batchOf (activeResponsesOn prisma form)).
Proof.
  unfold rowsOfForm.
  destruct (divisionOf prisma (form_divisionId form)) as [division|];
    [intros _ | contradiction].
  split.
  - rewrite map_map. cbn [dbc_responseCount].
    rewrite (list_sum_perm
               (Permutation_map (fun entry => List.length (snd entry))
                  (entries_perm
                     (groupBy (activeResponsesOn prisma form) batchOf)))).
    apply groupBy_sizes.
  - rewrite length_map.
    rewrite (Permutation_length
               (entries_perm
                  (groupBy (activeResponsesOn prisma form) batchOf))).
    rewrite <- size_ofList, <- groupBy_keys.
    unfold JSSet.size. symmetry. apply length_map.
Qed.

Lemma rowsOfForm_row (form : FeedbackFormRow)
  (row : DivisionBatchComparisonOutput) :
  In row (rowsOfForm form) ->
  exists division,
    divisionOf prisma (form_divisionId form) = Some division
    /\ dbc_division row = entity_name division
    /\ In (dbc_batch row) (map batchOf (activeResponsesOn prisma form))
    /\ dbc_responseCount row
       = List.length
           (filter (fun r => String.eqb (batchOf r) (dbc_batch row))
              (activeResponsesOn prisma form))
    /\ dbc_averageRating row
       = averageRatingOf
           (numbersOf numberToString
              (filter (fun r => String.eqb (batchOf r) (dbc_batch row))
                 (activeResponsesOn prisma form))).
Proof.
  unfold rowsOfForm.
  destruct (divisionOf prisma (form_divisionId form)) as [division|];
    [|contradiction].
  intro inRows. apply in_map_iff in inRows.
  destruct inRows as [[batch items] [<- inEntries]].
  apply (Permutation_in _ (entries_perm _)) in inEntries.
  destruct (groupBy_entry _ _ _ _ inEntries)
    as [group [first [rest [cons [inActive keyIs]]]]].
  exists division. split; [reflexivity|].
  cbn [fst snd dbc_division dbc_batch dbc_responseCount dbc_averageRating].
  split; [reflexivity|]. split.
  - apply in_map_iff. exists first. auto.
  - rewrite group. split; reflexivity.
Qed.

End DivisionBatchLoop.

(** X23.  [getDivisionBatchComparisons] throws its 404 error exactly when
    the semester has no form of a division that is not deleted.  It fails
    with a [TypeError] when an active response on such a form comes from a
    batch with the name of a member of [Object.prototype], or holds a
    value that [String] throws on, an object with a member named
    [toString].  Otherwise it returns rows form by form, not division by
    division: a form gives one row for each batch of its active responses,
    a student without a batch counting for ['Unknown'], so the number of
    rows is the sum over the forms of their numbers of batches, and two
    forms of one division give rows of their own.  The [responseCount] of
    a row is the number of the active responses of the form from the
    batch, numeric or not, and its [averageRating] the rounded mean of
    those that are numeric; the response counts add up to the number of
    active responses of the forms. *)
Theorem getDivisionBatchComparisons_rows :
  forall (numberToString : number -> string) (prisma : ResponseTables.t)
         (semesterId : string),
    let forms := formsOfDivisions prisma semesterId in
    let batches (form : FeedbackFormRow) :=
      map batchOf (activeResponsesOn prisma form) in
    let failing (form : FeedbackFormRow) :=
      existsb (fun r => JSObject.inherited (batchOf r))
        (activeResponsesOn prisma form)
      || someWithoutText (activeResponsesOn prisma form) in
    match getDivisionBatchComparisons numberToString prisma semesterId with
    | Throw error =>
        match forms with
        | [] =>
            error
            = AppErr
                {| message :=
                     "No comparison data available for the given semester.";
                   statusCode := 404 |}
        | _ => existsb failing forms = true /\ error = TypeError
        end
    | Return rows =>
        forms <> []
        /\ existsb failing forms = false
        /\ list_sum (map dbc_responseCount rows)
           = list_sum
               (map (fun form => List.length (activeResponsesOn prisma form))
                  forms)
        /\ List.length rows
           = list_sum (map (fun form => distinctCount (batches form)) forms)
        /\ (forall row,
               In row rows ->
               exists form division,
                 In form forms
                 /\ divisionOf prisma (form_divisionId form) = Some division
                 /\ dbc_division row = entity_name division
                 /\ In (dbc_batch row) (batches form)
                 /\ dbc_responseCount row
                    = List.length
                        (filter
                           (fun r => String.eqb (batchOf r) (dbc_batch row))
                           (activeResponsesOn prisma form))
                 /\ dbc_averageRating row
                    = averageRatingOf
                        (numbersOf numberToString
                           (filter
                              (fun r =>
                                 String.eqb (batchOf r) (dbc_batch row))
                              (activeResponsesOn prisma form))))
    end.
Proof.
  intros numberToString prisma semesterId forms batches failing.
  unfold getDivisionBatchComparisons. fold forms.
  destruct (List.length forms =? 0)%nat eqn:none.
  { apply length_zero_iff in none. rewrite none. reflexivity. }
  assert (some : forms <> []).
  { intro empty. rewrite empty in none. discriminate. }
  clear none.
  assert (divided :
            forall form, In form forms ->
                         divisionOf prisma (form_divisionId form) <> None).
  { intros form inForms. apply filter_In in inForms.
    destruct inForms as [_ kept].
    destruct (divisionOf prisma (form_divisionId form)); [discriminate|].
    rewrite andb_false_r in kept. discriminate. }
  pose proof (formLoop_cases numberToString prisma forms) as loop.
  cbv zeta in loop. rewrite loop. clear loop.
  assert (same :
            existsb
              (fun form =>
                 match divisionOf prisma (form_divisionId form) with
                 | Some _ =>
                     existsb (fun r => JSObject.inherited (batchOf r))
                       (activeResponsesOn prisma form)
                     || someWithoutText (activeResponsesOn prisma form)
                 | None => false
                 end)
              forms
            = existsb failing forms).
  { generalize forms divided. clear. intros l divided.
    induction l as [|form l IH]; [reflexivity|].
    cbn [existsb].
    rewrite IH by (intros f inRest; apply divided; right; exact inRest).
    pose proof (divided form (or_introl eq_refl)) as has.
    destruct (divisionOf prisma (form_divisionId form));
      [reflexivity | contradiction]. }
  rewrite same. clear same.
  destruct (existsb failing forms).
  { destruct forms; [contradiction | split; reflexivity]. }
  split; [exact some|]. split; [reflexivity|]. split; [|split].
  - generalize forms divided. clear. intros l divided.
    induction l as [|form l IH]; [reflexivity|].
    cbn [flat_map map]. rewrite map_app, list_sum_app.
    change (list_sum (?x :: ?r)) with (x + list_sum r)%nat.
    rewrite IH by (intros f inRest; apply divided; right; exact inRest).
    destruct (rowsOfForm_counts numberToString prisma form
                (divided form (or_introl eq_refl))) as [counted _].
    rewrite counted. reflexivity.
  - generalize forms divided. clear. intros l divided.
    induction l as [|form l IH]; [reflexivity|].
    cbn [flat_map map]. rewrite length_app.
    change (list_sum (?x :: ?r)) with (x + list_sum r)%nat.
    rewrite IH by (intros f inRest; apply divided; right; exact inRest).
    destruct (rowsOfForm_counts numberToString prisma form
                (divided form (or_introl eq_refl))) as [_ batched].
    rewrite batched. reflexivity.
  - intros row inRows. apply in_flat_map in inRows.
    destruct inRows as [form [inForms inRow]].
    destruct (rowsOfForm_row numberToString prisma form row inRow)
      as [division facts].
    exists form, division. split; [exact inForms | exact facts].
Qed.
